(** * Flight manager: the data-modification layer

    A shallow embedding of the Python sources [config.py], [models.py],
    [database.py], [utils.py], [queries.py] and [queries_add.py].

    Modelling choices, fixed once for the whole development:
    - a Python [str] is a [string]; the builtin string methods are given on
      ASCII text (code points below 128), which is what the seed data and the
      prompts of the command line use;
    - a raised exception is the left injection of a sum, and the statements
      inside [with get_connection()] run in a state-and-exception monad that
      keeps the state when an exception is raised, like Python does;
    - the SQLite file is a record of tables, each a list of rows in rowid
      order; a connection works on a copy that [commit] writes back;
    - an INTEGER column is a [Z], a REAL column a [Q];
    - storage faults (unreadable file, full disk, rowid exhaustion, integers
      that do not fit 64 bits) are outside the model. *)

From Stdlib Require Import String Ascii List ZArith QArith Bool Lia.
From Stdlib Require Import DecimalString.
Import ListNotations.
Local Open Scope string_scope.
Local Open Scope Z_scope.

Set Implicit Arguments.

(** ** Python builtins used by the program *)

Module Py.

Definition code (c : ascii) : N := N_of_ascii c.

Definition between (lo hi : N) (c : ascii) : bool :=
  ((lo <=? code c) && (code c <=? hi))%N.

Definition isdigit_char (c : ascii) : bool := between 48 57 c.
Definition isupper_char (c : ascii) : bool := between 65 90 c.
Definition islower_char (c : ascii) : bool := between 97 122 c.
Definition isalpha_char (c : ascii) : bool := isupper_char c || islower_char c.

(** [str.isspace] on ASCII: TAB, LF, VT, FF, CR, the four separators
    FS, GS, RS, US and the space. *)
Definition isspace_char (c : ascii) : bool := between 9 13 c || between 28 32 c.

Definition upper_char (c : ascii) : ascii :=
  if islower_char c then ascii_of_N (code c - 32) else c.
Definition lower_char (c : ascii) : ascii :=
  if isupper_char c then ascii_of_N (code c + 32) else c.

Fixpoint upper (s : string) : string :=
  match s with
  | EmptyString => EmptyString
  | String c r => String (upper_char c) (upper r)
  end.

Fixpoint lower (s : string) : string :=
  match s with
  | EmptyString => EmptyString
  | String c r => String (lower_char c) (lower r)
  end.

Fixpoint lstrip (s : string) : string :=
  match s with
  | EmptyString => EmptyString
  | String c r => if isspace_char c then lstrip r else s
  end.

Fixpoint rstrip (s : string) : string :=
  match s with
  | EmptyString => EmptyString
  | String c r =>
      match rstrip r with
      | EmptyString => if isspace_char c then EmptyString else String c EmptyString
      | r' => String c r'
      end
  end.

Definition strip (s : string) : string := rstrip (lstrip s).

Fixpoint all_chars (p : ascii -> bool) (s : string) : bool :=
  match s with
  | EmptyString => true
  | String c r => p c && all_chars p r
  end.

(** [str.isalpha]: false on the empty string. *)
Definition isalpha (s : string) : bool :=
  match s with
  | EmptyString => false
  | _ => all_chars isalpha_char s
  end.

Definition capitalize (s : string) : string :=
  match s with
  | EmptyString => EmptyString
  | String c r => String (upper_char c) (lower r)
  end.

Fixpoint title_from (after_letter : bool) (s : string) : string :=
  match s with
  | EmptyString => EmptyString
  | String c r =>
      String (if after_letter then lower_char c else upper_char c)
             (title_from (isalpha_char c) r)
  end.

Definition title (s : string) : string := title_from false s.

(** [len] as an integer. *)
Definition len (s : string) : Z := Z.of_nat (String.length s).

(** [a < b] on [str]: lexicographic on code points. *)
Fixpoint str_ltb (a b : string) : bool :=
  match a, b with
  | _, EmptyString => false
  | EmptyString, String _ _ => true
  | String x a', String y b' =>
      if (code x <? code y)%N then true
      else if (code x =? code y)%N then str_ltb a' b'
      else false
  end.

(** [a >= b] on [str]. *)
Definition str_geb (a b : string) : bool := negb (str_ltb a b).

(** [str(n)] for an [int]. *)
Definition str_of_int (n : Z) : string := NilZero.string_of_int (Z.to_int n).

Definition digit_value (c : ascii) : Z := Z.of_N (code c) - 48.

Fixpoint int_of_digits (acc : Z) (s : string) : Z :=
  match s with
  | EmptyString => acc
  | String c r => int_of_digits (10 * acc + digit_value c) r
  end.

(** [int(s)] on the texts the date patterns capture: optional blanks
    around a run of digits. *)
Definition int (s : string) : Z := int_of_digits 0 (strip s).

(** [int(x)] for a number: truncation towards zero. *)
Definition int_of_number (x : Q) : Z := Z.quot (Qnum x) (Z.pos (Qden x)).

Fixpoint join (sep : string) (l : list string) : string :=
  match l with
  | [] => EmptyString
  | [x] => x
  | x :: r => x ++ sep ++ join sep r
  end.

Definition in_list (s : string) (l : list string) : bool :=
  existsb (String.eqb s) l.

(** [str.isascii]: every code point is below 128.  The builtins above are
    Python's on such text; on other text Python's know more letters, digits
    and blanks than these do. *)
Definition isascii_char (c : ascii) : bool := (code c <? 128)%N.
Definition isascii (s : string) : bool := all_chars isascii_char s.

End Py.

(** ** [datetime.strptime]

    CPython's [_strptime] turns the format into a regular expression, one
    group per directive and [\s+] for a run of blanks, matches it at the start
    of the text with the engine's leftmost-first backtracking, refuses text
    left over after the match, and builds a date from the groups, which
    refuses a day the month does not have.  The classes [\d] and [\s] are
    those of ASCII text ([Py.isascii]); on other text the engine's classes
    hold more digits and blanks. *)

Module Strptime.
Import Py.

(** The outcomes of matching a pattern at the head of a text, in the order
    the backtracking engine reaches them: matched text and remainder. *)
Definition parses : Type := list (string * string).

Definition re_class (p : ascii -> bool) (s : string) : parses :=
  match s with
  | String c r => if p c then [(String c EmptyString, r)] else []
  | EmptyString => []
  end.

Definition re_seq (p q : string -> parses) (s : string) : parses :=
  flat_map (fun tr => map (fun ur => (fst tr ++ fst ur, snd ur)) (q (snd tr))) (p s).

Definition re_alt (p q : string -> parses) (s : string) : parses :=
  (p s ++ q s)%list.

Definition re_char (c : ascii) : string -> parses := re_class (Ascii.eqb c).

(** Greedy repetition of a character class: longest match first. *)
Fixpoint re_star (p : ascii -> bool) (s : string) : parses :=
  match s with
  | String c r =>
      if p c
      then (map (fun tr => (String c (fst tr), snd tr)) (re_star p r)
            ++ [(EmptyString, s)])%list
      else [(EmptyString, s)]
  | EmptyString => [(EmptyString, EmptyString)]
  end.

Definition re_plus (p : ascii -> bool) : string -> parses :=
  re_seq (re_class p) (re_star p).

Definition d : string -> parses := re_class isdigit_char.
Definition rng (lo hi : ascii) : string -> parses :=
  re_class (between (code lo) (code hi)).

Local Infix "-+-" := re_seq (at level 41, right associativity).
Local Infix "-|-" := re_alt (at level 42, right associativity).

(** The directives of the two formats of [config.py]. *)
Inductive token := TY | Tm | Td | TH | TM | TBlank | TLit (c : ascii).

Definition re_token (t : token) : string -> parses :=
  match t with
  | TY => d -+- d -+- d -+- d                                  (* \d\d\d\d *)
  | Tm => (re_char "1" -+- rng "0" "2")                        (* 1[0-2] *)
          -|- (re_char "0" -+- rng "1" "9")                    (* 0[1-9] *)
          -|- rng "1" "9"                                      (* [1-9] *)
  | Td => (re_char "3" -+- rng "0" "1")                        (* 3[0-1] *)
          -|- (rng "1" "2" -+- d)                              (* [1-2]\d *)
          -|- (re_char "0" -+- rng "1" "9")                    (* 0[1-9] *)
          -|- rng "1" "9"                                      (* [1-9] *)
          -|- (re_char " " -+- rng "1" "9")                    (* " "[1-9] *)
  | TH => (re_char "2" -+- rng "0" "3")                        (* 2[0-3] *)
          -|- (rng "0" "1" -+- d)                              (* [0-1]\d *)
          -|- d                                                (* \d *)
  | TM => (rng "0" "5" -+- d)                                  (* [0-5]\d *)
          -|- d                                                (* \d *)
  | TBlank => re_plus isspace_char                             (* \s+ *)
  | TLit c => re_char c
  end.

(** Reading a format: [%X] is a directive, a run of blanks is one [\s+],
    any other character stands for itself.  [None] is a directive this
    model does not cover. *)
Fixpoint tokens (fmt : string) : option (list token) :=
  match fmt with
  | EmptyString => Some []
  | String c r =>
      if Ascii.eqb c "%" then
        match r with
        | String x r' =>
            let dir :=
              if Ascii.eqb x "Y" then Some TY
              else if Ascii.eqb x "m" then Some Tm
              else if Ascii.eqb x "d" then Some Td
              else if Ascii.eqb x "H" then Some TH
              else if Ascii.eqb x "M" then Some TM
              else None in
            match dir, tokens r' with
            | Some t, Some ts => Some (t :: ts)
            | _, _ => None
            end
        | EmptyString => None
        end
      else
        match tokens r with
        | Some ts =>
            if isspace_char c then
              match ts with
              | TBlank :: _ => Some ts
              | _ => Some (TBlank :: ts)
              end
            else Some (TLit c :: ts)
        | None => None
        end
  end.

(** Matching the whole pattern: the groups found, and the text left. *)
Fixpoint re_format (ts : list token) (s : string)
  : list (list (token * string) * string) :=
  match ts with
  | [] => [([], s)]
  | t :: ts' =>
      flat_map (fun tr =>
                  map (fun gr => ((t, fst tr) :: fst gr, snd gr))
                      (re_format ts' (snd tr)))
               (re_token t s)
  end.

Definition token_eqb (a b : token) : bool :=
  match a, b with
  | TY, TY | Tm, Tm | Td, Td | TH, TH | TM, TM | TBlank, TBlank => true
  | TLit x, TLit y => Ascii.eqb x y
  | _, _ => false
  end.

(** A group's value, or the default [_strptime] starts from. *)
Fixpoint group (t : token) (default : Z) (gs : list (token * string)) : Z :=
  match gs with
  | [] => default
  | (t', txt) :: r => if token_eqb t t' then int txt else group t default r
  end.

Definition is_leap (y : Z) : bool :=
  (y mod 4 =? 0) && (negb (y mod 100 =? 0) || (y mod 400 =? 0)).

Definition days_in_month (y m : Z) : Z :=
  if m =? 2 then (if is_leap y then 29 else 28)
  else if (m =? 4) || (m =? 6) || (m =? 9) || (m =? 11) then 30
  else 31.

(** [datetime.date]'s check of its fields ([MINYEAR = 1], [MAXYEAR = 9999]). *)
Definition date_ok (y m dd : Z) : bool :=
  (1 <=? y) && (y <=? 9999) && (1 <=? m) && (m <=? 12)
  && (1 <=? dd) && (dd <=? days_in_month y m).

Record datetime := { year : Z; month : Z; day : Z; hour : Z; minute : Z }.

(** [datetime.strptime(text, fmt)]; [None] is [ValueError]. *)
Definition strptime (text fmt : string) : option datetime :=
  match tokens fmt with
  | None => None
  | Some ts =>
      match re_format ts text with
      | [] => None                                   (* does not match format *)
      | (gs, rest) :: _ =>
          match rest with
          | String _ _ => None                       (* unconverted data remains *)
          | EmptyString =>
              let y := group TY 1900 gs in
              let m := group Tm 1 gs in
              let dd := group Td 1 gs in
              if date_ok y m dd
              then Some {| year := y; month := m; day := dd;
                           hour := group TH 0 gs; minute := group TM 0 gs |}
              else None                              (* day is out of range *)
          end
      end
  end.

End Strptime.

(** ** [config.py] *)

Module config.
Definition DB_PATH : string := "flight_management_test.db".
(** A Python set: the program only tests membership.  The order in which
    [', '.join] lists the members in an error text follows the interpreter's
    hashing; it is fixed here to the order of the source. *)
Definition VALID_STATUSES : list string :=
  ["Scheduled"; "Boarding"; "Departed"; "Cancelled"; "Delayed"].
Definition VALID_RANKS : list string := ["Captain"; "First Officer"].
Definition DATE_FORMAT : string := "%Y-%m-%d".
Definition DATETIME_FORMAT : string := "%Y-%m-%d %H:%M".
Definition AIRPORT_CODE_LENGTH : Z := 3.
End config.

(** ** Exceptions *)

Inductive exn : Type :=
| ValidationError (msg : string)      (* models.ValidationError *)
| DatabaseError (msg : string)        (* models.DatabaseError *)
| IntegrityError (msg : string)       (* sqlite3.IntegrityError *)
| OperationalError (msg : string)     (* sqlite3.OperationalError *)
| TypeError (msg : string).           (* builtin TypeError *)

(** [str(e)] *)
Definition exn_str (e : exn) : string :=
  match e with
  | ValidationError m | DatabaseError m | IntegrityError m
  | OperationalError m | TypeError m => m
  end.

(** [isinstance(e, sqlite3.Error)] *)
Definition is_sqlite_error (e : exn) : bool :=
  match e with
  | IntegrityError _ | OperationalError _ => true
  | _ => false
  end.

Definition res (A : Type) : Type := (exn + A)%type.

(** ** [models.py] *)

Module models.
Import Py config.

Definition validate_date (date_string : string) : res string :=
  match Strptime.strptime date_string DATE_FORMAT with
  | Some _ => inr date_string
  | None =>
      inl (ValidationError
             ("Invalid date format: " ++ date_string ++ ". Use YYYY-MM-DD"))
  end.

Definition validate_datetime (datetime_string : string) : res string :=
  match Strptime.strptime datetime_string DATETIME_FORMAT with
  | Some _ => inr datetime_string
  | None =>
      inl (ValidationError
             ("Invalid datetime format: " ++ datetime_string
              ++ ". Use YYYY-MM-DD HH:MM"))
  end.

Definition validate_airport_code (code : string) : res string :=
  let code := strip (upper code) in
  if negb (len code =? AIRPORT_CODE_LENGTH) || negb (isalpha code)
  then inl (ValidationError
              ("Airport code must be exactly " ++ str_of_int AIRPORT_CODE_LENGTH
               ++ " letters"))
  else inr code.

Definition validate_flight_status (status : string) : res string :=
  let status := capitalize status in
  if negb (in_list status VALID_STATUSES)
  then inl (ValidationError
              ("Invalid status. Must be one of: " ++ join ", " VALID_STATUSES))
  else inr status.

Definition validate_rank (rank : string) : res string :=
  let rank := title rank in
  if negb (in_list rank VALID_RANKS)
  then inl (ValidationError ("Rank must be one of: " ++ join ", " VALID_RANKS))
  else inr rank.

Definition validate_positive_number (value : Q) (field_name : string) : res Q :=
  if Qle_bool value 0
  then inl (ValidationError (field_name ++ " must be positive"))
  else inr value.

Definition validate_flight_number (flight_number : string) : res string :=
  let flight_number := strip (upper flight_number) in
  match flight_number with
  | EmptyString => inl (ValidationError "Flight number cannot be empty")
  | _ => inr flight_number
  end.

Definition validate_licence_number (licence : string) : res string :=
  let licence := upper (strip licence) in
  match licence with
  | EmptyString => inl (ValidationError "Licence number cannot be empty")
  | _ => inr licence
  end.

End models.

(** ** The schema of [database.py]

    One record per table, one field per column, in the order of the
    [CREATE TABLE] statements.  The last three fields of [DB] are the
    rows SQLite keeps in [sqlite_sequence] for the AUTOINCREMENT keys. *)

Record AirportRow := {
  a_airport_code : string; a_name : string; a_city : string;
  a_country : string; a_utc_offset : Q; a_tz_name : string }.

Record RouteRow := {
  r_route_id : Z; r_origin_code : string; r_dest_code : string;
  r_distance_km : Q; r_flight_duration_mins : Z }.

Record PilotRow := {
  p_pilot_id : Z; p_licence_no : string; p_first_name : string;
  p_last_name : string; p_rank : string; p_hire_date : string }.

Record StatusRow := { s_status_id : Z; s_status_name : string }.

Record FlightRow := {
  f_flight_id : Z; f_flight_number : string; f_flight_date : string;
  f_route_id : Z; f_sched_dep_utc : string; f_sched_arr_utc : string;
  f_status_id : Z }.

(** [role] admits NULL in the schema; no statement of the program writes
    one, and the rows here carry the text. *)
Record CrewRow := { ca_flight_id : Z; ca_pilot_id : Z; ca_role : string }.

Record DB := {
  Airport : list AirportRow;
  Route : list RouteRow;
  Pilot : list PilotRow;
  FlightStatus : list StatusRow;
  Flight : list FlightRow;
  CrewAssignment : list CrewRow;
  seq_Route : Z;
  seq_Pilot : Z;
  seq_Flight : Z }.

(** A row of the view [v_flight_details], which is also the [dict] that
    [_load_flight] returns: the keys are the fields without their [v_], in
    the order of the SELECT of [_load_flight]. *)
Record FlightDetails := {
  v_flight_id : Z; v_flight_number : string; v_flight_date : string;
  v_sched_dep_utc : string; v_sched_arr_utc : string; v_status_name : string;
  v_origin_code : string; v_dest_code : string;
  v_captain_name : option string; v_captain_id : option Z;
  v_fo_name : option string; v_fo_id : option Z }.

(** ** SQLite: the statements the program issues *)

Module Sqlite.

(** [isspace] of SQLite's date parser: the C locale's six blanks. *)
Definition sqlite_isspace (c : ascii) : bool :=
  Py.between 9 13 c || Py.between 32 32 c.

Fixpoint skip_date_sep (s : string) : string :=
  match s with
  | String c r =>
      if sqlite_isspace c || Ascii.eqb c "T" then skip_date_sep r else s
  | EmptyString => EmptyString
  end.

Definition two_digits (a b : ascii) (lo hi : Z) : bool :=
  Py.isdigit_char a && Py.isdigit_char b
  && (lo <=? 10 * Py.digit_value a + Py.digit_value b)
  && (10 * Py.digit_value a + Py.digit_value b <=? hi).

(** The SQL function [datetime(text)], on the texts [validate_datetime]
    lets through; [None] is NULL.  SQLite reads a date as exactly
    [YYYY-MM-DD] (month 1 to 12, day 1 to 31), skips blanks and the letter T
    and reads the time as exactly [HH:MM]; a text it cannot read gives
    NULL.  What no validated text has (hour 24, seconds, fractions, time
    zones) is not read here. *)
Definition datetime (s : string) : option string :=
  match s with
  | String y1 (String y2 (String y3 (String y4 (String s1
      (String m1 (String m2 (String s2 (String d1 (String d2 rest))))))))) =>
      if Py.isdigit_char y1 && Py.isdigit_char y2 && Py.isdigit_char y3
         && Py.isdigit_char y4 && Ascii.eqb s1 "-" && Ascii.eqb s2 "-"
         && two_digits m1 m2 1 12 && two_digits d1 d2 1 31
      then
        let date :=
          String y1 (String y2 (String y3 (String y4 (String "-"
            (String m1 (String m2 (String "-" (String d1 (String d2
              EmptyString))))))))) in
        match skip_date_sep rest with
        | EmptyString => Some (date ++ " 00:00:00")
        | String h1 (String h2 (String c (String n1 (String n2 EmptyString)))) =>
            if Ascii.eqb c ":" && two_digits h1 h2 0 23 && two_digits n1 n2 0 59
            then Some (date ++ String " " (String h1 (String h2 (String ":"
                         (String n1 (String n2 ":00"))))))
            else None
        | _ => None
        end
      else None
  | _ => None
  end.

(** [datetime(arr) > datetime(dep)] as a CHECK: it fails only when the
    comparison is false; NULL passes. *)
Definition check_arrival_after_departure (dep arr : string) : bool :=
  match datetime arr, datetime dep with
  | Some a, Some b => Py.str_ltb b a
  | _, _ => true
  end.

Definition max_id {A : Type} (key : A -> Z) (rows : list A) : Z :=
  fold_right (fun row m => Z.max (key row) m) 0 rows.

(** The key AUTOINCREMENT gives the next row. *)
Definition next_id {A : Type} (key : A -> Z) (rows : list A) (seq : Z) : Z :=
  Z.max seq (max_id key rows) + 1.

Definition fk_failed : exn := IntegrityError "FOREIGN KEY constraint failed".

Definition has_airport (db : DB) (code : string) : bool :=
  existsb (fun a => String.eqb (a_airport_code a) code) (Airport db).
Definition has_route (db : DB) (id : Z) : bool :=
  existsb (fun r => r_route_id r =? id) (Route db).
Definition has_pilot (db : DB) (id : Z) : bool :=
  existsb (fun p => p_pilot_id p =? id) (Pilot db).
Definition has_status (db : DB) (id : Z) : bool :=
  existsb (fun s => s_status_id s =? id) (FlightStatus db).
Definition has_flight (db : DB) (id : Z) : bool :=
  existsb (fun f => f_flight_id f =? id) (Flight db).

Definition set_Route (db : DB) (rows : list RouteRow) (seq : Z) : DB :=
  {| Airport := Airport db; Route := rows; Pilot := Pilot db;
     FlightStatus := FlightStatus db; Flight := Flight db;
     CrewAssignment := CrewAssignment db;
     seq_Route := seq; seq_Pilot := seq_Pilot db; seq_Flight := seq_Flight db |}.

Definition set_Airport (db : DB) (rows : list AirportRow) : DB :=
  {| Airport := rows; Route := Route db; Pilot := Pilot db;
     FlightStatus := FlightStatus db; Flight := Flight db;
     CrewAssignment := CrewAssignment db;
     seq_Route := seq_Route db; seq_Pilot := seq_Pilot db;
     seq_Flight := seq_Flight db |}.

Definition set_Pilot (db : DB) (rows : list PilotRow) (seq : Z) : DB :=
  {| Airport := Airport db; Route := Route db; Pilot := rows;
     FlightStatus := FlightStatus db; Flight := Flight db;
     CrewAssignment := CrewAssignment db;
     seq_Route := seq_Route db; seq_Pilot := seq; seq_Flight := seq_Flight db |}.

Definition set_Flight (db : DB) (rows : list FlightRow) (seq : Z) : DB :=
  {| Airport := Airport db; Route := Route db; Pilot := Pilot db;
     FlightStatus := FlightStatus db; Flight := rows;
     CrewAssignment := CrewAssignment db;
     seq_Route := seq_Route db; seq_Pilot := seq_Pilot db; seq_Flight := seq |}.

Definition set_CrewAssignment (db : DB) (rows : list CrewRow) : DB :=
  {| Airport := Airport db; Route := Route db; Pilot := Pilot db;
     FlightStatus := FlightStatus db; Flight := Flight db;
     CrewAssignment := rows;
     seq_Route := seq_Route db; seq_Pilot := seq_Pilot db;
     seq_Flight := seq_Flight db |}.

(** [INSERT INTO Airport (...) VALUES (?, ?, ?, ?, ?, ?)] *)
Definition insert_Airport (row : AirportRow) (db : DB) : res DB :=
  if negb (Z.of_nat (String.length (a_airport_code row)) =? 3)
  then inl (IntegrityError "CHECK constraint failed: length(airport_code) = 3")
  else if has_airport db (a_airport_code row)
  then inl (IntegrityError "UNIQUE constraint failed: Airport.airport_code")
  else inr (set_Airport db (Airport db ++ [row])%list).

(** [INSERT INTO Route (origin_code, dest_code, distance_km,
    flight_duration_mins) VALUES (?, ?, ?, ?)]; the result carries
    [cur.lastrowid]. *)
Definition insert_Route (origin dest : string) (distance : Q) (duration : Z)
           (db : DB) : res (Z * DB) :=
  if existsb (fun r => String.eqb (r_origin_code r) origin
                       && String.eqb (r_dest_code r) dest) (Route db)
  then inl (IntegrityError
              "UNIQUE constraint failed: Route.origin_code, Route.dest_code")
  else if negb (has_airport db origin && has_airport db dest)
  then inl fk_failed
  else
    let id := next_id r_route_id (Route db) (seq_Route db) in
    inr (id, set_Route db
               (Route db ++ [{| r_route_id := id; r_origin_code := origin;
                                r_dest_code := dest; r_distance_km := distance;
                                r_flight_duration_mins := duration |}])%list
               id).

(** SQLite's [UPPER] and [TRIM] of the index [idx_pilot_licence_clean]:
    ASCII letters, and the space only. *)
Fixpoint ltrim_spaces (s : string) : string :=
  match s with
  | String c r => if Ascii.eqb c " " then ltrim_spaces r else s
  | EmptyString => EmptyString
  end.

Fixpoint rtrim_spaces (s : string) : string :=
  match s with
  | EmptyString => EmptyString
  | String c r =>
      match rtrim_spaces r with
      | EmptyString => if Ascii.eqb c " " then EmptyString else String c EmptyString
      | r' => String c r'
      end
  end.

Definition licence_key (s : string) : string :=
  Py.upper (rtrim_spaces (ltrim_spaces s)).

(** [INSERT INTO Pilot (licence_no, first_name, last_name, rank, hire_date)
    VALUES (?, ?, ?, ?, ?)] *)
Definition insert_Pilot (licence first last rank hire : string) (db : DB)
  : res DB :=
  if negb (Py.in_list rank ["Captain"; "First Officer"])
  then inl (IntegrityError
              "CHECK constraint failed: rank IN ('Captain', 'First Officer')")
  else if existsb (fun p => String.eqb (licence_key (p_licence_no p))
                                        (licence_key licence)) (Pilot db)
  then inl (IntegrityError
              "UNIQUE constraint failed: index 'idx_pilot_licence_clean'")
  else if existsb (fun p => String.eqb (p_licence_no p) licence) (Pilot db)
  then inl (IntegrityError "UNIQUE constraint failed: Pilot.licence_no")
  else
    let id := next_id p_pilot_id (Pilot db) (seq_Pilot db) in
    inr (set_Pilot db
           (Pilot db ++ [{| p_pilot_id := id; p_licence_no := licence;
                            p_first_name := first; p_last_name := last;
                            p_rank := rank; p_hire_date := hire |}])%list
           id).

Definition times_check_failed : exn :=
  IntegrityError
    "CHECK constraint failed: datetime(sched_arr_utc) > datetime(sched_dep_utc)".

(** [INSERT INTO Flight (flight_number, flight_date, route_id,
    sched_dep_utc, sched_arr_utc, status_id) VALUES (?, ?, ?, ?, ?, ?)] *)
Definition insert_Flight (number date : string) (route : Z) (dep arr : string)
           (status : Z) (db : DB) : res DB :=
  if negb (check_arrival_after_departure dep arr)
  then inl times_check_failed
  else if existsb (fun f => String.eqb (f_flight_number f) number
                            && String.eqb (f_flight_date f) date) (Flight db)
  then inl (IntegrityError
              "UNIQUE constraint failed: Flight.flight_number, Flight.flight_date")
  else if negb (has_route db route && has_status db status)
  then inl fk_failed
  else
    let id := next_id f_flight_id (Flight db) (seq_Flight db) in
    inr (set_Flight db
           (Flight db ++ [{| f_flight_id := id; f_flight_number := number;
                             f_flight_date := date; f_route_id := route;
                             f_sched_dep_utc := dep; f_sched_arr_utc := arr;
                             f_status_id := status |}])%list
           id).

Definition update_where {A : Type} (hit : A -> bool) (f : A -> A) (rows : list A)
  : list A :=
  map (fun row => if hit row then f row else row) rows.

Definition set_route_id (route : Z) (f : FlightRow) : FlightRow :=
  {| f_flight_id := f_flight_id f; f_flight_number := f_flight_number f;
     f_flight_date := f_flight_date f; f_route_id := route;
     f_sched_dep_utc := f_sched_dep_utc f; f_sched_arr_utc := f_sched_arr_utc f;
     f_status_id := f_status_id f |}.

Definition set_times (dep arr : string) (f : FlightRow) : FlightRow :=
  {| f_flight_id := f_flight_id f; f_flight_number := f_flight_number f;
     f_flight_date := f_flight_date f; f_route_id := f_route_id f;
     f_sched_dep_utc := dep; f_sched_arr_utc := arr;
     f_status_id := f_status_id f |}.

Definition set_status_id (status : Z) (f : FlightRow) : FlightRow :=
  {| f_flight_id := f_flight_id f; f_flight_number := f_flight_number f;
     f_flight_date := f_flight_date f; f_route_id := f_route_id f;
     f_sched_dep_utc := f_sched_dep_utc f; f_sched_arr_utc := f_sched_arr_utc f;
     f_status_id := status |}.

(** [UPDATE Flight SET route_id=? WHERE flight_id=?] *)
Definition update_Flight_route (route id : Z) (db : DB) : res DB :=
  if has_flight db id && negb (has_route db route)
  then inl fk_failed
  else inr (set_Flight db
              (update_where (fun f => f_flight_id f =? id) (set_route_id route)
                            (Flight db))
              (seq_Flight db)).

(** [UPDATE Flight SET sched_dep_utc=?, sched_arr_utc=? WHERE flight_id=?] *)
Definition update_Flight_times (dep arr : string) (id : Z) (db : DB)
  : res DB :=
  if has_flight db id && negb (check_arrival_after_departure dep arr)
  then inl times_check_failed
  else inr (set_Flight db
              (update_where (fun f => f_flight_id f =? id) (set_times dep arr)
                            (Flight db))
              (seq_Flight db)).

(** [UPDATE Flight SET status_id=? WHERE flight_id=?] *)
Definition update_Flight_status (status id : Z) (db : DB) : res DB :=
  if has_flight db id && negb (has_status db status)
  then inl fk_failed
  else inr (set_Flight db
              (update_where (fun f => f_flight_id f =? id) (set_status_id status)
                            (Flight db))
              (seq_Flight db)).

(** [DELETE FROM CrewAssignment WHERE flight_id=? AND role=...] *)
Definition delete_CrewAssignment (flight : Z) (role : string) (db : DB)
  : res DB :=
  inr (set_CrewAssignment db
         (filter (fun c => negb ((ca_flight_id c =? flight)
                                 && String.eqb (ca_role c) role))
                 (CrewAssignment db))).

(** [INSERT INTO CrewAssignment (flight_id, pilot_id, role) VALUES (?, ?, ...)].
    The unique index on (flight_id, role) is visited before the primary
    key, foreign keys at the end of the statement. *)
Definition insert_CrewAssignment (flight pilot : Z) (role : string)
           (db : DB) : res DB :=
  if negb (Py.in_list role ["Captain"; "First Officer"])
  then inl (IntegrityError
              "CHECK constraint failed: role IN ('Captain','First Officer')")
  else if existsb (fun c => (ca_flight_id c =? flight)
                            && String.eqb (ca_role c) role) (CrewAssignment db)
  then inl (IntegrityError
              "UNIQUE constraint failed: CrewAssignment.flight_id, CrewAssignment.role")
  else if existsb (fun c => (ca_flight_id c =? flight)
                            && (ca_pilot_id c =? pilot)) (CrewAssignment db)
  then inl (IntegrityError
              "UNIQUE constraint failed: CrewAssignment.flight_id, CrewAssignment.pilot_id")
  else if negb (has_flight db flight && has_pilot db pilot)
  then inl fk_failed
  else inr (set_CrewAssignment db
              (CrewAssignment db
               ++ [{| ca_flight_id := flight; ca_pilot_id := pilot;
                      ca_role := role |}])%list).

(** A LEFT JOIN: the matching rows, or one NULL row. *)
Definition left_join {A : Type} (hit : A -> bool) (rows : list A) : list (option A) :=
  match filter hit rows with
  | [] => [None]
  | l => map Some l
  end.

Definition full_name (p : PilotRow) : string :=
  p_first_name p ++ " " ++ p_last_name p.

Definition crew_of (db : DB) (f : FlightRow) (role : string)
  : list (option PilotRow) :=
  flat_map
    (fun ca : option CrewRow =>
       left_join (fun p => match ca with
                           | Some c => p_pilot_id p =? ca_pilot_id c
                           | None => false
                           end) (Pilot db))
    (left_join (fun c => (ca_flight_id c =? f_flight_id f)
                         && String.eqb (ca_role c) role) (CrewAssignment db)).

(** The view [v_flight_details], as the nested loop of its joins. *)
Definition v_flight_details (db : DB) : list FlightDetails :=
  flat_map (fun f =>
  flat_map (fun r =>
  flat_map (fun fs =>
  flat_map (fun cap =>
  map (fun fo =>
    {| v_flight_id := f_flight_id f;
       v_flight_number := f_flight_number f;
       v_flight_date := f_flight_date f;
       v_sched_dep_utc := f_sched_dep_utc f;
       v_sched_arr_utc := f_sched_arr_utc f;
       v_status_name := s_status_name fs;
       v_origin_code := r_origin_code r;
       v_dest_code := r_dest_code r;
       v_captain_name := option_map full_name cap;
       v_captain_id := option_map p_pilot_id cap;
       v_fo_name := option_map full_name fo;
       v_fo_id := option_map p_pilot_id fo |})
    (crew_of db f "First Officer"))
    (crew_of db f "Captain"))
    (filter (fun fs => s_status_id fs =? f_status_id f) (FlightStatus db)))
    (filter (fun r => r_route_id r =? f_route_id f) (Route db)))
    (Flight db).

End Sqlite.

(** ** The connection: state and exceptions

    [disk] is the database file, [work] what the open connection sees,
    [in_tx] whether a transaction is open on it.  [trace] records, oldest
    first, what the operation did to the connection and to the terminal. *)

Inductive event : Type :=
| Connect                       (* sqlite3.connect and the PRAGMA *)
| Begin                         (* conn.execute("BEGIN") *)
| Write (table : string)        (* an INSERT, UPDATE or DELETE is executed *)
| Commit                        (* conn.commit() *)
| Rollback                      (* conn.rollback() *)
| Close                         (* conn.close() *)
| Prompt (text : string)        (* input(text) *)
| Print (line : string).        (* print(line) *)

Record world := {
  disk : DB;
  work : DB;
  in_tx : bool;
  trace : list event }.

Definition M (A : Type) : Type := world -> res A * world.

Definition ret {A : Type} (a : A) : M A := fun w => (inr a, w).
Definition raise {A : Type} (e : exn) : M A := fun w => (inl e, w).
Definition bind {A B : Type} (m : M A) (k : A -> M B) : M B :=
  fun w => match m w with
           | (inr a, w') => k a w'
           | (inl e, w') => (inl e, w')
           end.
Definition lift {A : Type} (r : res A) : M A := fun w => (r, w).

Declare Scope monad_scope.
Delimit Scope monad_scope with monad.
Notation "x <- m ;; k" := (bind m (fun x => k))
  (at level 61, m at next level, right associativity) : monad_scope.
Notation "m ;; k" := (bind m (fun _ => k))
  (at level 61, right associativity) : monad_scope.
Local Open Scope monad_scope.

Definition with_trace (w : world) (t : list event) : world :=
  {| disk := disk w; work := work w; in_tx := in_tx w; trace := t |}.

Definition log (e : event) : M unit :=
  fun w => (inr tt, with_trace w (trace w ++ [e])%list).

Definition print (line : string) : M unit := log (Print line).

(** A query: it reads what the connection sees.  The integers bound to a
    statement, here and in [execute], are taken to fit SQLite's 64 bits; on
    any other [sqlite3] raises [OverflowError], which nothing in the program
    catches. *)
Definition query {A : Type} (q : DB -> A) : M A :=
  fun w => (inr (q (work w)), w).

(** [conn.execute("BEGIN")] *)
Definition begin : M unit :=
  fun w =>
    if in_tx w
    then (inl (OperationalError "cannot start a transaction within a transaction"), w)
    else (inr tt, {| disk := disk w; work := work w; in_tx := true;
                     trace := (trace w ++ [Begin])%list |}).

(** [cur.execute] of an INSERT, UPDATE or DELETE.  The [sqlite3] module
    opens a transaction before the statement when none is open; a statement
    that fails changes nothing. *)
Definition execute {A : Type} (table : string) (stmt : DB -> res (A * DB))
  : M A :=
  fun w =>
    match stmt (work w) with
    | inr (a, db') =>
        (inr a, {| disk := disk w; work := db'; in_tx := true;
                   trace := (trace w ++ [Write table])%list |})
    | inl e =>
        (inl e, {| disk := disk w; work := work w; in_tx := true;
                   trace := (trace w ++ [Write table])%list |})
    end.

Definition no_result (stmt : DB -> res DB) (db : DB)
  : res (unit * DB) :=
  match stmt db with
  | inr db' => inr (tt, db')
  | inl e => inl e
  end.

(** [conn.commit()] *)
Definition commit : M unit :=
  fun w => (inr tt, {| disk := if in_tx w then work w else disk w;
                       work := work w; in_tx := false;
                       trace := (trace w ++ [Commit])%list |}).

(** [conn.rollback()] *)
Definition rollback : M unit :=
  fun w => (inr tt, {| disk := disk w; work := disk w; in_tx := false;
                       trace := (trace w ++ [Rollback])%list |}).

(** [conn.close()]: what was not committed is lost. *)
Definition close (w : world) : world :=
  {| disk := disk w; work := disk w; in_tx := false;
     trace := (trace w ++ [Close])%list |}.

(** ** [database.py] *)

Module database.

(** [with get_connection() as conn: body].  An [sqlite3.Error] leaving the
    body is caught by the context manager, which rolls back and raises
    [DatabaseError] in its place; any other exception passes; the
    connection is closed in all cases. *)
Definition get_connection {A : Type} (body : M A) : M A :=
  fun w =>
    let opened := {| disk := disk w; work := disk w; in_tx := false;
                     trace := (trace w ++ [Connect])%list |} in
    match body opened with
    | (inr a, w1) => (inr a, close w1)
    | (inl e, w1) =>
        if is_sqlite_error e
        then (inl (DatabaseError ("Database Error: " ++ exn_str e)),
              close (snd (rollback w1)))
        else (inl e, close w1)
    end.

Definition airports : list AirportRow :=
  map (fun t => match t with
                | (c, n, ci, co, off, tz) =>
                    {| a_airport_code := c; a_name := n; a_city := ci;
                       a_country := co; a_utc_offset := off; a_tz_name := tz |}
                end)
    [("LHR", "Heathrow", "London", "United Kingdom", 0 # 1, "Europe/London");
     ("LGW", "Gatwick", "London", "United Kingdom", 0 # 1, "Europe/London");
     ("MAN", "Manchester", "Manchester", "United Kingdom", 0 # 1, "Europe/London");
     ("JFK", "John F. Kennedy Intl", "New York", "United States", (-5) # 1,
      "America/New_York");
     ("LAX", "Los Angeles Intl", "Los Angeles", "United States", (-8) # 1,
      "America/Los_Angeles");
     ("CDG", "Charles de Gaulle", "Paris", "France", 1 # 1, "Europe/Paris");
     ("AMS", "Schiphol", "Amsterdam", "Netherlands", 1 # 1, "Europe/Amsterdam");
     ("FRA", "Frankfurt Main", "Frankfurt", "Germany", 1 # 1, "Europe/Berlin");
     ("DXB", "Dubai Intl", "Dubai", "UAE", 4 # 1, "Asia/Dubai");
     ("SIN", "Changi", "Singapore", "Singapore", 8 # 1, "Asia/Singapore");
     ("SYD", "Kingsford-Smith", "Sydney", "Australia", 10 # 1, "Australia/Sydney");
     ("HND", "Haneda", "Tokyo", "Japan", 9 # 1, "Asia/Tokyo");
     ("YYZ", "Pearson", "Toronto", "Canada", (-5) # 1, "America/Toronto");
     ("DEL", "Indira Gandhi Intl", "Delhi", "India", 11 # 2, "Asia/Kolkata");
     ("ATL", "Hartsfield-Jackson", "Atlanta", "United States", (-5) # 1,
      "America/New_York")].

Definition routes : list RouteRow :=
  map (fun t => match t with
                | (id, o, dst, km, mins) =>
                    {| r_route_id := id; r_origin_code := o; r_dest_code := dst;
                       r_distance_km := km # 1; r_flight_duration_mins := mins |}
                end)
    [(1, "LHR", "JFK", 5556, 420); (2, "LHR", "DXB", 5500, 415);
     (3, "LGW", "AMS", 358, 60); (4, "MAN", "CDG", 592, 85);
     (5, "JFK", "LAX", 3974, 330); (6, "CDG", "SIN", 10733, 800);
     (7, "AMS", "FRA", 367, 60); (8, "FRA", "HND", 9363, 720);
     (9, "DXB", "SYD", 12035, 860); (10, "SIN", "SYD", 6300, 480);
     (11, "HND", "LAX", 8821, 650); (12, "YYZ", "DEL", 702, 90);
     (13, "DEL", "ATL", 975, 110); (14, "ATL", "LHR", 6763, 460);
     (15, "MAN", "YYZ", 5410, 400)].

Definition statuses : list StatusRow :=
  map (fun t => {| s_status_id := fst t; s_status_name := snd t |})
    [(1, "Scheduled"); (2, "Boarding"); (3, "Departed"); (4, "Cancelled");
     (5, "Delayed")].

Definition pilots : list PilotRow :=
  map (fun t => match t with
                | (id, lic, fn, ln, rk, hd) =>
                    {| p_pilot_id := id; p_licence_no := lic; p_first_name := fn;
                       p_last_name := ln; p_rank := rk; p_hire_date := hd |}
                end)
    [(1, "LIC1001", "Alice", "Adams", "Captain", "2015-04-12");
     (2, "LIC1002", "Bob", "Barker", "Captain", "2012-09-30");
     (3, "LIC1003", "Cara", "Chen", "First Officer", "2019-06-18");
     (4, "LIC1004", "Dan", "Diaz", "First Officer", "2020-11-05");
     (5, "LIC1005", "Eva", "Edwards", "Captain", "2011-02-22");
     (6, "LIC1006", "Felix", "Foley", "First Officer", "2018-08-14");
     (7, "LIC1007", "Grace", "Gibson", "Captain", "2010-01-07");
     (8, "LIC1008", "Hank", "Hansen", "First Officer", "2021-03-28");
     (9, "LIC1009", "Ivy", "Ibrahim", "Captain", "2014-07-19");
     (10, "LIC1010", "Jack", "Jones", "First Officer", "2022-10-10");
     (11, "LIC1011", "Kara", "Klein", "Captain", "2013-05-03");
     (12, "LIC1012", "Leo", "Lopez", "First Officer", "2017-12-12");
     (13, "LIC1013", "Mia", "Moore", "Captain", "2009-09-09");
     (14, "LIC1014", "Ned", "Nguyen", "First Officer", "2023-01-15");
     (15, "LIC1015", "Ola", "Olsen", "Captain", "2016-06-06")].

Definition flights : list FlightRow :=
  map (fun t => match t with
                | (id, num, dt, rt, dep, arr, st) =>
                    {| f_flight_id := id; f_flight_number := num;
                       f_flight_date := dt; f_route_id := rt;
                       f_sched_dep_utc := dep; f_sched_arr_utc := arr;
                       f_status_id := st |}
                end)
    [(1, "BA101", "2025-06-05", 1, "2025-06-05 08:00", "2025-06-05 15:00", 1);
     (2, "BA102", "2025-06-06", 2, "2025-06-06 07:30", "2025-06-06 14:25", 1);
     (3, "BA103", "2025-06-07", 3, "2025-06-07 09:00", "2025-06-07 10:00", 1);
     (4, "BA104", "2025-06-08", 4, "2025-06-08 10:00", "2025-06-08 11:25", 2);
     (5, "BA105", "2025-06-09", 5, "2025-06-09 12:00", "2025-06-09 17:30", 1);
     (6, "BA106", "2025-06-10", 6, "2025-06-10 06:00", "2025-06-10 19:20", 1);
     (7, "BA107", "2025-06-11", 7, "2025-06-11 08:00", "2025-06-11 09:00", 1);
     (8, "BA108", "2025-06-12", 8, "2025-06-12 03:00", "2025-06-12 15:00", 1);
     (9, "BA109", "2025-06-13", 9, "2025-06-13 00:00", "2025-06-13 14:20", 1);
     (10, "BA110", "2025-06-14", 10, "2025-06-14 02:00", "2025-06-14 10:00", 2);
     (11, "BA111", "2025-06-15", 11, "2025-06-15 18:00", "2025-06-16 05:50", 1);
     (12, "BA112", "2025-06-16", 12, "2025-06-16 13:00", "2025-06-16 14:30", 1);
     (13, "BA113", "2025-06-17", 13, "2025-06-17 15:00", "2025-06-17 16:50", 1);
     (14, "BA114", "2025-06-18", 14, "2025-06-18 09:00", "2025-06-18 16:40", 5);
     (15, "BA115", "2025-06-19", 15, "2025-06-19 07:00", "2025-06-19 13:40", 3)].

Definition crew : list CrewRow :=
  map (fun t => match t with
                | (f, p, r) =>
                    {| ca_flight_id := f; ca_pilot_id := p; ca_role := r |}
                end)
    [(1, 1, "Captain"); (2, 2, "Captain"); (3, 5, "Captain");
     (4, 7, "Captain"); (5, 9, "Captain"); (6, 11, "Captain");
     (7, 13, "Captain"); (8, 15, "Captain"); (9, 1, "Captain");
     (10, 2, "Captain"); (11, 5, "Captain"); (12, 7, "Captain");
     (13, 9, "Captain"); (14, 11, "Captain"); (15, 13, "Captain");
     (1, 3, "First Officer"); (2, 4, "First Officer");
     (3, 6, "First Officer"); (4, 8, "First Officer");
     (5, 10, "First Officer")].

(** The database [initialise_tables] leaves: the tables of
    [_create_tables] filled by [_generate_data]. *)
Definition seed : DB :=
  Eval vm_compute in
  {| Airport := airports; Route := routes; Pilot := pilots;
     FlightStatus := statuses; Flight := flights; CrewAssignment := crew;
     seq_Route := 15; seq_Pilot := 15; seq_Flight := 15 |}.

End database.

(** ** [try: ... except ...:] and calling an operation *)

Definition try_except {A : Type} (body : M A) (handler : exn -> option (M A)) : M A :=
  fun w =>
    match body w with
    | (inl e, w') =>
        match handler e with
        | Some h => h w'
        | None => (inl e, w')
        end
    | r => r
    end.

(** The world an operation starts in: no connection yet, nothing printed. *)
Definition start (db : DB) : world :=
  {| disk := db; work := db; in_tx := false; trace := [] |}.

(** What an operation leaves in the file, what it did, and what it raised
    to its caller. *)
Definition persisted {A : Type} (op : M A) (db : DB) : DB := disk (snd (op (start db))).
Definition events {A : Type} (op : M A) (db : DB) : list event := trace (snd (op (start db))).
Definition result {A : Type} (op : M A) (db : DB) : res A := fst (op (start db)).

(** ** [utils.py] *)

Inductive pyval : Type :=
| PInt (n : Z)
| PStr (s : string)
| PNone.

Module utils.

Definition pyval_eqb (a b : pyval) : bool :=
  match a, b with
  | PInt x, PInt y => x =? y
  | PStr x, PStr y => String.eqb x y
  | PNone, PNone => true
  | _, _ => false
  end.

(** [str(v)] *)
Definition pyval_str (v : pyval) : string :=
  match v with
  | PInt n => Py.str_of_int n
  | PStr s => s
  | PNone => "None"
  end.

Definition of_opt_str (o : option string) : pyval :=
  match o with Some s => PStr s | None => PNone end.
Definition of_opt_int (o : option Z) : pyval :=
  match o with Some n => PInt n | None => PNone end.

(** [dict.items()] of a flight record. *)
Definition items (f : FlightDetails) : list (string * pyval) :=
  [("flight_id", PInt (v_flight_id f));
   ("flight_number", PStr (v_flight_number f));
   ("flight_date", PStr (v_flight_date f));
   ("sched_dep_utc", PStr (v_sched_dep_utc f));
   ("sched_arr_utc", PStr (v_sched_arr_utc f));
   ("status_name", PStr (v_status_name f));
   ("origin_code", PStr (v_origin_code f));
   ("dest_code", PStr (v_dest_code f));
   ("captain_name", of_opt_str (v_captain_name f));
   ("captain_id", of_opt_int (v_captain_id f));
   ("fo_name", of_opt_str (v_fo_name f));
   ("fo_id", of_opt_int (v_fo_id f))].

Fixpoint dict_get (k : string) (d : list (string * pyval)) : option pyval :=
  match d with
  | [] => None
  | (k', v) :: r => if String.eqb k k' then Some v else dict_get k r
  end.

Fixpoint spaces (n : nat) : string :=
  match n with
  | O => EmptyString
  | S n' => String " " (spaces n')
  end.

(** [f"{k:<20}"] *)
Definition ljust20 (k : string) : string :=
  k ++ spaces (20 - String.length k).

Definition nl : string := String (ascii_of_N 10) EmptyString.

Definition current_lines (old : list (string * pyval)) : list string :=
  map (fun kv => ljust20 (fst kv) ++ ": " ++ pyval_str (snd kv))
      (filter (fun kv => negb (String.eqb (fst kv) "flight_id")) old).

Definition changed (old : list (string * pyval)) (kv : string * pyval) : bool :=
  match dict_get (fst kv) old with
  | Some v => negb (pyval_eqb v (snd kv))
  | None => false
  end.

Definition proposed_lines (old new : list (string * pyval)) : list string :=
  map (fun kv =>
         if changed old kv
         then ljust20 (fst kv) ++ ": " ++ pyval_str (snd kv) ++ " [CHANGED]"
         else ljust20 (fst kv) ++ ": " ++ pyval_str (snd kv))
      new.

Definition changes (old new : list (string * pyval)) : list string :=
  map fst (filter (changed old) new).

Definition changes_line (old new : list (string * pyval)) : string :=
  match changes old new with
  | [] => "No changes detected."
  | l => nl ++ "Changes: " ++ Py.join ", " l
  end.

Definition preview_lines (old new : list (string * pyval)) : list string :=
  let current := nl ++ "--- Current ---" in
  let proposed := nl ++ "--- Proposed ---" in
  ((current :: current_lines old)
     ++ (proposed :: proposed_lines old new)
     ++ [changes_line old new])%list.

Fixpoint print_all (lines : list string) : M unit :=
  match lines with
  | [] => ret tt
  | l :: r => print l ;; print_all r
  end.

Definition format_preview (old new : list (string * pyval)) : M unit :=
  print_all (preview_lines old new).

(** [confirm_action()]; [reply] is the line the operator types.  A run in
    which [input] has no line to read, and raises [EOFError], has no reply
    and is not modelled. *)
Definition confirm_action (reply : string) : M bool :=
  log (Prompt "Apply changes? (y/n): ") ;;
  ret (String.eqb (Py.lower (Py.strip reply)) "y").

End utils.

(** ** [queries.py] *)

Module queries.
Import models utils database Sqlite.

Definition _load_flight (flight_number flight_date : string) : M FlightDetails :=
  flight_number <- lift (validate_flight_number flight_number) ;;
  row <- query (fun db =>
                  hd_error
                    (filter (fun v => String.eqb (v_flight_number v) flight_number
                                      && String.eqb (v_flight_date v) flight_date)
                            (v_flight_details db))) ;;
  match row with
  | None => raise (ValidationError ("No flight found for " ++ flight_number
                                    ++ " on " ++ flight_date))
  | Some r => ret r
  end.

(** [except (ValidationError, DatabaseError) as e: print(str(e))] *)
Definition report (e : exn) : option (M unit) :=
  match e with
  | ValidationError _ | DatabaseError _ => Some (print (exn_str e))
  | _ => None
  end.

Definition with_route (f : FlightDetails) (origin dest : string) : FlightDetails :=
  {| v_flight_id := v_flight_id f; v_flight_number := v_flight_number f;
     v_flight_date := v_flight_date f; v_sched_dep_utc := v_sched_dep_utc f;
     v_sched_arr_utc := v_sched_arr_utc f; v_status_name := v_status_name f;
     v_origin_code := origin; v_dest_code := dest;
     v_captain_name := v_captain_name f; v_captain_id := v_captain_id f;
     v_fo_name := v_fo_name f; v_fo_id := v_fo_id f |}.

Definition with_times (f : FlightDetails) (dep arr : string) : FlightDetails :=
  {| v_flight_id := v_flight_id f; v_flight_number := v_flight_number f;
     v_flight_date := v_flight_date f; v_sched_dep_utc := dep;
     v_sched_arr_utc := arr; v_status_name := v_status_name f;
     v_origin_code := v_origin_code f; v_dest_code := v_dest_code f;
     v_captain_name := v_captain_name f; v_captain_id := v_captain_id f;
     v_fo_name := v_fo_name f; v_fo_id := v_fo_id f |}.

Definition with_status (f : FlightDetails) (status : string) : FlightDetails :=
  {| v_flight_id := v_flight_id f; v_flight_number := v_flight_number f;
     v_flight_date := v_flight_date f; v_sched_dep_utc := v_sched_dep_utc f;
     v_sched_arr_utc := v_sched_arr_utc f; v_status_name := status;
     v_origin_code := v_origin_code f; v_dest_code := v_dest_code f;
     v_captain_name := v_captain_name f; v_captain_id := v_captain_id f;
     v_fo_name := v_fo_name f; v_fo_id := v_fo_id f |}.

Definition with_captain (f : FlightDetails) (name : string) (id : Z) : FlightDetails :=
  {| v_flight_id := v_flight_id f; v_flight_number := v_flight_number f;
     v_flight_date := v_flight_date f; v_sched_dep_utc := v_sched_dep_utc f;
     v_sched_arr_utc := v_sched_arr_utc f; v_status_name := v_status_name f;
     v_origin_code := v_origin_code f; v_dest_code := v_dest_code f;
     v_captain_name := Some name; v_captain_id := Some id;
     v_fo_name := v_fo_name f; v_fo_id := v_fo_id f |}.

Definition with_fo (f : FlightDetails) (name : string) (id : Z) : FlightDetails :=
  {| v_flight_id := v_flight_id f; v_flight_number := v_flight_number f;
     v_flight_date := v_flight_date f; v_sched_dep_utc := v_sched_dep_utc f;
     v_sched_arr_utc := v_sched_arr_utc f; v_status_name := v_status_name f;
     v_origin_code := v_origin_code f; v_dest_code := v_dest_code f;
     v_captain_name := v_captain_name f; v_captain_id := v_captain_id f;
     v_fo_name := Some name; v_fo_id := Some id |}.

(** [SELECT route_id FROM Route WHERE origin_code=? AND dest_code=?] *)
Definition select_route (origin dest : string) (db : DB) : option RouteRow :=
  hd_error (filter (fun r => String.eqb (r_origin_code r) origin
                             && String.eqb (r_dest_code r) dest) (Route db)).

(** [SELECT status_id FROM FlightStatus WHERE status_name=?] *)
Definition select_status (name : string) (db : DB) : option StatusRow :=
  hd_error (filter (fun s => String.eqb (s_status_name s) name) (FlightStatus db)).

(** [SELECT first_name, last_name, rank FROM Pilot WHERE pilot_id=?] *)
Definition select_pilot (id : Z) (db : DB) : option PilotRow :=
  hd_error (filter (fun p => p_pilot_id p =? id) (Pilot db)).

(** The suite under [try:] of [change_route]. *)
Definition change_route_body
           (flight_number flight_date new_origin new_dest reply : string) : M unit :=
  new_origin <- lift (validate_airport_code new_origin) ;;
  new_dest <- lift (validate_airport_code new_dest) ;;
  flight_date <- lift (validate_date flight_date) ;;
  get_connection (
    begin ;;
    flight <- _load_flight flight_number flight_date ;;
    let proposed := with_route flight new_origin new_dest in
    format_preview (items flight) (items proposed) ;;
    yes <- confirm_action reply ;;
    if negb yes then
      rollback ;;
      print "Route change cancelled "
    else
      found <- query (select_route new_origin new_dest) ;;
      route_id <- match found with
                  | Some r => ret (r_route_id r)
                  | None =>
                      id <- execute "Route"
                              (insert_Route new_origin new_dest (0 # 1) 0) ;;
                      print ("Created new route " ++ new_origin ++ " -> "
                             ++ new_dest) ;;
                      ret id
                  end ;;
      execute "Flight"
        (no_result (update_Flight_route route_id (v_flight_id flight))) ;;
      commit ;;
      print "Route updated successfully").

Definition change_route
           (flight_number flight_date new_origin new_dest reply : string) : M unit :=
  try_except
    (change_route_body flight_number flight_date new_origin new_dest reply)
    report.

Definition change_times_body
           (flight_number flight_date new_dep new_arr reply : string) : M unit :=
  new_dep <- lift (validate_datetime new_dep) ;;
  new_arr <- lift (validate_datetime new_arr) ;;
  flight_date <- lift (validate_date flight_date) ;;
  (if Py.str_geb new_dep new_arr
   then raise (ValidationError "Departure time must be before arrival time")
   else ret tt) ;;
  get_connection (
    begin ;;
    flight <- _load_flight flight_number flight_date ;;
    let proposed := with_times flight new_dep new_arr in
    format_preview (items flight) (items proposed) ;;
    yes <- confirm_action reply ;;
    if negb yes then
      rollback ;;
      print "Time change cancelled."
    else
      execute "Flight"
        (no_result (update_Flight_times new_dep new_arr (v_flight_id flight))) ;;
      commit ;;
      print "Times updated successfully").

Definition change_times
           (flight_number flight_date new_dep new_arr reply : string) : M unit :=
  try_except
    (change_times_body flight_number flight_date new_dep new_arr reply)
    report.

Definition change_status_body
           (flight_number flight_date new_status reply : string) : M unit :=
  new_status <- lift (validate_flight_status new_status) ;;
  flight_date <- lift (validate_date flight_date) ;;
  get_connection (
    sid <- query (select_status new_status) ;;
    sid <- match sid with
           | None => raise (ValidationError ("Invalid status: " ++ new_status))
           | Some row => ret (s_status_id row)
           end ;;
    begin ;;
    flight <- _load_flight flight_number flight_date ;;
    let proposed := with_status flight new_status in
    format_preview (items flight) (items proposed) ;;
    yes <- confirm_action reply ;;
    if negb yes then
      rollback ;;
      print "Status change cancelled."
    else
      execute "Flight"
        (no_result (update_Flight_status sid (v_flight_id flight))) ;;
      commit ;;
      print "Status updated successfully").

Definition change_status
           (flight_number flight_date new_status reply : string) : M unit :=
  try_except (change_status_body flight_number flight_date new_status reply) report.

Definition change_captain_body
           (flight_number flight_date : string) (new_pilot_id : Z) (reply : string)
  : M unit :=
  flight_date <- lift (validate_date flight_date) ;;
  get_connection (
    pilot <- query (select_pilot new_pilot_id) ;;
    pilot <- match pilot with
             | None => raise (ValidationError
                                ("Pilot with ID " ++ Py.str_of_int new_pilot_id
                                 ++ " not found"))
             | Some p => ret p
             end ;;
    (if negb (String.eqb (p_rank pilot) "Captain")
     then raise (ValidationError
                   (p_first_name pilot ++ " " ++ p_last_name pilot
                    ++ " is not a Captain"))
     else ret tt) ;;
    begin ;;
    flight <- _load_flight flight_number flight_date ;;
    let proposed :=
      with_captain flight (p_first_name pilot ++ " " ++ p_last_name pilot)
                   new_pilot_id in
    format_preview (items flight) (items proposed) ;;
    yes <- confirm_action reply ;;
    if negb yes then
      rollback ;;
      print "Captain change cancelled."
    else
      execute "CrewAssignment"
        (no_result (delete_CrewAssignment (v_flight_id flight) "Captain")) ;;
      execute "CrewAssignment"
        (no_result (insert_CrewAssignment (v_flight_id flight) new_pilot_id
                                          "Captain")) ;;
      commit ;;
      print "Captain reassigned successfully").

Definition change_captain
           (flight_number flight_date : string) (new_pilot_id : Z) (reply : string)
  : M unit :=
  try_except (change_captain_body flight_number flight_date new_pilot_id reply)
             report.

Definition change_first_officer_body
           (flight_number flight_date : string) (new_pilot_id : Z) (reply : string)
  : M unit :=
  flight_date <- lift (validate_date flight_date) ;;
  get_connection (
    pilot <- query (select_pilot new_pilot_id) ;;
    pilot <- match pilot with
             | None => raise (ValidationError
                                ("Pilot with ID " ++ Py.str_of_int new_pilot_id
                                 ++ " not found"))
             | Some p => ret p
             end ;;
    (if negb (String.eqb (p_rank pilot) "First Officer")
     then raise (ValidationError
                   (p_first_name pilot ++ " " ++ p_last_name pilot
                    ++ " is not a First Officer"))
     else ret tt) ;;
    begin ;;
    flight <- _load_flight flight_number flight_date ;;
    let proposed :=
      with_fo flight (p_first_name pilot ++ " " ++ p_last_name pilot)
              new_pilot_id in
    format_preview (items flight) (items proposed) ;;
    yes <- confirm_action reply ;;
    if negb yes then
      rollback ;;
      print "First Officer change cancelled"
    else
      execute "CrewAssignment"
        (no_result (delete_CrewAssignment (v_flight_id flight) "First Officer")) ;;
      execute "CrewAssignment"
        (no_result (insert_CrewAssignment (v_flight_id flight) new_pilot_id
                                          "First Officer")) ;;
      commit ;;
      print "First Officer changed successfully").

Definition change_first_officer
           (flight_number flight_date : string) (new_pilot_id : Z) (reply : string)
  : M unit :=
  try_except (change_first_officer_body flight_number flight_date new_pilot_id reply)
             report.

End queries.

(** ** [queries_add.py] *)

Module queries_add.
Import models utils database Sqlite.

(** The value a variable holds after the assignment [x = validate(x)]
    has been attempted: the validated text if the validator returned. *)
Definition assigned (r : res string) (before : string) : string :=
  match r with
  | inr v => v
  | inl _ => before
  end.

(** The three [except] clauses of the [add_*] functions and of
    [assign_captain]; [conflict] is the text of the second. *)
Definition report_add (conflict : string) (e : exn) : option (M unit) :=
  match e with
  | ValidationError _ => Some (print (exn_str e))
  | IntegrityError _ => Some (print conflict)
  | DatabaseError _ => Some (print (exn_str e))
  | _ => None
  end.

Definition add_airport_body (code name city country : string) (utc_offset : Q)
           (tz_name : string) : M unit :=
  code <- lift (validate_airport_code code) ;;
  get_connection (
    execute "Airport"
      (no_result (insert_Airport
                    {| a_airport_code := code; a_name := name; a_city := city;
                       a_country := country; a_utc_offset := utc_offset;
                       a_tz_name := tz_name |})) ;;
    commit ;;
    print ("Airport  " ++ code ++ " - " ++ name ++ "  added successfully")).

Definition add_airport (code name city country : string) (utc_offset : Q)
           (tz_name : string) : M unit :=
  try_except
    (add_airport_body code name city country utc_offset tz_name)
    (report_add ("Airport " ++ assigned (validate_airport_code code) code
                 ++ " already exists")).

(** [SELECT 1 FROM Airport WHERE airport_code=?] *)
Fixpoint check_airports (codes : list string) : M unit :=
  match codes with
  | [] => ret tt
  | code :: rest =>
      found <- query (fun db => has_airport db code) ;;
      (if negb found
       then raise (ValidationError ("Airport " ++ code ++ " not found"))
       else ret tt) ;;
      check_airports rest
  end.

Definition add_route_body (origin dest : string) (distance_km : Q)
           (flight_duration_mins : Z) : M unit :=
  origin <- lift (validate_airport_code origin) ;;
  dest <- lift (validate_airport_code dest) ;;
  distance_km <- lift (validate_positive_number distance_km "Distance") ;;
  mins <- lift (validate_positive_number (inject_Z flight_duration_mins)
                                         "Flight duration") ;;
  let flight_duration_mins := Py.int_of_number mins in
  (if String.eqb origin dest
   then raise (ValidationError "Origin and destination must be different")
   else ret tt) ;;
  get_connection (
    check_airports [origin; dest] ;;
    execute "Route" (insert_Route origin dest distance_km flight_duration_mins) ;;
    commit ;;
    print ("Route " ++ origin ++ " -> " ++ dest ++ " added successfully")).

Definition add_route (origin dest : string) (distance_km : Q)
           (flight_duration_mins : Z) : M unit :=
  try_except
    (add_route_body origin dest distance_km flight_duration_mins)
    (report_add ("Route " ++ assigned (validate_airport_code origin) origin
                 ++ " -> " ++ assigned (validate_airport_code dest) dest
                 ++ " already exists")).

Definition add_pilot_body (licence first_name last_name rank hire_date : string)
  : M unit :=
  rank <- lift (validate_rank rank) ;;
  hire_date <- lift (validate_date hire_date) ;;
  licence <- lift (validate_licence_number licence) ;;
  get_connection (
    execute "Pilot"
      (no_result (insert_Pilot licence first_name last_name rank hire_date)) ;;
    commit ;;
    print (rank ++ " " ++ first_name ++ " " ++ last_name
           ++ " added successfully. Happy flying")).

Definition add_pilot (licence first_name last_name rank hire_date : string)
  : M unit :=
  try_except
    (add_pilot_body licence first_name last_name rank hire_date)
    (report_add ("Licence " ++ assigned (validate_licence_number licence) licence
                 ++ " already exists")).

Definition add_flight_body (flight_number flight_date : string) (route_id : Z)
           (sched_dep_utc sched_arr_utc status : string) : M unit :=
  flight_date <- lift (validate_date flight_date) ;;
  sched_dep_utc <- lift (validate_datetime sched_dep_utc) ;;
  sched_arr_utc <- lift (validate_datetime sched_arr_utc) ;;
  status <- lift (validate_flight_status status) ;;
  flight_number <- lift (validate_flight_number flight_number) ;;
  (if Py.str_geb sched_dep_utc sched_arr_utc
   then raise (ValidationError "Departure time must be before arrival time!")
   else ret tt) ;;
  get_connection (
    route <- query (fun db => hd_error (filter (fun r => r_route_id r =? route_id)
                                               (Route db))) ;;
    route <- match route with
             | None => raise (ValidationError
                                ("Route ID " ++ Py.str_of_int route_id
                                 ++ " not found"))
             | Some r => ret r
             end ;;
    sid <- query (queries.select_status status) ;;
    sid <- match sid with
           | None => raise (TypeError "'NoneType' object is not subscriptable")
           | Some row => ret (s_status_id row)
           end ;;
    execute "Flight"
      (no_result (insert_Flight flight_number flight_date route_id
                                sched_dep_utc sched_arr_utc sid)) ;;
    commit ;;
    print ("Flight " ++ flight_number ++ " on " ++ flight_date ++ " ("
           ++ r_origin_code route ++ " -> " ++ r_dest_code route
           ++ ") added successfully")).

Definition add_flight (flight_number flight_date : string) (route_id : Z)
           (sched_dep_utc sched_arr_utc status : string) : M unit :=
  try_except
    (add_flight_body flight_number flight_date route_id sched_dep_utc
                     sched_arr_utc status)
    (report_add
       ("Flight "
        ++ (match validate_date flight_date, validate_datetime sched_dep_utc,
                  validate_datetime sched_arr_utc, validate_flight_status status
            with
            | inr _, inr _, inr _, inr _ =>
                assigned (validate_flight_number flight_number) flight_number
            | _, _, _, _ => flight_number
            end)
        ++ " on " ++ assigned (validate_date flight_date) flight_date
        ++ " already exists")).

Definition assign_captain_body (flight_id pilot_id : Z) : M unit :=
  get_connection (
    flight <- query (fun db => hd_error (filter (fun f => f_flight_id f =? flight_id)
                                                (Flight db))) ;;
    flight <- match flight with
              | None => raise (ValidationError
                                 ("Flight ID " ++ Py.str_of_int flight_id
                                  ++ " not found"))
              | Some f => ret f
              end ;;
    pilot <- query (queries.select_pilot pilot_id) ;;
    pilot <- match pilot with
             | None => raise (ValidationError
                                ("Pilot ID " ++ Py.str_of_int pilot_id
                                 ++ " not found"))
             | Some p => ret p
             end ;;
    (if negb (String.eqb (p_rank pilot) "Captain")
     then raise (ValidationError
                   (p_first_name pilot ++ " " ++ p_last_name pilot
                    ++ " is not a Captain"))
     else ret tt) ;;
    execute "CrewAssignment"
      (no_result (delete_CrewAssignment flight_id "Captain")) ;;
    execute "CrewAssignment"
      (no_result (insert_CrewAssignment flight_id pilot_id "Captain")) ;;
    commit ;;
    print ("Captain " ++ p_first_name pilot ++ " " ++ p_last_name pilot
           ++ " assigned to flight " ++ f_flight_number flight ++ " on "
           ++ f_flight_date flight)).

Definition assign_captain (flight_id pilot_id : Z) : M unit :=
  try_except
    (assign_captain_body flight_id pilot_id)
    (report_add "Assignment failed - pilot may already be assigned to this flight").

End queries_add.

(** ** The operations of the program that write *)

Inductive command : Type :=
| ChangeRoute (flight_number flight_date new_origin new_dest reply : string)
| ChangeTimes (flight_number flight_date new_dep new_arr reply : string)
| ChangeStatus (flight_number flight_date new_status reply : string)
| ChangeCaptain (flight_number flight_date : string) (new_pilot_id : Z) (reply : string)
| ChangeFirstOfficer (flight_number flight_date : string) (new_pilot_id : Z)
                     (reply : string)
| AddAirport (code name city country : string) (utc_offset : Q) (tz_name : string)
| AddRoute (origin dest : string) (distance_km : Q) (flight_duration_mins : Z)
| AddPilot (licence first_name last_name rank hire_date : string)
| AddFlight (flight_number flight_date : string) (route_id : Z)
            (sched_dep_utc sched_arr_utc status : string)
| AssignCaptain (flight_id pilot_id : Z).

Definition run (c : command) : M unit :=
  match c with
  | ChangeRoute n d o t r => queries.change_route n d o t r
  | ChangeTimes n d a b r => queries.change_times n d a b r
  | ChangeStatus n d s r => queries.change_status n d s r
  | ChangeCaptain n d p r => queries.change_captain n d p r
  | ChangeFirstOfficer n d p r => queries.change_first_officer n d p r
  | AddAirport c n ci co u t => queries_add.add_airport c n ci co u t
  | AddRoute o d k m => queries_add.add_route o d k m
  | AddPilot l f n r h => queries_add.add_pilot l f n r h
  | AddFlight n d r a b s => queries_add.add_flight n d r a b s
  | AssignCaptain f p => queries_add.assign_captain f p
  end.

(** ** Reading an operation

    Pure counterparts of the two steps every [change_*] function shares:
    what [_load_flight] finds, and how the reply to the prompt is read. *)

Definition find_flight (flight_number flight_date : string) (db : DB)
  : res FlightDetails :=
  match models.validate_flight_number flight_number with
  | inl e => inl e
  | inr number =>
      match hd_error
              (filter (fun v => String.eqb (v_flight_number v) number
                                && String.eqb (v_flight_date v) flight_date)
                      (Sqlite.v_flight_details db))
      with
      | None => inl (ValidationError ("No flight found for " ++ number
                                      ++ " on " ++ flight_date))
      | Some r => inr r
      end
  end.

Definition says_yes (reply : string) : bool :=
  String.eqb (Py.lower (Py.strip reply)) "y".

(** The reply a command carries, when it is one of the five that ask. *)
Definition reply_of (c : command) : option string :=
  match c with
  | ChangeRoute _ _ _ _ r | ChangeTimes _ _ _ _ r | ChangeStatus _ _ _ r
  | ChangeCaptain _ _ _ r | ChangeFirstOfficer _ _ _ r => Some r
  | _ => None
  end.

(** The prompt of [confirm_action]. *)
Definition asked : event := Prompt "Apply changes? (y/n): ".

(** The rows of one flight in one role. *)
Definition crew_in_role (flight : Z) (role : string) (db : DB) : list CrewRow :=
  filter (fun c => (ca_flight_id c =? flight) && String.eqb (ca_role c) role)
         (CrewAssignment db).

(** No two rows of [CrewAssignment] share flight and role. *)
Definition crew_role_unique (db : DB) : Prop :=
  NoDup (map (fun c => (ca_flight_id c, ca_role c)) (CrewAssignment db)).

(** The databases the program can leave on disk: the seed, and what a
    command leaves when run on one of them. *)
Inductive reachable : DB -> Prop :=
| reachable_seed : reachable database.seed
| reachable_run (c : command) (db : DB) :
    reachable db -> reachable (persisted (run c) db).

(** What a validator raises is a [ValidationError]. *)
Definition raises_validation {A : Type} (r : res A) : Prop :=
  forall e, r = inl e -> exists msg, e = ValidationError msg.

(** An operation refused on a validation failure before it wrote: its
    suite raises a [ValidationError], which the operation prints and returns
    from; no INSERT, UPDATE or DELETE was executed and the file is as it
    was. *)
Definition refused_unwritten (body op : M unit) (db : DB) : Prop :=
  (exists msg, result body db = inl (ValidationError msg)
               /\ In (Print msg) (events op db))
  /\ result op db = inr tt
  /\ persisted op db = db
  /\ forall table, ~ In (Write table) (events op db).

(** The suite under [try:] of each command. *)
Definition body_of (c : command) : M unit :=
  match c with
  | ChangeRoute n d o t r => queries.change_route_body n d o t r
  | ChangeTimes n d a b r => queries.change_times_body n d a b r
  | ChangeStatus n d s r => queries.change_status_body n d s r
  | ChangeCaptain n d p r => queries.change_captain_body n d p r
  | ChangeFirstOfficer n d p r => queries.change_first_officer_body n d p r
  | AddAirport c n ci co u t => queries_add.add_airport_body c n ci co u t
  | AddRoute o d k m => queries_add.add_route_body o d k m
  | AddPilot l f n r h => queries_add.add_pilot_body l f n r h
  | AddFlight n d r a b s => queries_add.add_flight_body n d r a b s
  | AssignCaptain f p => queries_add.assign_captain_body f p
  end.

(** [after] has exactly one route more than [before]: the placeholder
    route from [origin] to [dest], under a key no route of [before] has. *)
Definition one_route_created (before after : DB) (origin dest : string) (id : Z)
  : Prop :=
  ~ In id (map r_route_id (Route before))
  /\ Route after
     = (Route before
        ++ [{| r_route_id := id; r_origin_code := origin; r_dest_code := dest;
               r_distance_km := 0 # 1; r_flight_duration_mins := 0 |}])%list.

(** The flight with key [flight] is stored, and stored on route [route]. *)
Definition flight_on_route (db : DB) (flight route : Z) : Prop :=
  (exists f, In f (Flight db) /\ f_flight_id f = flight)
  /\ forall f, In f (Flight db) -> f_flight_id f = flight -> f_route_id f = route.

(** The operation went through: its suite returned and it committed. *)
Definition completed (body op : M unit) (db : DB) : Prop :=
  result body db = inr tt /\ In Commit (events op db).

(** The row of [Flight] that [_load_flight] reads for a number and a date:
    the first with them whose route and status are stored. *)
Definition stored_flight (number date : string) (db : DB) : option FlightRow :=
  find (fun f => String.eqb (f_flight_number f) number
                 && String.eqb (f_flight_date f) date
                 && (Sqlite.has_route db (f_route_id f)
                     && Sqlite.has_status db (f_status_id f)))
       (Flight db).

(** The rows one flight contributes to the view. *)
Definition view_rows_of (db : DB) (f : FlightRow) : list FlightDetails :=
  flat_map (fun r =>
  flat_map (fun fs =>
  flat_map (fun cap =>
  map (fun fo =>
         {| v_flight_id := f_flight_id f;
            v_flight_number := f_flight_number f;
            v_flight_date := f_flight_date f;
            v_sched_dep_utc := f_sched_dep_utc f;
            v_sched_arr_utc := f_sched_arr_utc f;
            v_status_name := s_status_name fs;
            v_origin_code := r_origin_code r;
            v_dest_code := r_dest_code r;
            v_captain_name := option_map Sqlite.full_name cap;
            v_captain_id := option_map p_pilot_id cap;
            v_fo_name := option_map Sqlite.full_name fo;
            v_fo_id := option_map p_pilot_id fo |})
      (Sqlite.crew_of db f "First Officer"))
      (Sqlite.crew_of db f "Captain"))
      (filter (fun fs => s_status_id fs =? f_status_id f) (FlightStatus db)))
      (filter (fun r => r_route_id r =? f_route_id f) (Route db)).

(** ** Dates and timestamps, as the specification writes them *)

Definition num2 (a b : ascii) : Z := 10 * Py.digit_value a + Py.digit_value b.

Definition num4 (a b c e : ascii) : Z :=
  10 * (10 * (10 * Py.digit_value a + Py.digit_value b) + Py.digit_value c)
  + Py.digit_value e.

(** The fixed pattern [YYYY-MM-DD]: ten characters, digits around two
    hyphens. *)
Definition fixed_date_shape (s : string) : bool :=
  match s with
  | String y1 (String y2 (String y3 (String y4 (String s1
      (String m1 (String m2 (String s2 (String d1 (String d2 EmptyString))))))))) =>
      Py.isdigit_char y1 && Py.isdigit_char y2 && Py.isdigit_char y3
      && Py.isdigit_char y4 && Ascii.eqb s1 "-"
      && Py.isdigit_char m1 && Py.isdigit_char m2 && Ascii.eqb s2 "-"
      && Py.isdigit_char d1 && Py.isdigit_char d2
  | _ => false
  end.

(** A timestamp in the fixed pattern [YYYY-MM-DD HH:MM], sixteen characters,
    that denotes a date of the calendar (from year 1) and a time of the day,
    read field by field. *)
Definition fixed_datetime (s : string) : option Strptime.datetime :=
  match s with
  | String y1 (String y2 (String y3 (String y4 (String s1
      (String m1 (String m2 (String s2 (String d1 (String d2 (String s3
        (String h1 (String h2 (String s4 (String n1 (String n2 EmptyString)))))))))))))))
    =>
      if Py.isdigit_char y1 && Py.isdigit_char y2 && Py.isdigit_char y3
         && Py.isdigit_char y4 && Ascii.eqb s1 "-"
         && Py.isdigit_char m1 && Py.isdigit_char m2 && Ascii.eqb s2 "-"
         && Py.isdigit_char d1 && Py.isdigit_char d2 && Ascii.eqb s3 " "
         && Py.isdigit_char h1 && Py.isdigit_char h2 && Ascii.eqb s4 ":"
         && Py.isdigit_char n1 && Py.isdigit_char n2
         && Strptime.date_ok (num4 y1 y2 y3 y4) (num2 m1 m2) (num2 d1 d2)
         && (num2 h1 h2 <=? 23) && (num2 n1 n2 <=? 59)
      then Some {| Strptime.year := num4 y1 y2 y3 y4;
                   Strptime.month := num2 m1 m2;
                   Strptime.day := num2 d1 d2;
                   Strptime.hour := num2 h1 h2;
                   Strptime.minute := num2 n1 n2 |}
      else None
  | _ => None
  end.

(** Strictly earlier, on the calendar and the clock. *)
Definition earlier (a b : Strptime.datetime) : Prop :=
  Strptime.year a < Strptime.year b
  \/ Strptime.year a = Strptime.year b
     /\ (Strptime.month a < Strptime.month b
         \/ Strptime.month a = Strptime.month b
            /\ (Strptime.day a < Strptime.day b
                \/ Strptime.day a = Strptime.day b
                   /\ (Strptime.hour a < Strptime.hour b
                       \/ Strptime.hour a = Strptime.hour b
                          /\ Strptime.minute a < Strptime.minute b))).

(** A run of digits, between [lo] and [hi] of them. *)
Definition numeral (lo hi : nat) (s : string) : Prop :=
  Py.all_chars Py.isdigit_char s = true
  /\ (lo <= String.length s <= hi)%nat.

(** The day of the month as the pattern of [%d] reads it: one or two
    digits, or a blank and a digit. *)
Definition day_text (s : string) : Prop :=
  numeral 1 2 s
  \/ exists c, s = String " " (String c EmptyString) /\ Py.isdigit_char c = true.

(** The dates [strptime] reads with [%Y-%m-%d]: a year of four digits, a
    month of one or two, a day, hyphens between them, naming a date of the
    calendar from year 1 on. *)
Definition lenient_date (s : string) : Prop :=
  exists Y M D,
    s = Y ++ "-" ++ M ++ "-" ++ D
    /\ numeral 4 4 Y /\ numeral 1 2 M /\ day_text D
    /\ Strptime.date_ok (Py.int Y) (Py.int M) (Py.int D) = true.

Definition starts_with_digit (s : string) : bool :=
  match s with
  | String c _ => Py.isdigit_char c
  | EmptyString => false
  end.

(** The flight with key [flight] is stored, with these two timestamps. *)
Definition flight_scheduled (db : DB) (flight : Z) (dep arr : string) : Prop :=
  (exists f, In f (Flight db) /\ f_flight_id f = flight)
  /\ forall f, In f (Flight db) -> f_flight_id f = flight ->
               f_sched_dep_utc f = dep /\ f_sched_arr_utc f = arr.

From Stdlib Require Import Permutation Sorted.

(** ** What a command commits

    [commits c db db']: the checks that command [c] makes on the file [db]
    before it reaches [conn.commit()] all pass, and its statements turn [db]
    into [db']. *)

Inductive commits : command -> DB -> DB -> Prop :=
| commits_change_route
    (flight_number flight_date new_origin new_dest reply origin dest date : string)
    (flight : FlightDetails) (r : RouteRow) (db db' : DB)
    (Vo : models.validate_airport_code new_origin = inr origin)
    (Vd : models.validate_airport_code new_dest = inr dest)
    (Vdate : models.validate_date flight_date = inr date)
    (Found : find_flight flight_number date db = inr flight)
    (Yes : says_yes reply = true)
    (Route_found : queries.select_route origin dest db = Some r)
    (Stmt : Sqlite.update_Flight_route (r_route_id r) (v_flight_id flight) db
            = inr db') :
    commits (ChangeRoute flight_number flight_date new_origin new_dest reply) db db'
| commits_change_route_new
    (flight_number flight_date new_origin new_dest reply origin dest date : string)
    (flight : FlightDetails) (id : Z) (db db1 db' : DB)
    (Vo : models.validate_airport_code new_origin = inr origin)
    (Vd : models.validate_airport_code new_dest = inr dest)
    (Vdate : models.validate_date flight_date = inr date)
    (Found : find_flight flight_number date db = inr flight)
    (Yes : says_yes reply = true)
    (No_route : queries.select_route origin dest db = None)
    (Stmt1 : Sqlite.insert_Route origin dest (0 # 1) 0 db = inr (id, db1))
    (Stmt : Sqlite.update_Flight_route id (v_flight_id flight) db1 = inr db') :
    commits (ChangeRoute flight_number flight_date new_origin new_dest reply) db db'
| commits_change_times
    (flight_number flight_date new_dep new_arr reply dep arr date : string)
    (flight : FlightDetails) (db db' : DB)
    (Vdep : models.validate_datetime new_dep = inr dep)
    (Varr : models.validate_datetime new_arr = inr arr)
    (Vdate : models.validate_date flight_date = inr date)
    (Order : Py.str_geb dep arr = false)
    (Found : find_flight flight_number date db = inr flight)
    (Yes : says_yes reply = true)
    (Stmt : Sqlite.update_Flight_times dep arr (v_flight_id flight) db = inr db') :
    commits (ChangeTimes flight_number flight_date new_dep new_arr reply) db db'
| commits_change_status
    (flight_number flight_date new_status reply status date : string)
    (row : StatusRow) (flight : FlightDetails) (db db' : DB)
    (Vs : models.validate_flight_status new_status = inr status)
    (Vdate : models.validate_date flight_date = inr date)
    (Status_found : queries.select_status status db = Some row)
    (Found : find_flight flight_number date db = inr flight)
    (Yes : says_yes reply = true)
    (Stmt : Sqlite.update_Flight_status (s_status_id row) (v_flight_id flight) db
            = inr db') :
    commits (ChangeStatus flight_number flight_date new_status reply) db db'
| commits_change_captain
    (flight_number flight_date : string) (new_pilot_id : Z) (reply date : string)
    (pilot : PilotRow) (flight : FlightDetails) (db db1 db' : DB)
    (Vdate : models.validate_date flight_date = inr date)
    (Pilot_found : queries.select_pilot new_pilot_id db = Some pilot)
    (Rank : p_rank pilot = "Captain")
    (Found : find_flight flight_number date db = inr flight)
    (Yes : says_yes reply = true)
    (Stmt1 : Sqlite.delete_CrewAssignment (v_flight_id flight) "Captain" db
             = inr db1)
    (Stmt : Sqlite.insert_CrewAssignment (v_flight_id flight) new_pilot_id
                                         "Captain" db1 = inr db') :
    commits (ChangeCaptain flight_number flight_date new_pilot_id reply) db db'
| commits_change_first_officer
    (flight_number flight_date : string) (new_pilot_id : Z) (reply date : string)
    (pilot : PilotRow) (flight : FlightDetails) (db db1 db' : DB)
    (Vdate : models.validate_date flight_date = inr date)
    (Pilot_found : queries.select_pilot new_pilot_id db = Some pilot)
    (Rank : p_rank pilot = "First Officer")
    (Found : find_flight flight_number date db = inr flight)
    (Yes : says_yes reply = true)
    (Stmt1 : Sqlite.delete_CrewAssignment (v_flight_id flight) "First Officer" db
             = inr db1)
    (Stmt : Sqlite.insert_CrewAssignment (v_flight_id flight) new_pilot_id
                                         "First Officer" db1 = inr db') :
    commits (ChangeFirstOfficer flight_number flight_date new_pilot_id reply) db db'
| commits_add_airport
    (code name city country : string) (utc_offset : Q) (tz_name valid : string)
    (db db' : DB)
    (Vc : models.validate_airport_code code = inr valid)
    (Stmt : Sqlite.insert_Airport
              {| a_airport_code := valid; a_name := name; a_city := city;
                 a_country := country; a_utc_offset := utc_offset;
                 a_tz_name := tz_name |} db = inr db') :
    commits (AddAirport code name city country utc_offset tz_name) db db'
| commits_add_route
    (origin dest : string) (distance_km : Q) (flight_duration_mins : Z)
    (o dst : string) (id : Z) (db db' : DB)
    (Vo : models.validate_airport_code origin = inr o)
    (Vd : models.validate_airport_code dest = inr dst)
    (Distance : Qle_bool distance_km 0 = false)
    (Duration : Qle_bool (inject_Z flight_duration_mins) 0 = false)
    (Differ : String.eqb o dst = false)
    (Origin_found : Sqlite.has_airport db o = true)
    (Dest_found : Sqlite.has_airport db dst = true)
    (Stmt : Sqlite.insert_Route o dst distance_km
              (Py.int_of_number (inject_Z flight_duration_mins)) db
            = inr (id, db')) :
    commits (AddRoute origin dest distance_km flight_duration_mins) db db'
| commits_add_pilot
    (licence first_name last_name rank hire_date valid_licence valid_rank date : string)
    (db db' : DB)
    (Vr : models.validate_rank rank = inr valid_rank)
    (Vdate : models.validate_date hire_date = inr date)
    (Vl : models.validate_licence_number licence = inr valid_licence)
    (Stmt : Sqlite.insert_Pilot valid_licence first_name last_name valid_rank date db
            = inr db') :
    commits (AddPilot licence first_name last_name rank hire_date) db db'
| commits_add_flight
    (flight_number flight_date : string) (route_id : Z)
    (sched_dep_utc sched_arr_utc status number date dep arr valid_status : string)
    (route : RouteRow) (row : StatusRow) (db db' : DB)
    (Vdate : models.validate_date flight_date = inr date)
    (Vdep : models.validate_datetime sched_dep_utc = inr dep)
    (Varr : models.validate_datetime sched_arr_utc = inr arr)
    (Vs : models.validate_flight_status status = inr valid_status)
    (Vn : models.validate_flight_number flight_number = inr number)
    (Order : Py.str_geb dep arr = false)
    (Route_found : hd_error (filter (fun r => r_route_id r =? route_id) (Route db))
                   = Some route)
    (Status_found : queries.select_status valid_status db = Some row)
    (Stmt : Sqlite.insert_Flight number date route_id dep arr (s_status_id row) db
            = inr db') :
    commits (AddFlight flight_number flight_date route_id sched_dep_utc
                       sched_arr_utc status) db db'
| commits_assign_captain
    (flight_id pilot_id : Z) (f : FlightRow) (pilot : PilotRow) (db db1 db' : DB)
    (Flight_found : hd_error (filter (fun f => f_flight_id f =? flight_id) (Flight db))
                    = Some f)
    (Pilot_found : queries.select_pilot pilot_id db = Some pilot)
    (Rank : p_rank pilot = "Captain")
    (Stmt1 : Sqlite.delete_CrewAssignment flight_id "Captain" db = inr db1)
    (Stmt : Sqlite.insert_CrewAssignment flight_id pilot_id "Captain" db1
            = inr db') :
    commits (AssignCaptain flight_id pilot_id) db db'.

(** ** Integrity of the stored data

    What the constraints of [_create_tables] and the checks of the
    operations keep true of the file. *)

(** PRIMARY KEY: no two rows of a table share their key. *)
Definition keys_unique (db : DB) : Prop :=
  NoDup (map a_airport_code (Airport db))
  /\ NoDup (map r_route_id (Route db))
  /\ NoDup (map p_pilot_id (Pilot db))
  /\ NoDup (map s_status_id (FlightStatus db))
  /\ NoDup (map f_flight_id (Flight db))
  /\ NoDup (map (fun c => (ca_flight_id c, ca_pilot_id c)) (CrewAssignment db)).

(** UNIQUE: one route per pair of airports, one flight per number and
    date, one pilot per licence (compared trimmed and in upper case), one
    status per name. *)
Definition no_duplicates (db : DB) : Prop :=
  NoDup (map (fun r => (r_origin_code r, r_dest_code r)) (Route db))
  /\ NoDup (map (fun f => (f_flight_number f, f_flight_date f)) (Flight db))
  /\ NoDup (map (fun p => Sqlite.licence_key (p_licence_no p)) (Pilot db))
  /\ NoDup (map s_status_name (FlightStatus db)).

(** FOREIGN KEY: every reference names a stored row. *)
Definition references_hold (db : DB) : Prop :=
  (forall r, In r (Route db) ->
             Sqlite.has_airport db (r_origin_code r) = true
             /\ Sqlite.has_airport db (r_dest_code r) = true)
  /\ (forall f, In f (Flight db) ->
                Sqlite.has_route db (f_route_id f) = true
                /\ Sqlite.has_status db (f_status_id f) = true)
  /\ (forall c, In c (CrewAssignment db) ->
                Sqlite.has_flight db (ca_flight_id c) = true
                /\ Sqlite.has_pilot db (ca_pilot_id c) = true).

(** The role a pilot has on a flight is the pilot's rank. *)
Definition crew_ranked (db : DB) : Prop :=
  forall c p, In c (CrewAssignment db) -> In p (Pilot db) ->
              p_pilot_id p = ca_pilot_id c -> ca_role c = p_rank p.

(** Departure before arrival: as Python compares the two texts, and as
    the CHECK of [Flight] does. *)
Definition times_ordered (db : DB) : Prop :=
  forall f, In f (Flight db) ->
            Py.str_ltb (f_sched_dep_utc f) (f_sched_arr_utc f) = true
            /\ Sqlite.check_arrival_after_departure
                 (f_sched_dep_utc f) (f_sched_arr_utc f) = true.

(** Every stored text is one its validator returns unchanged. *)
Definition values_valid (db : DB) : Prop :=
  (forall a, In a (Airport db) ->
             models.validate_airport_code (a_airport_code a)
             = inr (a_airport_code a))
  /\ (forall r, In r (Route db) ->
                models.validate_airport_code (r_origin_code r)
                = inr (r_origin_code r)
                /\ models.validate_airport_code (r_dest_code r)
                   = inr (r_dest_code r))
  /\ (forall p, In p (Pilot db) ->
                models.validate_rank (p_rank p) = inr (p_rank p)
                /\ models.validate_licence_number (p_licence_no p)
                   = inr (p_licence_no p)
                /\ models.validate_date (p_hire_date p) = inr (p_hire_date p))
  /\ (forall s, In s (FlightStatus db) ->
                models.validate_flight_status (s_status_name s)
                = inr (s_status_name s))
  /\ (forall f, In f (Flight db) ->
                models.validate_flight_number (f_flight_number f)
                = inr (f_flight_number f)
                /\ models.validate_date (f_flight_date f) = inr (f_flight_date f)
                /\ models.validate_datetime (f_sched_dep_utc f)
                   = inr (f_sched_dep_utc f)
                /\ models.validate_datetime (f_sched_arr_utc f)
                   = inr (f_sched_arr_utc f)).

Definition consistent (db : DB) : Prop :=
  keys_unique db /\ no_duplicates db /\ references_hold db
  /\ crew_role_unique db /\ crew_ranked db /\ times_ordered db
  /\ values_valid db /\ FlightStatus db = database.statuses.

(** [db'] has everything [db] has: the same airports, routes and pilots
    and maybe more, the same statuses, the same flights under the same key,
    number and date and maybe more, and a pilot in every role of every flight
    that has one in [db]. *)
Definition grows (db db' : DB) : Prop :=
  (exists more, Airport db' = (Airport db ++ more)%list)
  /\ (exists more, Route db' = (Route db ++ more)%list)
  /\ (exists more, Pilot db' = (Pilot db ++ more)%list)
  /\ FlightStatus db' = FlightStatus db
  /\ (exists more,
         map (fun f => (f_flight_id f, f_flight_number f, f_flight_date f))
             (Flight db')
         = (map (fun f => (f_flight_id f, f_flight_number f, f_flight_date f))
                (Flight db) ++ more)%list)
  /\ (forall flight role,
         crew_in_role flight role db <> [] -> crew_in_role flight role db' <> []).

(** ** Integers SQLite can bind *)

(** An INTEGER of SQLite has 64 bits, signed: [sqlite3] binds a Python [int]
    within them and raises [OverflowError] on any other, an exception that
    neither [get_connection] nor the operations catch. *)
Definition int64 (n : Z) : bool := (- 2 ^ 63 <=? n) && (n <? 2 ^ 63).

(** The integers a command passes to its statements are all such. *)
Definition binds (c : command) : bool :=
  match c with
  | ChangeCaptain _ _ new_pilot_id _ => int64 new_pilot_id
  | ChangeFirstOfficer _ _ new_pilot_id _ => int64 new_pilot_id
  | AddRoute _ _ _ flight_duration_mins => int64 flight_duration_mins
  | AddFlight _ _ route_id _ _ _ => int64 route_id
  | AssignCaptain flight_id pilot_id => int64 flight_id && int64 pilot_id
  | _ => true
  end.

(** ** The row of the view for one flight

    What the joins of [v_flight_details] look up for a flight: its route,
    its status, and the pilot it has in a role, if any. *)

Definition route_of (db : DB) (f : FlightRow) : option RouteRow :=
  hd_error (filter (fun r => r_route_id r =? f_route_id f) (Route db)).

Definition status_of (db : DB) (f : FlightRow) : option StatusRow :=
  hd_error (filter (fun s => s_status_id s =? f_status_id f) (FlightStatus db)).

Definition pilot_in_role (db : DB) (f : FlightRow) (role : string) : option PilotRow :=
  match hd_error (crew_in_role (f_flight_id f) role db) with
  | Some c => hd_error (filter (fun p => p_pilot_id p =? ca_pilot_id c) (Pilot db))
  | None => None
  end.

Definition details (db : DB) (f : FlightRow) : option FlightDetails :=
  match route_of db f, status_of db f with
  | Some r, Some s =>
      Some {| v_flight_id := f_flight_id f;
              v_flight_number := f_flight_number f;
              v_flight_date := f_flight_date f;
              v_sched_dep_utc := f_sched_dep_utc f;
              v_sched_arr_utc := f_sched_arr_utc f;
              v_status_name := s_status_name s;
              v_origin_code := r_origin_code r;
              v_dest_code := r_dest_code r;
              v_captain_name :=
                option_map Sqlite.full_name (pilot_in_role db f "Captain");
              v_captain_id := option_map p_pilot_id (pilot_in_role db f "Captain");
              v_fo_name :=
                option_map Sqlite.full_name (pilot_in_role db f "First Officer");
              v_fo_id :=
                option_map p_pilot_id (pilot_in_role db f "First Officer") |}
  | _, _ => None
  end.

(** ** [queries.py]: [get_flights] *)

(** [ORDER BY]: rows in ascending order of a key.  SQL leaves the order of
    rows with equal keys open; here they stay in the order they had. *)
Fixpoint insert_by {A : Type} (le : A -> A -> bool) (x : A) (l : list A) : list A :=
  match l with
  | [] => [x]
  | y :: r => if le x y then x :: l else y :: insert_by le x r
  end.

Definition order_by {A : Type} (le : A -> A -> bool) (l : list A) : list A :=
  fold_right (insert_by le) [] l.

(** [a <= b] on [str], and on SQLite's TEXT under the BINARY collation. *)
Definition str_leb (a b : string) : bool := negb (Py.str_ltb b a).

(** [if x: x = validate(x)], for an optional argument: [None] and the
    empty text are false and left as they are. *)
Definition validate_filter (validate : string -> res string) (x : option string)
  : res (option string) :=
  match x with
  | Some (String _ _ as s) =>
      match validate s with
      | inr v => inr (Some v)
      | inl e => inl e
      end
  | _ => inr x
  end.

(** [(:p IS NULL OR column = :p)] *)
Definition null_or_equal (p : option string) (column : string) : bool :=
  match p with
  | None => true
  | Some s => String.eqb column s
  end.

(** The WHERE clause of [get_flights]. *)
Definition flight_matches (origin dest stat dfrom dto : option string)
           (cap : option Z) (v : FlightDetails) : bool :=
  null_or_equal origin (v_origin_code v)
  && null_or_equal dest (v_dest_code v)
  && null_or_equal stat (v_status_name v)
  && match dfrom with
     | None => true
     | Some s => str_leb s (v_flight_date v)
     end
  && match dto with
     | None => true
     | Some s => str_leb (v_flight_date v) s
     end
  && match cap with
     | None => true
     | Some id =>
         match v_captain_id v with
         | Some c => c =? id
         | None => false
         end
     end.

(** [ORDER BY flight_date, sched_dep_utc] *)
Definition by_date_and_departure (a b : FlightDetails) : bool :=
  Py.str_ltb (v_flight_date a) (v_flight_date b)
  || (String.eqb (v_flight_date a) (v_flight_date b)
      && str_leb (v_sched_dep_utc a) (v_sched_dep_utc b)).

Definition get_flights_body (origin_code dest_code status_name date_from date_to
                             : option string) (captain_id : option Z)
  : M (list FlightDetails) :=
  (origin_code <- lift (validate_filter models.validate_airport_code origin_code) ;;
   dest_code <- lift (validate_filter models.validate_airport_code dest_code) ;;
   status_name <- lift (validate_filter models.validate_flight_status status_name) ;;
   date_from <- lift (validate_filter models.validate_date date_from) ;;
   date_to <- lift (validate_filter models.validate_date date_to) ;;
   database.get_connection (
     query (fun db =>
              order_by by_date_and_departure
                (filter (flight_matches origin_code dest_code status_name
                                        date_from date_to captain_id)
                        (Sqlite.v_flight_details db)))))%monad.

Definition get_flights (origin_code dest_code status_name date_from date_to
                        : option string) (captain_id : option Z)
  : M (list FlightDetails) :=
  try_except
    (get_flights_body origin_code dest_code status_name date_from date_to captain_id)
    (fun e => match e with
              | ValidationError _ | DatabaseError _ =>
                  Some (print (exn_str e) ;; ret [])%monad
              | _ => None
              end).

(** ** [utils.py]: [format_flight_table] *)

(** ["-" * n] *)
Fixpoint repeat_char (c : ascii) (n : nat) : string :=
  match n with
  | O => EmptyString
  | S n' => String c (repeat_char c n')
  end.

(** [f"{s:^{width}}"]: the smaller half of the padding goes to the left. *)
Definition center (s : string) (width : nat) : string :=
  let pad := (width - String.length s)%nat in
  (utils.spaces (pad / 2) ++ s ++ utils.spaces (pad - pad / 2))%string.

(** [dict(flight)] for a row of [get_flights]: the columns in the order
    of its SELECT. *)
Definition row_dict (v : FlightDetails) : list (string * pyval) :=
  [("flight_id", PInt (v_flight_id v));
   ("flight_number", PStr (v_flight_number v));
   ("flight_date", PStr (v_flight_date v));
   ("origin_code", PStr (v_origin_code v));
   ("dest_code", PStr (v_dest_code v));
   ("status_name", PStr (v_status_name v));
   ("sched_dep_utc", PStr (v_sched_dep_utc v));
   ("sched_arr_utc", PStr (v_sched_arr_utc v));
   ("captain_name", utils.of_opt_str (v_captain_name v));
   ("captain_id", utils.of_opt_int (v_captain_id v));
   ("fo_name", utils.of_opt_str (v_fo_name v));
   ("fo_id", utils.of_opt_int (v_fo_id v))].

(** [d.pop(k, None)] *)
Definition pop (k : string) (d : list (string * pyval)) : list (string * pyval) :=
  filter (fun kv => negb (String.eqb (fst kv) k)) d.

Definition flight_dict (v : FlightDetails) : list (string * pyval) :=
  pop "fo_id" (pop "captain_id" (pop "flight_id" (row_dict v))).

(** [str(row.get(header, ""))] *)
Definition cell (row : list (string * pyval)) (header : string) : string :=
  match utils.dict_get header row with
  | Some v => utils.pyval_str v
  | None => EmptyString
  end.

(** [max(len(header), max(len(str(row.get(header, ""))) for row in data))] *)
Definition col_width (data : list (list (string * pyval))) (header : string) : nat :=
  Nat.max (String.length header)
          (fold_right Nat.max O (map (fun row => String.length (cell row header)) data)).

Definition table_row (widths : list nat) (cells : list string) : string :=
  ("| " ++ String.concat ""
             (map (fun cw => center (fst cw) (snd cw) ++ " | ") (combine cells widths)))
  %string.

(** The lines [format_flight_table] prints for a list of flights. *)
Definition table_lines (flights : list FlightDetails) : list string :=
  match flights with
  | [] => ["No flights found matching the criteria. Sorry!"]
  | _ =>
      let flight_data := map flight_dict flights in
      match flight_data with
      | [] => []
      | first :: _ =>
          let headers := map fst first in
          let widths := map (col_width flight_data) headers in
          let border :=
            repeat_char "-"
              (fold_right Nat.add O widths + List.length headers * 3 + 1) in
          ([utils.nl; border; table_row widths headers; border]
             ++ map (fun row => table_row widths (map (cell row) headers)) flight_data
             ++ [border;
                 (utils.nl ++ "Total flights: "
                  ++ Py.str_of_int (Z.of_nat (List.length flights)))%string])%list
      end
  end.

Definition format_flight_table (flights : list FlightDetails) : M unit :=
  utils.print_all (table_lines flights).

(** ** [queries_add.py]: [show_pilots_by_rank] *)

(** [f"{n:3d}"]: the number, set to the right in a width of three. *)
Definition rjust (s : string) (width : nat) : string :=
  (utils.spaces (width - String.length s) ++ s)%string.

(** [ORDER BY last_name, first_name] *)
Definition by_name (a b : PilotRow) : bool :=
  Py.str_ltb (p_last_name a) (p_last_name b)
  || (String.eqb (p_last_name a) (p_last_name b)
      && str_leb (p_first_name a) (p_first_name b)).

Definition pilot_line (p : PilotRow) : string :=
  ("  ID: " ++ rjust (Py.str_of_int (p_pilot_id p)) 3 ++ " - " ++ Sqlite.full_name p)
  %string.

Definition show_pilots_by_rank (rank : string) : M unit :=
  try_except
    (database.get_connection (
       pilots <- query (fun db =>
                          order_by by_name
                            (filter (fun p => String.eqb (p_rank p) rank)
                                    (Pilot db))) ;;
       utils.print_all (map pilot_line pilots)))%monad
    (fun e => Some (print ("Failed to load pilots unexpectedly: " ++ exn_str e))).

(** ** [utils.py]: [safe_input] *)

(** [int(text)] on ASCII: an optional sign, then digits, single
    underscores allowed between two digits; [None] is [ValueError]. *)
Fixpoint parse_digits (acc : Z) (after_digit : bool) (s : string) : option Z :=
  match s with
  | EmptyString => if after_digit then Some acc else None
  | String c r =>
      if Py.isdigit_char c then parse_digits (10 * acc + Py.digit_value c) true r
      else if Ascii.eqb c "_" && after_digit then parse_digits acc false r
      else None
  end.

Fixpoint count_digits (s : string) : Z :=
  match s with
  | EmptyString => 0
  | String c r => (if Py.isdigit_char c then 1 else 0) + count_digits r
  end.

(** [sys.get_int_max_str_digits()], as the interpreter starts: [int] raises
    [ValueError] on a text with more digits. *)
Definition max_str_digits : Z := 4300.

Definition int_of_text (text : string) : option Z :=
  if max_str_digits <? count_digits text then None
  else
    match Py.strip text with
    | String "-" r => option_map Z.opp (parse_digits 0 false r)
    | String "+" r => parse_digits 0 false r
    | t => parse_digits 0 false t
    end.

Inductive input_type : Type := as_str | as_int | as_float.

(** [input_type.__name__] *)
Definition type_name (t : input_type) : string :=
  match t with
  | as_str => "str"
  | as_int => "int"
  | as_float => "float"
  end.

(** What [safe_input] returns: [None], a value of the type asked for, or
    the [EOFError] of [input] when the operator has no more lines. *)
Inductive answer : Type :=
| ANone
| AStr (s : string)
| AInt (n : Z)
| AFloat (x : Q)
| AEndOfInput.

Section safe_input.
(** [float(text)], which is the interpreter's; [None] is [ValueError]. *)
Variable float_of_text : string -> option Q.

Definition convert (t : input_type) (value : string) : option answer :=
  match t with
  | as_int => option_map AInt (int_of_text value)
  | as_float => option_map AFloat (float_of_text value)
  | as_str => Some (AStr value)
  end.

(** [lines] is what the operator types, a line for each call of [input];
    the result is what happened at the terminal, the answer, and the lines
    not read. *)
Fixpoint safe_input (prompt : string) (t : input_type) (allow_blank : bool)
         (lines : list string) : list event * answer * list string :=
  match lines with
  | [] => ([Prompt prompt], AEndOfInput, [])
  | line :: rest =>
      match Py.strip line with
      | EmptyString =>
          if allow_blank then ([Prompt prompt], ANone, rest)
          else
            let '(said, a, unread) := safe_input prompt t allow_blank rest in
            (Prompt prompt :: Print "This field cannot be empty." :: said, a, unread)
      | value =>
          match convert t value with
          | Some a => ([Prompt prompt], a, rest)
          | None =>
              let '(said, a, unread) := safe_input prompt t allow_blank rest in
              (Prompt prompt
                 :: Print ("Invalid input. Please enter a valid "
                           ++ type_name t ++ ".")
                 :: said, a, unread)
          end
      end
  end.
End safe_input.

(** ** [database.py]: [initialise_tables] *)

Definition empty_db : DB :=
  {| Airport := []; Route := []; Pilot := []; FlightStatus := []; Flight := [];
     CrewAssignment := []; seq_Route := 0; seq_Pilot := 0; seq_Flight := 0 |}.

Definition set_FlightStatus (db : DB) (rows : list StatusRow) : DB :=
  {| Airport := Airport db; Route := Route db; Pilot := Pilot db;
     FlightStatus := rows; Flight := Flight db;
     CrewAssignment := CrewAssignment db;
     seq_Route := seq_Route db; seq_Pilot := seq_Pilot db;
     seq_Flight := seq_Flight db |}.

(** [INSERT INTO FlightStatus (status_id, status_name) VALUES (?, ?)] *)
Definition insert_FlightStatus (row : StatusRow) (db : DB) : res DB :=
  if negb (Py.in_list (s_status_name row) config.VALID_STATUSES)
  then inl (IntegrityError
              "CHECK constraint failed: status_name IN ('Scheduled','Boarding','Departed','Cancelled','Delayed')")
  else if Sqlite.has_status db (s_status_id row)
  then inl (IntegrityError "UNIQUE constraint failed: FlightStatus.status_id")
  else if existsb (fun s => String.eqb (s_status_name s) (s_status_name row))
                  (FlightStatus db)
  then inl (IntegrityError "UNIQUE constraint failed: FlightStatus.status_name")
  else inr (set_FlightStatus db (FlightStatus db ++ [row])%list).

(** An INSERT of several rows: all of them, or none. *)
Fixpoint insert_rows {A : Type} (insert : A -> DB -> res DB) (rows : list A)
         (db : DB) : res DB :=
  match rows with
  | [] => inr db
  | row :: rest =>
      match insert row db with
      | inr db' => insert_rows insert rest db'
      | inl e => inl e
      end
  end.

(** [conn.executescript]: the statements run one by one outside any
    transaction, so each is on the file as soon as it has succeeded. *)
Fixpoint executescript (script : list (string * (DB -> res DB))) : M unit :=
  match script with
  | [] => ret tt
  | (table, stmt) :: rest =>
      (fun w =>
         match stmt (work w) with
         | inr db' =>
             executescript rest
               {| disk := db'; work := db'; in_tx := false;
                  trace := (trace w ++ [Write table])%list |}
         | inl e =>
             (inl e, {| disk := disk w; work := work w; in_tx := false;
                        trace := (trace w ++ [Write table])%list |})
         end)
  end.

(** The seed script: one INSERT for each table, the keys of [Route],
    [Pilot] and [Flight] left to AUTOINCREMENT. *)
Definition _generate_data : M unit :=
  executescript
    [("Airport", insert_rows Sqlite.insert_Airport database.airports);
     ("Route",
      insert_rows (fun r db =>
                     match Sqlite.insert_Route (r_origin_code r) (r_dest_code r)
                             (r_distance_km r) (r_flight_duration_mins r) db with
                     | inr (_, db') => inr db'
                     | inl e => inl e
                     end) database.routes);
     ("FlightStatus", insert_rows insert_FlightStatus database.statuses);
     ("Pilot",
      insert_rows (fun p => Sqlite.insert_Pilot (p_licence_no p) (p_first_name p)
                              (p_last_name p) (p_rank p) (p_hire_date p))
                  database.pilots);
     ("Flight",
      insert_rows (fun f => Sqlite.insert_Flight (f_flight_number f)
                              (f_flight_date f) (f_route_id f) (f_sched_dep_utc f)
                              (f_sched_arr_utc f) (f_status_id f))
                  database.flights);
     ("CrewAssignment",
      insert_rows (fun c => Sqlite.insert_CrewAssignment (ca_flight_id c)
                              (ca_pilot_id c) (ca_role c))
                  database.crew)].

(** [os.remove(DB_PATH)] if the file is there: the connection that follows
    opens a new file. *)
Definition remove_file : M unit :=
  fun w => (inr tt, {| disk := empty_db; work := empty_db; in_tx := false;
                       trace := trace w |}).

(** The record [DB] has the tables of the schema built in, and a new file
    is the record with every table empty: on it the statements
    [CREATE ... IF NOT EXISTS] change nothing that the record shows. *)
Definition _create_tables : M unit := ret tt.

Definition initialise_tables : M unit :=
  (remove_file ;;
   try_except
     (database.get_connection (_create_tables ;; _generate_data ;; commit))
     (fun e => Some (print ("Database Error: " ++ exn_str e) ;; raise e)))%monad.

(** ** Timestamps, as [strptime] reads them *)

(** A run of blanks, not empty. *)
Definition blanks (s : string) : Prop :=
  s <> EmptyString /\ Py.all_chars Py.isspace_char s = true.

(** The timestamps [strptime] reads with [%Y-%m-%d %H:%M]: a date as for
    [%Y-%m-%d], blanks, an hour of one or two digits up to 23, a colon and a
    minute of one or two digits up to 59. *)
Definition lenient_datetime (s : string) : Prop :=
  exists Y M D B H N,
    s = (Y ++ "-" ++ M ++ "-" ++ D ++ B ++ H ++ ":" ++ N)%string
    /\ numeral 4 4 Y /\ numeral 1 2 M /\ day_text D /\ blanks B
    /\ numeral 1 2 H /\ numeral 1 2 N
    /\ Strptime.date_ok (Py.int Y) (Py.int M) (Py.int D) = true
    /\ Py.int H <= 23 /\ Py.int N <= 59.

(** * Properties *)

Import models utils database Sqlite queries queries_add.

Unset Implicit Arguments.

(** ** Running the monad *)

Lemma print_all_run (lines : list string) (w : world) :
  print_all lines w = (inr tt, with_trace w (trace w ++ map Print lines)%list).
Proof.
  revert w. induction lines as [|l r IH]; intros w; cbn.
  - rewrite app_nil_r. destruct w; reflexivity.
  - unfold bind, print, log. rewrite IH. cbn.
    rewrite <- app_assoc. reflexivity.
Qed.

Lemma load_flight_run (flight_number flight_date : string) (w : world) :
  _load_flight flight_number flight_date w
  = (find_flight flight_number flight_date (work w), w).
Proof.
  unfold _load_flight, find_flight, bind, lift, query.
  destruct (validate_flight_number flight_number); [reflexivity|].
  match goal with |- context [hd_error ?l] => destruct (hd_error l) end; reflexivity.
Qed.

Lemma in_prints (e : event) (lines : list string) :
  In e (map Print lines) -> exists s, e = Print s.
Proof.
  intros H. apply in_map_iff in H. destruct H as [s [H _]]. eauto.
Qed.

Ltac in_events :=
  repeat match goal with
         | H : In _ (_ ++ _)%list |- _ => apply in_app_or in H; destruct H as [H|H]
         | H : In _ (map Print _) |- _ => apply in_prints in H; destruct H as [? H]
         | H : In _ (_ :: _) |- _ => destruct H as [H|H]
         | H : In _ [] |- _ => destruct H
         | H : _ = _ |- _ => discriminate H
         end.

(** ** Validators raise validation failures only *)

Lemma validate_date_raises s : raises_validation (validate_date s).
Proof.
  unfold validate_date. intros e. destruct Strptime.strptime; intros [=]; eauto.
Qed.

Lemma validate_datetime_raises s : raises_validation (validate_datetime s).
Proof.
  unfold validate_datetime. intros e. destruct Strptime.strptime; intros [=]; eauto.
Qed.

Lemma validate_airport_code_raises s : raises_validation (validate_airport_code s).
Proof.
  unfold validate_airport_code. intros e.
  match goal with |- context [if ?b then _ else _] => destruct b end; intros [=]; eauto.
Qed.

Lemma validate_flight_status_raises s : raises_validation (validate_flight_status s).
Proof.
  unfold validate_flight_status. intros e.
  match goal with |- context [if ?b then _ else _] => destruct b end; intros [=]; eauto.
Qed.

Lemma validate_rank_raises s : raises_validation (validate_rank s).
Proof.
  unfold validate_rank. intros e.
  match goal with |- context [if ?b then _ else _] => destruct b end; intros [=]; eauto.
Qed.

Lemma validate_positive_number_raises q f :
  raises_validation (validate_positive_number q f).
Proof.
  unfold validate_positive_number. intros e. destruct Qle_bool; intros [=]; eauto.
Qed.

Lemma validate_flight_number_raises s : raises_validation (validate_flight_number s).
Proof.
  unfold validate_flight_number. intros e.
  destruct (Py.strip (Py.upper s)); intros [=]; eauto.
Qed.

Lemma validate_licence_number_raises s : raises_validation (validate_licence_number s).
Proof.
  unfold validate_licence_number. intros e.
  destruct (Py.upper (Py.strip s)); intros [=]; eauto.
Qed.

Lemma find_flight_raises n d db : raises_validation (find_flight n d db).
Proof.
  unfold find_flight. intros e.
  destruct (validate_flight_number n) eqn:E.
  - intros [= <-]. eapply validate_flight_number_raises; eauto.
  - destruct hd_error; intros [=]; eauto.
Qed.

(** ** Symbolic execution of an operation *)

Ltac run_monad :=
  cbv beta iota zeta delta
      [persisted events result start bind lift ret raise print log query begin
       execute no_result commit rollback close try_except with_trace
       get_connection format_preview confirm_action check_airports
       report report_add is_sqlite_error exn_str
       disk work in_tx trace fst snd negb];
  repeat match goal with
         | H : says_yes ?r = _ |- _ =>
             progress (change (String.eqb (Py.lower (Py.strip r)) "y")
                         with (says_yes r));
             rewrite H
         end.

Ltac use_known :=
  match goal with
  | H : ?x = _ |- context [match ?x with _ => _ end] => rewrite H
  end.

Ltac run_step :=
  run_monad;
  first
    [ use_known
    | rewrite print_all_run
    | rewrite load_flight_run
    | match goal with
      | |- context [match ?x with _ => _ end] =>
          lazymatch x with
          | context [match _ with _ => _ end] => fail
          | _ => destruct x eqn:?
          end
      end ].

Ltac validation_only :=
  repeat match goal with
         | H : ?r = inl ?e |- _ =>
             is_var e;
             let m := fresh "msg" in
             first
               [ destruct (@validate_date_raises _ e H) as [m ->]
               | destruct (@validate_datetime_raises _ e H) as [m ->]
               | destruct (@validate_airport_code_raises _ e H) as [m ->]
               | destruct (@validate_flight_status_raises _ e H) as [m ->]
               | destruct (@validate_rank_raises _ e H) as [m ->]
               | destruct (@validate_positive_number_raises _ _ e H) as [m ->]
               | destruct (@validate_flight_number_raises _ e H) as [m ->]
               | destruct (@validate_licence_number_raises _ e H) as [m ->]
               | destruct (@find_flight_raises _ _ _ e H) as [m ->] ]
         end.

Ltac run_op := repeat (run_step; validation_only); run_monad.

(** ** Declining the prompt *)

(** C1.  Declining the prompt of [change_route], [change_times],
    [change_status], [change_captain] or [change_first_officer] leaves the
    whole database file as it was; the operation returns, nothing is
    committed, and when the prompt was reached the open transaction is rolled
    back right after the reply. *)
Theorem declined_leaves_store_unchanged (c : command) (reply : string) (db : DB) :
  reply_of c = Some reply ->
  says_yes reply = false ->
  persisted (run c) db = db
  /\ result (run c) db = inr tt
  /\ ~ In Commit (events (run c) db)
  /\ (In asked (events (run c) db) ->
      exists before cancelled,
        events (run c) db = (before ++ [asked; Rollback; Print cancelled; Close])%list
        /\ In Begin before).
Proof.
  intros Hc Hr.
  destruct c; simpl in Hc; try discriminate Hc; injection Hc as ->; simpl run.
  1: unfold change_route, change_route_body.
  2: unfold change_times, change_times_body.
  3: unfold change_status, change_status_body.
  4: unfold change_captain, change_captain_body.
  5: unfold change_first_officer, change_first_officer_body.
  all: run_op.
  all: repeat split; try reflexivity; try (intros H; in_events; fail).
  all: intros _;
    match goal with
    | |- context [map Print ?L] => exists ([Connect; Begin] ++ map Print L)%list
    end;
    eexists; split; [repeat rewrite <- app_assoc; reflexivity | simpl; auto].
Qed.

Lemma declined_leaves_store_unchanged_witness :
  let c := ChangeCaptain "BA101" "2025-06-05" 7 "n" in
  reply_of c = Some "n"
  /\ says_yes "n" = false
  /\ persisted (run c) seed = seed.
Proof.
  split; [reflexivity|]. split; [reflexivity|].
  apply (declined_leaves_store_unchanged
           (ChangeCaptain "BA101" "2025-06-05" 7 "n") "n" seed);
    reflexivity.
Defined.

(** ** Looking a flight up *)

Lemma view_row_of_flight (db : DB) (v : FlightDetails) :
  In v (v_flight_details db) ->
  exists f, In f (Flight db)
            /\ v_flight_id v = f_flight_id f
            /\ v_flight_number v = f_flight_number f
            /\ v_flight_date v = f_flight_date f.
Proof.
  unfold v_flight_details. intros H.
  apply in_flat_map in H. destruct H as [f [Hf H]]. exists f. split; [exact Hf|].
  apply in_flat_map in H. destruct H as [r [_ H]].
  apply in_flat_map in H. destruct H as [fs [_ H]].
  apply in_flat_map in H. destruct H as [cap [_ H]].
  apply in_map_iff in H. destruct H as [fo [<- _]]. simpl. auto.
Qed.

(** C6.  When no stored flight has the (normalised) number and the date,
    [_load_flight] raises a [ValidationError], never a database failure, and
    leaves the connection as it was; with a non-empty number the message is
    the "No flight found" one. *)
Theorem load_flight_not_found (flight_number flight_date : string) (w : world) :
  (forall f, In f (Flight (work w)) ->
             ~ (f_flight_number f = Py.strip (Py.upper flight_number)
                /\ f_flight_date f = flight_date)) ->
  exists msg,
    _load_flight flight_number flight_date w = (inl (ValidationError msg), w)
    /\ (Py.strip (Py.upper flight_number) <> ""
        -> msg = "No flight found for " ++ Py.strip (Py.upper flight_number)
                 ++ " on " ++ flight_date).
Proof.
  intros Hnone. rewrite load_flight_run. unfold find_flight, validate_flight_number.
  destruct (Py.strip (Py.upper flight_number)) as [|c n] eqn:En.
  - eexists. split; [reflexivity|]. intros H; contradiction H; reflexivity.
  - match goal with |- context [hd_error ?l] => destruct (hd_error l) as [v|] eqn:Ev end.
    + exfalso.
      assert (Hin : In v (filter (fun v => String.eqb (v_flight_number v) (String c n)
                                           && String.eqb (v_flight_date v) flight_date)
                                 (v_flight_details (work w)))).
      { destruct (filter _ _); [discriminate|]. injection Ev as ->. left; reflexivity. }
      apply filter_In in Hin. destruct Hin as [Hin Hm].
      apply andb_true_iff in Hm. destruct Hm as [Hn Hd].
      apply String.eqb_eq in Hn. apply String.eqb_eq in Hd.
      destruct (view_row_of_flight _ _ Hin) as [f [Hf [_ [Hfn Hfd]]]].
      apply (Hnone f Hf). split; congruence.
    + eexists. split; [reflexivity|]. intros _. reflexivity.
Qed.

Lemma load_flight_not_found_witness :
  exists msg,
    _load_flight "BA999" "2099-01-01" (start seed)
    = (inl (ValidationError msg), start seed)
    /\ (Py.strip (Py.upper "BA999") <> ""
        -> msg = "No flight found for " ++ Py.strip (Py.upper "BA999")
                 ++ " on " ++ "2099-01-01").
Proof.
  apply (load_flight_not_found "BA999" "2099-01-01" (start seed)).
  intros f Hf [Hn Hd]. simpl in Hf.
  repeat (destruct Hf as [<-|Hf]; [discriminate Hd|]). exact Hf.
Defined.

(** ** Rank and role *)

Lemma eqb_of_neq (a b : string) : a <> b -> String.eqb a b = false.
Proof. intros H. apply String.eqb_neq. exact H. Qed.

(** C5.  With the identifier of a pilot whose rank is not Captain,
    [change_captain] and [assign_captain] fail on a validation failure before
    any statement that writes is executed, whatever the other arguments, and
    the database file is as it was; [change_first_officer] does the same for
    a pilot whose rank is not First Officer. *)
Theorem wrong_rank_is_refused (db : DB) (new_pilot_id : Z) (pilot : PilotRow) :
  select_pilot new_pilot_id db = Some pilot ->
  (p_rank pilot <> "Captain" ->
   (forall flight_number flight_date reply,
       refused_unwritten
         (change_captain_body flight_number flight_date new_pilot_id reply)
         (change_captain flight_number flight_date new_pilot_id reply) db)
   /\ (forall flight_id,
          refused_unwritten (assign_captain_body flight_id new_pilot_id)
                            (assign_captain flight_id new_pilot_id) db))
  /\ (p_rank pilot <> "First Officer" ->
      forall flight_number flight_date reply,
        refused_unwritten
          (change_first_officer_body flight_number flight_date new_pilot_id reply)
          (change_first_officer flight_number flight_date new_pilot_id reply) db).
Proof.
  intros Hp. split; [intros Hr%eqb_of_neq; split|intros Hr%eqb_of_neq]; intros.
  1: unfold refused_unwritten, change_captain, change_captain_body.
  2: unfold refused_unwritten, assign_captain, assign_captain_body.
  3: unfold refused_unwritten, change_first_officer, change_first_officer_body.
  all: run_op.
  all: repeat split; try reflexivity; try (intros ? H; in_events; fail).
  all: eexists; split; [reflexivity|]; simpl; auto.
Qed.

Lemma wrong_rank_is_refused_witness :
  let cara := {| p_pilot_id := 3; p_licence_no := "LIC1003"; p_first_name := "Cara";
                 p_last_name := "Chen"; p_rank := "First Officer";
                 p_hire_date := "2019-06-18" |} in
  select_pilot 3 seed = Some cara
  /\ p_rank cara <> "Captain"
  /\ refused_unwritten (change_captain_body "BA101" "2025-06-05" 3 "y")
                       (change_captain "BA101" "2025-06-05" 3 "y") seed.
Proof.
  intros cara. split; [reflexivity|]. split; [discriminate|].
  destruct (wrong_rank_is_refused seed 3 cara eq_refl) as [H _].
  apply H. discriminate.
Defined.


(** ** Conflicts *)

Lemma get_connection_never_raises_sqlite {A : Type} (body : M A) (w : world) (e : exn) :
  fst (get_connection body w) = inl e -> is_sqlite_error e = false.
Proof.
  unfold get_connection.
  destruct (body _) as [[e0|a] w1]; simpl.
  - destruct (is_sqlite_error e0) eqn:E; simpl; intros [= <-]; [reflexivity|exact E].
  - discriminate.
Qed.

Lemma suites_never_raise_sqlite (c : command) (db : DB) (e : exn) :
  result (body_of c) db = inl e -> is_sqlite_error e = false.
Proof.
  destruct c; simpl body_of.
  1: unfold change_route_body.
  2: unfold change_times_body.
  3: unfold change_status_body.
  4: unfold change_captain_body.
  5: unfold change_first_officer_body.
  6: unfold add_airport_body.
  7: unfold add_route_body.
  8: unfold add_pilot_body.
  9: unfold add_flight_body.
  10: unfold assign_captain_body.
  all: run_op.
  all: try discriminate; intros [= <-]; try reflexivity; try assumption.
Qed.

(** C7 (the code departs from the claim).  Adding the route LHR to JFK, which
    the seed already has, is not reported by the clause
    [except sqlite3.IntegrityError] of [add_route]: the context manager of
    [get_connection] has already replaced the [IntegrityError] by a
    [DatabaseError], so the generic text is printed and the conflict text is
    not.  No suite of any command ever raises an [sqlite3] error to the
    [except] clauses. *)
Theorem duplicate_route_reported_as_database_error :
  let op := add_route "LHR" "JFK" (5556 # 1) 420 in
  select_route "LHR" "JFK" seed <> None
  /\ events op seed
     = [Connect; Write "Route"; Rollback; Close;
        Print "Database Error: UNIQUE constraint failed: Route.origin_code, Route.dest_code"]
  /\ ~ In (Print "Route LHR -> JFK already exists") (events op seed)
  /\ persisted op seed = seed
  /\ (forall c db e, result (body_of c) db = inl e -> is_sqlite_error e = false).
Proof.
  split; [discriminate|]. split; [reflexivity|]. split.
  - intros H. vm_compute in H.
    repeat (destruct H as [H|H]; [discriminate H|]). exact H.
  - split; [reflexivity|]. exact suites_never_raise_sqlite.
Qed.

(** The same on the other three [add_*] functions. *)
Example duplicates_reported_as_database_errors :
  events (add_airport "LHR" "Heathrow" "London" "United Kingdom" (0 # 1)
                      "Europe/London") seed
  = [Connect; Write "Airport"; Rollback; Close;
     Print "Database Error: UNIQUE constraint failed: Airport.airport_code"]
  /\ events (add_pilot "LIC1001" "Alice" "Adams" "Captain" "2015-04-12") seed
     = [Connect; Write "Pilot"; Rollback; Close;
        Print "Database Error: UNIQUE constraint failed: index 'idx_pilot_licence_clean'"]
  /\ events (add_flight "BA101" "2025-06-05" 1 "2025-06-05 08:00"
                        "2025-06-05 15:00" "Scheduled") seed
     = [Connect; Write "Flight"; Rollback; Close;
        Print "Database Error: UNIQUE constraint failed: Flight.flight_number, Flight.flight_date"].
Proof. repeat split; reflexivity. Qed.

(** ** Reassigning a route *)

Lemma hd_filter_none {A : Type} (p : A -> bool) (l : list A) :
  hd_error (filter p l) = None -> existsb p l = false.
Proof.
  induction l as [|a l IH]; simpl; [reflexivity|].
  destruct (p a); simpl; [discriminate|exact IH].
Qed.

Lemma hd_filter_some {A : Type} (p : A -> bool) (l : list A) (a : A) :
  hd_error (filter p l) = Some a -> In a l /\ p a = true.
Proof.
  intros H. apply filter_In.
  destruct (filter p l); [discriminate|]. injection H as ->. left; reflexivity.
Qed.

Lemma max_id_bound {A : Type} (key : A -> Z) (rows : list A) (a : A) :
  In a rows -> key a <= max_id key rows.
Proof.
  induction rows as [|b rows IH]; simpl; [contradiction|].
  intros [->|H]; [lia|]. specialize (IH H). lia.
Qed.

Lemma next_id_fresh {A : Type} (key : A -> Z) (rows : list A) (seq : Z) :
  ~ In (next_id key rows seq) (map key rows).
Proof.
  intros H. apply in_map_iff in H. destruct H as [a [Ha Hin]].
  apply (max_id_bound key) in Hin. unfold next_id in Ha. lia.
Qed.

Lemma insert_Route_ok (db : DB) (origin dest : string) (distance : Q) (mins : Z) :
  select_route origin dest db = None ->
  has_airport db origin = true -> has_airport db dest = true ->
  insert_Route origin dest distance mins db
  = inr (next_id r_route_id (Route db) (seq_Route db),
         set_Route db
           (Route db ++ [{| r_route_id := next_id r_route_id (Route db) (seq_Route db);
                            r_origin_code := origin; r_dest_code := dest;
                            r_distance_km := distance;
                            r_flight_duration_mins := mins |}])%list
           (next_id r_route_id (Route db) (seq_Route db))).
Proof.
  intros Hnone Ho Hd. unfold insert_Route.
  apply hd_filter_none in Hnone. rewrite Hnone, Ho, Hd. reflexivity.
Qed.

Lemma insert_Route_unknown_airport (db : DB) (origin dest : string) (distance : Q)
      (mins : Z) :
  select_route origin dest db = None ->
  has_airport db origin && has_airport db dest = false ->
  insert_Route origin dest distance mins db = inl fk_failed.
Proof.
  intros Hnone Hf. unfold insert_Route.
  apply hd_filter_none in Hnone. rewrite Hnone, Hf. reflexivity.
Qed.

Lemma update_Flight_route_ok (db : DB) (route flight : Z) :
  has_route db route = true ->
  update_Flight_route route flight db
  = inr (set_Flight db
           (update_where (fun f => f_flight_id f =? flight) (set_route_id route)
                         (Flight db))
           (seq_Flight db)).
Proof.
  intros H. unfold update_Flight_route. rewrite H, andb_false_r. reflexivity.
Qed.

Lemma select_route_found (db : DB) (origin dest : string) (r : RouteRow) :
  select_route origin dest db = Some r ->
  In r (Route db) /\ r_origin_code r = origin /\ r_dest_code r = dest
  /\ has_route db (r_route_id r) = true.
Proof.
  intros H. apply hd_filter_some in H. destruct H as [Hin Hm].
  apply andb_true_iff in Hm. destruct Hm as [Ho Hd].
  apply String.eqb_eq in Ho. apply String.eqb_eq in Hd.
  repeat split; auto.
  unfold has_route. apply existsb_exists. exists r. split; [exact Hin|apply Z.eqb_refl].
Qed.

Lemma update_where_on_route (rows : list FlightRow) (flight route : Z) :
  (exists f, In f rows /\ f_flight_id f = flight) ->
  (exists f, In f (update_where (fun f => f_flight_id f =? flight)
                                (set_route_id route) rows)
             /\ f_flight_id f = flight)
  /\ forall f, In f (update_where (fun f => f_flight_id f =? flight)
                                  (set_route_id route) rows) ->
               f_flight_id f = flight -> f_route_id f = route.
Proof.
  intros [f0 [Hin0 Hid0]]. unfold update_where. split.
  - exists (set_route_id route f0). split; [|exact Hid0].
    apply in_map_iff. exists f0. split; [|exact Hin0].
    rewrite Hid0, Z.eqb_refl. reflexivity.
  - intros f Hf Hid. apply in_map_iff in Hf. destruct Hf as [g [Hg _]].
    destruct (f_flight_id g =? flight) eqn:E; subst f; [reflexivity|].
    apply Z.eqb_neq in E. contradiction.
Qed.

Lemma found_flight_is_stored (db : DB) (n d : string) (flight : FlightDetails) :
  find_flight n d db = inr flight ->
  exists f, In f (Flight db) /\ f_flight_id f = v_flight_id flight.
Proof.
  unfold find_flight. destruct (validate_flight_number n); [discriminate|].
  match goal with |- context [hd_error ?l] => destruct (hd_error l) as [v|] eqn:Ev end;
    [|discriminate].
  intros [= <-]. apply hd_filter_some in Ev. destruct Ev as [Hin _].
  destruct (view_row_of_flight _ _ Hin) as [f [Hf [Hid _]]]. eauto.
Qed.

(** What a confirmed [change_route] does, in its three cases. *)
Lemma change_route_confirmed (db : DB)
      (flight_number flight_date new_origin new_dest reply origin dest : string)
      (flight : FlightDetails) :
  validate_airport_code new_origin = inr origin ->
  validate_airport_code new_dest = inr dest ->
  validate_date flight_date = inr flight_date ->
  find_flight flight_number flight_date db = inr flight ->
  says_yes reply = true ->
  let body := change_route_body flight_number flight_date new_origin new_dest reply in
  let op := change_route flight_number flight_date new_origin new_dest reply in
  match select_route origin dest db with
  | Some r =>
      completed body op db
      /\ persisted op db
         = set_Flight db
             (update_where (fun f => f_flight_id f =? v_flight_id flight)
                           (set_route_id (r_route_id r)) (Flight db))
             (seq_Flight db)
  | None =>
      if has_airport db origin && has_airport db dest
      then
        let id := next_id r_route_id (Route db) (seq_Route db) in
        let db1 :=
          set_Route db
            (Route db ++ [{| r_route_id := id; r_origin_code := origin;
                             r_dest_code := dest; r_distance_km := 0 # 1;
                             r_flight_duration_mins := 0 |}])%list id in
        completed body op db
        /\ persisted op db
           = set_Flight db1
               (update_where (fun f => f_flight_id f =? v_flight_id flight)
                             (set_route_id id) (Flight db1))
               (seq_Flight db1)
      else
        result body db
        = inl (DatabaseError "Database Error: FOREIGN KEY constraint failed")
        /\ persisted op db = db
        /\ ~ In Commit (events op db)
  end.
Proof.
  intros Ho Hd Hdate Hf Hy body op. subst body op.
  unfold completed, change_route, change_route_body.
  destruct (select_route origin dest db) as [r|] eqn:Hsel.
  - destruct (select_route_found _ _ _ _ Hsel) as [_ [_ [_ Hhas]]].
    pose proof (update_Flight_route_ok db (r_route_id r) (v_flight_id flight) Hhas) as Hu.
    run_op. repeat split; try reflexivity.
    repeat (apply in_or_app; first [right; simpl; tauto | left]).
  - destruct (has_airport db origin && has_airport db dest) eqn:Ha.
    + apply andb_true_iff in Ha. destruct Ha as [Ha1 Ha2].
      pose proof (insert_Route_ok db origin dest (0 # 1) 0 Hsel Ha1 Ha2) as Hi.
      match type of Hi with _ = inr (?id, ?db1) =>
        assert (Hu : update_Flight_route id (v_flight_id flight) db1
                     = inr (set_Flight db1
                              (update_where (fun f => f_flight_id f =? v_flight_id flight)
                                            (set_route_id id) (Flight db1))
                              (seq_Flight db1)))
      end.
      { apply update_Flight_route_ok. unfold has_route, set_Route; simpl.
        rewrite existsb_app. simpl. rewrite Z.eqb_refl, orb_true_r. reflexivity. }
      run_op. repeat split; try reflexivity.
      repeat (apply in_or_app; first [right; simpl; tauto | left]).
    + pose proof (insert_Route_unknown_airport db origin dest (0 # 1) 0 Hsel Ha) as Hi.
      unfold fk_failed in Hi.
      run_op. repeat split; try reflexivity. intros H; in_events.
Qed.

(** C3, counterexample.  On the seed, a confirmed reassignment of BA101 to
    the pair XXX, YYY, which no route has, inserts no route: the INSERT fails
    the foreign keys of [Route] on [Airport], the context manager rolls back
    and the database file is as it was. *)
Lemma change_route_unknown_airports_create_nothing :
  let body := change_route_body "BA101" "2025-06-05" "XXX" "YYY" "y" in
  let op := change_route "BA101" "2025-06-05" "XXX" "YYY" "y" in
  (In asked (events op seed) /\ says_yes "y" = true)
  /\ select_route "XXX" "YYY" seed = None
  /\ (forall id, ~ one_route_created seed (persisted op seed) "XXX" "YYY" id)
  /\ persisted op seed = seed
  /\ result body seed
     = inl (DatabaseError "Database Error: FOREIGN KEY constraint failed").
Proof.
  split; [split; [|reflexivity]|].
  - vm_compute. tauto.
  - split; [reflexivity|]. split; [|split; reflexivity].
    intros id [_ H]. apply (f_equal (@List.length RouteRow)) in H.
    rewrite length_app in H. vm_compute in H. discriminate H.
Qed.

(** C3, as amended.  For a confirmed [change_route] on a stored flight: if
    a route exists for the new pair, no route is inserted and the flight is
    put on the existing route; if none exists and both codes are codes of
    stored airports, exactly one route is inserted, with distance 0 and
    duration 0 under a fresh key, and the flight is put on it; if none exists
    and a code is not the code of a stored airport, the INSERT fails the
    foreign keys, a database failure is raised and nothing is stored. *)
Theorem change_route_reuses_or_creates_route (db : DB)
        (flight_number flight_date new_origin new_dest reply origin dest : string)
        (flight : FlightDetails) :
  validate_airport_code new_origin = inr origin ->
  validate_airport_code new_dest = inr dest ->
  validate_date flight_date = inr flight_date ->
  find_flight flight_number flight_date db = inr flight ->
  says_yes reply = true ->
  let op := change_route flight_number flight_date new_origin new_dest reply in
  match select_route origin dest db with
  | Some r =>
      Route (persisted op db) = Route db
      /\ flight_on_route (persisted op db) (v_flight_id flight) (r_route_id r)
  | None =>
      (has_airport db origin && has_airport db dest = true ->
       exists id,
         one_route_created db (persisted op db) origin dest id
         /\ flight_on_route (persisted op db) (v_flight_id flight) id)
      /\ (has_airport db origin && has_airport db dest = false ->
          persisted op db = db
          /\ result (change_route_body flight_number flight_date new_origin
                                       new_dest reply) db
             = inl (DatabaseError "Database Error: FOREIGN KEY constraint failed"))
  end.
Proof.
  intros Ho Hd Hdate Hf Hy op.
  pose proof (change_route_confirmed db flight_number flight_date new_origin new_dest
                reply origin dest flight Ho Hd Hdate Hf Hy) as H.
  cbv zeta in H. fold op in H.
  pose proof (found_flight_is_stored _ _ _ _ Hf) as Hstored.
  destruct (select_route origin dest db) as [r|].
  - destruct H as [_ ->]. split; [reflexivity|].
    unfold flight_on_route. simpl. apply update_where_on_route. exact Hstored.
  - split; intros Ha; rewrite Ha in H.
    + destruct H as [_ ->]. eexists. split.
      * split; [apply next_id_fresh|reflexivity].
      * unfold flight_on_route. simpl. apply update_where_on_route. exact Hstored.
    + destruct H as [H1 [H2 _]]. split; assumption.
Qed.

Lemma change_route_reuses_or_creates_route_witness :
  let op := change_route "BA101" "2025-06-05" "lhr" "cdg" "y" in
  validate_airport_code "lhr" = inr "LHR"
  /\ validate_airport_code "cdg" = inr "CDG"
  /\ validate_date "2025-06-05" = inr "2025-06-05"
  /\ (exists flight, find_flight "BA101" "2025-06-05" seed = inr flight
                     /\ v_flight_id flight = 1)
  /\ says_yes "y" = true
  /\ select_route "LHR" "CDG" seed = None
  /\ has_airport seed "LHR" && has_airport seed "CDG" = true
  /\ exists id, one_route_created seed (persisted op seed) "LHR" "CDG" id
                /\ flight_on_route (persisted op seed) 1 id.
Proof.
  intros op. repeat (split; [reflexivity|]).
  split; [eexists; split; reflexivity|].
  repeat (split; [reflexivity|]).
  refine (proj1 (change_route_reuses_or_creates_route seed "BA101" "2025-06-05"
                   "lhr" "cdg" "y" "LHR" "CDG" _ eq_refl eq_refl eq_refl eq_refl
                   eq_refl) eq_refl).
Defined.

(** C10, counterexample.  XXX passes [validate_airport_code] and BA101 is a
    stored flight, yet the confirmed reassignment to XXX, XXX does not go
    through: no airport has the code, the INSERT fails its foreign keys. *)
Lemma change_route_same_unknown_code_fails :
  let body := change_route_body "BA101" "2025-06-05" "XXX" "XXX" "y" in
  let op := change_route "BA101" "2025-06-05" "XXX" "XXX" "y" in
  validate_airport_code "XXX" = inr "XXX"
  /\ (exists flight, find_flight "BA101" "2025-06-05" seed = inr flight)
  /\ (In asked (events op seed) /\ says_yes "y" = true)
  /\ ~ completed body op seed
  /\ persisted op seed = seed
  /\ result body seed
     = inl (DatabaseError "Database Error: FOREIGN KEY constraint failed").
Proof.
  split; [reflexivity|]. split; [eexists; reflexivity|].
  split; [split; [vm_compute; tauto|reflexivity]|].
  split; [|split; reflexivity].
  intros [H _]. vm_compute in H. discriminate H.
Qed.

Lemma add_route_same_code_refused (db : DB) (origin dest code : string) (distance : Q)
      (mins : Z) :
  validate_airport_code origin = inr code ->
  validate_airport_code dest = inr code ->
  refused_unwritten (add_route_body origin dest distance mins)
                    (add_route origin dest distance mins) db.
Proof.
  intros Ho Hd. unfold refused_unwritten, add_route, add_route_body.
  pose proof (String.eqb_refl code) as He.
  run_op.
  all: repeat split; try reflexivity; try (intros ? H; in_events; fail).
  all: eexists; split; [reflexivity|]; simpl; auto.
Qed.

(** C10, as amended.  [change_route] does not ask the two codes to differ:
    for a stored flight and a code that passes validation and is the code of
    a stored airport (or for which a route from the code to itself exists), a
    confirmed reassignment with both codes equal goes through and leaves the
    flight on a route whose origin is its destination; [add_route] with the
    same two codes is refused on a validation failure. *)
Theorem change_route_accepts_equal_endpoints (db : DB)
        (flight_number flight_date new_code reply code : string)
        (flight : FlightDetails) :
  validate_airport_code new_code = inr code ->
  validate_date flight_date = inr flight_date ->
  find_flight flight_number flight_date db = inr flight ->
  says_yes reply = true ->
  has_airport db code = true \/ select_route code code db <> None ->
  let body := change_route_body flight_number flight_date new_code new_code reply in
  let op := change_route flight_number flight_date new_code new_code reply in
  (completed body op db
   /\ exists r, In r (Route (persisted op db))
                /\ r_origin_code r = code /\ r_dest_code r = code
                /\ flight_on_route (persisted op db) (v_flight_id flight)
                                   (r_route_id r))
  /\ forall distance mins,
      refused_unwritten (add_route_body new_code new_code distance mins)
                        (add_route new_code new_code distance mins) db.
Proof.
  intros Hc Hdate Hf Hy Hcode body op. split.
  - pose proof (change_route_confirmed db flight_number flight_date new_code new_code
                  reply code code flight Hc Hc Hdate Hf Hy) as H.
    cbv zeta in H. fold body op in H.
    pose proof (found_flight_is_stored _ _ _ _ Hf) as Hstored.
    destruct (select_route code code db) as [r|] eqn:Hsel.
    + destruct H as [Hdone Hp]. split; [exact Hdone|].
      destruct (select_route_found _ _ _ _ Hsel) as [Hin [Hro [Hrd _]]].
      exists r. rewrite Hp. simpl. repeat split; auto;
        apply update_where_on_route; exact Hstored.
    + destruct Hcode as [Ha|Hn]; [|contradiction Hn; reflexivity].
      rewrite Ha in H. simpl in H. destruct H as [Hdone Hp].
      split; [exact Hdone|]. rewrite Hp. simpl.
      eexists. split; [apply in_or_app; right; left; reflexivity|].
      simpl. repeat split; auto; apply update_where_on_route; exact Hstored.
  - intros distance mins. apply (add_route_same_code_refused db _ _ code); exact Hc.
Qed.

Lemma change_route_accepts_equal_endpoints_witness :
  let body := change_route_body "BA101" "2025-06-05" "lhr" "lhr" "y" in
  let op := change_route "BA101" "2025-06-05" "lhr" "lhr" "y" in
  validate_airport_code "lhr" = inr "LHR"
  /\ validate_date "2025-06-05" = inr "2025-06-05"
  /\ (exists flight, find_flight "BA101" "2025-06-05" seed = inr flight
                     /\ v_flight_id flight = 1)
  /\ says_yes "y" = true
  /\ has_airport seed "LHR" = true
  /\ completed body op seed
  /\ exists r, In r (Route (persisted op seed))
               /\ r_origin_code r = "LHR" /\ r_dest_code r = "LHR"
               /\ flight_on_route (persisted op seed) 1 (r_route_id r).
Proof.
  intros body op. repeat (split; [reflexivity|]).
  split; [eexists; split; reflexivity|].
  repeat (split; [reflexivity|]).
  refine (proj1 (change_route_accepts_equal_endpoints seed "BA101" "2025-06-05" "lhr"
                   "y" "LHR" _ eq_refl eq_refl eq_refl eq_refl (or_introl eq_refl))).
Defined.

(** ** One assignment per flight and role *)

Lemma NoDup_map_filter {A B : Type} (f : A -> B) (p : A -> bool) (l : list A) :
  NoDup (map f l) -> NoDup (map f (filter p l)).
Proof.
  induction l as [|a l IH]; simpl; intros H; [constructor|].
  inversion H as [|x xs Hnot Hnd]; subst.
  destruct (p a); simpl; [|auto].
  constructor; [|auto].
  intros Hin. apply Hnot. apply in_map_iff in Hin. destruct Hin as [b [Hb Hf]].
  apply filter_In in Hf. apply in_map_iff. exists b. tauto.
Qed.

Lemma NoDup_snoc {A : Type} (l : list A) (a : A) :
  NoDup l -> ~ In a l -> NoDup (l ++ [a]).
Proof.
  intros Hl Ha. apply NoDup_app; [exact Hl|repeat constructor; simpl; tauto|].
  intros x Hx [<-|[]]. contradiction.
Qed.

Lemma delete_CrewAssignment_keeps (flight : Z) (role : string) (db db' : DB) :
  delete_CrewAssignment flight role db = inr db' ->
  crew_role_unique db -> crew_role_unique db'.
Proof.
  unfold delete_CrewAssignment, crew_role_unique. intros [= <-]. simpl.
  apply NoDup_map_filter.
Qed.

Lemma insert_CrewAssignment_done (flight pilot : Z) (role : string) (db db' : DB) :
  insert_CrewAssignment flight pilot role db = inr db' ->
  db' = set_CrewAssignment db
          (CrewAssignment db ++ [{| ca_flight_id := flight; ca_pilot_id := pilot;
                                    ca_role := role |}])%list
  /\ existsb (fun c => (ca_flight_id c =? flight) && String.eqb (ca_role c) role)
             (CrewAssignment db) = false.
Proof.
  unfold insert_CrewAssignment.
  repeat match goal with
         | |- context [if ?b then _ else _] => destruct b eqn:?; try discriminate
         end.
  intros [= <-]. split; reflexivity.
Qed.

Lemma insert_CrewAssignment_keeps (flight pilot : Z) (role : string) (db db' : DB) :
  insert_CrewAssignment flight pilot role db = inr db' ->
  crew_role_unique db -> crew_role_unique db'.
Proof.
  intros H. apply insert_CrewAssignment_done in H. destruct H as [-> Hnew].
  unfold crew_role_unique. simpl. rewrite map_app. simpl. intros Hu.
  apply NoDup_snoc; [exact Hu|].
  intros Hin. apply in_map_iff in Hin. destruct Hin as [c [Hc Hin]].
  injection Hc as Hf Hr.
  assert (existsb (fun c => (ca_flight_id c =? flight) && String.eqb (ca_role c) role)
                  (CrewAssignment db) = true) as Hex.
  { apply existsb_exists. exists c. split; [exact Hin|].
    rewrite Hf, Hr, Z.eqb_refl, String.eqb_refl. reflexivity. }
  congruence.
Qed.

Ltac break_if :=
  repeat match goal with
         | |- context [if ?b then _ else _] => destruct b; try discriminate
         end.

Lemma insert_Airport_keeps row db db' :
  insert_Airport row db = inr db' -> crew_role_unique db -> crew_role_unique db'.
Proof. unfold insert_Airport. break_if. intros [= <-]. exact (fun H => H). Qed.

Lemma insert_Route_keeps o d q m db id db' :
  insert_Route o d q m db = inr (id, db') -> crew_role_unique db -> crew_role_unique db'.
Proof. unfold insert_Route. break_if. intros [= _ <-]. exact (fun H => H). Qed.

Lemma insert_Pilot_keeps l f n r h db db' :
  insert_Pilot l f n r h db = inr db' -> crew_role_unique db -> crew_role_unique db'.
Proof. unfold insert_Pilot. break_if. intros [= <-]. exact (fun H => H). Qed.

Lemma insert_Flight_keeps n d r a b s db db' :
  insert_Flight n d r a b s db = inr db' -> crew_role_unique db -> crew_role_unique db'.
Proof. unfold insert_Flight. break_if. intros [= <-]. exact (fun H => H). Qed.

Lemma update_Flight_route_keeps r i db db' :
  update_Flight_route r i db = inr db' -> crew_role_unique db -> crew_role_unique db'.
Proof. unfold update_Flight_route. break_if. intros [= <-]. exact (fun H => H). Qed.

Lemma update_Flight_times_keeps a b i db db' :
  update_Flight_times a b i db = inr db' -> crew_role_unique db -> crew_role_unique db'.
Proof. unfold update_Flight_times. break_if. intros [= <-]. exact (fun H => H). Qed.

Lemma update_Flight_status_keeps s i db db' :
  update_Flight_status s i db = inr db' -> crew_role_unique db -> crew_role_unique db'.
Proof. unfold update_Flight_status. break_if. intros [= <-]. exact (fun H => H). Qed.

Create HintDb crew.
#[local] Hint Resolve delete_CrewAssignment_keeps insert_CrewAssignment_keeps
  insert_Airport_keeps insert_Route_keeps insert_Pilot_keeps insert_Flight_keeps
  update_Flight_route_keeps update_Flight_times_keeps update_Flight_status_keeps : crew.

Lemma run_keeps_crew_role_unique (c : command) (db : DB) :
  crew_role_unique db -> crew_role_unique (persisted (run c) db).
Proof.
  intros Hu. destruct c; simpl run.
  1: unfold change_route, change_route_body.
  2: unfold change_times, change_times_body.
  3: unfold change_status, change_status_body.
  4: unfold change_captain, change_captain_body.
  5: unfold change_first_officer, change_first_officer_body.
  6: unfold add_airport, add_airport_body.
  7: unfold add_route, add_route_body.
  8: unfold add_pilot, add_pilot_body.
  9: unfold add_flight, add_flight_body.
  10: unfold assign_captain, assign_captain_body.
  all: run_op; eauto with crew.
Qed.

Lemma seed_crew_role_unique : crew_role_unique seed.
Proof.
  unfold crew_role_unique. simpl.
  repeat (constructor; [simpl; intuition congruence|]). constructor.
Qed.

Lemma filter_nil_existsb {A : Type} (p : A -> bool) (l : list A) :
  existsb p l = match filter p l with [] => false | _ => true end.
Proof.
  induction l as [|a l IH]; simpl; [reflexivity|].
  destruct (p a); simpl; [reflexivity|exact IH].
Qed.

Lemma left_join_not_nil {A : Type} (p : A -> bool) (l : list A) :
  left_join p l <> [].
Proof.
  unfold left_join. destruct (filter p l); simpl; discriminate.
Qed.

Lemma flat_map_not_nil {A B : Type} (f : A -> list B) (l : list A) :
  l <> [] -> (forall a, f a <> []) -> flat_map f l <> [].
Proof.
  destruct l as [|a l]; [congruence|]. intros _ Hf. simpl.
  specialize (Hf a). destruct (f a); [congruence|discriminate].
Qed.

Lemma crew_of_not_nil (db : DB) (f : FlightRow) (role : string) :
  crew_of db f role <> [].
Proof.
  unfold crew_of. apply flat_map_not_nil.
  - apply left_join_not_nil.
  - intros a. apply left_join_not_nil.
Qed.

Lemma view_rows_of_key (db : DB) (f : FlightRow) (v : FlightDetails) :
  In v (view_rows_of db f) ->
  v_flight_id v = f_flight_id f
  /\ v_flight_number v = f_flight_number f
  /\ v_flight_date v = f_flight_date f.
Proof.
  unfold view_rows_of. intros H.
  apply in_flat_map in H. destruct H as [r [_ H]].
  apply in_flat_map in H. destruct H as [fs [_ H]].
  apply in_flat_map in H. destruct H as [cap [_ H]].
  apply in_map_iff in H. destruct H as [fo [<- _]]. simpl. auto.
Qed.

Lemma view_rows_of_nil (db : DB) (f : FlightRow) :
  has_route db (f_route_id f) && has_status db (f_status_id f)
  = match view_rows_of db f with [] => false | _ => true end.
Proof.
  unfold has_route, has_status, view_rows_of.
  rewrite !filter_nil_existsb.
  destruct (filter _ (Route db)) as [|r rs]; [reflexivity|].
  destruct (filter _ (FlightStatus db)) as [|s ss]; simpl.
  - induction rs as [|r' rs IH]; simpl; [reflexivity|exact IH].
  - pose proof (crew_of_not_nil db f "Captain") as Hc.
    pose proof (crew_of_not_nil db f "First Officer") as Hf.
    destruct (crew_of db f "Captain") as [|c cs]; [congruence|].
    destruct (crew_of db f "First Officer") as [|o os]; [congruence|].
    reflexivity.
Qed.

Lemma filter_all {A : Type} (p : A -> bool) (l : list A) :
  (forall a, In a l -> p a = true) -> filter p l = l.
Proof.
  induction l as [|a l IH]; simpl; intros H; [reflexivity|].
  rewrite (H a (or_introl eq_refl)). f_equal. apply IH. auto.
Qed.

Lemma filter_none {A : Type} (p : A -> bool) (l : list A) :
  (forall a, In a l -> p a = false) -> filter p l = [].
Proof.
  induction l as [|a l IH]; simpl; intros H; [reflexivity|].
  rewrite (H a (or_introl eq_refl)). apply IH. auto.
Qed.

Lemma first_view_row (db : DB) (number date : string) :
  option_map v_flight_id
    (hd_error (filter (fun v => String.eqb (v_flight_number v) number
                                && String.eqb (v_flight_date v) date)
                      (v_flight_details db)))
  = option_map f_flight_id (stored_flight number date db).
Proof.
  unfold stored_flight.
  change (v_flight_details db) with (flat_map (view_rows_of db) (Flight db)).
  induction (Flight db) as [|f fs IH]; simpl; [reflexivity|].
  rewrite filter_app.
  rewrite (view_rows_of_nil db f).
  destruct (String.eqb (f_flight_number f) number
            && String.eqb (f_flight_date f) date) eqn:Hm.
  - rewrite filter_all.
    + destruct (view_rows_of db f) as [|v vs] eqn:Hv; simpl; [exact IH|].
      destruct (view_rows_of_key db f v) as [Hid _]; [rewrite Hv; left; reflexivity|].
      simpl. rewrite Hid. reflexivity.
    + intros v Hv. destruct (view_rows_of_key db f v Hv) as [_ [-> ->]]. exact Hm.
  - rewrite filter_none.
    + simpl. exact IH.
    + intros v Hv. destruct (view_rows_of_key db f v Hv) as [_ [-> ->]]. exact Hm.
Qed.

Lemma found_flight_id (db : DB) (flight_number flight_date number : string)
      (flight : FlightDetails) :
  validate_flight_number flight_number = inr number ->
  find_flight flight_number flight_date db = inr flight ->
  option_map f_flight_id (stored_flight number flight_date db)
  = Some (v_flight_id flight).
Proof.
  intros Hn. unfold find_flight. rewrite Hn. rewrite <- first_view_row.
  destruct (hd_error _); [|discriminate]. intros [= <-]. reflexivity.
Qed.

Lemma stored_flight_crew_independent (db : DB) (rows : list CrewRow)
      (number date : string) :
  stored_flight number date (set_CrewAssignment db rows) = stored_flight number date db.
Proof. reflexivity. Qed.

Lemma validate_date_returns (s r : string) : validate_date s = inr r -> r = s.
Proof. unfold validate_date. destruct Strptime.strptime; intros [=]; auto. Qed.

Lemma filter_filter_negb {A : Type} (p : A -> bool) (l : list A) :
  filter p (filter (fun a => negb (p a)) l) = [].
Proof.
  apply filter_none. intros a Ha. apply filter_In in Ha. destruct Ha as [_ Ha].
  destruct (p a); [discriminate|reflexivity].
Qed.

(** What a completed [change_captain] leaves. *)
Lemma change_captain_completed (db : DB) (flight_number flight_date : string)
      (new_pilot_id : Z) (reply : string) :
  completed (change_captain_body flight_number flight_date new_pilot_id reply)
            (change_captain flight_number flight_date new_pilot_id reply) db ->
  exists flight,
    find_flight flight_number flight_date db = inr flight
    /\ persisted (change_captain flight_number flight_date new_pilot_id reply) db
       = set_CrewAssignment db
           (filter (fun c => negb ((ca_flight_id c =? v_flight_id flight)
                                   && String.eqb (ca_role c) "Captain"))
                   (CrewAssignment db)
            ++ [{| ca_flight_id := v_flight_id flight; ca_pilot_id := new_pilot_id;
                   ca_role := "Captain" |}])%list.
Proof.
  unfold completed, change_captain, change_captain_body.
  run_op.
  all: intros [Hres Hcommit]; try discriminate Hres; try (exfalso; in_events; fail).
  match goal with H : validate_date _ = inr _ |- _ =>
    apply validate_date_returns in H; subst end.
  eexists. split; [eassumption|].
  match goal with H : insert_CrewAssignment _ _ _ _ = inr _ |- _ =>
    apply insert_CrewAssignment_done in H; destruct H as [-> _] end.
  match goal with H : delete_CrewAssignment _ _ _ = inr _ |- _ =>
    unfold delete_CrewAssignment in H; injection H as <- end.
  reflexivity.
Qed.

Lemma existsb_filter_negb {A : Type} (p : A -> bool) (l : list A) :
  existsb p (filter (fun a => negb (p a)) l) = false.
Proof.
  rewrite filter_nil_existsb, filter_filter_negb. reflexivity.
Qed.

Lemma select_pilot_found (db : DB) (id : Z) (p : PilotRow) :
  select_pilot id db = Some p -> has_pilot db id = true.
Proof.
  intros H. apply hd_filter_some in H. destruct H as [Hin Hid].
  unfold has_pilot. apply existsb_exists. eauto.
Qed.

Lemma found_flight_has (db : DB) (n d : string) (flight : FlightDetails) :
  find_flight n d db = inr flight -> has_flight db (v_flight_id flight) = true.
Proof.
  intros H. apply found_flight_is_stored in H. destruct H as [f [Hin Hid]].
  unfold has_flight. apply existsb_exists. exists f. split; [exact Hin|].
  apply Z.eqb_eq. exact Hid.
Qed.

(** When [change_captain] goes through: the pilot is a stored Captain, the
    flight is stored, the reply is yes, and the pilot holds no other role on
    that flight. *)
Lemma change_captain_completes (db : DB) (flight_number flight_date : string)
      (new_pilot_id : Z) (reply : string) (pilot : PilotRow) (flight : FlightDetails) :
  validate_date flight_date = inr flight_date ->
  select_pilot new_pilot_id db = Some pilot ->
  p_rank pilot = "Captain" ->
  find_flight flight_number flight_date db = inr flight ->
  says_yes reply = true ->
  (forall c, In c (CrewAssignment db) ->
             ca_flight_id c = v_flight_id flight -> ca_pilot_id c = new_pilot_id ->
             ca_role c = "Captain") ->
  completed (change_captain_body flight_number flight_date new_pilot_id reply)
            (change_captain flight_number flight_date new_pilot_id reply) db.
Proof.
  intros Hdate Hp Hrank Hf Hy Hrole.
  assert (Hr : String.eqb (p_rank pilot) "Captain" = true)
    by (rewrite Hrank; reflexivity).
  assert (Hdel : delete_CrewAssignment (v_flight_id flight) "Captain" db
                 = inr (set_CrewAssignment db
                          (filter (fun c => negb ((ca_flight_id c =? v_flight_id flight)
                                                  && String.eqb (ca_role c) "Captain"))
                                  (CrewAssignment db)))) by reflexivity.
  match type of Hdel with _ = inr ?d =>
    assert (Hins : insert_CrewAssignment (v_flight_id flight) new_pilot_id "Captain" d
                   = inr (set_CrewAssignment d
                            (CrewAssignment d
                             ++ [{| ca_flight_id := v_flight_id flight;
                                    ca_pilot_id := new_pilot_id;
                                    ca_role := "Captain" |}])%list))
  end.
  { unfold insert_CrewAssignment. cbn [CrewAssignment set_CrewAssignment].
    change (negb (Py.in_list "Captain" ["Captain"; "First Officer"])) with false.
    cbv iota.
    rewrite (existsb_filter_negb
               (fun c => (ca_flight_id c =? v_flight_id flight)
                         && String.eqb (ca_role c) "Captain")).
    match goal with |- context [existsb ?p (filter ?q ?l)] =>
      assert (existsb p (filter q l) = false) as ->
    end.
    { apply not_true_is_false. intros H. apply existsb_exists in H.
      destruct H as [c [Hc Hm]]. apply filter_In in Hc. destruct Hc as [Hin Hq].
      apply andb_true_iff in Hm. destruct Hm as [Hm1 Hm2].
      apply Z.eqb_eq in Hm1. apply Z.eqb_eq in Hm2.
      rewrite (Hrole c Hin Hm1 Hm2), Hm1, Z.eqb_refl in Hq. discriminate Hq. }
    unfold has_flight, has_pilot. cbn [Flight Pilot set_CrewAssignment].
    fold (has_flight db (v_flight_id flight)). fold (has_pilot db new_pilot_id).
    rewrite (found_flight_has _ _ _ _ Hf), (select_pilot_found _ _ _ Hp).
    reflexivity. }
  match type of Hdel with _ = inr ?d => remember d as d1 eqn:Ed end.
  match type of Hins with _ = inr ?d => remember d as d2 eqn:Ed2 end.
  clear Ed Ed2.
  unfold completed, change_captain, change_captain_body.
  run_op. split; [reflexivity|].
  repeat (apply in_or_app; first [right; simpl; tauto | left]).
Qed.

(** The scenario of the specification: on the seed, BA101 of 2025-06-05 has
    Captain 1; after a confirmed reassignment to pilot 7 the flight has one
    Captain row, of pilot 7, and no row of pilot 1. *)
Example captain_reassignment_scenario :
  let after := persisted (change_captain "BA101" "2025-06-05" 7 "y") seed in
  crew_in_role 1 "Captain" seed
  = [{| ca_flight_id := 1; ca_pilot_id := 1; ca_role := "Captain" |}]
  /\ crew_in_role 1 "Captain" after
     = [{| ca_flight_id := 1; ca_pilot_id := 7; ca_role := "Captain" |}]
  /\ filter (fun c => (ca_flight_id c =? 1) && (ca_pilot_id c =? 1))
            (CrewAssignment after) = [].
Proof. vm_compute. repeat split; reflexivity. Qed.

(** C4.  No two rows of [CrewAssignment] share flight and role: in the seed
    and in every database a sequence of commands leaves, because every
    command preserves it.  And when [change_captain] runs to completion twice
    in succession for the same flight number and date, the flight is left
    with exactly one Captain row, whose pilot is the one of the second run:
    each run deletes the rows of that flight and role and inserts the new
    one, in one transaction.  Inside a transaction too, the DELETE and the
    INSERT on [CrewAssignment] each keep the property. *)
Theorem one_assignment_per_role :
  (forall db, reachable db -> crew_role_unique db)
  /\ (forall c db, crew_role_unique db -> crew_role_unique (persisted (run c) db))
  /\ (forall flight pilot role db db',
         (delete_CrewAssignment flight role db = inr db'
          \/ insert_CrewAssignment flight pilot role db = inr db') ->
         crew_role_unique db -> crew_role_unique db')
  /\ (forall db flight_number flight_date first second reply1 reply2,
         let body1 := change_captain_body flight_number flight_date first reply1 in
         let op1 := change_captain flight_number flight_date first reply1 in
         let body2 := change_captain_body flight_number flight_date second reply2 in
         let op2 := change_captain flight_number flight_date second reply2 in
         completed body1 op1 db ->
         completed body2 op2 (persisted op1 db) ->
         exists flight,
           find_flight flight_number flight_date db = inr flight
           /\ crew_in_role (v_flight_id flight) "Captain"
                           (persisted op2 (persisted op1 db))
              = [{| ca_flight_id := v_flight_id flight; ca_pilot_id := second;
                    ca_role := "Captain" |}]).
Proof.
  split; [|split; [|split]].
  - intros db H. induction H as [|c db _ IH].
    + exact seed_crew_role_unique.
    + apply run_keeps_crew_role_unique. exact IH.
  - exact run_keeps_crew_role_unique.
  - intros flight pilot role db db' [H|H]; eauto with crew.
  - intros db n d first second reply1 reply2 body1 op1 body2 op2 H1 H2.
    destruct (change_captain_completed _ _ _ _ _ H1) as [flight [Hf Hp1]].
    destruct (change_captain_completed _ _ _ _ _ H2) as [flight2 [Hf2 Hp2]].
    fold op1 in Hp1, Hf2, Hp2. fold op2 in Hp2.
    exists flight. split; [exact Hf|].
    assert (Hsame : v_flight_id flight2 = v_flight_id flight).
    { destruct (validate_flight_number n) as [e|number] eqn:Hn.
      - unfold find_flight in Hf. rewrite Hn in Hf. discriminate Hf.
      - pose proof (found_flight_id _ _ _ _ _ Hn Hf) as Ha.
        pose proof (found_flight_id _ _ _ _ _ Hn Hf2) as Hb.
        rewrite Hp1, stored_flight_crew_independent in Hb. congruence. }
    rewrite Hp2, Hsame. unfold crew_in_role. simpl.
    rewrite filter_app, filter_filter_negb. simpl.
    rewrite Z.eqb_refl. reflexivity.
Qed.

Lemma one_assignment_per_role_witness :
  let body1 := change_captain_body "BA101" "2025-06-05" 7 "y" in
  let op1 := change_captain "BA101" "2025-06-05" 7 "y" in
  let body2 := change_captain_body "BA101" "2025-06-05" 5 "y" in
  let op2 := change_captain "BA101" "2025-06-05" 5 "y" in
  completed body1 op1 seed
  /\ completed body2 op2 (persisted op1 seed)
  /\ exists flight,
      find_flight "BA101" "2025-06-05" seed = inr flight
      /\ crew_in_role (v_flight_id flight) "Captain" (persisted op2 (persisted op1 seed))
         = [{| ca_flight_id := v_flight_id flight; ca_pilot_id := 5;
               ca_role := "Captain" |}].
Proof.
  intros body1 op1 body2 op2.
  assert (H1 : completed body1 op1 seed).
  { split; [reflexivity|]. vm_compute. tauto. }
  assert (H2 : completed body2 op2 (persisted op1 seed)).
  { split; [reflexivity|]. vm_compute. tauto. }
  split; [exact H1|]. split; [exact H2|].
  exact (proj2 (proj2 (proj2 one_assignment_per_role)) seed "BA101" "2025-06-05" 7 5
               "y" "y" H1 H2).
Defined.

(** ** Airport codes *)

Lemma upper_char_not_lower (c : ascii) : Py.islower_char (Py.upper_char c) = false.
Proof. destruct c as [[] [] [] [] [] [] [] []]; reflexivity. Qed.

Lemma all_chars_upper (s : string) :
  Py.all_chars (fun c => negb (Py.islower_char c)) (Py.upper s) = true.
Proof.
  induction s as [|c s IH]; simpl; [reflexivity|].
  rewrite upper_char_not_lower, IH. reflexivity.
Qed.

Lemma all_chars_lstrip (p : ascii -> bool) (s : string) :
  Py.all_chars p s = true -> Py.all_chars p (Py.lstrip s) = true.
Proof.
  induction s as [|c s IH]; simpl; [reflexivity|].
  intros H. apply andb_true_iff in H. destruct H as [Hc Hs].
  destruct (Py.isspace_char c); [auto|]. simpl. rewrite Hc, Hs. reflexivity.
Qed.

Lemma all_chars_rstrip (p : ascii -> bool) (s : string) :
  Py.all_chars p s = true -> Py.all_chars p (Py.rstrip s) = true.
Proof.
  induction s as [|c s IH]; simpl; [reflexivity|].
  intros H. apply andb_true_iff in H. destruct H as [Hc Hs].
  specialize (IH Hs).
  destruct (Py.rstrip s) as [|c' s'].
  - destruct (Py.isspace_char c); simpl; [reflexivity|]. rewrite Hc. reflexivity.
  - cbn [Py.all_chars]. rewrite Hc. exact IH.
Qed.

Lemma all_chars_and (p q r : ascii -> bool) (s : string) :
  (forall c, p c = true -> q c = true -> r c = true) ->
  Py.all_chars p s = true -> Py.all_chars q s = true -> Py.all_chars r s = true.
Proof.
  intros H. induction s as [|c s IH]; simpl; [reflexivity|].
  intros Hp Hq. apply andb_true_iff in Hp. apply andb_true_iff in Hq.
  destruct Hp as [Hp Hps]. destruct Hq as [Hq Hqs].
  rewrite (H c Hp Hq). simpl. auto.
Qed.

Lemma validate_airport_code_run (code : string) :
  validate_airport_code code
  = if (String.length (Py.strip (Py.upper code)) =? 3)%nat
       && Py.all_chars Py.isalpha_char (Py.strip (Py.upper code))
    then inr (Py.strip (Py.upper code))
    else inl (ValidationError "Airport code must be exactly 3 letters").
Proof.
  unfold validate_airport_code, Py.len, config.AIRPORT_CODE_LENGTH, Py.isalpha.
  set (c := Py.strip (Py.upper code)).
  change (Py.str_of_int 3) with "3". simpl append.
  destruct (Nat.eqb_spec (String.length c) 3) as [E|E].
  - rewrite E. simpl Z.eqb. simpl negb. simpl orb.
    destruct c; [discriminate E|].
    destruct (Py.all_chars _ _); reflexivity.
  - assert ((Z.of_nat (String.length c) =? 3) = false) as ->.
    { apply Z.eqb_neq. lia. }
    reflexivity.
Qed.

(** ** Characters as code points *)

Import Strptime.

Lemma eqb_code (a b : ascii) : Ascii.eqb a b = (Py.code a =? Py.code b)%N.
Proof.
  destruct (Ascii.eqb_spec a b) as [->|Hne].
  - symmetry. apply N.eqb_refl.
  - symmetry. apply N.eqb_neq. intros H. apply Hne.
    rewrite <- (ascii_N_embedding a), <- (ascii_N_embedding b).
    unfold Py.code in H. rewrite H. reflexivity.
Qed.

Ltac ground_codes :=
  repeat match goal with
         | |- context [Py.code (Ascii ?a ?b ?c ?d ?e ?f ?g ?h)] =>
             let n := eval vm_compute in (Py.code (Ascii a b c d e f g h)) in
             change (Py.code (Ascii a b c d e f g h)) with n
         | H : context [Py.code (Ascii ?a ?b ?c ?d ?e ?f ?g ?h)] |- _ =>
             let n := eval vm_compute in (Py.code (Ascii a b c d e f g h)) in
             change (Py.code (Ascii a b c d e f g h)) with n in H
         end.

Ltac bool_props :=
  repeat match goal with
         | H : (_ && _) = true |- _ => apply andb_true_iff in H; destruct H
         | H : (_ && _) = false |- _ => apply andb_false_iff in H; destruct H
         | H : (_ || _) = true |- _ => apply orb_true_iff in H; destruct H
         | H : (_ || _) = false |- _ => apply orb_false_iff in H; destruct H
         | H : negb _ = true |- _ => apply negb_true_iff in H
         | H : negb _ = false |- _ => apply negb_false_iff in H
         | H : (_ <=? _)%N = true |- _ => apply N.leb_le in H
         | H : (_ <=? _)%N = false |- _ => apply N.leb_gt in H
         | H : (_ =? _)%N = true |- _ => apply N.eqb_eq in H
         | H : (_ =? _)%N = false |- _ => apply N.eqb_neq in H
         | H : (_ <? _)%N = true |- _ => apply N.ltb_lt in H
         | H : (_ <? _)%N = false |- _ => apply N.ltb_ge in H
         | H : (_ <=? _) = true |- _ => apply Z.leb_le in H
         | H : (_ <=? _) = false |- _ => apply Z.leb_gt in H
         | H : (_ =? _) = true |- _ => apply Z.eqb_eq in H
         | H : (_ =? _) = false |- _ => apply Z.eqb_neq in H
         | H : true = false |- _ => discriminate H
         | H : false = true |- _ => discriminate H
         end.

(** Unfold the character tests down to comparisons of code points. *)
Ltac char_tests :=
  unfold rng, d, re_char, Py.isdigit_char, Py.isspace_char, Py.between,
    Py.digit_value in *;
  rewrite ?eqb_code in *;
  ground_codes.

Ltac split_ifs :=
  repeat match goal with
         | |- context [if ?b then _ else _] => destruct b eqn:?
         end.

Lemma re_token_TY (y1 y2 y3 y4 : ascii) (r : string) :
  Py.all_chars Py.isdigit_char (String y1 (String y2 (String y3 (String y4 "")))) = true ->
  re_token TY (String y1 (String y2 (String y3 (String y4 r))))
  = [(String y1 (String y2 (String y3 (String y4 ""))), r)].
Proof.
  simpl Py.all_chars. intros H. bool_props.
  unfold re_token, re_seq, d.
  repeat (cbn [re_class flat_map map fst snd app append];
          match goal with
          | H : Py.isdigit_char ?c = true |- context [Py.isdigit_char ?c] => rewrite H
          end).
  reflexivity.
Qed.

Lemma re_token_TLit (c : ascii) (r : string) :
  re_token (TLit c) (String c r) = [(String c "", r)].
Proof. cbn. rewrite Ascii.eqb_refl. reflexivity. Qed.

Ltac regex_cases :=
  unfold re_token, re_plus, re_seq, re_alt;
  cbn [re_class re_char rng d re_star flat_map map fst snd app append];
  char_tests;
  repeat (match goal with
          | |- context [if ?b then _ else _] => destruct b eqn:?
          end;
          bool_props; try lia;
          cbn [re_class re_star flat_map map fst snd app append]).

Lemma re_token_Tm_two (a b : ascii) (r : string) :
  Py.isdigit_char a = true -> Py.isdigit_char b = true ->
  1 <= 10 * Py.digit_value a + Py.digit_value b <= 12 ->
  exists tail, re_token Tm (String a (String b r)) = (String a (String b ""), r) :: tail.
Proof. intros Ha Hb Hv. regex_cases; eauto. Qed.

Lemma re_token_Tm_one (a : ascii) (r : string) :
  Py.isdigit_char a = true -> 1 <= Py.digit_value a ->
  starts_with_digit r = false ->
  exists tail, re_token Tm (String a r) = (String a "", r) :: tail.
Proof.
  intros Ha Hv Hr. destruct r as [|x r]; simpl in Hr; regex_cases; eauto.
Qed.

Lemma re_token_Td_two (a b : ascii) (r : string) :
  Py.isdigit_char a = true -> Py.isdigit_char b = true ->
  1 <= 10 * Py.digit_value a + Py.digit_value b <= 31 ->
  exists tail, re_token Td (String a (String b r)) = (String a (String b ""), r) :: tail.
Proof. intros Ha Hb Hv. regex_cases; eauto. Qed.

Lemma re_token_Td_one (a : ascii) (r : string) :
  Py.isdigit_char a = true -> 1 <= Py.digit_value a ->
  starts_with_digit r = false ->
  exists tail, re_token Td (String a r) = (String a "", r) :: tail.
Proof.
  intros Ha Hv Hr. destruct r as [|x r]; simpl in Hr; regex_cases; eauto.
Qed.

Lemma re_token_Td_blank (a : ascii) (r : string) :
  Py.isdigit_char a = true -> 1 <= Py.digit_value a ->
  exists tail, re_token Td (String " " (String a r)) = (String " " (String a ""), r) :: tail.
Proof. intros Ha Hv. regex_cases; eauto. Qed.

Lemma re_token_TH_two (a b : ascii) (r : string) :
  Py.isdigit_char a = true -> Py.isdigit_char b = true ->
  10 * Py.digit_value a + Py.digit_value b <= 23 ->
  exists tail, re_token TH (String a (String b r)) = (String a (String b ""), r) :: tail.
Proof. intros Ha Hb Hv. regex_cases; eauto. Qed.

Lemma re_token_TM_two (a b : ascii) (r : string) :
  Py.isdigit_char a = true -> Py.isdigit_char b = true ->
  10 * Py.digit_value a + Py.digit_value b <= 59 ->
  exists tail, re_token TM (String a (String b r)) = (String a (String b ""), r) :: tail.
Proof. intros Ha Hb Hv. regex_cases; eauto. Qed.

Lemma re_token_TBlank_space (a : ascii) (r : string) :
  Py.isdigit_char a = true ->
  exists tail, re_token TBlank (String " " (String a r)) = (" ", String a r) :: tail.
Proof. intros Ha. regex_cases; eauto. Qed.

Lemma re_format_head (t : token) (ts : list token) (s txt r rest : string)
      (gs : list (token * string)) (tail1 : parses) :
  re_token t s = (txt, r) :: tail1 ->
  (exists tail2, re_format ts r = (gs, rest) :: tail2) ->
  exists tail, re_format (t :: ts) s = ((t, txt) :: gs, rest) :: tail.
Proof.
  intros Ht [tail2 Hf]. cbn [re_format]. rewrite Ht. cbn [flat_map fst snd].
  rewrite Hf. cbn [map fst snd app]. eauto.
Qed.

(** ** Timestamps in the fixed pattern *)

Lemma digit_not_space (c : ascii) :
  Py.isdigit_char c = true -> Py.isspace_char c = false.
Proof.
  intros H. char_tests. bool_props.
  apply orb_false_iff; split; apply andb_false_iff;
    rewrite ?N.leb_gt; lia.
Qed.

Lemma rstrip_digits (s : string) :
  Py.all_chars Py.isdigit_char s = true -> Py.rstrip s = s.
Proof.
  induction s as [|c s IH]; simpl; [reflexivity|].
  intros H. apply andb_true_iff in H. destruct H as [Hc Hs].
  rewrite (IH Hs). destruct s; [|reflexivity].
  rewrite (digit_not_space c Hc). reflexivity.
Qed.

Lemma strip_digits (s : string) :
  Py.all_chars Py.isdigit_char s = true -> Py.strip s = s.
Proof.
  intros H. unfold Py.strip.
  assert (Py.lstrip s = s) as ->.
  { destruct s as [|c s]; [reflexivity|]. simpl in *.
    apply andb_true_iff in H. destruct H as [Hc _].
    rewrite (digit_not_space c Hc). reflexivity. }
  apply rstrip_digits. exact H.
Qed.

Lemma int_digits (s : string) :
  Py.all_chars Py.isdigit_char s = true -> Py.int s = Py.int_of_digits 0 s.
Proof. intros H. unfold Py.int. rewrite (strip_digits s H). reflexivity. Qed.

Lemma int_blank_digit (c : ascii) :
  Py.isdigit_char c = true ->
  Py.int (String " " (String c "")) = Py.digit_value c.
Proof.
  intros H. unfold Py.int, Py.strip. simpl Py.lstrip.
  change (Py.isspace_char " ") with true. cbv iota.
  rewrite (digit_not_space c H). simpl Py.rstrip.
  rewrite (digit_not_space c H). simpl. lia.
Qed.

Lemma days_in_month_max (y m : Z) : days_in_month y m <= 31.
Proof.
  unfold days_in_month.
  repeat match goal with |- context [if ?b then _ else _] => destruct b end; lia.
Qed.

Lemma tokens_datetime :
  tokens config.DATETIME_FORMAT
  = Some [TY; TLit "-"; Tm; TLit "-"; Td; TBlank; TH; TLit ":"; TM].
Proof. reflexivity. Qed.

Lemma tokens_date :
  tokens config.DATE_FORMAT = Some [TY; TLit "-"; Tm; TLit "-"; Td].
Proof. reflexivity. Qed.

(** The sixteen characters of a fixed timestamp, and what they satisfy. *)
Lemma fixed_datetime_inv (s : string) (t : datetime) :
  fixed_datetime s = Some t ->
  exists y1 y2 y3 y4 m1 m2 d1 d2 h1 h2 n1 n2,
    s = String y1 (String y2 (String y3 (String y4 (String "-"
          (String m1 (String m2 (String "-" (String d1 (String d2 (String " "
            (String h1 (String h2 (String ":" (String n1 (String n2 "")))))))))))))))
    /\ t = {| year := num4 y1 y2 y3 y4; month := num2 m1 m2; day := num2 d1 d2;
              hour := num2 h1 h2; minute := num2 n1 n2 |}
    /\ (Py.isdigit_char y1 = true /\ Py.isdigit_char y2 = true
        /\ Py.isdigit_char y3 = true /\ Py.isdigit_char y4 = true)
    /\ (Py.isdigit_char m1 = true /\ Py.isdigit_char m2 = true)
    /\ (Py.isdigit_char d1 = true /\ Py.isdigit_char d2 = true)
    /\ (Py.isdigit_char h1 = true /\ Py.isdigit_char h2 = true)
    /\ (Py.isdigit_char n1 = true /\ Py.isdigit_char n2 = true)
    /\ date_ok (num4 y1 y2 y3 y4) (num2 m1 m2) (num2 d1 d2) = true
    /\ num2 h1 h2 <= 23 /\ num2 n1 n2 <= 59.
Proof.
  unfold fixed_datetime.
  do 16 (destruct s as [|? s]; [discriminate|]). destruct s; [|discriminate].
  match goal with |- context [if ?b then _ else _] => destruct b eqn:E end;
    [|discriminate].
  intros [= <-].
  do 18 (apply andb_true_iff in E; destruct E as [E ?]).
  repeat match goal with
         | H : Ascii.eqb _ _ = true |- _ => apply Ascii.eqb_eq in H; subst
         end.
  do 12 eexists. split; [reflexivity|]. split; [reflexivity|].
  repeat split; try assumption; apply Z.leb_le; assumption.
Qed.

Lemma fixed_datetime_parsed (s : string) (t : datetime) :
  fixed_datetime s = Some t ->
  strptime s config.DATETIME_FORMAT = Some t.
Proof.
  intros H. apply fixed_datetime_inv in H.
  destruct H as (y1 & y2 & y3 & y4 & m1 & m2 & d1 & d2 & h1 & h2 & n1 & n2 & -> & ->
                 & (Hy1 & Hy2 & Hy3 & Hy4) & (Hm1 & Hm2) & (Hd1 & Hd2) & (Hh1 & Hh2)
                 & (Hn1 & Hn2) & Hok & Hh & Hn).
  assert (Hok' := Hok). unfold date_ok in Hok'.
  do 5 (apply andb_true_iff in Hok'; destruct Hok' as [Hok' ?]).
  bool_props. pose proof (days_in_month_max (num4 y1 y2 y3 y4) (num2 m1 m2)) as Hdim.
  unfold strptime. rewrite tokens_datetime.
  destruct (re_token_TM_two n1 n2 "" Hn1 Hn2 Hn) as [tl9 R9].
  pose proof (re_token_TLit ":" (String n1 (String n2 ""))) as R8.
  destruct (re_token_TH_two h1 h2 (String ":" (String n1 (String n2 ""))) Hh1 Hh2 Hh)
    as [tl7 R7].
  destruct (re_token_TBlank_space h1
              (String h2 (String ":" (String n1 (String n2 "")))) Hh1) as [tl6 R6].
  destruct (re_token_Td_two d1 d2
              (String " " (String h1 (String h2 (String ":" (String n1 (String n2 ""))))))
              Hd1 Hd2) as [tl5 R5]; [unfold num2 in *; lia|].
  pose proof (re_token_TLit "-"
                (String d1 (String d2 (String " " (String h1 (String h2 (String ":"
                   (String n1 (String n2 "")))))))))
    as R4.
  destruct (re_token_Tm_two m1 m2
              (String "-" (String d1 (String d2 (String " " (String h1 (String h2
                 (String ":" (String n1 (String n2 "")))))))))
              Hm1 Hm2) as [tl3 R3]; [unfold num2 in *; lia|].
  pose proof (re_token_TLit "-"
                (String m1 (String m2 (String "-" (String d1 (String d2 (String " "
                   (String h1 (String h2 (String ":" (String n1 (String n2 ""))))))))))))
    as R2.
  pose proof (re_token_TY y1 y2 y3 y4
                (String "-" (String m1 (String m2 (String "-" (String d1 (String d2
                   (String " " (String h1 (String h2 (String ":" (String n1
                      (String n2 "")))))))))))))
    as R1.
  cbn [Py.all_chars] in R1. rewrite Hy1, Hy2, Hy3, Hy4 in R1. specialize (R1 eq_refl).
  assert (Hfmt : exists tail,
             re_format [TY; TLit "-"; Tm; TLit "-"; Td; TBlank; TH; TLit ":"; TM]
               (String y1 (String y2 (String y3 (String y4 (String "-"
                  (String m1 (String m2 (String "-" (String d1 (String d2 (String " "
                     (String h1 (String h2 (String ":" (String n1 (String n2 ""))))))))))))))))
             = ([(TY, String y1 (String y2 (String y3 (String y4 ""))));
                 (TLit "-", "-"); (Tm, String m1 (String m2 ""));
                 (TLit "-", "-"); (Td, String d1 (String d2 ""));
                 (TBlank, " "); (TH, String h1 (String h2 ""));
                 (TLit ":", ":"); (TM, String n1 (String n2 ""))], "") :: tail).
  { eapply re_format_head; [exact R1|].
    eapply re_format_head; [exact R2|].
    eapply re_format_head; [exact R3|].
    eapply re_format_head; [exact R4|].
    eapply re_format_head; [exact R5|].
    eapply re_format_head; [exact R6|].
    eapply re_format_head; [exact R7|].
    eapply re_format_head; [exact R8|].
    eapply re_format_head; [exact R9|].
    eexists. reflexivity. }
  destruct Hfmt as [tail ->].
  cbn [group token_eqb].
  rewrite !int_digits
    by (cbn [Py.all_chars];
        rewrite ?Hy1, ?Hy2, ?Hy3, ?Hy4, ?Hm1, ?Hm2, ?Hd1, ?Hd2, ?Hh1, ?Hh2, ?Hn1, ?Hn2;
        reflexivity).
  cbn [Py.int_of_digits].
  replace (10 * (10 * (10 * (10 * 0 + Py.digit_value y1) + Py.digit_value y2)
                 + Py.digit_value y3) + Py.digit_value y4)
    with (num4 y1 y2 y3 y4) by (unfold num4; lia).
  replace (10 * (10 * 0 + Py.digit_value m1) + Py.digit_value m2)
    with (num2 m1 m2) by (unfold num2; lia).
  replace (10 * (10 * 0 + Py.digit_value d1) + Py.digit_value d2)
    with (num2 d1 d2) by (unfold num2; lia).
  replace (10 * (10 * 0 + Py.digit_value h1) + Py.digit_value h2)
    with (num2 h1 h2) by (unfold num2; lia).
  replace (10 * (10 * 0 + Py.digit_value n1) + Py.digit_value n2)
    with (num2 n1 n2) by (unfold num2; lia).
  rewrite Hok. reflexivity.
Qed.

Lemma fixed_datetime_in_sqlite (s : string) (t : datetime) :
  fixed_datetime s = Some t -> Sqlite.datetime s = Some (s ++ ":00").
Proof.
  intros H. apply fixed_datetime_inv in H.
  destruct H as (y1 & y2 & y3 & y4 & m1 & m2 & d1 & d2 & h1 & h2 & n1 & n2 & -> & ->
                 & (Hy1 & Hy2 & Hy3 & Hy4) & (Hm1 & Hm2) & (Hd1 & Hd2) & (Hh1 & Hh2)
                 & (Hn1 & Hn2) & Hok & Hh & Hn).
  unfold date_ok in Hok.
  do 5 (apply andb_true_iff in Hok; destruct Hok as [Hok ?]).
  bool_props. pose proof (days_in_month_max (num4 y1 y2 y3 y4) (num2 m1 m2)) as Hdim.
  unfold Sqlite.datetime, two_digits.
  rewrite Hy1, Hy2, Hy3, Hy4, Hm1, Hm2, Hd1, Hd2.
  change (Ascii.eqb "-" "-") with true. cbn [andb].
  fold (num2 m1 m2). fold (num2 d1 d2).
  assert ((1 <=? num2 m1 m2) = true) as -> by (apply Z.leb_le; lia).
  assert ((num2 m1 m2 <=? 12) = true) as -> by (apply Z.leb_le; lia).
  assert ((1 <=? num2 d1 d2) = true) as -> by (apply Z.leb_le; lia).
  assert ((num2 d1 d2 <=? 31) = true) as -> by (apply Z.leb_le; lia).
  cbn [andb].
  assert (Hskip : skip_date_sep
                    (String " " (String h1 (String h2 (String ":" (String n1
                       (String n2 ""))))))
                  = String h1 (String h2 (String ":" (String n1 (String n2 ""))))).
  { cbn [skip_date_sep]. change (sqlite_isspace " ") with true. cbn [orb].
    assert (sqlite_isspace h1 || Ascii.eqb h1 "T" = false) as ->; [|reflexivity].
    clear - Hh1. unfold sqlite_isspace. char_tests. bool_props.
    apply orb_false_iff; split; [apply orb_false_iff; split|];
      rewrite ?andb_false_iff, ?N.leb_gt, ?N.eqb_neq; lia. }
  rewrite Hskip. rewrite Hh1, Hh2, Hn1, Hn2.
  change (Ascii.eqb ":" ":") with true. cbn [andb].
  fold (num2 h1 h2). fold (num2 n1 n2).
  assert (0 <= num2 h1 h2 /\ 0 <= num2 n1 n2) as [Hh0 Hn0].
  { clear - Hh1 Hh2 Hn1 Hn2. unfold num2. char_tests. bool_props. lia. }
  assert ((0 <=? num2 h1 h2) = true) as -> by (apply Z.leb_le; lia).
  assert ((num2 h1 h2 <=? 23) = true) as -> by (apply Z.leb_le; lia).
  assert ((0 <=? num2 n1 n2) = true) as -> by (apply Z.leb_le; lia).
  assert ((num2 n1 n2 <=? 59) = true) as -> by (apply Z.leb_le; lia).
  reflexivity.
Qed.

Lemma str_ltb_app (a b x : string) :
  String.length a = String.length b ->
  Py.str_ltb (a ++ x) (b ++ x) = Py.str_ltb a b || (String.eqb a b && Py.str_ltb x x).
Proof.
  revert b. induction a as [|c a IH]; intros [|e b]; simpl; try discriminate.
  - intros _. reflexivity.
  - intros [= Hl]. rewrite (IH b Hl). rewrite eqb_code.
    destruct (Py.code c <? Py.code e)%N; [reflexivity|].
    destruct (Py.code c =? Py.code e)%N; reflexivity.
Qed.

Lemma fixed_datetime_length (s : string) (t : datetime) :
  fixed_datetime s = Some t -> String.length s = 16%nat.
Proof.
  intros H. apply fixed_datetime_inv in H.
  destruct H as (y1 & y2 & y3 & y4 & m1 & m2 & d1 & d2 & h1 & h2 & n1 & n2 & -> & _).
  reflexivity.
Qed.

Lemma fixed_datetime_order (a b : string) (ta tb : datetime) :
  fixed_datetime a = Some ta -> fixed_datetime b = Some tb ->
  (Py.str_ltb a b = true <-> earlier ta tb).
Proof.
  intros Ha Hb. apply fixed_datetime_inv in Ha. apply fixed_datetime_inv in Hb.
  destruct Ha as (y1 & y2 & y3 & y4 & m1 & m2 & d1 & d2 & h1 & h2 & n1 & n2 & -> & ->
                  & (Hy1 & Hy2 & Hy3 & Hy4) & (Hm1 & Hm2) & (Hd1 & Hd2) & (Hh1 & Hh2)
                  & (Hn1 & Hn2) & _).
  destruct Hb as (z1 & z2 & z3 & z4 & k1 & k2 & e1 & e2 & g1 & g2 & j1 & j2 & -> & ->
                  & (Hz1 & Hz2 & Hz3 & Hz4) & (Hk1 & Hk2) & (He1 & He2) & (Hg1 & Hg2)
                  & (Hj1 & Hj2) & _).
  unfold earlier, num4, num2. cbn [year month day hour minute Py.str_ltb].
  char_tests. bool_props.
  repeat match goal with
         | |- context [(?x <? ?y)%N] => destruct (N.ltb_spec x y)
         | |- context [(?x =? ?y)%N] => destruct (N.eqb_spec x y)
         end; split; intros; try discriminate; try reflexivity; lia.
Qed.

(** ** Changing the schedule *)

Lemma update_where_times (rows : list FlightRow) (flight : Z) (dep arr : string) :
  (exists f, In f rows /\ f_flight_id f = flight) ->
  (exists f, In f (update_where (fun f => f_flight_id f =? flight)
                                (set_times dep arr) rows)
             /\ f_flight_id f = flight)
  /\ forall f, In f (update_where (fun f => f_flight_id f =? flight)
                                  (set_times dep arr) rows) ->
               f_flight_id f = flight ->
               f_sched_dep_utc f = dep /\ f_sched_arr_utc f = arr.
Proof.
  intros [f0 [Hin0 Hid0]]. unfold update_where. split.
  - exists (set_times dep arr f0). split; [|exact Hid0].
    apply in_map_iff. exists f0. split; [|exact Hin0].
    rewrite Hid0, Z.eqb_refl. reflexivity.
  - intros f Hf Hid. apply in_map_iff in Hf. destruct Hf as [g [Hg _]].
    destruct (f_flight_id g =? flight) eqn:E; subst f; [split; reflexivity|].
    apply Z.eqb_neq in E. contradiction.
Qed.

Lemma fixed_datetime_valid (s : string) (t : datetime) :
  fixed_datetime s = Some t -> validate_datetime s = inr s.
Proof.
  intros H. unfold validate_datetime. rewrite (fixed_datetime_parsed _ _ H). reflexivity.
Qed.

Lemma fixed_datetimes_pass_check (dep arr : string) (td ta : datetime) :
  fixed_datetime dep = Some td -> fixed_datetime arr = Some ta ->
  Py.str_ltb dep arr = true ->
  check_arrival_after_departure dep arr = true.
Proof.
  intros Hd Ha Hlt. unfold check_arrival_after_departure.
  rewrite (fixed_datetime_in_sqlite _ _ Hd), (fixed_datetime_in_sqlite _ _ Ha).
  rewrite str_ltb_app.
  - rewrite Hlt. reflexivity.
  - rewrite (fixed_datetime_length _ _ Hd), (fixed_datetime_length _ _ Ha). reflexivity.
Qed.

(** Within the pattern YYYY-MM-DD HH:MM, zero-padded, the order of the texts
    is the order in time: when the departure is strictly earlier than the
    arrival, a confirmed [change_times] on a stored flight goes through and
    the flight's two columns hold exactly the two texts given; when it is
    not, [change_times] fails on a validation failure, with no connection and
    no transaction opened, and the database file is as it was. *)
Theorem change_times_stores_or_refuses (db : DB)
        (flight_number flight_date new_dep new_arr reply : string)
        (dep arr : datetime) :
  fixed_datetime new_dep = Some dep ->
  fixed_datetime new_arr = Some arr ->
  let body := change_times_body flight_number flight_date new_dep new_arr reply in
  let op := change_times flight_number flight_date new_dep new_arr reply in
  (earlier dep arr ->
   forall flight,
     validate_date flight_date = inr flight_date ->
     find_flight flight_number flight_date db = inr flight ->
     says_yes reply = true ->
     completed body op db
     /\ flight_scheduled (persisted op db) (v_flight_id flight) new_dep new_arr
     /\ persisted op db
        = set_Flight db
            (update_where (fun f => f_flight_id f =? v_flight_id flight)
                          (set_times new_dep new_arr) (Flight db))
            (seq_Flight db))
  /\ (~ earlier dep arr ->
      refused_unwritten body op db
      /\ ~ In Connect (events op db) /\ ~ In Begin (events op db)).
Proof.
  intros Hd Ha body op. subst body op.
  pose proof (fixed_datetime_valid _ _ Hd) as Hvd.
  pose proof (fixed_datetime_valid _ _ Ha) as Hva.
  pose proof (fixed_datetime_order _ _ _ _ Hd Ha) as Hord.
  split.
  - intros He flight Hdate Hf Hy. apply Hord in He.
    assert (Hge : Py.str_geb new_dep new_arr = false).
    { unfold Py.str_geb. rewrite He. reflexivity. }
    assert (Hu : update_Flight_times new_dep new_arr (v_flight_id flight) db
                 = inr (set_Flight db
                          (update_where (fun f => f_flight_id f =? v_flight_id flight)
                                        (set_times new_dep new_arr) (Flight db))
                          (seq_Flight db))).
    { unfold update_Flight_times.
      rewrite (fixed_datetimes_pass_check _ _ _ _ Hd Ha He), andb_false_r. reflexivity. }
    unfold completed, flight_scheduled, change_times, change_times_body.
    run_op. split; [|split].
    + split; [reflexivity|].
      repeat (apply in_or_app; first [right; simpl; tauto | left]).
    + simpl. apply update_where_times. eapply found_flight_is_stored; eassumption.
    + reflexivity.
  - intros He.
    assert (Hge : Py.str_geb new_dep new_arr = true).
    { unfold Py.str_geb. destruct (Py.str_ltb new_dep new_arr) eqn:E; [|reflexivity].
      exfalso. apply He, Hord. reflexivity. }
    unfold refused_unwritten, change_times, change_times_body.
    run_op.
    all: repeat split; try reflexivity; try (intros ? H; in_events; fail);
      try (intros H; in_events; fail).
    all: eexists; split; [reflexivity|]; simpl; auto.
Qed.

Lemma change_times_stores_or_refuses_witness :
  let body := change_times_body "BA101" "2025-06-05" "2025-06-05 09:00"
                                "2025-06-05 16:30" "y" in
  let op := change_times "BA101" "2025-06-05" "2025-06-05 09:00"
                         "2025-06-05 16:30" "y" in
  (exists dep arr,
      fixed_datetime "2025-06-05 09:00" = Some dep
      /\ fixed_datetime "2025-06-05 16:30" = Some arr
      /\ earlier dep arr)
  /\ validate_date "2025-06-05" = inr "2025-06-05"
  /\ (exists flight, find_flight "BA101" "2025-06-05" seed = inr flight
                     /\ v_flight_id flight = 1)
  /\ says_yes "y" = true
  /\ completed body op seed
  /\ flight_scheduled (persisted op seed) 1 "2025-06-05 09:00" "2025-06-05 16:30".
Proof.
  intros body op.
  assert (He : earlier {| year := 2025; month := 6; day := 5; hour := 9; minute := 0 |}
                       {| year := 2025; month := 6; day := 5; hour := 16; minute := 30 |}).
  { unfold earlier. simpl. lia. }
  split; [do 2 eexists; split; [reflexivity|split; [reflexivity|exact He]]|].
  split; [reflexivity|]. split; [eexists; split; reflexivity|].
  split; [reflexivity|].
  destruct (proj1 (change_times_stores_or_refuses seed "BA101" "2025-06-05"
                     "2025-06-05 09:00" "2025-06-05 16:30" "y" _ _ eq_refl eq_refl)
                  He _ eq_refl eq_refl eq_refl) as [H1 [H2 _]].
  split; [exact H1|exact H2].
Defined.

(** C2.  [change_times] orders the two timestamps as texts, and
    [validate_datetime] lets texts through whose order as texts is not their
    order in time; the CHECK of the table is NULL on a text SQLite cannot
    read, and passes.  On the seed, for flight BA101 of 2025-06-05, the
    departure "2025-06-05 09:00" and the arrival "2025-6-5 08:00" both pass
    validation and the arrival is an hour before the departure, yet the
    confirmed change goes through and the two texts are stored; with the two
    exchanged the departure is before the arrival and the change is refused
    on the validation failure "Departure time must be before arrival time". *)
Theorem change_times_orders_texts_not_times :
  let dep := "2025-06-05 09:00" in
  let arr := "2025-6-5 08:00" in
  let op := change_times "BA101" "2025-06-05" dep arr "y" in
  let back := change_times "BA101" "2025-06-05" arr dep "y" in
  validate_datetime dep = inr dep
  /\ validate_datetime arr = inr arr
  /\ (exists td ta,
         strptime dep config.DATETIME_FORMAT = Some td
         /\ strptime arr config.DATETIME_FORMAT = Some ta
         /\ earlier ta td)
  /\ (exists flight, find_flight "BA101" "2025-06-05" seed = inr flight
                     /\ v_flight_id flight = 1)
  /\ completed (change_times_body "BA101" "2025-06-05" dep arr "y") op seed
  /\ flight_scheduled (persisted op seed) 1 dep arr
  /\ result (change_times_body "BA101" "2025-06-05" arr dep "y") seed
     = inl (ValidationError "Departure time must be before arrival time")
  /\ refused_unwritten (change_times_body "BA101" "2025-06-05" arr dep "y") back seed.
Proof.
  cbv zeta.
  split; [reflexivity|]. split; [reflexivity|].
  split.
  { exists {| year := 2025; month := 6; day := 5; hour := 9; minute := 0 |},
           {| year := 2025; month := 6; day := 5; hour := 8; minute := 0 |}.
    split; [reflexivity|]. split; [reflexivity|].
    unfold earlier. simpl. lia. }
  split; [eexists; split; reflexivity|].
  split.
  { split; [reflexivity|]. vm_compute. tauto. }
  split.
  { split.
    - eexists. split; [vm_compute; left; reflexivity|reflexivity].
    - intros f Hin Hid. vm_compute in Hin.
      repeat (destruct Hin as [<-|Hin]; [first [discriminate Hid|split; reflexivity]|]).
      destruct Hin. }
  split; [reflexivity|].
  split; [|split; [reflexivity|split; [reflexivity|]]].
  - eexists. split; [reflexivity|]. vm_compute. tauto.
  - intros table H. vm_compute in H.
    repeat (destruct H as [H|H]; [discriminate H|]). destruct H.
Qed.

(** ** What the date pattern reads *)

Lemma re_class_sound (p : ascii -> bool) (s t r : string) :
  In (t, r) (re_class p s) ->
  exists c, s = String c r /\ t = String c "" /\ p c = true.
Proof.
  unfold re_class. destruct s as [|c s]; [contradiction|].
  destruct (p c) eqn:E; [|contradiction].
  intros [[= <- <-]|[]]. eauto.
Qed.

Lemma re_seq_sound (p q : string -> parses) (s t r : string) :
  In (t, r) (re_seq p q s) ->
  exists t1 r1 t2, In (t1, r1) (p s) /\ In (t2, r) (q r1) /\ t = t1 ++ t2.
Proof.
  unfold re_seq. intros H. apply in_flat_map in H. destruct H as [[t1 r1] [H1 H]].
  apply in_map_iff in H. destruct H as [[t2 r2] [[= <- <-] H2]]. simpl in *. eauto 7.
Qed.

Lemma re_alt_sound (p q : string -> parses) (s : string) (x : string * string) :
  In x (re_alt p q s) -> In x (p s) \/ In x (q s).
Proof. unfold re_alt. apply in_app_or. Qed.

Ltac regex_inv :=
  repeat match goal with
         | H : In _ (re_alt _ _ _) |- _ => apply re_alt_sound in H; destruct H as [H|H]
         | H : In _ (re_seq _ _ _) |- _ =>
             apply re_seq_sound in H;
             let t1 := fresh "t" in let r1 := fresh "r" in let t2 := fresh "t" in
             let H1 := fresh "H" in let H2 := fresh "H" in
             destruct H as (t1 & r1 & t2 & H1 & H2 & ->)
         | H : In _ (re_class _ _) |- _ =>
             apply re_class_sound in H;
             let c := fresh "c" in let Hc := fresh "Hc" in
             destruct H as (c & -> & -> & Hc)
         | H : In _ (re_char _ _) |- _ => unfold re_char in H
         | H : In _ (rng _ _ _) |- _ => unfold rng in H
         | H : In _ (d _) |- _ => unfold d in H
         end.

Lemma in_range_digit (lo hi : N) (c : ascii) :
  (48 <= lo)%N -> (hi <= 57)%N -> Py.between lo hi c = true -> Py.isdigit_char c = true.
Proof.
  intros Hlo Hhi H. unfold Py.isdigit_char, Py.between in *. bool_props.
  apply andb_true_iff; split; apply N.leb_le; lia.
Qed.

Lemma eqb_digit (a c : ascii) :
  Py.isdigit_char a = true -> Ascii.eqb a c = true -> Py.isdigit_char c = true.
Proof. intros Ha H. apply Ascii.eqb_eq in H. subst. exact Ha. Qed.

Ltac digit_facts :=
  repeat match goal with
         | H : Py.between (Py.code _) (Py.code _) ?c = true |- _ =>
             apply (in_range_digit _ _ c) in H;
             [|vm_compute; discriminate|vm_compute; discriminate]
         | H : Ascii.eqb (Ascii _ _ _ _ _ _ _ _) ?c = true |- _ =>
             first [ apply (eqb_digit _ c) in H; [|reflexivity]
                   | apply Ascii.eqb_eq in H; subst c ]
         end.

Lemma re_token_TY_sound (s t r : string) :
  In (t, r) (re_token TY s) -> s = t ++ r /\ numeral 4 4 t.
Proof.
  cbn [re_token]. intros H. regex_inv. split; [reflexivity|].
  split; [|simpl; lia]. cbn [append Py.all_chars].
  repeat match goal with H : Py.isdigit_char _ = true |- _ => rewrite H; clear H end.
  reflexivity.
Qed.

Lemma re_token_TLit_sound (c : ascii) (s t r : string) :
  In (t, r) (re_token (TLit c) s) -> s = t ++ r /\ t = String c "".
Proof.
  cbn [re_token]. intros H. regex_inv.
  apply Ascii.eqb_eq in Hc. subst. split; reflexivity.
Qed.

Lemma re_token_Tm_sound (s t r : string) :
  In (t, r) (re_token Tm s) -> s = t ++ r /\ numeral 1 2 t.
Proof.
  cbn [re_token]. intros H. regex_inv; digit_facts;
    (split; [reflexivity|]); (split; [|simpl; lia]); cbn [append Py.all_chars];
    repeat match goal with H : Py.isdigit_char _ = true |- _ => rewrite H; clear H end;
    reflexivity.
Qed.

Lemma re_token_Td_sound (s t r : string) :
  In (t, r) (re_token Td s) -> s = t ++ r /\ day_text t.
Proof.
  cbn [re_token]. intros H. regex_inv; digit_facts;
    (split; [reflexivity|]).
  1-4: left; (split; [|simpl; lia]); cbn [append Py.all_chars];
    repeat match goal with H : Py.isdigit_char _ = true |- _ => rewrite H; clear H end;
    reflexivity.
  right. eexists. split; [reflexivity|assumption].
Qed.

Lemma re_format_cons_sound (t : token) (ts : list token) (s rest : string)
      (gs : list (token * string)) :
  In (gs, rest) (re_format (t :: ts) s) ->
  exists txt r gs', In (txt, r) (re_token t s) /\ In (gs', rest) (re_format ts r)
                    /\ gs = (t, txt) :: gs'.
Proof.
  cbn [re_format]. intros H. apply in_flat_map in H. destruct H as [[txt r] [H1 H]].
  apply in_map_iff in H. destruct H as [[gs' rest'] [[= <- <-] H2]]. simpl in *.
  eauto 7.
Qed.

Lemma date_pattern_sound (s rest : string) (gs : list (token * string)) :
  In (gs, rest) (re_format [TY; TLit "-"; Tm; TLit "-"; Td] s) ->
  exists Y M D,
    gs = [(TY, Y); (TLit "-", "-"); (Tm, M); (TLit "-", "-"); (Td, D)]
    /\ s = Y ++ "-" ++ M ++ "-" ++ D ++ rest
    /\ numeral 4 4 Y /\ numeral 1 2 M /\ day_text D.
Proof.
  intros H.
  apply re_format_cons_sound in H. destruct H as (Y & r1 & g1 & HY & H & ->).
  apply re_format_cons_sound in H. destruct H as (l1 & r2 & g2 & Hl1 & H & ->).
  apply re_format_cons_sound in H. destruct H as (M & r3 & g3 & HM & H & ->).
  apply re_format_cons_sound in H. destruct H as (l2 & r4 & g4 & Hl2 & H & ->).
  apply re_format_cons_sound in H. destruct H as (D & r5 & g5 & HD & H & ->).
  destruct H as [[= <- <-]|[]].
  apply re_token_TY_sound in HY. destruct HY as [-> HY].
  apply re_token_TLit_sound in Hl1. destruct Hl1 as [-> ->].
  apply re_token_Tm_sound in HM. destruct HM as [-> HM].
  apply re_token_TLit_sound in Hl2. destruct Hl2 as [-> ->].
  apply re_token_Td_sound in HD. destruct HD as [-> HD].
  exists Y, M, D. repeat split; try assumption; try apply HY; try apply HM.
Qed.

Lemma append_nil_r (x : string) : x ++ "" = x.
Proof. induction x as [|a x IH]; simpl; [reflexivity|rewrite IH; reflexivity]. Qed.

Lemma month_first (M r : string) :
  numeral 1 2 M -> 1 <= Py.int M <= 12 -> starts_with_digit r = false ->
  exists tail, re_token Tm (M ++ r) = (M, r) :: tail.
Proof.
  intros [Hd Hl] Hv Hr. rewrite (int_digits M Hd) in Hv.
  destruct M as [|a [|b [|c M]]]; simpl in Hl; try lia;
    cbn [Py.all_chars] in Hd; bool_props; cbn [Py.int_of_digits] in Hv; cbn [append].
  - apply re_token_Tm_one; [assumption|lia|assumption].
  - apply re_token_Tm_two; [assumption|assumption|lia].
Qed.

Lemma day_first (D : string) :
  day_text D -> 1 <= Py.int D <= 31 ->
  exists tail, re_token Td D = (D, "") :: tail.
Proof.
  intros [[Hd Hl]|[c [-> Hc]]] Hv.
  - rewrite (int_digits D Hd) in Hv.
    destruct D as [|a [|b [|c D]]]; simpl in Hl; try lia;
      cbn [Py.all_chars] in Hd; bool_props; cbn [Py.int_of_digits] in Hv.
    + apply re_token_Td_one; [assumption|lia|reflexivity].
    + apply re_token_Td_two; [assumption|assumption|lia].
  - rewrite (int_blank_digit c Hc) in Hv.
    apply re_token_Td_blank; [assumption|lia].
Qed.

Lemma lenient_date_parsed (s : string) :
  lenient_date s -> exists t, strptime s config.DATE_FORMAT = Some t.
Proof.
  intros (Y & M & D & -> & HY & HM & HD & Hok).
  assert (Hok' := Hok). unfold date_ok in Hok'.
  do 5 (apply andb_true_iff in Hok'; destruct Hok' as [Hok' ?]). bool_props.
  pose proof (days_in_month_max (Py.int Y) (Py.int M)) as Hdim.
  destruct (day_first D HD) as [tl5 R5]; [lia|].
  destruct (month_first M ("-" ++ D) HM) as [tl3 R3]; [lia|reflexivity|].
  destruct HY as [HYd HYl].
  destruct Y as [|y1 [|y2 [|y3 [|y4 [|y5 Y]]]]]; simpl in HYl; try lia.
  pose proof (re_token_TY y1 y2 y3 y4 ("-" ++ M ++ "-" ++ D) HYd) as R1.
  assert (Hfmt : exists tail,
             re_format [TY; TLit "-"; Tm; TLit "-"; Td]
               (String y1 (String y2 (String y3 (String y4 "")))
                ++ "-" ++ M ++ "-" ++ D)
             = ([(TY, String y1 (String y2 (String y3 (String y4 ""))));
                 (TLit "-", "-"); (Tm, M); (TLit "-", "-"); (Td, D)], "") :: tail).
  { eapply re_format_head; [exact R1|].
    eapply re_format_head; [apply re_token_TLit|].
    eapply re_format_head; [exact R3|].
    eapply re_format_head; [apply re_token_TLit|].
    eapply re_format_head; [exact R5|].
    eexists. reflexivity. }
  destruct Hfmt as [tail Hfmt].
  unfold strptime. rewrite tokens_date, Hfmt. cbn [group token_eqb].
  rewrite Hok. eauto.
Qed.

Lemma validate_date_reads (s : string) :
  (exists t, strptime s config.DATE_FORMAT = Some t) <-> lenient_date s.
Proof.
  split; [|apply lenient_date_parsed].
  intros [t H]. unfold strptime in H. rewrite tokens_date in H.
  destruct (re_format _ s) as [|[gs rest] tail] eqn:E; [discriminate|].
  destruct rest; [|discriminate].
  assert (Hin : In (gs, "") (re_format [TY; TLit "-"; Tm; TLit "-"; Td] s)).
  { rewrite E. left. reflexivity. }
  apply date_pattern_sound in Hin.
  destruct Hin as (Y & M & D & -> & -> & HY & HM & HD).
  cbn [group token_eqb] in H.
  destruct (date_ok (Py.int Y) (Py.int M) (Py.int D)) eqn:Hok; [|discriminate].
  exists Y, M, D. rewrite append_nil_r.
  repeat split; try assumption; try apply HY; try apply HM.
Qed.

(** C8, counterexample.  The month and the day of "2025-6-5" are not
    zero-padded, the text is not in the fixed pattern, and [validate_date]
    returns it. *)
Lemma validate_date_accepts_unpadded :
  fixed_date_shape "2025-6-5" = false
  /\ validate_date "2025-6-5" = inr "2025-6-5".
Proof. split; reflexivity. Qed.

(** C8, as amended.  [validate_date] returns every date [strptime] reads
    with [%Y-%m-%d], unchanged: four digits of year, a hyphen, one or two
    digits of month, a hyphen, one or two digits of day (or a blank and a
    digit), naming a date of the calendar.  What it returns is always its
    argument.  On ASCII text these are the only texts it returns: on every
    other it raises the validation error. *)
Theorem validate_date_accepts_lenient_dates (date_string : string) :
  (lenient_date date_string -> validate_date date_string = inr date_string)
  /\ (forall r, validate_date date_string = inr r -> r = date_string)
  /\ (Py.isascii date_string = true ->
      (forall r, validate_date date_string = inr r -> lenient_date date_string)
      /\ (~ lenient_date date_string ->
          validate_date date_string
          = inl (ValidationError
                   ("Invalid date format: " ++ date_string ++ ". Use YYYY-MM-DD")))).
Proof.
  pose proof (validate_date_reads date_string) as Hr.
  unfold validate_date.
  destruct (strptime date_string config.DATE_FORMAT) as [t|] eqn:E.
  - assert (Hl : lenient_date date_string) by (apply Hr; eauto).
    split; [reflexivity|]. split; [intros r [= <-]; reflexivity|].
    intros _. split; [intros r _; exact Hl|intros Hn; contradiction].
  - split; [intros Hl; apply Hr in Hl; destruct Hl as [t Ht]; discriminate Ht|].
    split; [discriminate|].
    intros _. split; [discriminate|reflexivity].
Qed.

Lemma validate_date_accepts_lenient_dates_witness :
  Py.isascii "2025-6-5" = true
  /\ validate_date "2025-6-5" = inr "2025-6-5"
  /\ lenient_date "2025-6-5".
Proof.
  split; [reflexivity|]. split; [reflexivity|].
  exact (proj1 (proj2 (proj2 (validate_date_accepts_lenient_dates "2025-6-5")) eq_refl)
               "2025-6-5" eq_refl).
Defined.

(** The dates of the fixed pattern are among them, and texts in another
    pattern or naming no date are not. *)
Example validate_date_examples :
  validate_date "2025-06-05" = inr "2025-06-05"
  /\ validate_date "2024-02-29" = inr "2024-02-29"
  /\ validate_date "05/06/2025"
     = inl (ValidationError "Invalid date format: 05/06/2025. Use YYYY-MM-DD")
  /\ validate_date "2025-02-29"
     = inl (ValidationError "Invalid date format: 2025-02-29. Use YYYY-MM-DD")
  /\ validate_date "2025-06-05 "
     = inl (ValidationError "Invalid date format: 2025-06-05 . Use YYYY-MM-DD").
Proof. repeat split; reflexivity. Qed.

Lemma fixed_date_is_lenient (y1 y2 y3 y4 m1 m2 d1 d2 : ascii) :
  Py.all_chars Py.isdigit_char
    (String y1 (String y2 (String y3 (String y4 (String m1 (String m2
       (String d1 (String d2 "")))))))) = true ->
  date_ok (num4 y1 y2 y3 y4) (num2 m1 m2) (num2 d1 d2) = true ->
  validate_date
    (String y1 (String y2 (String y3 (String y4 (String "-"
       (String m1 (String m2 (String "-" (String d1 (String d2 ""))))))))))
  = inr (String y1 (String y2 (String y3 (String y4 (String "-"
           (String m1 (String m2 (String "-" (String d1 (String d2 "")))))))))).
Proof.
  cbn [Py.all_chars]. intros Hd Hok. bool_props.
  match goal with |- validate_date ?s = _ =>
    assert (Hl : lenient_date s); [|apply validate_date_reads in Hl;
      destruct Hl as [t Ht]; unfold validate_date; rewrite Ht; reflexivity]
  end.
  exists (String y1 (String y2 (String y3 (String y4 "")))),
         (String m1 (String m2 "")), (String d1 (String d2 "")).
  assert (HY : Py.all_chars Py.isdigit_char
                 (String y1 (String y2 (String y3 (String y4 "")))) = true).
  { cbn [Py.all_chars].
    repeat match goal with H : Py.isdigit_char _ = true |- _ => rewrite H; clear H end.
    reflexivity. }
  assert (HM : Py.all_chars Py.isdigit_char (String m1 (String m2 "")) = true).
  { cbn [Py.all_chars].
    repeat match goal with H : Py.isdigit_char _ = true |- _ => rewrite H; clear H end.
    reflexivity. }
  assert (HD : Py.all_chars Py.isdigit_char (String d1 (String d2 "")) = true).
  { cbn [Py.all_chars].
    repeat match goal with H : Py.isdigit_char _ = true |- _ => rewrite H; clear H end.
    reflexivity. }
  split; [reflexivity|].
  split; [split; [exact HY|simpl; lia]|].
  split; [split; [exact HM|simpl; lia]|].
  split; [left; split; [exact HD|simpl; lia]|].
  rewrite (int_digits _ HY), (int_digits _ HM), (int_digits _ HD).
  cbn [Py.int_of_digits].
  replace (10 * (10 * (10 * (10 * 0 + Py.digit_value y1) + Py.digit_value y2)
                 + Py.digit_value y3) + Py.digit_value y4)
    with (num4 y1 y2 y3 y4) by (unfold num4; lia).
  replace (10 * (10 * 0 + Py.digit_value m1) + Py.digit_value m2)
    with (num2 m1 m2) by (unfold num2; lia).
  replace (10 * (10 * 0 + Py.digit_value d1) + Py.digit_value d2)
    with (num2 d1 d2) by (unfold num2; lia).
  exact Hok.
Qed.

(** ** What a command commits *)

Lemma rank_eqb (a b : string) : negb (String.eqb a b) = false -> a = b.
Proof. intros H. apply negb_false_iff in H. apply String.eqb_eq. exact H. Qed.

Lemma validate_positive_number_returns (v q : Q) (field : string) :
  validate_positive_number v field = inr q -> q = v /\ Qle_bool v 0 = false.
Proof.
  unfold validate_positive_number. destruct (Qle_bool v 0); [discriminate|].
  intros [= <-]. split; reflexivity.
Qed.

Ltac unfold_command :=
  cbv beta iota delta [run body_of];
  unfold change_route, change_route_body, change_times, change_times_body,
    change_status, change_status_body, change_captain, change_captain_body,
    change_first_officer, change_first_officer_body, add_airport, add_airport_body,
    add_route, add_route_body, add_pilot, add_pilot_body, add_flight,
    add_flight_body, assign_captain, assign_captain_body.

Ltac tidy_checks :=
  repeat match goal with
         | H : negb (String.eqb _ _) = false |- _ => apply rank_eqb in H
         | H : negb ?b = false |- _ => apply negb_false_iff in H
         | H : (p_rank _ =? _)%string = true |- _ => apply String.eqb_eq in H
         | H : (Py.lower (Py.strip ?r) =? "y")%string = true |- _ =>
             change (says_yes r = true) in H
         | H : validate_positive_number _ _ = inr _ |- _ =>
             apply validate_positive_number_returns in H; destruct H as [-> H]
         end.

Ltac by_commits :=
  first
    [ solve [eapply commits_add_airport; revgoals; eassumption]
    | solve [eapply commits_add_route; revgoals; eassumption]
    | solve [eapply commits_add_pilot; revgoals; eassumption]
    | solve [eapply commits_add_flight; revgoals; eassumption]
    | solve [eapply commits_change_route; revgoals; eassumption]
    | solve [eapply commits_change_route_new; revgoals; eassumption]
    | solve [eapply commits_change_times; revgoals; eassumption]
    | solve [eapply commits_change_status; revgoals; eassumption]
    | solve [eapply commits_change_captain; revgoals; eassumption]
    | solve [eapply commits_change_first_officer; revgoals; eassumption]
    | solve [eapply commits_assign_captain; revgoals; eassumption] ].

(** A command either goes through, and then the file holds what its
    statements made of it, or commits nothing and leaves the file as it
    was. *)
Lemma run_cases (c : command) (db : DB) :
  (completed (body_of c) (run c) db /\ commits c db (persisted (run c) db))
  \/ (~ In Commit (events (run c) db) /\ persisted (run c) db = db).
Proof.
  destruct c; unfold completed; unfold_command; run_op.
  all: try (right; split; [intros H; in_events|reflexivity]; fail).
  all: left; split;
    [split; [reflexivity|repeat (apply in_or_app; first [right; left; reflexivity|left])]|].
  all: tidy_checks; by_commits.
Qed.

Lemma validate_positive_number_accepts (v : Q) (field : string) :
  Qle_bool v 0 = false -> validate_positive_number v field = inr v.
Proof. unfold validate_positive_number. intros ->. reflexivity. Qed.

(** When its checks pass, the command goes through with that result. *)
Lemma commits_run (c : command) (db db' : DB) :
  commits c db db' ->
  completed (body_of c) (run c) db /\ persisted (run c) db = db'.
Proof.
  intros H. destruct H; unfold completed; unfold_command.
  all: repeat match goal with
         | H : p_rank _ = _ |- _ =>
             apply String.eqb_eq in H
         | H : Qle_bool (inject_Z ?v) 0 = false |- _ =>
             apply (validate_positive_number_accepts (inject_Z v) "Flight duration")
               in H
         | H : Qle_bool ?v 0 = false |- _ =>
             apply (validate_positive_number_accepts v "Distance") in H
         end.
  all: run_op.
  all: split; [|reflexivity].
  all: split; [reflexivity|].
  all: repeat (apply in_or_app; first [right; left; reflexivity|left]).
Qed.

(** ** The string methods of the validators *)

Ltac by_chars c := destruct c as [[] [] [] [] [] [] [] []]; reflexivity.

Lemma upper_char_idem (c : ascii) : Py.upper_char (Py.upper_char c) = Py.upper_char c.
Proof. by_chars c. Qed.

Lemma lower_char_idem (c : ascii) : Py.lower_char (Py.lower_char c) = Py.lower_char c.
Proof. by_chars c. Qed.

Lemma upper_lower_char (c : ascii) : Py.upper_char (Py.lower_char c) = Py.upper_char c.
Proof. by_chars c. Qed.

Lemma lower_upper_char (c : ascii) : Py.lower_char (Py.upper_char c) = Py.lower_char c.
Proof. by_chars c. Qed.

Lemma isspace_upper_char (c : ascii) :
  Py.isspace_char (Py.upper_char c) = Py.isspace_char c.
Proof. by_chars c. Qed.

Lemma isspace_lower_char (c : ascii) :
  Py.isspace_char (Py.lower_char c) = Py.isspace_char c.
Proof. by_chars c. Qed.

Lemma isalpha_upper_char (c : ascii) :
  Py.isalpha_char (Py.upper_char c) = Py.isalpha_char c.
Proof. by_chars c. Qed.

Lemma isalpha_lower_char (c : ascii) :
  Py.isalpha_char (Py.lower_char c) = Py.isalpha_char c.
Proof. by_chars c. Qed.

Lemma alpha_not_space (c : ascii) :
  Py.isalpha_char c = true -> Py.isspace_char c = false.
Proof.
  destruct c as [[] [] [] [] [] [] [] []]; vm_compute; intros H;
    first [reflexivity|discriminate H].
Qed.

Lemma upper_idem (s : string) : Py.upper (Py.upper s) = Py.upper s.
Proof. induction s as [|c s IH]; simpl; [|rewrite upper_char_idem, IH]; reflexivity. Qed.

Lemma lower_idem (s : string) : Py.lower (Py.lower s) = Py.lower s.
Proof. induction s as [|c s IH]; simpl; [|rewrite lower_char_idem, IH]; reflexivity. Qed.

Lemma upper_lower (s : string) : Py.upper (Py.lower s) = Py.upper s.
Proof. induction s as [|c s IH]; simpl; [|rewrite upper_lower_char, IH]; reflexivity. Qed.

Lemma lower_upper (s : string) : Py.lower (Py.upper s) = Py.lower s.
Proof. induction s as [|c s IH]; simpl; [|rewrite lower_upper_char, IH]; reflexivity. Qed.

(** Changing the case of the letters commutes with trimming the blanks. *)
Section case_and_blanks.
Variable f : ascii -> ascii.
Variable g : string -> string.
Hypothesis g_nil : g EmptyString = EmptyString.
Hypothesis g_cons : forall c s, g (String c s) = String (f c) (g s).
Hypothesis keeps_blanks : forall c, Py.isspace_char (f c) = Py.isspace_char c.

Lemma lstrip_map_chars (s : string) : Py.lstrip (g s) = g (Py.lstrip s).
Proof.
  induction s as [|c s IH]; [simpl; rewrite g_nil; reflexivity|].
  rewrite g_cons. simpl. rewrite keeps_blanks.
  destruct (Py.isspace_char c); [exact IH|rewrite g_cons; reflexivity].
Qed.

Lemma rstrip_map_chars (s : string) : Py.rstrip (g s) = g (Py.rstrip s).
Proof.
  induction s as [|c s IH]; [simpl; rewrite g_nil; reflexivity|].
  rewrite g_cons. simpl. rewrite IH, keeps_blanks.
  destruct (Py.rstrip s) as [|c' r'].
  - rewrite g_nil. destruct (Py.isspace_char c); [rewrite g_nil|rewrite g_cons, g_nil];
      reflexivity.
  - rewrite !g_cons. reflexivity.
Qed.

Lemma strip_map_chars (s : string) : Py.strip (g s) = g (Py.strip s).
Proof. unfold Py.strip. rewrite lstrip_map_chars, rstrip_map_chars. reflexivity. Qed.
End case_and_blanks.

Lemma strip_upper (s : string) : Py.strip (Py.upper s) = Py.upper (Py.strip s).
Proof.
  exact (strip_map_chars Py.upper_char Py.upper eq_refl (fun _ _ => eq_refl)
                         isspace_upper_char s).
Qed.

Lemma strip_lower (s : string) : Py.strip (Py.lower s) = Py.lower (Py.strip s).
Proof.
  exact (strip_map_chars Py.lower_char Py.lower eq_refl (fun _ _ => eq_refl)
                         isspace_lower_char s).
Qed.

Lemma lstrip_idem (s : string) : Py.lstrip (Py.lstrip s) = Py.lstrip s.
Proof.
  induction s as [|c s IH]; simpl; [reflexivity|].
  destruct (Py.isspace_char c) eqn:E; [exact IH|]. simpl. rewrite E. reflexivity.
Qed.

Lemma rstrip_idem (s : string) : Py.rstrip (Py.rstrip s) = Py.rstrip s.
Proof.
  induction s as [|c s IH]; simpl; [reflexivity|].
  destruct (Py.rstrip s) as [|c' r'] eqn:E.
  - destruct (Py.isspace_char c) eqn:Ec; simpl; [reflexivity|]. rewrite Ec. reflexivity.
  - change (Py.rstrip (String c (String c' r'))) with
      (match Py.rstrip (String c' r') with
       | EmptyString => if Py.isspace_char c then EmptyString else String c EmptyString
       | r' => String c r'
       end).
    rewrite IH. reflexivity.
Qed.

(** Trimming on the right leaves a text that starts with no blank so. *)
Lemma lstrip_rstrip_fixed (s : string) :
  Py.lstrip s = s -> Py.lstrip (Py.rstrip s) = Py.rstrip s.
Proof.
  destruct s as [|c s]; [reflexivity|]. simpl.
  destruct (Py.isspace_char c) eqn:Ec.
  - intros H. exfalso.
    assert (String.length (Py.lstrip s) <= String.length s)%nat as Hlen.
    { clear. induction s as [|c s IH]; simpl; [lia|].
      destruct (Py.isspace_char c); simpl; lia. }
    rewrite H in Hlen. simpl in Hlen. lia.
  - intros _. destruct (Py.rstrip s); simpl; rewrite Ec; reflexivity.
Qed.

Lemma strip_idem (s : string) : Py.strip (Py.strip s) = Py.strip s.
Proof.
  unfold Py.strip.
  rewrite (lstrip_rstrip_fixed (Py.lstrip s) (lstrip_idem s)).
  apply rstrip_idem.
Qed.

Lemma all_chars_lstrip_fixed (p : ascii -> bool) (s : string) :
  (forall c, p c = true -> Py.isspace_char c = false) ->
  Py.all_chars p s = true -> Py.lstrip s = s.
Proof.
  intros Hp. destruct s as [|c s]; simpl; [reflexivity|].
  intros H. apply andb_true_iff in H. destruct H as [Hc _].
  rewrite (Hp c Hc). reflexivity.
Qed.

Lemma all_chars_rstrip_fixed (p : ascii -> bool) (s : string) :
  (forall c, p c = true -> Py.isspace_char c = false) ->
  Py.all_chars p s = true -> Py.rstrip s = s.
Proof.
  intros Hp. induction s as [|c s IH]; simpl; [reflexivity|].
  intros H. apply andb_true_iff in H. destruct H as [Hc Hs].
  rewrite (IH Hs). destruct s; [|reflexivity]. rewrite (Hp c Hc). reflexivity.
Qed.

Lemma strip_upper_idem (s : string) :
  Py.strip (Py.upper (Py.strip (Py.upper s))) = Py.strip (Py.upper s).
Proof. rewrite (strip_upper s), upper_idem, strip_upper, strip_idem. reflexivity. Qed.

Lemma upper_strip_idem (s : string) :
  Py.upper (Py.strip (Py.upper (Py.strip s))) = Py.upper (Py.strip s).
Proof. rewrite <- !strip_upper, upper_idem, strip_idem. reflexivity. Qed.

(** ** Validators return texts they accept unchanged *)

Lemma validate_datetime_returns (s r : string) : validate_datetime s = inr r -> r = s.
Proof. unfold validate_datetime. destruct Strptime.strptime; intros [=]; auto. Qed.

Lemma validate_date_idem (s r : string) :
  validate_date s = inr r -> validate_date r = inr r.
Proof. intros H. pose proof (validate_date_returns _ _ H) as ->. exact H. Qed.

Lemma validate_datetime_idem (s r : string) :
  validate_datetime s = inr r -> validate_datetime r = inr r.
Proof. intros H. pose proof (validate_datetime_returns _ _ H) as ->. exact H. Qed.

Lemma validate_airport_code_idem (s r : string) :
  validate_airport_code s = inr r -> validate_airport_code r = inr r.
Proof.
  rewrite !validate_airport_code_run.
  destruct (_ && _) eqn:E; [|discriminate]. intros [= <-].
  rewrite strip_upper_idem, E. reflexivity.
Qed.

Lemma validate_flight_number_idem (s r : string) :
  validate_flight_number s = inr r -> validate_flight_number r = inr r.
Proof.
  unfold validate_flight_number.
  destruct (Py.strip (Py.upper s)) as [|c t] eqn:E; [discriminate|].
  intros [= <-]. rewrite <- E.
  rewrite strip_upper_idem, E. reflexivity.
Qed.

Lemma validate_licence_number_idem (s r : string) :
  validate_licence_number s = inr r -> validate_licence_number r = inr r.
Proof.
  unfold validate_licence_number.
  destruct (Py.upper (Py.strip s)) as [|c t] eqn:E; [discriminate|].
  intros [= <-]. rewrite <- E.
  rewrite upper_strip_idem, E. reflexivity.
Qed.

Lemma in_list_In (s : string) (l : list string) :
  Py.in_list s l = true <-> In s l.
Proof.
  unfold Py.in_list. rewrite existsb_exists. split.
  - intros [x [Hx E]]. apply String.eqb_eq in E. subst. exact Hx.
  - intros H. exists s. split; [exact H|apply String.eqb_refl].
Qed.

Lemma validate_flight_status_returns (s r : string) :
  validate_flight_status s = inr r ->
  r = Py.capitalize s /\ In r config.VALID_STATUSES.
Proof.
  unfold validate_flight_status.
  destruct (Py.in_list (Py.capitalize s) config.VALID_STATUSES) eqn:E;
    [|discriminate].
  cbn [negb]. intros [= <-]. split; [reflexivity|]. apply in_list_In. exact E.
Qed.

Lemma validate_flight_status_fixed (r : string) :
  In r config.VALID_STATUSES -> validate_flight_status r = inr r.
Proof.
  intros H. simpl in H.
  repeat (destruct H as [<-|H]; [reflexivity|]). destruct H.
Qed.

Lemma validate_flight_status_idem (s r : string) :
  validate_flight_status s = inr r -> validate_flight_status r = inr r.
Proof.
  intros H. apply validate_flight_status_returns in H.
  apply validate_flight_status_fixed. tauto.
Qed.

Lemma validate_rank_returns (s r : string) :
  validate_rank s = inr r -> r = Py.title s /\ In r config.VALID_RANKS.
Proof.
  unfold validate_rank.
  destruct (Py.in_list (Py.title s) config.VALID_RANKS) eqn:E; [|discriminate].
  cbn [negb]. intros [= <-]. split; [reflexivity|]. apply in_list_In. exact E.
Qed.

Lemma validate_rank_fixed (r : string) :
  In r config.VALID_RANKS -> validate_rank r = inr r.
Proof.
  intros H. simpl in H.
  repeat (destruct H as [<-|H]; [reflexivity|]). destruct H.
Qed.

Lemma validate_rank_idem (s r : string) :
  validate_rank s = inr r -> validate_rank r = inr r.
Proof.
  intros H. apply validate_rank_returns in H. apply validate_rank_fixed. tauto.
Qed.

(** ** Airport codes: trimming and case *)

Lemma lstrip_split (s : string) :
  exists before, Py.all_chars Py.isspace_char before = true
                 /\ s = before ++ Py.lstrip s.
Proof.
  induction s as [|c s IH]; [exists ""; split; reflexivity|].
  simpl. destruct (Py.isspace_char c) eqn:E.
  - destruct IH as [b [Hb Hs]]. exists (String c b). simpl. rewrite E, Hb.
    split; [reflexivity|]. f_equal. exact Hs.
  - exists "". split; reflexivity.
Qed.

Lemma rstrip_split (s : string) :
  exists after, Py.all_chars Py.isspace_char after = true
                /\ s = Py.rstrip s ++ after.
Proof.
  induction s as [|c s IH]; [exists ""; split; reflexivity|].
  simpl. destruct IH as [b [Hb Hs]].
  destruct (Py.rstrip s) as [|c' r'] eqn:E.
  - simpl in Hs. destruct (Py.isspace_char c) eqn:Ec.
    + exists (String c b). simpl. rewrite Ec, Hb. split; [reflexivity|].
      f_equal. exact Hs.
    + exists b. split; [exact Hb|]. simpl. f_equal. exact Hs.
  - exists b. split; [exact Hb|]. simpl. f_equal. exact Hs.
Qed.

Lemma append_assoc (a b c : string) : (a ++ b) ++ c = a ++ b ++ c.
Proof. induction a as [|x a IH]; simpl; [|rewrite IH]; reflexivity. Qed.

Lemma strip_split (s : string) :
  exists before after,
    Py.all_chars Py.isspace_char before = true
    /\ Py.all_chars Py.isspace_char after = true
    /\ s = before ++ Py.strip s ++ after.
Proof.
  destruct (lstrip_split s) as [a [Ha Hs]].
  destruct (rstrip_split (Py.lstrip s)) as [b [Hb Hl]].
  exists a, b. split; [exact Ha|]. split; [exact Hb|].
  unfold Py.strip. rewrite <- Hl. exact Hs.
Qed.

Lemma lstrip_after_blanks (before s : string) :
  Py.all_chars Py.isspace_char before = true ->
  Py.lstrip (before ++ s) = Py.lstrip s.
Proof.
  induction before as [|c a IH]; simpl; [reflexivity|].
  intros H. apply andb_true_iff in H. destruct H as [Hc Ha].
  rewrite Hc. exact (IH Ha).
Qed.

Lemma lstrip_blanks (before : string) :
  Py.all_chars Py.isspace_char before = true -> Py.lstrip before = "".
Proof.
  induction before as [|c a IH]; simpl; [reflexivity|].
  intros H. apply andb_true_iff in H. destruct H as [Hc Ha].
  rewrite Hc. exact (IH Ha).
Qed.

Lemma rstrip_blanks (after : string) :
  Py.all_chars Py.isspace_char after = true -> Py.rstrip after = "".
Proof.
  induction after as [|c b IH]; simpl; [reflexivity|].
  intros H. apply andb_true_iff in H. destruct H as [Hc Hb].
  rewrite (IH Hb), Hc. reflexivity.
Qed.

Lemma rstrip_before_blanks (s after : string) :
  Py.all_chars Py.isspace_char after = true ->
  Py.rstrip (s ++ after) = Py.rstrip s.
Proof.
  intros H. induction s as [|c s IH]; simpl; [exact (rstrip_blanks after H)|].
  rewrite IH. reflexivity.
Qed.

Lemma strip_before_blanks (s after : string) :
  Py.all_chars Py.isspace_char after = true ->
  Py.strip (s ++ after) = Py.strip s.
Proof.
  intros H. unfold Py.strip. induction s as [|c s IH]; simpl.
  - rewrite (lstrip_blanks after H). reflexivity.
  - destruct (Py.isspace_char c); [exact IH|].
    exact (rstrip_before_blanks (String c s) after H).
Qed.

Lemma strip_between_blanks (before s after : string) :
  Py.all_chars Py.isspace_char before = true ->
  Py.all_chars Py.isspace_char after = true ->
  Py.strip (before ++ s ++ after) = Py.strip s.
Proof.
  intros Ha Hb. unfold Py.strip. rewrite (lstrip_after_blanks before _ Ha).
  exact (strip_before_blanks s after Hb).
Qed.

Lemma upper_append (a b : string) : Py.upper (a ++ b) = Py.upper a ++ Py.upper b.
Proof. induction a as [|c a IH]; simpl; [|rewrite IH]; reflexivity. Qed.

Lemma upper_blanks (s : string) :
  Py.all_chars Py.isspace_char (Py.upper s) = Py.all_chars Py.isspace_char s.
Proof.
  induction s as [|c s IH]; simpl; [|rewrite isspace_upper_char, IH]; reflexivity.
Qed.

Lemma upper_alpha (s : string) :
  Py.all_chars Py.isalpha_char (Py.upper s) = Py.all_chars Py.isalpha_char s.
Proof.
  induction s as [|c s IH]; simpl; [|rewrite isalpha_upper_char, IH]; reflexivity.
Qed.

Lemma upper_length (s : string) : String.length (Py.upper s) = String.length s.
Proof. induction s as [|c s IH]; simpl; [|rewrite IH]; reflexivity. Qed.

Lemma strip_letters (s : string) :
  Py.all_chars Py.isalpha_char s = true -> Py.strip s = s.
Proof.
  intros H. unfold Py.strip.
  assert (Py.lstrip s = s) as ->.
  { destruct s as [|c s]; [reflexivity|]. simpl in *.
    apply andb_true_iff in H. destruct H as [Hc _].
    rewrite (alpha_not_space c Hc). reflexivity. }
  induction s as [|c s IH]; simpl; [reflexivity|].
  simpl in H. apply andb_true_iff in H. destruct H as [Hc Hs].
  rewrite (IH Hs). destruct s; [|reflexivity].
  rewrite (alpha_not_space c Hc). reflexivity.
Qed.

Lemma validate_airport_code_by_text (a b : string) :
  Py.strip (Py.upper a) = Py.strip (Py.upper b) ->
  validate_airport_code a = validate_airport_code b.
Proof. intros H. rewrite !validate_airport_code_run, H. reflexivity. Qed.

(** C9.  On ASCII text [validate_airport_code] returns its argument in
    upper case and trimmed exactly when that is three letters, and raises the
    validation error otherwise.  So it accepts exactly three letters with any
    blanks before and after them, and returns the three letters in upper
    case, A to Z; the blanks around the argument and the case of its letters
    do not change the outcome.  "lhr" gives "LHR", and so does "lhr" between
    blanks; "LH" is refused for its length and "LH1" for its digit. *)
Theorem validate_airport_code_spec :
  (forall code,
      Py.isascii code = true ->
      (forall r,
          validate_airport_code code = inr r
          <-> r = Py.strip (Py.upper code)
              /\ String.length r = 3%nat
              /\ Py.all_chars Py.isalpha_char r = true)
      /\ (forall r,
             validate_airport_code code = inr r
             <-> exists before letters after,
                 code = before ++ letters ++ after
                 /\ Py.all_chars Py.isspace_char before = true
                 /\ Py.all_chars Py.isspace_char after = true
                 /\ String.length letters = 3%nat
                 /\ Py.all_chars Py.isalpha_char letters = true
                 /\ r = Py.upper letters)
      /\ ((forall r, validate_airport_code code <> inr r) ->
          validate_airport_code code
          = inl (ValidationError "Airport code must be exactly 3 letters"))
      /\ (forall r,
             validate_airport_code code = inr r ->
             Py.all_chars Py.isupper_char r = true)
      /\ (forall before after,
             Py.all_chars Py.isspace_char before = true ->
             Py.all_chars Py.isspace_char after = true ->
             validate_airport_code (before ++ code ++ after)
             = validate_airport_code code)
      /\ validate_airport_code (Py.lower code) = validate_airport_code code
      /\ validate_airport_code (Py.upper code) = validate_airport_code code)
  /\ validate_airport_code "lhr" = inr "LHR"
  /\ validate_airport_code "  lhr " = inr "LHR"
  /\ (validate_airport_code "LH"
      = inl (ValidationError "Airport code must be exactly 3 letters")
      /\ String.length (Py.strip (Py.upper "LH")) <> 3%nat)
  /\ (validate_airport_code "LH1"
      = inl (ValidationError "Airport code must be exactly 3 letters")
      /\ Py.isalpha (Py.strip (Py.upper "LH1")) = false).
Proof.
  assert (Hiff : forall code r,
             validate_airport_code code = inr r
             <-> r = Py.strip (Py.upper code)
                 /\ String.length r = 3%nat
                 /\ Py.all_chars Py.isalpha_char r = true).
  { intros code r. rewrite validate_airport_code_run.
    destruct (Nat.eqb_spec (String.length (Py.strip (Py.upper code))) 3) as [E|E];
      simpl.
    - destruct (Py.all_chars _ _) eqn:Ea.
      + split; [intros [= <-]; auto|intros [-> _]; reflexivity].
      + split; [discriminate|intros [-> [_ H]]; congruence].
    - split; [discriminate|intros [-> [H _]]; contradiction]. }
  split; [|repeat split; try reflexivity; discriminate].
  intros code _.
  split; [exact (Hiff code)|].
  split; [|split; [|split; [|split; [|split]]]].
  - intros r. rewrite Hiff. split.
    + intros [-> [Hl Ha]]. rewrite strip_upper in *.
      destruct (strip_split code) as (a & b & Hsa & Hsb & Hc).
      exists a, (Py.strip code), b.
      rewrite upper_length in Hl. rewrite upper_alpha in Ha. auto 7.
    + intros (a & x & b & -> & Hsa & Hsb & Hl & Ha & ->).
      rewrite strip_upper, (strip_between_blanks a x b Hsa Hsb), (strip_letters x Ha).
      rewrite upper_length, upper_alpha. auto.
  - intros H. rewrite validate_airport_code_run in *.
    destruct (_ && _); [|reflexivity]. exfalso. apply (H _ eq_refl).
  - intros r H. apply Hiff in H. destruct H as [-> [_ Ha]].
    apply (all_chars_and (fun c => negb (Py.islower_char c)) Py.isalpha_char).
    + intros c Hl Hal. unfold Py.isalpha_char in Hal.
      destruct (Py.islower_char c); [discriminate Hl|].
      rewrite orb_false_r in Hal. exact Hal.
    + apply all_chars_rstrip, all_chars_lstrip, all_chars_upper.
    + exact Ha.
  - intros a b Hsa Hsb. apply validate_airport_code_by_text.
    rewrite !upper_append. apply strip_between_blanks; rewrite upper_blanks; assumption.
  - apply validate_airport_code_by_text. rewrite upper_lower. reflexivity.
  - apply validate_airport_code_by_text. rewrite upper_idem. reflexivity.
Qed.

Lemma validate_airport_code_spec_witness :
  Py.isascii " Lhr" = true
  /\ validate_airport_code " Lhr" = inr "LHR"
  /\ Py.all_chars Py.isupper_char "LHR" = true.
Proof.
  split; [reflexivity|]. split; [reflexivity|].
  exact (proj1 (proj2 (proj2 (proj2 (proj1 validate_airport_code_spec " Lhr" eq_refl))))
               "LHR" eq_refl).
Defined.

(** ** The statements, read backwards: what a statement that succeeded did *)

Lemma existsb_false_in {A : Type} (p : A -> bool) (l : list A) (a : A) :
  existsb p l = false -> In a l -> p a = false.
Proof.
  intros H Ha. destruct (p a) eqn:E; [|reflexivity].
  rewrite <- H. symmetry. apply existsb_exists. eauto.
Qed.

Lemma existsb_snoc {A : Type} (p : A -> bool) (l : list A) (a : A) :
  existsb p l = true -> existsb p (l ++ [a]) = true.
Proof. intros H. rewrite existsb_app, H. reflexivity. Qed.

Lemma absent_key {A : Type} (key : A -> Z) (l : list A) (k : Z) :
  existsb (fun a => key a =? k) l = false -> ~ In k (map key l).
Proof.
  intros H Hin. apply in_map_iff in Hin. destruct Hin as [a [<- Ha]].
  pose proof (existsb_false_in _ _ a H Ha) as E. simpl in E.
  rewrite Z.eqb_refl in E. discriminate.
Qed.

Lemma absent_text {A : Type} (key : A -> string) (l : list A) (k : string) :
  existsb (fun a => String.eqb (key a) k) l = false -> ~ In k (map key l).
Proof.
  intros H Hin. apply in_map_iff in Hin. destruct Hin as [a [<- Ha]].
  pose proof (existsb_false_in _ _ a H Ha) as E. simpl in E.
  rewrite String.eqb_refl in E. discriminate.
Qed.

Lemma present_key {A : Type} (key : A -> Z) (l : list A) (k : Z) :
  existsb (fun a => key a =? k) l = true <-> In k (map key l).
Proof.
  rewrite existsb_exists, in_map_iff. split.
  - intros [a [Ha E]]. apply Z.eqb_eq in E. eauto.
  - intros [a [E Ha]]. exists a. split; [exact Ha|]. apply Z.eqb_eq. exact E.
Qed.

Lemma present_text {A : Type} (key : A -> string) (l : list A) (k : string) :
  existsb (fun a => String.eqb (key a) k) l = true <-> In k (map key l).
Proof.
  rewrite existsb_exists, in_map_iff. split.
  - intros [a [Ha E]]. apply String.eqb_eq in E. eauto.
  - intros [a [E Ha]]. exists a. split; [exact Ha|]. apply String.eqb_eq. exact E.
Qed.

Lemma map_update_where {A B : Type} (g : A -> B) (hit : A -> bool) (f : A -> A)
      (l : list A) :
  (forall a, g (f a) = g a) -> map g (update_where hit f l) = map g l.
Proof.
  intros H. unfold update_where. rewrite map_map. apply map_ext.
  intros a. destruct (hit a); [apply H|reflexivity].
Qed.

Lemma in_update_where {A : Type} (hit : A -> bool) (f : A -> A) (l : list A) (b : A) :
  In b (update_where hit f l) ->
  exists a, In a l /\ b = (if hit a then f a else a).
Proof.
  unfold update_where. intros H. apply in_map_iff in H.
  destruct H as [a [<- Ha]]. eauto.
Qed.

Lemma insert_Airport_inv (row : AirportRow) (db db' : DB) :
  insert_Airport row db = inr db' ->
  db' = set_Airport db (Airport db ++ [row])
  /\ has_airport db (a_airport_code row) = false.
Proof.
  unfold insert_Airport.
  destruct (negb _); [discriminate|].
  destruct (has_airport db (a_airport_code row)); [discriminate|].
  intros [= <-]. split; reflexivity.
Qed.

Lemma insert_Route_inv (origin dest : string) (distance : Q) (mins id : Z)
      (db db' : DB) :
  insert_Route origin dest distance mins db = inr (id, db') ->
  id = next_id r_route_id (Route db) (seq_Route db)
  /\ db' = set_Route db
             (Route db ++ [{| r_route_id := id; r_origin_code := origin;
                              r_dest_code := dest; r_distance_km := distance;
                              r_flight_duration_mins := mins |}]) id
  /\ select_route origin dest db = None
  /\ has_airport db origin = true /\ has_airport db dest = true.
Proof.
  unfold insert_Route, select_route.
  destruct (existsb _ (Route db)) eqn:E; [discriminate|].
  destruct (has_airport db origin); [|discriminate].
  destruct (has_airport db dest); [|discriminate].
  intros [= <- <-]. repeat split.
  rewrite filter_none; [reflexivity|].
  intros r Hr. exact (existsb_false_in _ _ r E Hr).
Qed.

Lemma insert_Pilot_inv (licence first last rank hire : string) (db db' : DB) :
  insert_Pilot licence first last rank hire db = inr db' ->
  let id := next_id p_pilot_id (Pilot db) (seq_Pilot db) in
  db' = set_Pilot db
          (Pilot db ++ [{| p_pilot_id := id; p_licence_no := licence;
                           p_first_name := first; p_last_name := last;
                           p_rank := rank; p_hire_date := hire |}]) id
  /\ ~ In (licence_key licence)
          (map (fun p => licence_key (p_licence_no p)) (Pilot db)).
Proof.
  unfold insert_Pilot.
  destruct (negb _); [discriminate|].
  destruct (existsb _ (Pilot db)) eqn:E; [discriminate|].
  destruct (existsb (fun p => String.eqb (p_licence_no p) licence) (Pilot db));
    [discriminate|].
  cbv zeta. intros [= <-]. split; [reflexivity|].
  exact (absent_text (fun p => licence_key (p_licence_no p)) _ _ E).
Qed.

Lemma insert_Flight_inv (number date : string) (route : Z) (dep arr : string)
      (status : Z) (db db' : DB) :
  insert_Flight number date route dep arr status db = inr db' ->
  let id := next_id f_flight_id (Flight db) (seq_Flight db) in
  db' = set_Flight db
          (Flight db ++ [{| f_flight_id := id; f_flight_number := number;
                            f_flight_date := date; f_route_id := route;
                            f_sched_dep_utc := dep; f_sched_arr_utc := arr;
                            f_status_id := status |}]) id
  /\ check_arrival_after_departure dep arr = true
  /\ (forall f, In f (Flight db) ->
                ~ (f_flight_number f = number /\ f_flight_date f = date))
  /\ has_route db route = true /\ has_status db status = true.
Proof.
  unfold insert_Flight.
  destruct (check_arrival_after_departure dep arr); [|discriminate].
  destruct (existsb _ (Flight db)) eqn:E; [discriminate|].
  destruct (has_route db route); [|discriminate].
  destruct (has_status db status); [|discriminate].
  cbv zeta. intros [= <-]. repeat split.
  intros f Hf [Hn Hd]. pose proof (existsb_false_in _ _ f E Hf) as E'.
  simpl in E'. rewrite Hn, Hd, !String.eqb_refl in E'. discriminate.
Qed.

Lemma update_Flight_route_inv (route id : Z) (db db' : DB) :
  update_Flight_route route id db = inr db' ->
  db' = set_Flight db
          (update_where (fun f => f_flight_id f =? id) (set_route_id route)
                        (Flight db)) (seq_Flight db)
  /\ (has_flight db id = true -> has_route db route = true).
Proof.
  unfold update_Flight_route.
  destruct (has_flight db id); destruct (has_route db route); try discriminate;
    intros [= <-]; split; auto.
Qed.

Lemma update_Flight_times_inv (dep arr : string) (id : Z) (db db' : DB) :
  update_Flight_times dep arr id db = inr db' ->
  db' = set_Flight db
          (update_where (fun f => f_flight_id f =? id) (set_times dep arr)
                        (Flight db)) (seq_Flight db)
  /\ (has_flight db id = true -> check_arrival_after_departure dep arr = true).
Proof.
  unfold update_Flight_times.
  destruct (has_flight db id); destruct (check_arrival_after_departure dep arr);
    try discriminate; intros [= <-]; split; auto.
Qed.

Lemma update_Flight_status_inv (status id : Z) (db db' : DB) :
  update_Flight_status status id db = inr db' ->
  db' = set_Flight db
          (update_where (fun f => f_flight_id f =? id) (set_status_id status)
                        (Flight db)) (seq_Flight db)
  /\ (has_flight db id = true -> has_status db status = true).
Proof.
  unfold update_Flight_status.
  destruct (has_flight db id); destruct (has_status db status); try discriminate;
    intros [= <-]; split; auto.
Qed.

Lemma insert_CrewAssignment_inv (flight pilot : Z) (role : string) (db db' : DB) :
  insert_CrewAssignment flight pilot role db = inr db' ->
  db' = set_CrewAssignment db
          (CrewAssignment db ++ [{| ca_flight_id := flight; ca_pilot_id := pilot;
                                    ca_role := role |}])
  /\ In role ["Captain"; "First Officer"]
  /\ crew_in_role flight role db = []
  /\ ~ In (flight, pilot)
          (map (fun c => (ca_flight_id c, ca_pilot_id c)) (CrewAssignment db))
  /\ has_flight db flight = true /\ has_pilot db pilot = true.
Proof.
  unfold insert_CrewAssignment, crew_in_role.
  destruct (Py.in_list role _) eqn:Er; [|discriminate]. cbn [negb].
  destruct (existsb _ (CrewAssignment db)) eqn:E1; [discriminate|].
  destruct (existsb (fun c => (ca_flight_id c =? flight) && (ca_pilot_id c =? pilot))
                    (CrewAssignment db)) eqn:E2; [discriminate|].
  destruct (has_flight db flight); [|discriminate].
  destruct (has_pilot db pilot); [|discriminate].
  intros [= <-]. repeat split.
  - apply in_list_In. exact Er.
  - apply filter_none. intros c Hc. exact (existsb_false_in _ _ c E1 Hc).
  - intros Hin. apply in_map_iff in Hin. destruct Hin as [c [[= Hf Hp] Hc]].
    pose proof (existsb_false_in _ _ c E2 Hc) as E. simpl in E.
    rewrite Hf, Hp, !Z.eqb_refl in E. discriminate.
Qed.

(** ** Every transaction keeps the stored data consistent *)

Ltac open_consistent H :=
  destruct H as ((Ka & Kr & Kp & Ks & Kf & Kc) & (Ur & Uf & Up & Us)
                 & (Rr & Rf & Rc) & Hu & Hc & Ht & (Va & Vr & Vp & Vs & Vf) & Hs).

(** A hypothesis that is the goal once the projections are computed. *)
Ltac same := match goal with H : _ |- _ => exact H end.

Ltac sames := repeat first [same | split].

Ltac split_consistent :=
  split; [|split; [|split; [|split; [|split; [|split; [|split]]]]]].

Lemma in_snoc {A : Type} (l : list A) (a b : A) :
  In b (l ++ [a]) -> In b l \/ b = a.
Proof.
  intros H. apply in_app_or in H. destruct H as [H|[H|[]]]; auto.
Qed.

Lemma same_key {A B : Type} (key : A -> B) (l : list A) (a b : A) :
  NoDup (map key l) -> In a l -> In b l -> key a = key b -> a = b.
Proof.
  induction l as [|x l IH]; simpl; [tauto|].
  intros Hn Ha Hb E. inversion Hn as [|k ks Hnot Hrest]; subst.
  destruct Ha as [<-|Ha]; destruct Hb as [<-|Hb]; auto.
  - exfalso. apply Hnot. rewrite E. apply in_map. exact Hb.
  - exfalso. apply Hnot. rewrite <- E. apply in_map. exact Ha.
Qed.

Lemma existsb_update_where {A : Type} (p hit : A -> bool) (f : A -> A) (l : list A) :
  (forall a, p (f a) = p a) ->
  existsb p (update_where hit f l) = existsb p l.
Proof.
  intros H. induction l as [|a l IH]; simpl; [reflexivity|].
  rewrite IH. destruct (hit a); [rewrite H|]; reflexivity.
Qed.

Lemma select_route_absent (origin dest : string) (db : DB) :
  select_route origin dest db = None ->
  ~ In (origin, dest) (map (fun r => (r_origin_code r, r_dest_code r)) (Route db)).
Proof.
  unfold select_route. intros H Hin. apply hd_filter_none in H.
  apply in_map_iff in Hin. destruct Hin as [r [[= Ho Hd] Hr]].
  pose proof (existsb_false_in _ _ r H Hr) as E. simpl in E.
  rewrite Ho, Hd, !String.eqb_refl in E. discriminate.
Qed.

Lemma consistent_add_airport (db : DB) (row : AirportRow) :
  consistent db ->
  has_airport db (a_airport_code row) = false ->
  validate_airport_code (a_airport_code row) = inr (a_airport_code row) ->
  consistent (set_Airport db (Airport db ++ [row])).
Proof.
  intros H Hnew Hval. open_consistent H. split_consistent.
  - split; [|sames].
    cbn. rewrite map_app. apply NoDup_snoc; [same|].
    apply absent_text. exact Hnew.
  - sames.
  - split; [|split; same].
    intros r Hr. destruct (Rr r Hr). split; apply existsb_snoc; same.
  - exact Hu.
  - exact Hc.
  - exact Ht.
  - split; [|sames].
    intros a Ha. apply in_snoc in Ha. destruct Ha as [Ha| ->]; auto.
  - exact Hs.
Qed.

Lemma consistent_add_route (db : DB) (origin dest : string) (distance : Q) (mins : Z) :
  consistent db ->
  select_route origin dest db = None ->
  has_airport db origin = true -> has_airport db dest = true ->
  validate_airport_code origin = inr origin ->
  validate_airport_code dest = inr dest ->
  let id := next_id r_route_id (Route db) (seq_Route db) in
  consistent (set_Route db
                (Route db ++ [{| r_route_id := id; r_origin_code := origin;
                                 r_dest_code := dest; r_distance_km := distance;
                                 r_flight_duration_mins := mins |}]) id).
Proof.
  intros H Hnew Ho Hd Vo Vd id. open_consistent H. split_consistent.
  - split; [same|]. split; [|sames].
    cbn. rewrite map_app. apply NoDup_snoc; [same|]. apply next_id_fresh.
  - split; [|sames].
    cbn. rewrite map_app. apply NoDup_snoc; [same|].
    apply select_route_absent. exact Hnew.
  - split; [|split; [|same]].
    + intros r Hr. apply in_snoc in Hr. destruct Hr as [Hr| ->]; [exact (Rr r Hr)|].
      split; same.
    + intros f Hf. destruct (Rf f Hf). split; [|same].
      apply existsb_snoc. same.
  - exact Hu.
  - exact Hc.
  - exact Ht.
  - split; [same|]. split; [|sames].
    intros r Hr. apply in_snoc in Hr. destruct Hr as [Hr| ->]; [exact (Vr r Hr)|].
    split; same.
  - exact Hs.
Qed.

Lemma consistent_add_pilot (db : DB) (licence first last rank hire : string) :
  consistent db ->
  ~ In (licence_key licence) (map (fun p => licence_key (p_licence_no p)) (Pilot db)) ->
  validate_rank rank = inr rank ->
  validate_licence_number licence = inr licence ->
  validate_date hire = inr hire ->
  let id := next_id p_pilot_id (Pilot db) (seq_Pilot db) in
  consistent (set_Pilot db
                (Pilot db ++ [{| p_pilot_id := id; p_licence_no := licence;
                                 p_first_name := first; p_last_name := last;
                                 p_rank := rank; p_hire_date := hire |}]) id).
Proof.
  intros H Hnew Vr' Vl Vh id. open_consistent H. split_consistent.
  - split; [same|]. split; [same|]. split; [|sames].
    cbn. rewrite map_app. apply NoDup_snoc; [same|]. apply next_id_fresh.
  - split; [same|]. split; [same|]. split; [|same].
    cbn. rewrite map_app. apply NoDup_snoc; same.
  - split; [same|]. split; [same|].
    intros c Hc'. destruct (Rc c Hc'). split; [same|].
    apply existsb_snoc. same.
  - exact Hu.
  - intros c p Hc' Hp E. apply in_snoc in Hp. destruct Hp as [Hp| ->].
    + exact (Hc c p Hc' Hp E).
    + exfalso. destruct (Rc c Hc') as [_ Hhas]. apply present_key in Hhas.
      simpl in E. rewrite <- E in Hhas.
      exact (next_id_fresh p_pilot_id (Pilot db) (seq_Pilot db) Hhas).
  - exact Ht.
  - split; [same|]. split; [same|]. split; [|split; same].
    intros p Hp. apply in_snoc in Hp. destruct Hp as [Hp| ->]; [exact (Vp p Hp)|].
    sames.
  - exact Hs.
Qed.

Lemma consistent_add_flight (db : DB) (number date : string) (route : Z)
      (dep arr : string) (status : Z) :
  consistent db ->
  (forall f, In f (Flight db) ->
             ~ (f_flight_number f = number /\ f_flight_date f = date)) ->
  has_route db route = true -> has_status db status = true ->
  Py.str_ltb dep arr = true ->
  check_arrival_after_departure dep arr = true ->
  validate_flight_number number = inr number ->
  validate_date date = inr date ->
  validate_datetime dep = inr dep -> validate_datetime arr = inr arr ->
  let id := next_id f_flight_id (Flight db) (seq_Flight db) in
  consistent (set_Flight db
                (Flight db ++ [{| f_flight_id := id; f_flight_number := number;
                                  f_flight_date := date; f_route_id := route;
                                  f_sched_dep_utc := dep; f_sched_arr_utc := arr;
                                  f_status_id := status |}]) id).
Proof.
  intros H Hnew Hr Hst Hlt Hck Vn Vd Vdep Varr id. open_consistent H.
  split_consistent.
  - do 4 (split; [same|]). split; [|same].
    cbn. rewrite map_app. apply NoDup_snoc; [same|]. apply next_id_fresh.
  - split; [same|]. split; [|split; same].
    cbn. rewrite map_app. apply NoDup_snoc; [same|].
    intros Hin. apply in_map_iff in Hin. destruct Hin as [f [[= Hn Hd] Hf]].
    exact (Hnew f Hf (conj Hn Hd)).
  - split; [same|]. split.
    + intros f Hf. apply in_snoc in Hf. destruct Hf as [Hf| ->]; [exact (Rf f Hf)|].
      split; same.
    + intros c Hc'. destruct (Rc c Hc'). split; [|same].
      apply existsb_snoc. same.
  - exact Hu.
  - exact Hc.
  - intros f Hf. apply in_snoc in Hf. destruct Hf as [Hf| ->]; [exact (Ht f Hf)|].
    split; same.
  - do 4 (split; [same|]).
    intros f Hf. apply in_snoc in Hf. destruct Hf as [Hf| ->]; [exact (Vf f Hf)|].
    sames.
  - exact Hs.
Qed.

(** An UPDATE of [Flight] that leaves key, number and date alone. *)
Lemma consistent_update_flight (db : DB) (id : Z) (change : FlightRow -> FlightRow) :
  consistent db ->
  (forall f, f_flight_id (change f) = f_flight_id f
             /\ f_flight_number (change f) = f_flight_number f
             /\ f_flight_date (change f) = f_flight_date f) ->
  (forall f, In f (Flight db) -> f_flight_id f = id ->
             has_route db (f_route_id (change f)) = true
             /\ has_status db (f_status_id (change f)) = true
             /\ Py.str_ltb (f_sched_dep_utc (change f)) (f_sched_arr_utc (change f))
                = true
             /\ check_arrival_after_departure
                  (f_sched_dep_utc (change f)) (f_sched_arr_utc (change f)) = true
             /\ validate_datetime (f_sched_dep_utc (change f))
                = inr (f_sched_dep_utc (change f))
             /\ validate_datetime (f_sched_arr_utc (change f))
                = inr (f_sched_arr_utc (change f))) ->
  consistent (set_Flight db
                (update_where (fun f => f_flight_id f =? id) change (Flight db))
                (seq_Flight db)).
Proof.
  intros H Hsame Hnew. open_consistent H. split_consistent.
  - do 4 (split; [same|]). split; [|same].
    cbn. rewrite map_update_where; [same|]. intros f. apply Hsame.
  - split; [same|]. split; [|split; same].
    cbn. rewrite map_update_where; [same|].
    intros f. destruct (Hsame f) as (_ & -> & ->). reflexivity.
  - split; [same|]. split.
    + intros f' Hf'. apply in_update_where in Hf'. destruct Hf' as [f [Hf ->]].
      destruct (f_flight_id f =? id) eqn:E; [|exact (Rf f Hf)].
      apply Z.eqb_eq in E. destruct (Hnew f Hf E) as (? & ? & _). split; same.
    + intros c Hc'. destruct (Rc c Hc') as [Hfl Hp]. split; [|same].
      unfold has_flight. cbn.
      rewrite existsb_update_where; [exact Hfl|].
      intros f. destruct (Hsame f) as (-> & _). reflexivity.
  - exact Hu.
  - exact Hc.
  - intros f' Hf'. apply in_update_where in Hf'. destruct Hf' as [f [Hf ->]].
    destruct (f_flight_id f =? id) eqn:E; [|exact (Ht f Hf)].
    apply Z.eqb_eq in E. destruct (Hnew f Hf E) as (_ & _ & ? & ? & _).
    split; same.
  - do 4 (split; [same|]).
    intros f' Hf'. apply in_update_where in Hf'. destruct Hf' as [f [Hf ->]].
    destruct (f_flight_id f =? id) eqn:E; [|exact (Vf f Hf)].
    apply Z.eqb_eq in E. destruct (Hnew f Hf E) as (_ & _ & _ & _ & ? & ?).
    destruct (Vf f Hf) as (Vn & Vd & _). destruct (Hsame f) as (_ & -> & ->).
    sames.
  - exact Hs.
Qed.

Lemma stored_has_flight (db : DB) (f : FlightRow) :
  In f (Flight db) -> has_flight db (f_flight_id f) = true.
Proof.
  intros H. apply existsb_exists. exists f. split; [exact H|apply Z.eqb_refl].
Qed.

Lemma consistent_delete_crew (db : DB) (flight : Z) (role : string) :
  consistent db ->
  consistent (set_CrewAssignment db
                (filter (fun c => negb ((ca_flight_id c =? flight)
                                        && String.eqb (ca_role c) role))
                        (CrewAssignment db))).
Proof.
  intros H. open_consistent H. split_consistent.
  - do 5 (split; [same|]). cbn. apply NoDup_map_filter. same.
  - sames.
  - split; [same|]. split; [same|].
    intros c Hc'. apply filter_In in Hc'. exact (Rc c (proj1 Hc')).
  - apply (delete_CrewAssignment_keeps flight role db); [reflexivity|same].
  - intros c p Hc' Hp. apply filter_In in Hc'. exact (Hc c p (proj1 Hc') Hp).
  - exact Ht.
  - sames.
  - exact Hs.
Qed.

Lemma consistent_insert_crew (db db' : DB) (flight id : Z) (role : string)
      (pilot : PilotRow) :
  consistent db ->
  select_pilot id db = Some pilot ->
  p_rank pilot = role ->
  insert_CrewAssignment flight id role db = inr db' ->
  consistent db'.
Proof.
  intros H Hp Hrank Hins. pose proof Hins as Hrole.
  apply (insert_CrewAssignment_keeps flight id role db) in Hrole;
    [|exact (proj1 (proj2 (proj2 (proj2 H))))].
  apply insert_CrewAssignment_inv in Hins.
  destruct Hins as (-> & _ & _ & Hnew & Hfl & Hpl).
  open_consistent H. split_consistent.
  - do 5 (split; [same|]).
    cbn. rewrite map_app. apply NoDup_snoc; same.
  - sames.
  - split; [same|]. split; [same|].
    intros c Hc'. apply in_snoc in Hc'. destruct Hc' as [Hc'| ->]; [exact (Rc c Hc')|].
    split; same.
  - exact Hrole.
  - intros c p Hc' Hp' E. apply in_snoc in Hc'.
    destruct Hc' as [Hc'| ->]; [exact (Hc c p Hc' Hp' E)|].
    simpl in E |- *. unfold select_pilot in Hp. apply hd_filter_some in Hp.
    destruct Hp as [Hin Hid]. apply Z.eqb_eq in Hid.
    rewrite (same_key p_pilot_id (Pilot db) p pilot Kp Hp' Hin); [auto|].
    rewrite E, Hid. reflexivity.
  - exact Ht.
  - sames.
  - exact Hs.
Qed.

Lemma select_status_found (name : string) (db : DB) (row : StatusRow) :
  select_status name db = Some row ->
  In row (FlightStatus db) /\ s_status_name row = name
  /\ has_status db (s_status_id row) = true.
Proof.
  unfold select_status. intros H. apply hd_filter_some in H. destruct H as [Hin E].
  apply String.eqb_eq in E. repeat split; auto.
  apply existsb_exists. exists row. split; [exact Hin|apply Z.eqb_refl].
Qed.

Lemma str_geb_false (a b : string) : Py.str_geb a b = false -> Py.str_ltb a b = true.
Proof. unfold Py.str_geb. apply negb_false_iff. Qed.

Lemma crew_change_keeps (db db1 db' : DB) (flight id : Z) (role : string)
      (pilot : PilotRow) :
  consistent db ->
  select_pilot id db = Some pilot ->
  p_rank pilot = role ->
  delete_CrewAssignment flight role db = inr db1 ->
  insert_CrewAssignment flight id role db1 = inr db' ->
  consistent db'.
Proof.
  intros H Hp Hr Hdel Hins. injection Hdel as <-.
  eapply consistent_insert_crew; [apply consistent_delete_crew; exact H| | | ];
    eassumption.
Qed.

Lemma route_change_keeps (db db' : DB) (route flight : Z) :
  consistent db ->
  has_route db route = true ->
  update_Flight_route route flight db = inr db' ->
  consistent db'.
Proof.
  intros H Hr Stmt.
  apply update_Flight_route_inv in Stmt. destruct Stmt as [-> _].
  apply consistent_update_flight; [exact H|intros f; repeat split|].
  intros f Hf E. simpl.
  destruct H as (_ & _ & (_ & Rf & _) & _ & _ & Ht & (_ & _ & _ & _ & Vf) & _).
  destruct (Rf f Hf), (Ht f Hf), (Vf f Hf) as (_ & _ & ? & ?).
  repeat split; same.
Qed.

Lemma commits_keep (c : command) (db db' : DB) :
  commits c db db' -> consistent db -> consistent db'.
Proof.
  intros T H. destruct T.
  - apply select_route_found in Route_found.
    destruct Route_found as (_ & _ & _ & Hr).
    exact (route_change_keeps db db' _ _ H Hr Stmt).
  - apply insert_Route_inv in Stmt1. destruct Stmt1 as (-> & -> & Hnew & Ho & Hd).
    pose proof (consistent_add_route db origin dest (0 # 1) 0 H Hnew Ho Hd
                  (validate_airport_code_idem _ _ Vo)
                  (validate_airport_code_idem _ _ Vd)) as H'.
    cbv zeta in H'.
    refine (route_change_keeps _ db' _ _ H' _ Stmt).
    unfold has_route. cbn. rewrite existsb_app. simpl.
    rewrite Z.eqb_refl. apply orb_true_r.
  - apply update_Flight_times_inv in Stmt. destruct Stmt as [-> Hck].
    apply consistent_update_flight; [exact H|intros f; repeat split|].
    intros f Hf E. simpl.
    destruct H as (_ & _ & (_ & Rf & _) & _).
    destruct (Rf f Hf).
    assert (check_arrival_after_departure dep arr = true) as Hchecked.
    { apply Hck. apply found_flight_has in Found. exact Found. }
    repeat split; try same.
    + apply str_geb_false. exact Order.
    + exact (validate_datetime_idem _ _ Vdep).
    + exact (validate_datetime_idem _ _ Varr).
  - apply update_Flight_status_inv in Stmt. destruct Stmt as [-> _].
    apply select_status_found in Status_found.
    destruct Status_found as (_ & _ & Hst).
    apply consistent_update_flight; [exact H|intros f; repeat split|].
    intros f Hf E. simpl.
    destruct H as (_ & _ & (_ & Rf & _) & _ & _ & Ht & (_ & _ & _ & _ & Vf) & _).
    destruct (Rf f Hf), (Ht f Hf), (Vf f Hf) as (_ & _ & ? & ?).
    repeat split; same.
  - exact (crew_change_keeps db db1 db' _ _ _ pilot H Pilot_found Rank Stmt1 Stmt).
  - exact (crew_change_keeps db db1 db' _ _ _ pilot H Pilot_found Rank Stmt1 Stmt).
  - apply insert_Airport_inv in Stmt. destruct Stmt as [-> Hnew].
    apply consistent_add_airport; [exact H|exact Hnew|].
    exact (validate_airport_code_idem _ _ Vc).
  - apply insert_Route_inv in Stmt. destruct Stmt as (-> & -> & Hnew & _).
    apply consistent_add_route; auto.
    + exact (validate_airport_code_idem _ _ Vo).
    + exact (validate_airport_code_idem _ _ Vd).
  - apply insert_Pilot_inv in Stmt. destruct Stmt as [-> Hnew].
    apply consistent_add_pilot; auto.
    + exact (validate_rank_idem _ _ Vr).
    + exact (validate_licence_number_idem _ _ Vl).
    + exact (validate_date_idem _ _ Vdate).
  - apply insert_Flight_inv in Stmt. destruct Stmt as (-> & Hck & Hnew & Hr & Hs).
    apply consistent_add_flight; auto.
    + apply str_geb_false. exact Order.
    + exact (validate_flight_number_idem _ _ Vn).
    + exact (validate_date_idem _ _ Vdate).
    + exact (validate_datetime_idem _ _ Vdep).
    + exact (validate_datetime_idem _ _ Varr).
  - exact (crew_change_keeps db db1 db' _ _ _ pilot H Pilot_found Rank Stmt1 Stmt).
Qed.

Lemma run_keeps_consistent (c : command) (db : DB) :
  consistent db -> consistent (persisted (run c) db).
Proof.
  intros H. destruct (run_cases c db) as [[_ T]|[_ ->]]; [|exact H].
  exact (commits_keep c db _ T H).
Qed.

Lemma seed_consistent : consistent seed.
Proof.
  split_consistent.
  - repeat split;
      (cbn; repeat (constructor; [simpl; intuition congruence|]); constructor).
  - repeat split;
      (cbn; repeat (constructor; [simpl; intuition congruence|]); constructor).
  - split; [|split]; intros x Hx; cbn in Hx;
      repeat (destruct Hx as [<-|Hx]; [split; reflexivity|]); destruct Hx.
  - exact seed_crew_role_unique.
  - intros c p Hc Hp. cbn in Hc.
    repeat (destruct Hc as [<-|Hc];
            [cbn in Hp;
             repeat (destruct Hp as [<-|Hp];
                     [solve [intros E; first [discriminate E|reflexivity]]|]);
             destruct Hp|]).
    destruct Hc.
  - intros f Hf. cbn in Hf.
    repeat (destruct Hf as [<-|Hf]; [split; vm_compute; reflexivity|]). destruct Hf.
  - split; [|split; [|split; [|split]]]; intros x Hx; cbn in Hx;
      repeat (destruct Hx as [<-|Hx];
              [repeat apply conj; vm_compute; reflexivity|]);
      destruct Hx.
  - reflexivity.
Qed.

Lemma reachable_consistent (db : DB) : reachable db -> consistent db.
Proof.
  induction 1 as [|c db _ IH]; [exact seed_consistent|].
  exact (run_keeps_consistent c db IH).
Qed.

(** ** The view on consistent data: one row for each flight *)

Lemma filter_one_key {A : Type} (key : A -> Z) (l : list A) (a : A) :
  NoDup (map key l) -> In a l -> filter (fun x => key x =? key a) l = [a].
Proof.
  induction l as [|x l IH]; simpl; [tauto|].
  intros Hn Ha. inversion Hn as [|k ks Hnot Hrest]; subst.
  destruct Ha as [->|Ha].
  - rewrite Z.eqb_refl. f_equal. apply filter_none.
    intros b Hb. apply Z.eqb_neq. intros E. apply Hnot. rewrite <- E.
    apply in_map. exact Hb.
  - destruct (key x =? key a) eqn:E; [|exact (IH Hrest Ha)].
    exfalso. apply Z.eqb_eq in E. apply Hnot. rewrite E. apply in_map. exact Ha.
Qed.

Lemma filter_at_most_one {A B : Type} (g : A -> B) (k : B) (p : A -> bool)
      (l : list A) :
  NoDup (map g l) -> (forall a, p a = true -> g a = k) ->
  filter p l = [] \/ exists a, filter p l = [a].
Proof.
  intros Hn Hp. induction l as [|x l IH]; simpl; [left; reflexivity|].
  inversion Hn as [|k' ks Hnot Hrest]; subst.
  destruct (p x) eqn:E; [|exact (IH Hrest)].
  right. exists x. f_equal. apply filter_none.
  intros b Hb. destruct (p b) eqn:Eb; [|reflexivity].
  exfalso. apply Hnot. rewrite (Hp x E), <- (Hp b Eb). apply in_map. exact Hb.
Qed.

Lemma crew_in_role_short (db : DB) (flight : Z) (role : string) :
  crew_role_unique db ->
  crew_in_role flight role db = []
  \/ exists c, crew_in_role flight role db = [c].
Proof.
  intros H. unfold crew_in_role.
  apply (filter_at_most_one (fun c => (ca_flight_id c, ca_role c)) (flight, role));
    [exact H|].
  intros c E. apply andb_true_iff in E. destruct E as [Ef Er].
  apply Z.eqb_eq in Ef. apply String.eqb_eq in Er. congruence.
Qed.

Lemma has_key_in {A : Type} (key : A -> Z) (l : list A) (k : Z) :
  existsb (fun a => key a =? k) l = true -> exists a, In a l /\ key a = k.
Proof.
  intros H. apply existsb_exists in H. destruct H as [a [Ha E]].
  apply Z.eqb_eq in E. eauto.
Qed.

Lemma crew_of_one (db : DB) (f : FlightRow) (role : string) :
  consistent db -> crew_of db f role = [pilot_in_role db f role].
Proof.
  intros H. open_consistent H. unfold crew_of, pilot_in_role, left_join.
  change (filter (fun c => (ca_flight_id c =? f_flight_id f)
                           && String.eqb (ca_role c) role) (CrewAssignment db))
    with (crew_in_role (f_flight_id f) role db).
  destruct (crew_in_role_short db (f_flight_id f) role Hu) as [E|[c E]].
  - rewrite E. simpl. rewrite filter_none; [reflexivity|]. reflexivity.
  - rewrite E. simpl. rewrite app_nil_r.
    assert (In c (CrewAssignment db)) as Hin.
    { assert (In c (crew_in_role (f_flight_id f) role db)) as Hc'
        by (rewrite E; left; reflexivity).
      apply filter_In in Hc'. tauto. }
    destruct (Rc c Hin) as [_ Hp]. apply has_key_in in Hp.
    destruct Hp as [p [Hp Hid]]. rewrite <- Hid.
    rewrite (filter_one_key p_pilot_id (Pilot db) p Kp Hp). reflexivity.
Qed.

Lemma view_rows_of_details (db : DB) (f : FlightRow) :
  consistent db -> In f (Flight db) ->
  exists v, details db f = Some v /\ view_rows_of db f = [v].
Proof.
  intros H Hf. pose proof H as H'. open_consistent H'.
  destruct (Rf f Hf) as [Hr Hst].
  apply has_key_in in Hr. destruct Hr as [r [Hr Er]].
  apply has_key_in in Hst. destruct Hst as [s [Hs' Es]].
  unfold details, view_rows_of, route_of, status_of.
  rewrite <- Er, <- Es.
  rewrite (filter_one_key r_route_id (Route db) r Kr Hr).
  rewrite (filter_one_key s_status_id (FlightStatus db) s Ks Hs').
  rewrite !crew_of_one by exact H. simpl. eauto.
Qed.

Lemma view_as_flat_map (db : DB) :
  v_flight_details db = flat_map (view_rows_of db) (Flight db).
Proof. reflexivity. Qed.

(** The view has exactly one row for each flight, in the order of the table. *)
Lemma view_is_details (db : DB) :
  consistent db -> map Some (v_flight_details db) = map (details db) (Flight db).
Proof.
  intros H. rewrite view_as_flat_map.
  assert (forall l, incl l (Flight db) ->
                    map Some (flat_map (view_rows_of db) l) = map (details db) l)
    as Hall.
  { induction l as [|f l IH]; simpl; intros Hl; [reflexivity|].
    destruct (view_rows_of_details db f H) as [v [Hd Hv]];
      [apply Hl; left; reflexivity|].
    rewrite Hv, Hd. simpl. f_equal. apply IH.
    intros x Hx. apply Hl. right. exact Hx. }
  apply Hall. apply incl_refl.
Qed.

Lemma details_key (db : DB) (f : FlightRow) (v : FlightDetails) :
  details db f = Some v ->
  v_flight_id v = f_flight_id f /\ v_flight_number v = f_flight_number f
  /\ v_flight_date v = f_flight_date f.
Proof.
  unfold details. destruct (route_of db f); [|discriminate].
  destruct (status_of db f); [|discriminate]. intros [= <-]. simpl. auto.
Qed.

(** Looking a stored flight up by its number, as typed, and its date. *)
Lemma find_flight_stored (db : DB) (f : FlightRow) (raw : string) :
  consistent db -> In f (Flight db) ->
  validate_flight_number raw = inr (f_flight_number f) ->
  exists v, details db f = Some v /\ find_flight raw (f_flight_date f) db = inr v.
Proof.
  intros H Hf Hraw. unfold find_flight. rewrite Hraw.
  rewrite view_as_flat_map.
  destruct (view_rows_of_details db f H Hf) as [v [Hd Hv]].
  exists v. split; [exact Hd|].
  assert (NoDup (map (fun f => (f_flight_number f, f_flight_date f)) (Flight db)))
    as Hu by exact (proj1 (proj2 (proj1 (proj2 H)))).
  revert Hf Hu. generalize (Flight db) as l.
  induction l as [|x l IH]; simpl; [tauto|]. intros Hin Hn.
  inversion Hn as [|k ks Hnot Hrest]; subst. rewrite filter_app.
  destruct Hin as [->|Hin].
  - rewrite Hv. simpl. destruct (details_key db f v Hd) as (_ & -> & ->).
    rewrite !String.eqb_refl. reflexivity.
  - rewrite filter_none; [exact (IH Hin Hrest)|].
    intros w Hw. destruct (view_rows_of_key db x w Hw) as (_ & -> & ->).
    apply andb_false_iff.
    destruct (String.eqb (f_flight_number x) (f_flight_number f)) eqn:En;
      [|left; reflexivity].
    destruct (String.eqb (f_flight_date x) (f_flight_date f)) eqn:Ed;
      [|right; reflexivity].
    exfalso. apply String.eqb_eq in En, Ed. apply Hnot.
    rewrite En, Ed. apply (in_map (fun f => (f_flight_number f, f_flight_date f))).
    exact Hin.
Qed.

(** What [find_flight] returns is the row of a stored flight with that
    number and that date. *)
Lemma find_flight_found (db : DB) (raw date number : string) (v : FlightDetails) :
  consistent db ->
  validate_flight_number raw = inr number ->
  find_flight raw date db = inr v ->
  exists f, In f (Flight db) /\ f_flight_number f = number /\ f_flight_date f = date
            /\ details db f = Some v.
Proof.
  intros H Hraw. unfold find_flight. rewrite Hraw.
  destruct (hd_error _) as [w|] eqn:E; [|discriminate]. intros [= <-].
  apply hd_filter_some in E. destruct E as [Hin Hm].
  apply andb_true_iff in Hm. destruct Hm as [Hn Hd].
  apply String.eqb_eq in Hn, Hd.
  rewrite view_as_flat_map in Hin. apply in_flat_map in Hin.
  destruct Hin as [f [Hf Hw]].
  destruct (view_rows_of_details db f H Hf) as [v [Hdet Hv]].
  rewrite Hv in Hw. destruct Hw as [<-|[]].
  destruct (details_key db f v Hdet) as (_ & En & Ed).
  exists f. repeat split; congruence.
Qed.

(** ** Invariants of the stored data *)

(** X1.  Every command is atomic.  A command goes through, that is, its
    suite returns and it commits, exactly when every check the code makes
    passes, and then the file holds what its statements made of it
    ([commits]); a command that does not go through commits nothing and
    leaves the file as it was.  No command leaves a part of its
    statements behind. *)
Theorem commands_are_atomic :
  (forall c db db',
      commits c db db'
      <-> completed (body_of c) (run c) db /\ persisted (run c) db = db')
  /\ (forall c db,
         ~ completed (body_of c) (run c) db ->
         persisted (run c) db = db /\ ~ In Commit (events (run c) db)).
Proof.
  split.
  - intros c db db'. split; [apply commits_run|].
    intros [Hdone <-]. destruct (run_cases c db) as [[_ T]|[Hno _]]; [exact T|].
    destruct Hdone as [_ Hc]. contradiction.
  - intros c db Hnot. destruct (run_cases c db) as [[Hdone _]|[Hno Hsame]];
      [contradiction|]. split; assumption.
Qed.

(** X2.  PRIMARY KEY and UNIQUE.  In the seed and after any sequence of
    commands, no two airports share a code, no two routes, pilots, statuses
    or flights share their key, and no pilot is assigned twice to a flight;
    and there is at most one route for a pair of airports, one flight for a
    number and a date, one pilot for a licence (trimmed, in upper case) and
    one status for a name. *)
Theorem uniqueness_constraints_hold (db : DB) :
  reachable db -> keys_unique db /\ no_duplicates db.
Proof.
  intros H. apply reachable_consistent in H.
  exact (conj (proj1 H) (proj1 (proj2 H))).
Qed.

Lemma uniqueness_constraints_hold_witness :
  let db := persisted (run (AddRoute "lhr" "cdg" (344 # 1) 80)) seed in
  List.length (Route db) = 16%nat /\ keys_unique db /\ no_duplicates db.
Proof.
  cbv zeta. split; [reflexivity|].
  apply uniqueness_constraints_hold. apply reachable_run. apply reachable_seed.
Defined.

(** X3.  FOREIGN KEY.  In the seed and after any sequence of commands,
    the two airports of every route are stored, the route and the status of
    every flight are stored, and the flight and the pilot of every crew
    assignment are stored. *)
Theorem references_stay_valid (db : DB) : reachable db -> references_hold db.
Proof. intros H. exact (proj1 (proj2 (proj2 (reachable_consistent db H)))). Qed.

Lemma references_stay_valid_witness :
  references_hold
    (persisted (run (ChangeRoute "ba101" "2025-06-05" "lhr" "cdg" "y")) seed).
Proof.
  apply references_stay_valid. apply reachable_run. apply reachable_seed.
Defined.

(** X4.  In the seed and after any sequence of commands, the role a pilot
    has on a flight is the pilot's rank: every Captain row names a pilot of
    rank Captain, every First Officer row one of rank First Officer. *)
Theorem crew_roles_match_ranks (db : DB) : reachable db -> crew_ranked db.
Proof.
  intros H. exact (proj1 (proj2 (proj2 (proj2 (proj2 (reachable_consistent db H)))))).
Qed.

Lemma crew_roles_match_ranks_witness :
  crew_ranked (persisted (run (ChangeFirstOfficer "BA106" "2025-06-10" 12 "y")) seed).
Proof.
  apply crew_roles_match_ranks. apply reachable_run. apply reachable_seed.
Defined.

(** X5.  In the seed and after any sequence of commands, every stored
    flight has its departure text before its arrival text, in the order
    Python compares them ([add_flight] and [change_times] refuse the others),
    and satisfies the CHECK of the table. *)
Theorem departure_precedes_arrival (db : DB) : reachable db -> times_ordered db.
Proof.
  intros H.
  exact (proj1 (proj2 (proj2 (proj2 (proj2 (proj2 (reachable_consistent db H))))))).
Qed.

Lemma departure_precedes_arrival_witness :
  times_ordered
    (persisted (run (ChangeTimes "BA101" "2025-06-05" "2025-06-05 09:00"
                                 "2025-06-05 16:00" "y")) seed).
Proof.
  apply departure_precedes_arrival. apply reachable_run. apply reachable_seed.
Defined.

(** X6.  In the seed and after any sequence of commands, every stored text
    is in the form its validator produces, so that validating it again
    returns it unchanged: airport codes (of airports and of routes), ranks,
    licence numbers and hire dates of pilots, status names, and the number,
    date and two timestamps of flights. *)
Theorem stored_values_are_valid (db : DB) : reachable db -> values_valid db.
Proof.
  intros H.
  exact (proj1 (proj2 (proj2 (proj2 (proj2 (proj2 (proj2
           (reachable_consistent db H)))))))).
Qed.

Lemma stored_values_are_valid_witness :
  values_valid
    (persisted (run (AddPilot " lic2001 " "Zoe" "Zhang" "first officer" "2024-2-9"))
               seed).
Proof.
  apply stored_values_are_valid. apply reachable_run. apply reachable_seed.
Defined.

(** ** Nothing is deleted *)

Lemma grows_refl (db : DB) : grows db db.
Proof.
  unfold grows. repeat split; try (exists []; rewrite app_nil_r; reflexivity); auto.
Qed.

Lemma grows_trans (a b c : DB) : grows a b -> grows b c -> grows a c.
Proof.
  intros (A1 & R1 & P1 & S1 & F1 & C1) (A2 & R2 & P2 & S2 & F2 & C2).
  unfold grows.
  destruct A1 as [x1 A1], A2 as [x2 A2], R1 as [y1 R1], R2 as [y2 R2],
           P1 as [z1 P1], P2 as [z2 P2], F1 as [w1 F1], F2 as [w2 F2].
  repeat split.
  - exists (x1 ++ x2)%list. rewrite A2, A1, app_assoc. reflexivity.
  - exists (y1 ++ y2)%list. rewrite R2, R1, app_assoc. reflexivity.
  - exists (z1 ++ z2)%list. rewrite P2, P1, app_assoc. reflexivity.
  - congruence.
  - exists (w1 ++ w2)%list. rewrite F2, F1, app_assoc. reflexivity.
  - auto.
Qed.

Ltac grows_by more_airports more_routes more_pilots more_flights :=
  unfold grows; cbn;
  split; [exists more_airports; rewrite ?app_nil_r; reflexivity|];
  split; [exists more_routes; rewrite ?app_nil_r; reflexivity|];
  split; [exists more_pilots; rewrite ?app_nil_r; reflexivity|];
  split; [reflexivity|];
  split; [exists more_flights; rewrite ?app_nil_r, ?map_app; try reflexivity|auto].

Lemma update_flight_grows (db : DB) (id : Z) (change : FlightRow -> FlightRow) :
  (forall f, f_flight_id (change f) = f_flight_id f
             /\ f_flight_number (change f) = f_flight_number f
             /\ f_flight_date (change f) = f_flight_date f) ->
  grows db (set_Flight db
              (update_where (fun f => f_flight_id f =? id) change (Flight db))
              (seq_Flight db)).
Proof.
  intros H.
  grows_by (@nil AirportRow) (@nil RouteRow) (@nil PilotRow)
           (@nil (Z * string * string)).
  apply map_update_where. intros f. destruct (H f) as (-> & -> & ->). reflexivity.
Qed.

Lemma filter_app_nil {A : Type} (p : A -> bool) (l m : list A) :
  filter p l <> [] -> filter p (l ++ m) <> [].
Proof.
  rewrite filter_app. destruct (filter p l); [congruence|discriminate].
Qed.

(** The DELETE and the INSERT of a reassignment, together. *)
Lemma crew_change_grows (db db1 db' : DB) (flight pilot : Z) (role : string) :
  delete_CrewAssignment flight role db = inr db1 ->
  insert_CrewAssignment flight pilot role db1 = inr db' ->
  grows db db'.
Proof.
  intros [= <-] Hins. apply insert_CrewAssignment_inv in Hins.
  destruct Hins as (-> & _).
  grows_by (@nil AirportRow) (@nil RouteRow) (@nil PilotRow)
           (@nil (Z * string * string)).
  intros fl r Hhad. unfold crew_in_role in *. cbn. rewrite filter_app. simpl.
  destruct ((flight =? fl) && String.eqb role r) eqn:E.
  - destruct (filter _ (filter _ _)); discriminate.
  - rewrite app_nil_r. intros Hnow. apply Hhad.
    apply filter_none. intros c Hc.
    destruct ((ca_flight_id c =? fl) && String.eqb (ca_role c) r) eqn:Ec;
      [|reflexivity].
    exfalso.
    assert (In c (filter (fun c => (ca_flight_id c =? fl) && String.eqb (ca_role c) r)
                         (filter (fun c => negb ((ca_flight_id c =? flight)
                                                 && String.eqb (ca_role c) role))
                                 (CrewAssignment db)))) as Hin.
    { apply filter_In. split; [|exact Ec]. apply filter_In. split; [exact Hc|].
      apply andb_true_iff in Ec. destruct Ec as [Ef Er].
      apply Z.eqb_eq in Ef. apply String.eqb_eq in Er. subst fl r.
      rewrite Z.eqb_sym, String.eqb_sym in E. rewrite E. reflexivity. }
    rewrite Hnow in Hin. destruct Hin.
Qed.

Lemma commits_grow (c : command) (db db' : DB) : commits c db db' -> grows db db'.
Proof.
  intros T. destruct T.
  - apply update_Flight_route_inv in Stmt. destruct Stmt as [-> _].
    apply update_flight_grows. intros f. repeat split.
  - apply insert_Route_inv in Stmt1. destruct Stmt1 as (-> & -> & _).
    apply update_Flight_route_inv in Stmt. destruct Stmt as [-> _].
    eapply grows_trans; [|apply update_flight_grows; intros f; repeat split].
    grows_by (@nil AirportRow)
             [{| r_route_id := next_id r_route_id (Route db) (seq_Route db);
                 r_origin_code := origin; r_dest_code := dest;
                 r_distance_km := 0 # 1; r_flight_duration_mins := 0 |}]
             (@nil PilotRow) (@nil (Z * string * string)).
  - apply update_Flight_times_inv in Stmt. destruct Stmt as [-> _].
    apply update_flight_grows. intros f. repeat split.
  - apply update_Flight_status_inv in Stmt. destruct Stmt as [-> _].
    apply update_flight_grows. intros f. repeat split.
  - exact (crew_change_grows _ _ _ _ _ _ Stmt1 Stmt).
  - exact (crew_change_grows _ _ _ _ _ _ Stmt1 Stmt).
  - apply insert_Airport_inv in Stmt. destruct Stmt as [-> _].
    grows_by [{| a_airport_code := valid; a_name := name; a_city := city;
                 a_country := country; a_utc_offset := utc_offset;
                 a_tz_name := tz_name |}]
             (@nil RouteRow) (@nil PilotRow) (@nil (Z * string * string)).
  - apply insert_Route_inv in Stmt. destruct Stmt as (-> & -> & _).
    grows_by (@nil AirportRow)
             [{| r_route_id := next_id r_route_id (Route db) (seq_Route db);
                 r_origin_code := o; r_dest_code := dst;
                 r_distance_km := distance_km;
                 r_flight_duration_mins :=
                   Py.int_of_number (inject_Z flight_duration_mins) |}]
             (@nil PilotRow) (@nil (Z * string * string)).
  - apply insert_Pilot_inv in Stmt. destruct Stmt as [-> _].
    grows_by (@nil AirportRow) (@nil RouteRow)
             [{| p_pilot_id := next_id p_pilot_id (Pilot db) (seq_Pilot db);
                 p_licence_no := valid_licence; p_first_name := first_name;
                 p_last_name := last_name; p_rank := valid_rank;
                 p_hire_date := date |}]
             (@nil (Z * string * string)).
  - apply insert_Flight_inv in Stmt. destruct Stmt as (-> & _).
    grows_by (@nil AirportRow) (@nil RouteRow) (@nil PilotRow)
             [(next_id f_flight_id (Flight db) (seq_Flight db), number, date)].
  - exact (crew_change_grows _ _ _ _ _ _ Stmt1 Stmt).
Qed.

(** X7.  No command deletes.  Whatever the command and the file, the file
    it leaves has every airport, route and pilot of the file it found, in
    the same order, the same statuses, every flight under the same key,
    number and date, and a pilot in every role of every flight that had
    one; and so every file the program can leave has all of these of the
    seed. *)
Theorem no_command_deletes :
  (forall c db, grows db (persisted (run c) db))
  /\ (forall db, reachable db -> grows seed db).
Proof.
  assert (forall c db, grows db (persisted (run c) db)) as Hstep.
  { intros c db. destruct (run_cases c db) as [[_ T]|[_ ->]].
    - exact (commits_grow c db _ T).
    - apply grows_refl. }
  split; [exact Hstep|].
  induction 1 as [|c db _ IH]; [apply grows_refl|].
  exact (grows_trans _ _ _ IH (Hstep c db)).
Qed.

(** X8.  In the seed and after any sequence of commands, the view
    [v_flight_details] has exactly one row for each stored flight, in the
    order of the table [Flight]: the joins with [Route] and [FlightStatus]
    lose no flight, and the joins with [CrewAssignment] and [Pilot] repeat
    none.  The row is the one [details] builds from the flight's route, its
    status, its captain and its first officer. *)
Theorem view_has_one_row_per_flight (db : DB) :
  reachable db ->
  map Some (v_flight_details db) = map (details db) (Flight db)
  /\ List.length (v_flight_details db) = List.length (Flight db).
Proof.
  intros H. apply reachable_consistent in H.
  pose proof (view_is_details db H) as E. split; [exact E|].
  apply (f_equal (@List.length _)) in E. rewrite !length_map in E. exact E.
Qed.

Lemma view_has_one_row_per_flight_witness :
  let db := persisted (run (AddFlight "ba201" "2025-07-01" 3 "2025-07-01 09:00"
                                      "2025-07-01 10:05" "delayed")) seed in
  List.length (Flight db) = 16%nat
  /\ List.length (v_flight_details db) = List.length (Flight db).
Proof.
  split; [reflexivity|].
  apply view_has_one_row_per_flight. apply reachable_run. apply reachable_seed.
Defined.

(** X9.  In the seed and after any sequence of commands, every stored
    flight can be loaded: its date passes [validate_date], and looking up
    any text that [validate_flight_number] turns into its number, with its
    date, finds the row of that very flight. *)
Theorem stored_flights_can_be_loaded (db : DB) (f : FlightRow) :
  reachable db -> In f (Flight db) ->
  validate_date (f_flight_date f) = inr (f_flight_date f)
  /\ validate_flight_number (f_flight_number f) = inr (f_flight_number f)
  /\ exists v,
      details db f = Some v
      /\ v_flight_id v = f_flight_id f
      /\ forall raw,
          validate_flight_number raw = inr (f_flight_number f) ->
          find_flight raw (f_flight_date f) db = inr v.
Proof.
  intros H Hf. apply reachable_consistent in H.
  pose proof H as (_ & _ & _ & _ & _ & _ & (_ & _ & _ & _ & Vf) & _).
  destruct (Vf f Hf) as (Vn & Vd & _).
  split; [exact Vd|]. split; [exact Vn|].
  destruct (find_flight_stored db f _ H Hf Vn) as [v [Hdet _]].
  exists v. split; [exact Hdet|]. split; [exact (proj1 (details_key db f v Hdet))|].
  intros raw Hraw.
  destruct (find_flight_stored db f raw H Hf Hraw) as [v' [Hdet' Hfound]].
  congruence.
Qed.

Lemma stored_flights_can_be_loaded_witness :
  let f := {| f_flight_id := 4; f_flight_number := "BA104";
              f_flight_date := "2025-06-08"; f_route_id := 4;
              f_sched_dep_utc := "2025-06-08 10:00";
              f_sched_arr_utc := "2025-06-08 11:25"; f_status_id := 2 |} in
  In f (Flight seed)
  /\ validate_flight_number " ba104 " = inr (f_flight_number f)
  /\ exists v, v_flight_id v = 4 /\ find_flight " ba104 " "2025-06-08" seed = inr v.
Proof.
  cbv zeta. split; [simpl; tauto|]. split; [reflexivity|].
  destruct (stored_flights_can_be_loaded seed
              {| f_flight_id := 4; f_flight_number := "BA104";
                 f_flight_date := "2025-06-08"; f_route_id := 4;
                 f_sched_dep_utc := "2025-06-08 10:00";
                 f_sched_arr_utc := "2025-06-08 11:25"; f_status_id := 2 |}
              reachable_seed)
    as (_ & _ & v & _ & Hid & Hfind); [simpl; tauto|].
  exists v. split; [exact Hid|]. apply Hfind. reflexivity.
Defined.

(** ** After a change, the view shows what the preview proposed *)

Lemma completed_commits (c : command) (db : DB) :
  completed (body_of c) (run c) db -> commits c db (persisted (run c) db).
Proof.
  intros [_ Hc]. destruct (run_cases c db) as [[_ T]|[Hno _]]; [exact T|contradiction].
Qed.

Lemma find_flight_number (db : DB) (raw date : string) (v : FlightDetails) :
  find_flight raw date db = inr v ->
  exists number, validate_flight_number raw = inr number.
Proof.
  unfold find_flight. destruct (validate_flight_number raw); [discriminate|eauto].
Qed.

Lemma in_update_where_hit {A : Type} (hit : A -> bool) (f : A -> A) (l : list A)
      (a : A) :
  In a l -> hit a = true -> In (f a) (update_where hit f l).
Proof.
  intros Ha Hh. unfold update_where. apply in_map_iff. exists a.
  rewrite Hh. auto.
Qed.

(** The flight a lookup found, as a row of [Flight]. *)
Lemma found_row (db : DB) (raw date : string) (v : FlightDetails) :
  consistent db -> find_flight raw date db = inr v ->
  exists f, In f (Flight db) /\ f_flight_date f = date
            /\ validate_flight_number raw = inr (f_flight_number f)
            /\ f_flight_id f = v_flight_id v
            /\ details db f = Some v.
Proof.
  intros H Hfound. destruct (find_flight_number _ _ _ _ Hfound) as [number Hn].
  destruct (find_flight_found db raw date number v H Hn Hfound)
    as (f & Hf & En & Ed & Hdet).
  exists f. repeat split; try assumption.
  - congruence.
  - symmetry. exact (proj1 (details_key db f v Hdet)).
Qed.

(** After an UPDATE of the flight that a lookup found, which leaves key,
    number and date alone, the same lookup finds the changed flight. *)
Lemma find_after_update (db db' : DB) (raw date : string) (v v' : FlightDetails)
      (change : FlightRow -> FlightRow) :
  consistent db -> consistent db' ->
  find_flight raw date db = inr v ->
  Flight db' = update_where (fun f => f_flight_id f =? v_flight_id v) change
                            (Flight db) ->
  (forall f, f_flight_number (change f) = f_flight_number f
             /\ f_flight_date (change f) = f_flight_date f) ->
  (forall f, details db f = Some v -> details db' (change f) = Some v') ->
  find_flight raw date db' = inr v'.
Proof.
  intros H H' Hfound Hrows Hsame Hdet.
  destruct (found_row db raw date v H Hfound) as (f & Hf & Ed & Hn & Hid & Hd).
  assert (In (change f) (Flight db')) as Hf'.
  { rewrite Hrows. apply in_update_where_hit; [exact Hf|].
    apply Z.eqb_eq. exact Hid. }
  destruct (Hsame f) as [En' Ed'].
  destruct (find_flight_stored db' (change f) raw H' Hf') as (w & Hw & Hfind);
    [rewrite En'; exact Hn|].
  rewrite Ed', Ed in Hfind. rewrite (Hdet f Hd) in Hw. congruence.
Qed.

Ltac open_details :=
  unfold details, route_of, status_of, pilot_in_role, crew_in_role; cbn.

Lemma details_set_times (db : DB) (f : FlightRow) (v : FlightDetails)
      (dep arr : string) (rows : list FlightRow) (seq : Z) :
  details db f = Some v ->
  details (set_Flight db rows seq) (set_times dep arr f)
  = Some (with_times v dep arr).
Proof.
  open_details.
  destruct (hd_error (filter _ (Route db))); [|discriminate].
  destruct (hd_error (filter _ (FlightStatus db))); [|discriminate].
  intros [= <-]. reflexivity.
Qed.

Lemma details_set_status (db : DB) (f : FlightRow) (v : FlightDetails)
      (row : StatusRow) (rows : list FlightRow) (seq : Z) :
  details db f = Some v ->
  hd_error (filter (fun s => s_status_id s =? s_status_id row) (FlightStatus db))
  = Some row ->
  details (set_Flight db rows seq) (set_status_id (s_status_id row) f)
  = Some (with_status v (s_status_name row)).
Proof.
  open_details. intros Hd ->.
  destruct (hd_error (filter _ (Route db))); [|discriminate].
  destruct (hd_error (filter _ (FlightStatus db))); [|discriminate].
  injection Hd as <-. reflexivity.
Qed.

Lemma details_set_route (db db1 : DB) (f : FlightRow) (v : FlightDetails)
      (r : RouteRow) (rows : list FlightRow) (seq : Z) :
  details db f = Some v ->
  FlightStatus db1 = FlightStatus db -> Pilot db1 = Pilot db ->
  CrewAssignment db1 = CrewAssignment db ->
  hd_error (filter (fun x => r_route_id x =? r_route_id r) (Route db1)) = Some r ->
  details (set_Flight db1 rows seq) (set_route_id (r_route_id r) f)
  = Some (with_route v (r_origin_code r) (r_dest_code r)).
Proof.
  open_details. intros Hd -> -> -> ->.
  destruct (hd_error (filter _ (Route db))); [|discriminate].
  destruct (hd_error (filter _ (FlightStatus db))); [|discriminate].
  injection Hd as <-. reflexivity.
Qed.

(** X10.  After [change_times] has gone through on a file the program can
    leave, loading the flight shows what the preview proposed: the row it
    showed as current, with the two new timestamps (which validation returns
    as typed) and nothing else changed. *)
Theorem change_times_stores_the_preview (db : DB)
        (flight_number flight_date new_dep new_arr reply : string) :
  reachable db ->
  completed (change_times_body flight_number flight_date new_dep new_arr reply)
            (change_times flight_number flight_date new_dep new_arr reply) db ->
  exists flight,
    find_flight flight_number flight_date db = inr flight
    /\ find_flight flight_number flight_date
         (persisted (change_times flight_number flight_date new_dep new_arr reply) db)
       = inr (with_times flight new_dep new_arr).
Proof.
  intros Hr Hdone. apply reachable_consistent in Hr.
  pose proof (completed_commits (ChangeTimes _ _ _ _ _) db Hdone) as T.
  pose proof (commits_keep _ _ _ T Hr) as Hr'.
  simpl run in *. inversion T; subst.
  apply validate_date_returns in Vdate. apply validate_datetime_returns in Vdep, Varr.
  subst date dep arr.
  exists flight. split; [exact Found|].
  pose proof Stmt as Hinv. apply update_Flight_times_inv in Hinv.
  destruct Hinv as [Hdb' _].
  eapply (find_after_update db _ _ _ flight _ (set_times new_dep new_arr) Hr Hr' Found).
  - rewrite Hdb'. reflexivity.
  - intros f. split; reflexivity.
  - intros f Hd. rewrite Hdb'. apply details_set_times. exact Hd.
Qed.

Lemma change_times_stores_the_preview_witness :
  let op := change_times "ba101" "2025-06-05" "2025-06-05 09:15" "2025-06-05 16:10"
                         "Y" in
  exists flight,
    find_flight "ba101" "2025-06-05" seed = inr flight
    /\ v_sched_dep_utc flight = "2025-06-05 08:00"
    /\ find_flight "ba101" "2025-06-05" (persisted op seed)
       = inr (with_times flight "2025-06-05 09:15" "2025-06-05 16:10").
Proof.
  cbv zeta.
  destruct (change_times_stores_the_preview seed "ba101" "2025-06-05"
              "2025-06-05 09:15" "2025-06-05 16:10" "Y" reachable_seed)
    as [flight [Hold Hnew]].
  - split; [reflexivity|]. vm_compute. tauto.
  - exists flight. split; [exact Hold|]. split; [|exact Hnew].
    vm_compute in Hold. injection Hold as <-. reflexivity.
Defined.

(** X11.  After [change_status] has gone through on a file the program can
    leave, loading the flight shows what the preview proposed: the row it
    showed as current, with the new status name (capitalised) and nothing
    else changed. *)
Theorem change_status_stores_the_preview (db : DB)
        (flight_number flight_date new_status reply : string) :
  reachable db ->
  completed (change_status_body flight_number flight_date new_status reply)
            (change_status flight_number flight_date new_status reply) db ->
  exists flight,
    find_flight flight_number flight_date db = inr flight
    /\ find_flight flight_number flight_date
         (persisted (change_status flight_number flight_date new_status reply) db)
       = inr (with_status flight (Py.capitalize new_status)).
Proof.
  intros Hr Hdone. apply reachable_consistent in Hr.
  pose proof (completed_commits (ChangeStatus _ _ _ _) db Hdone) as T.
  pose proof (commits_keep _ _ _ T Hr) as Hr'.
  simpl run in *. inversion T; subst.
  apply validate_date_returns in Vdate. subst date.
  apply validate_flight_status_returns in Vs. destruct Vs as [-> _].
  exists flight. split; [exact Found|].
  pose proof Stmt as Hinv. apply update_Flight_status_inv in Hinv.
  destruct Hinv as [Hdb' _].
  apply select_status_found in Status_found. destruct Status_found as (Hin & Hname & _).
  rewrite <- Hname.
  eapply (find_after_update db _ _ _ flight _ (set_status_id (s_status_id row))
                            Hr Hr' Found).
  - rewrite Hdb'. reflexivity.
  - intros f. split; reflexivity.
  - intros f Hd. rewrite Hdb'. apply details_set_status; [exact Hd|].
    rewrite (filter_one_key s_status_id (FlightStatus db) row); [reflexivity| |exact Hin].
    exact (proj1 (proj2 (proj2 (proj2 (proj1 Hr))))).
Qed.

Lemma change_status_stores_the_preview_witness :
  let op := change_status "BA103" "2025-06-07" "delayed" "y" in
  exists flight,
    find_flight "BA103" "2025-06-07" seed = inr flight
    /\ v_status_name flight = "Scheduled"
    /\ find_flight "BA103" "2025-06-07" (persisted op seed)
       = inr (with_status flight "Delayed").
Proof.
  cbv zeta.
  destruct (change_status_stores_the_preview seed "BA103" "2025-06-07" "delayed" "y"
              reachable_seed)
    as [flight [Hold Hnew]].
  - split; [reflexivity|]. vm_compute. tauto.
  - exists flight. split; [exact Hold|]. split; [|exact Hnew].
    vm_compute in Hold. injection Hold as <-. reflexivity.
Defined.

Lemma filter_fresh_route (db : DB) (id : Z) (r : RouteRow) :
  id = next_id r_route_id (Route db) (seq_Route db) ->
  r_route_id r = id ->
  hd_error (filter (fun x => r_route_id x =? id) (Route db ++ [r])) = Some r.
Proof.
  intros Hid Hr. rewrite filter_app, filter_none.
  - simpl. rewrite Hr, Z.eqb_refl. reflexivity.
  - intros x Hx. apply Z.eqb_neq. intros E.
    apply (next_id_fresh r_route_id (Route db) (seq_Route db)).
    rewrite <- Hid, <- E. apply in_map. exact Hx.
Qed.

(** X12.  After [change_route] has gone through on a file the program can
    leave, loading the flight shows what the preview proposed: the row it
    showed as current, with the two validated codes as origin and
    destination and nothing else changed, whether the route existed or was
    created. *)
Theorem change_route_stores_the_preview (db : DB)
        (flight_number flight_date new_origin new_dest reply : string) :
  reachable db ->
  completed (change_route_body flight_number flight_date new_origin new_dest reply)
            (change_route flight_number flight_date new_origin new_dest reply) db ->
  exists flight origin dest,
    validate_airport_code new_origin = inr origin
    /\ validate_airport_code new_dest = inr dest
    /\ find_flight flight_number flight_date db = inr flight
    /\ find_flight flight_number flight_date
         (persisted (change_route flight_number flight_date new_origin new_dest
                                  reply) db)
       = inr (with_route flight origin dest).
Proof.
  intros Hr Hdone. apply reachable_consistent in Hr.
  pose proof (completed_commits (ChangeRoute _ _ _ _ _) db Hdone) as T.
  pose proof (commits_keep _ _ _ T Hr) as Hr'.
  simpl run in *. inversion T; subst.
  - apply validate_date_returns in Vdate. subst date.
    exists flight, origin, dest. repeat split; try assumption.
    pose proof Stmt as Hinv. apply update_Flight_route_inv in Hinv.
    destruct Hinv as [Hdb' _].
    apply select_route_found in Route_found.
    destruct Route_found as (Hin & <- & <- & _).
    eapply (find_after_update db _ _ _ flight _ (set_route_id (r_route_id r))
                              Hr Hr' Found).
    + rewrite Hdb'. reflexivity.
    + intros f. split; reflexivity.
    + intros f Hd. rewrite Hdb'.
      apply (details_set_route db db); try reflexivity; [exact Hd|].
      rewrite (filter_one_key r_route_id (Route db) r); [reflexivity| |exact Hin].
      exact (proj1 (proj2 (proj1 Hr))).
  - apply validate_date_returns in Vdate. subst date.
    exists flight, origin, dest. repeat split; try assumption.
    pose proof Stmt1 as Hinv1. apply insert_Route_inv in Hinv1.
    destruct Hinv1 as (Hid & Hdb1 & _).
    pose proof Stmt as Hinv. apply update_Flight_route_inv in Hinv.
    destruct Hinv as [Hdb' _].
    eapply (find_after_update db _ _ _ flight _ (set_route_id id) Hr Hr' Found).
    + rewrite Hdb', Hdb1. reflexivity.
    + intros f. split; reflexivity.
    + intros f Hd. rewrite Hdb'.
      apply (details_set_route db db1 f flight
               {| r_route_id := id; r_origin_code := origin; r_dest_code := dest;
                  r_distance_km := 0 # 1; r_flight_duration_mins := 0 |});
        try (rewrite Hdb1; reflexivity); [exact Hd|].
      rewrite Hdb1. cbn. apply filter_fresh_route; [exact Hid|reflexivity].
Qed.

Lemma change_route_stores_the_preview_witness :
  let op := change_route "BA101" "2025-06-05" "lhr" "cdg" "y" in
  exists flight origin dest,
    validate_airport_code "lhr" = inr origin
    /\ validate_airport_code "cdg" = inr dest
    /\ find_flight "BA101" "2025-06-05" seed = inr flight
    /\ find_flight "BA101" "2025-06-05" (persisted op seed)
       = inr (with_route flight origin dest).
Proof.
  cbv zeta.
  apply (change_route_stores_the_preview seed "BA101" "2025-06-05" "lhr" "cdg" "y"
           reachable_seed).
  split; [reflexivity|]. vm_compute. tauto.
Defined.

Lemma filter_filter_implied {A : Type} (p q : A -> bool) (l : list A) :
  (forall a, p a = true -> q a = true) -> filter p (filter q l) = filter p l.
Proof.
  intros H. induction l as [|a l IH]; simpl; [reflexivity|].
  destruct (q a) eqn:Eq; simpl.
  - rewrite IH. reflexivity.
  - destruct (p a) eqn:Ep; [|exact IH]. rewrite (H a Ep) in Eq. discriminate.
Qed.

(** The rows of a flight in each role, after the DELETE and the INSERT of
    a reassignment. *)
Lemma crew_after_change (db : DB) (flight pilot : Z) (role : string) :
  let row := {| ca_flight_id := flight; ca_pilot_id := pilot; ca_role := role |} in
  let db' :=
    set_CrewAssignment db
      (filter (fun c => negb ((ca_flight_id c =? flight) && String.eqb (ca_role c) role))
              (CrewAssignment db) ++ [row]) in
  crew_in_role flight role db' = [row]
  /\ forall other, other <> role ->
                   crew_in_role flight other db' = crew_in_role flight other db.
Proof.
  cbv zeta. unfold crew_in_role. cbn. split.
  - rewrite filter_app, filter_filter_negb. simpl.
    rewrite Z.eqb_refl, String.eqb_refl. reflexivity.
  - intros other Hother. rewrite filter_app. simpl.
    rewrite Z.eqb_refl. simpl.
    destruct (String.eqb role other) eqn:E;
      [apply String.eqb_eq in E; congruence|].
    rewrite app_nil_r. apply filter_filter_implied.
    intros c Hc. apply andb_true_iff in Hc. destruct Hc as [Hf Ho].
    apply String.eqb_eq in Ho. rewrite Hf, Ho. simpl.
    rewrite String.eqb_sym, E. reflexivity.
Qed.

Lemma update_where_same {A : Type} (hit : A -> bool) (l : list A) :
  update_where hit (fun a => a) l = l.
Proof.
  unfold update_where. induction l as [|a l IH]; simpl; [reflexivity|].
  rewrite IH. destruct (hit a); reflexivity.
Qed.

Lemma details_set_captain (db : DB) (f : FlightRow) (v : FlightDetails)
      (pilot : PilotRow) (id : Z) :
  details db f = Some v ->
  select_pilot id db = Some pilot ->
  details
    (set_CrewAssignment db
       (filter (fun c => negb ((ca_flight_id c =? f_flight_id f)
                               && String.eqb (ca_role c) "Captain"))
               (CrewAssignment db)
        ++ [{| ca_flight_id := f_flight_id f; ca_pilot_id := id;
               ca_role := "Captain" |}])) f
  = Some (with_captain v (p_first_name pilot ++ " " ++ p_last_name pilot) id).
Proof.
  intros Hd Hp. pose proof Hp as Hid. apply hd_filter_some in Hid.
  destruct Hid as [_ Hid]. apply Z.eqb_eq in Hid.
  destruct (crew_after_change db (f_flight_id f) id "Captain") as [Hsame Hother].
  cbv zeta in Hsame, Hother.
  unfold details, pilot_in_role in *.
  rewrite Hsame, (Hother "First Officer") by discriminate.
  change (hd_error (filter (fun p => p_pilot_id p =? id) (Pilot db)))
    with (select_pilot id db) in *.
  cbn [hd_error ca_pilot_id].
  match goal with
  | |- context [hd_error (filter (fun p => p_pilot_id p =? id) ?l)] =>
      change (hd_error (filter (fun p => p_pilot_id p =? id) l))
        with (select_pilot id db)
  end.
  rewrite Hp.
  change (route_of (set_CrewAssignment db _) f) with (route_of db f).
  change (status_of (set_CrewAssignment db _) f) with (status_of db f).
  destruct (route_of db f); [|discriminate].
  destruct (status_of db f); [|discriminate].
  injection Hd as <-. unfold with_captain, full_name. cbn. rewrite Hid. reflexivity.
Qed.

Lemma details_set_first_officer (db : DB) (f : FlightRow) (v : FlightDetails)
      (pilot : PilotRow) (id : Z) :
  details db f = Some v ->
  select_pilot id db = Some pilot ->
  details
    (set_CrewAssignment db
       (filter (fun c => negb ((ca_flight_id c =? f_flight_id f)
                               && String.eqb (ca_role c) "First Officer"))
               (CrewAssignment db)
        ++ [{| ca_flight_id := f_flight_id f; ca_pilot_id := id;
               ca_role := "First Officer" |}])) f
  = Some (with_fo v (p_first_name pilot ++ " " ++ p_last_name pilot) id).
Proof.
  intros Hd Hp. pose proof Hp as Hid. apply hd_filter_some in Hid.
  destruct Hid as [_ Hid]. apply Z.eqb_eq in Hid.
  destruct (crew_after_change db (f_flight_id f) id "First Officer")
    as [Hsame Hother].
  cbv zeta in Hsame, Hother.
  unfold details, pilot_in_role in *.
  rewrite Hsame, (Hother "Captain") by discriminate.
  cbn [hd_error ca_pilot_id].
  match goal with
  | |- context [hd_error (filter (fun p => p_pilot_id p =? id) ?l)] =>
      change (hd_error (filter (fun p => p_pilot_id p =? id) l))
        with (select_pilot id db)
  end.
  rewrite Hp.
  change (route_of (set_CrewAssignment db _) f) with (route_of db f).
  change (status_of (set_CrewAssignment db _) f) with (status_of db f).
  destruct (route_of db f); [|discriminate].
  destruct (status_of db f); [|discriminate].
  injection Hd as <-. unfold with_fo, full_name. cbn. rewrite Hid. reflexivity.
Qed.

Lemma crew_change_result (db db1 db' : DB) (flight pilot : Z) (role : string) :
  delete_CrewAssignment flight role db = inr db1 ->
  insert_CrewAssignment flight pilot role db1 = inr db' ->
  db' = set_CrewAssignment db
          (filter (fun c => negb ((ca_flight_id c =? flight)
                                  && String.eqb (ca_role c) role))
                  (CrewAssignment db)
           ++ [{| ca_flight_id := flight; ca_pilot_id := pilot; ca_role := role |}]).
Proof.
  intros [= <-] Hins. apply insert_CrewAssignment_inv in Hins.
  destruct Hins as [-> _]. reflexivity.
Qed.

(** X13.  After [change_captain] has gone through on a file the program
    can leave, loading the flight shows what the preview proposed: the row it
    showed as current, with the new pilot's name and identifier as captain
    and nothing else changed; the first officer in particular is the same.
    Likewise after [change_first_officer], with the new pilot as first
    officer and the captain the same. *)
Theorem crew_change_stores_the_preview (db : DB)
        (flight_number flight_date : string) (new_pilot_id : Z) (reply : string) :
  reachable db ->
  (completed (change_captain_body flight_number flight_date new_pilot_id reply)
             (change_captain flight_number flight_date new_pilot_id reply) db ->
   exists flight pilot,
     find_flight flight_number flight_date db = inr flight
     /\ select_pilot new_pilot_id db = Some pilot
     /\ find_flight flight_number flight_date
          (persisted (change_captain flight_number flight_date new_pilot_id reply) db)
        = inr (with_captain flight (p_first_name pilot ++ " " ++ p_last_name pilot)
                            new_pilot_id))
  /\ (completed (change_first_officer_body flight_number flight_date new_pilot_id
                                           reply)
                (change_first_officer flight_number flight_date new_pilot_id reply)
                db ->
      exists flight pilot,
        find_flight flight_number flight_date db = inr flight
        /\ select_pilot new_pilot_id db = Some pilot
        /\ find_flight flight_number flight_date
             (persisted (change_first_officer flight_number flight_date new_pilot_id
                                              reply) db)
           = inr (with_fo flight (p_first_name pilot ++ " " ++ p_last_name pilot)
                          new_pilot_id)).
Proof.
  intros Hr. apply reachable_consistent in Hr. split; intros Hdone.
  - pose proof (completed_commits (ChangeCaptain _ _ _ _) db Hdone) as T.
    pose proof (commits_keep _ _ _ T Hr) as Hr'.
    simpl run in *. inversion T; subst.
    apply validate_date_returns in Vdate. subst date.
    exists flight, pilot. split; [exact Found|]. split; [exact Pilot_found|].
    pose proof (crew_change_result _ _ _ _ _ _ Stmt1 Stmt) as Hdb'.
    eapply (find_after_update db _ _ _ flight _ (fun f => f) Hr Hr' Found).
    + rewrite update_where_same, Hdb'. reflexivity.
    + intros f. split; reflexivity.
    + intros f Hd. rewrite Hdb'.
      rewrite (proj1 (details_key db f flight Hd)).
      apply details_set_captain; assumption.
  - pose proof (completed_commits (ChangeFirstOfficer _ _ _ _) db Hdone) as T.
    pose proof (commits_keep _ _ _ T Hr) as Hr'.
    simpl run in *. inversion T; subst.
    apply validate_date_returns in Vdate. subst date.
    exists flight, pilot. split; [exact Found|]. split; [exact Pilot_found|].
    pose proof (crew_change_result _ _ _ _ _ _ Stmt1 Stmt) as Hdb'.
    eapply (find_after_update db _ _ _ flight _ (fun f => f) Hr Hr' Found).
    + rewrite update_where_same, Hdb'. reflexivity.
    + intros f. split; reflexivity.
    + intros f Hd. rewrite Hdb'.
      rewrite (proj1 (details_key db f flight Hd)).
      apply details_set_first_officer; assumption.
Qed.

Lemma crew_change_stores_the_preview_witness :
  let op := change_captain "BA101" "2025-06-05" 7 "y" in
  exists flight pilot,
    find_flight "BA101" "2025-06-05" seed = inr flight
    /\ select_pilot 7 seed = Some pilot
    /\ find_flight "BA101" "2025-06-05" (persisted op seed)
       = inr (with_captain flight (p_first_name pilot ++ " " ++ p_last_name pilot) 7).
Proof.
  cbv zeta.
  apply (proj1 (crew_change_stores_the_preview seed "BA101" "2025-06-05" 7 "y"
                  reachable_seed)).
  split; [reflexivity|]. vm_compute. tauto.
Defined.

(** ** What has been added can be looked up, and cannot be added again *)

Lemma hd_filter_snoc_new {A : Type} (p : A -> bool) (l : list A) (a : A) :
  existsb p l = false -> p a = true -> hd_error (filter p (l ++ [a])) = Some a.
Proof.
  intros Hl Ha. rewrite filter_app, filter_none.
  - simpl. rewrite Ha. reflexivity.
  - intros x Hx. exact (existsb_false_in p l x Hl Hx).
Qed.

Lemma fresh_key_absent {A : Type} (key : A -> Z) (rows : list A) (seq : Z) :
  existsb (fun a => key a =? next_id key rows seq) rows = false.
Proof.
  destruct (existsb _ rows) eqn:E; [|reflexivity].
  apply present_key in E. exfalso. exact (next_id_fresh key rows seq E).
Qed.

(** X14.  What [add_airport], [add_route] and [add_pilot] have added is
    found by the lookups of the other operations: the airport by the check of
    [add_route], the route by the SELECT of [change_route], with the distance
    and the duration given, and the pilot by the SELECT of [change_captain],
    under a key no pilot had, with the rank in title case and the licence
    trimmed and in upper case. *)
Theorem added_rows_are_found :
  (forall code name city country utc_offset tz_name db,
      completed (add_airport_body code name city country utc_offset tz_name)
                (add_airport code name city country utc_offset tz_name) db ->
      exists valid,
        validate_airport_code code = inr valid
        /\ has_airport (persisted (add_airport code name city country utc_offset
                                               tz_name) db) valid = true)
  /\ (forall origin dest distance_km flight_duration_mins db,
         completed (add_route_body origin dest distance_km flight_duration_mins)
                   (add_route origin dest distance_km flight_duration_mins) db ->
         exists o d id,
           validate_airport_code origin = inr o
           /\ validate_airport_code dest = inr d
           /\ ~ In id (map r_route_id (Route db))
           /\ select_route o d
                (persisted (add_route origin dest distance_km flight_duration_mins) db)
              = Some {| r_route_id := id; r_origin_code := o; r_dest_code := d;
                        r_distance_km := distance_km;
                        r_flight_duration_mins := flight_duration_mins |})
  /\ (forall licence first_name last_name rank hire_date db,
         completed (add_pilot_body licence first_name last_name rank hire_date)
                   (add_pilot licence first_name last_name rank hire_date) db ->
         exists id,
           ~ In id (map p_pilot_id (Pilot db))
           /\ select_pilot id
                (persisted (add_pilot licence first_name last_name rank hire_date) db)
              = Some {| p_pilot_id := id;
                        p_licence_no := Py.upper (Py.strip licence);
                        p_first_name := first_name; p_last_name := last_name;
                        p_rank := Py.title rank; p_hire_date := hire_date |}).
Proof.
  split; [|split].
  - intros code name city country utc_offset tz_name db Hdone.
    pose proof (completed_commits (AddAirport _ _ _ _ _ _) db Hdone) as T.
    simpl run in *. inversion T; subst.
    exists valid. split; [exact Vc|].
    apply insert_Airport_inv in Stmt. destruct Stmt as [-> _].
    unfold has_airport. cbn. rewrite existsb_app. simpl.
    rewrite String.eqb_refl. apply orb_true_r.
  - intros origin dest distance_km flight_duration_mins db Hdone.
    pose proof (completed_commits (AddRoute _ _ _ _) db Hdone) as T.
    simpl run in *. inversion T; subst.
    exists o, dst, id. split; [exact Vo|]. split; [exact Vd|].
    assert (Py.int_of_number (inject_Z flight_duration_mins) = flight_duration_mins)
      as Hint by (unfold Py.int_of_number; simpl; apply Z.quot_1_r).
    rewrite Hint in Stmt.
    apply insert_Route_inv in Stmt. destruct Stmt as (Hid & -> & Hnew & _).
    split; [rewrite Hid; apply next_id_fresh|].
    unfold select_route in *. cbn. apply hd_filter_snoc_new.
    + apply hd_filter_none. exact Hnew.
    + simpl. rewrite !String.eqb_refl. reflexivity.
  - intros licence first_name last_name rank hire_date db Hdone.
    pose proof (completed_commits (AddPilot _ _ _ _ _) db Hdone) as T.
    simpl run in *. inversion T; subst.
    apply validate_date_returns in Vdate. subst date.
    apply validate_rank_returns in Vr. destruct Vr as [-> _].
    assert (valid_licence = Py.upper (Py.strip licence)) as ->.
    { unfold validate_licence_number in Vl.
      destruct (Py.upper (Py.strip licence)); [discriminate|].
      injection Vl as <-. reflexivity. }
    apply insert_Pilot_inv in Stmt. cbv zeta in Stmt. destruct Stmt as [-> _].
    exists (next_id p_pilot_id (Pilot db) (seq_Pilot db)).
    split; [apply next_id_fresh|].
    unfold select_pilot. cbn. apply hd_filter_snoc_new.
    + apply fresh_key_absent.
    + simpl. apply Z.eqb_refl.
Qed.

Lemma added_rows_are_found_witness :
  let op := add_pilot " lic2001 " "Zoe" "Zhang" "first officer" "2024-02-09" in
  exists id,
    ~ In id (map p_pilot_id (Pilot seed))
    /\ select_pilot id (persisted op seed)
       = Some {| p_pilot_id := id; p_licence_no := "LIC2001";
                 p_first_name := "Zoe"; p_last_name := "Zhang";
                 p_rank := "First Officer"; p_hire_date := "2024-02-09" |}.
Proof.
  cbv zeta.
  apply (proj2 (proj2 added_rows_are_found) " lic2001 " "Zoe" "Zhang"
               "first officer" "2024-02-09" seed).
  split; [reflexivity|]. vm_compute. tauto.
Defined.

Lemma no_crew_for_new_flight (db : DB) (role : string) :
  consistent db ->
  crew_in_role (next_id f_flight_id (Flight db) (seq_Flight db)) role db = [].
Proof.
  intros H. unfold crew_in_role. apply filter_none. intros c Hc.
  destruct (proj2 (proj2 (proj1 (proj2 (proj2 H)))) c Hc) as [Hfl _].
  apply present_key in Hfl.
  destruct (ca_flight_id c =? next_id f_flight_id (Flight db) (seq_Flight db)) eqn:E;
    [|reflexivity].
  apply Z.eqb_eq in E. rewrite E in Hfl. exfalso.
  exact (next_id_fresh f_flight_id (Flight db) (seq_Flight db) Hfl).
Qed.

(** X15.  After [add_flight] has gone through on a file the program can
    leave, the flight can be loaded by the number and the date given: the
    row has a key no flight had, the number trimmed and in upper case, the
    date and the two timestamps as typed, the status capitalised, the
    origin and destination of the route, and no crew. *)
Theorem added_flight_is_loaded (db : DB) (flight_number flight_date : string)
        (route_id : Z) (sched_dep_utc sched_arr_utc status : string) :
  reachable db ->
  completed (add_flight_body flight_number flight_date route_id sched_dep_utc
                             sched_arr_utc status)
            (add_flight flight_number flight_date route_id sched_dep_utc
                        sched_arr_utc status) db ->
  exists id route,
    ~ In id (map f_flight_id (Flight db))
    /\ In route (Route db) /\ r_route_id route = route_id
    /\ find_flight flight_number flight_date
         (persisted (add_flight flight_number flight_date route_id sched_dep_utc
                                sched_arr_utc status) db)
       = inr {| v_flight_id := id;
                v_flight_number := Py.strip (Py.upper flight_number);
                v_flight_date := flight_date;
                v_sched_dep_utc := sched_dep_utc;
                v_sched_arr_utc := sched_arr_utc;
                v_status_name := Py.capitalize status;
                v_origin_code := r_origin_code route;
                v_dest_code := r_dest_code route;
                v_captain_name := None; v_captain_id := None;
                v_fo_name := None; v_fo_id := None |}.
Proof.
  intros Hr Hdone. apply reachable_consistent in Hr.
  pose proof (completed_commits (AddFlight _ _ _ _ _ _) db Hdone) as T.
  pose proof (commits_keep _ _ _ T Hr) as Hr'.
  simpl run in *. inversion T; subst.
  apply validate_date_returns in Vdate. subst date.
  apply validate_datetime_returns in Vdep, Varr. subst dep arr.
  apply validate_flight_status_returns in Vs. destruct Vs as [-> _].
  assert (number = Py.strip (Py.upper flight_number)) as Hnum.
  { unfold validate_flight_number in Vn.
    destruct (Py.strip (Py.upper flight_number)); [discriminate|].
    injection Vn as <-. reflexivity. }
  pose proof Stmt as Hinv. apply insert_Flight_inv in Hinv. cbv zeta in Hinv.
  destruct Hinv as (Hdb' & _).
  set (id := next_id f_flight_id (Flight db) (seq_Flight db)) in *.
  set (f := {| f_flight_id := id; f_flight_number := number;
               f_flight_date := flight_date; f_route_id := route_id;
               f_sched_dep_utc := sched_dep_utc; f_sched_arr_utc := sched_arr_utc;
               f_status_id := s_status_id row |}) in *.
  pose proof Route_found as Hroute. apply hd_filter_some in Hroute.
  destruct Hroute as [Hin Hrid]. apply Z.eqb_eq in Hrid.
  exists id, route. split; [apply next_id_fresh|]. split; [exact Hin|].
  split; [exact Hrid|].
  assert (In f (Flight (persisted (add_flight flight_number flight_date route_id
                                              sched_dep_utc sched_arr_utc status) db)))
    as Hf.
  { rewrite Hdb'. cbn. apply in_or_app. right. left. reflexivity. }
  destruct (find_flight_stored _ f flight_number Hr' Hf Vn) as (v & Hdet & Hfind).
  change (f_flight_date f) with flight_date in Hfind. rewrite Hfind. f_equal.
  rewrite Hdb' in Hdet. unfold details, route_of, status_of, pilot_in_role in Hdet.
  change (crew_in_role (f_flight_id f) ?r (set_Flight db ?rows ?s))
    with (crew_in_role id r db) in Hdet.
  rewrite !(no_crew_for_new_flight db _ Hr) in Hdet.
  cbn in Hdet. rewrite Route_found in Hdet.
  apply select_status_found in Status_found.
  destruct Status_found as (Hs_in & Hs_name & _).
  rewrite (filter_one_key s_status_id (FlightStatus db) row) in Hdet;
    [|exact (proj1 (proj2 (proj2 (proj2 (proj1 Hr)))))|exact Hs_in].
  cbn in Hdet. injection Hdet as <-. rewrite Hs_name, Hnum. reflexivity.
Qed.

Lemma added_flight_is_loaded_witness :
  let op := add_flight " ba201 " "2025-07-01" 3 "2025-07-01 09:00" "2025-07-01 10:05"
                       "delayed" in
  exists id route,
    ~ In id (map f_flight_id (Flight seed))
    /\ In route (Route seed) /\ r_route_id route = 3
    /\ find_flight " ba201 " "2025-07-01" (persisted op seed)
       = inr {| v_flight_id := id; v_flight_number := "BA201";
                v_flight_date := "2025-07-01";
                v_sched_dep_utc := "2025-07-01 09:00";
                v_sched_arr_utc := "2025-07-01 10:05";
                v_status_name := "Delayed";
                v_origin_code := r_origin_code route;
                v_dest_code := r_dest_code route;
                v_captain_name := None; v_captain_id := None;
                v_fo_name := None; v_fo_id := None |}.
Proof.
  cbv zeta.
  apply (added_flight_is_loaded seed " ba201 " "2025-07-01" 3 "2025-07-01 09:00"
           "2025-07-01 10:05" "delayed" reachable_seed).
  split; [reflexivity|]. vm_compute. tauto.
Defined.

(** ** The order of texts, and ORDER BY *)

Lemma str_ltb_irrefl (a : string) : Py.str_ltb a a = false.
Proof.
  induction a as [|c a IH]; simpl; [reflexivity|].
  rewrite N.ltb_irrefl, N.eqb_refl. exact IH.
Qed.

Lemma code_inj (x y : ascii) : Py.code x = Py.code y -> x = y.
Proof.
  unfold Py.code. intros H.
  rewrite <- (ascii_N_embedding x), <- (ascii_N_embedding y), H. reflexivity.
Qed.

Lemma str_ltb_trans (a b c : string) :
  Py.str_ltb a b = true -> Py.str_ltb b c = true -> Py.str_ltb a c = true.
Proof.
  revert b c. induction a as [|x a IH]; intros [|y b] [|z c]; simpl;
    try congruence.
  destruct (Py.code x <? Py.code y)%N eqn:Lxy;
    destruct (Py.code y <? Py.code z)%N eqn:Lyz;
    destruct (Py.code x =? Py.code y)%N eqn:Exy;
    destruct (Py.code y =? Py.code z)%N eqn:Eyz;
    try congruence;
    repeat match goal with
           | H : (_ <? _)%N = true |- _ => apply N.ltb_lt in H
           | H : (_ <? _)%N = false |- _ => apply N.ltb_ge in H
           | H : (_ =? _)%N = true |- _ => apply N.eqb_eq in H
           | H : (_ =? _)%N = false |- _ => apply N.eqb_neq in H
           end;
    intros Hab Hbc;
    try (assert (Py.code x < Py.code z)%N as L by lia;
         apply N.ltb_lt in L; rewrite L; reflexivity).
  assert ((Py.code x <? Py.code z)%N = false) as L by (apply N.ltb_ge; lia).
  assert ((Py.code x =? Py.code z)%N = true) as E by (apply N.eqb_eq; lia).
  rewrite L, E. exact (IH b c Hab Hbc).
Qed.

Lemma str_ltb_total (a b : string) :
  Py.str_ltb a b = false -> a = b \/ Py.str_ltb b a = true.
Proof.
  revert b. induction a as [|x a IH]; intros [|y b]; simpl; auto; try discriminate.
  destruct (Py.code x <? Py.code y)%N eqn:Lxy; [discriminate|].
  destruct (Py.code x =? Py.code y)%N eqn:Exy.
  - apply N.eqb_eq in Exy. intros H. destruct (IH b H) as [->|Hlt].
    + left. f_equal. apply code_inj. exact Exy.
    + right. rewrite <- Exy, N.ltb_irrefl, N.eqb_refl. exact Hlt.
  - intros _. right. apply N.ltb_ge in Lxy. apply N.eqb_neq in Exy.
    assert ((Py.code y <? Py.code x)%N = true) as L by (apply N.ltb_lt; lia).
    rewrite L. reflexivity.
Qed.

Lemma str_ltb_asym (a b : string) :
  Py.str_ltb a b = true -> Py.str_ltb b a = false.
Proof.
  intros H. destruct (Py.str_ltb b a) eqn:E; [|reflexivity].
  pose proof (str_ltb_trans a b a H E) as C. rewrite str_ltb_irrefl in C.
  discriminate.
Qed.

Lemma str_leb_total (a b : string) : str_leb a b = false -> str_leb b a = true.
Proof.
  unfold str_leb. intros H. apply negb_false_iff in H.
  rewrite (str_ltb_asym b a H). reflexivity.
Qed.

Lemma str_leb_trans (a b c : string) :
  str_leb a b = true -> str_leb b c = true -> str_leb a c = true.
Proof.
  unfold str_leb. intros Hab Hbc. apply negb_true_iff in Hab, Hbc.
  apply negb_true_iff.
  destruct (Py.str_ltb c a) eqn:E; [|reflexivity].
  destruct (str_ltb_total b a Hab) as [->|Hlt]; [congruence|].
  destruct (str_ltb_total c b Hbc) as [->|Hlt']; [congruence|].
  pose proof (str_ltb_trans _ _ _ Hlt' (str_ltb_trans _ _ _ E Hlt)) as C.
  rewrite str_ltb_irrefl in C. discriminate.
Qed.

(** An order on two texts: by the first, then by the second. *)
Section by_two_keys.
Variable A : Type.
Variables first second : A -> string.
Variable le : A -> A -> bool.
Hypothesis le_by_keys :
  forall a b, le a b = Py.str_ltb (first a) (first b)
                       || (String.eqb (first a) (first b)
                           && str_leb (second a) (second b)).

Lemma two_keys_total (a b : A) : le a b = false -> le b a = true.
Proof.
  rewrite !le_by_keys. intros H. apply orb_false_iff in H. destruct H as [Hlt Heq].
  destruct (str_ltb_total _ _ Hlt) as [E|Hgt].
  - rewrite E in *. rewrite String.eqb_refl in *. simpl in Heq.
    rewrite (str_leb_total _ _ Heq). apply orb_true_r.
  - rewrite Hgt. reflexivity.
Qed.

Lemma two_keys_trans (a b c : A) : le a b = true -> le b c = true -> le a c = true.
Proof.
  rewrite !le_by_keys. intros Hab Hbc.
  apply orb_true_iff in Hab. apply orb_true_iff in Hbc. apply orb_true_iff.
  destruct Hab as [Hab|Hab]; destruct Hbc as [Hbc|Hbc].
  - left. exact (str_ltb_trans _ _ _ Hab Hbc).
  - apply andb_true_iff in Hbc. destruct Hbc as [E _].
    apply String.eqb_eq in E. rewrite <- E. left. exact Hab.
  - apply andb_true_iff in Hab. destruct Hab as [E _].
    apply String.eqb_eq in E. rewrite E. left. exact Hbc.
  - apply andb_true_iff in Hab. apply andb_true_iff in Hbc.
    destruct Hab as [E1 L1], Hbc as [E2 L2].
    apply String.eqb_eq in E1, E2. right. rewrite E1, E2, String.eqb_refl.
    exact (str_leb_trans _ _ _ L1 L2).
Qed.
End by_two_keys.

Section order_by_facts.
Variable A : Type.
Variable le : A -> A -> bool.
Hypothesis le_total : forall a b, le a b = false -> le b a = true.
Hypothesis le_trans : forall a b c, le a b = true -> le b c = true -> le a c = true.

Lemma insert_by_perm (x : A) (l : list A) : Permutation (insert_by le x l) (x :: l).
Proof.
  induction l as [|y l IH]; simpl; [apply Permutation_refl|].
  destruct (le x y); [apply Permutation_refl|].
  eapply perm_trans; [apply perm_skip; exact IH|apply perm_swap].
Qed.

Lemma order_by_perm (l : list A) : Permutation (order_by le l) l.
Proof.
  induction l as [|x l IH]; simpl; [apply perm_nil|].
  eapply perm_trans; [apply insert_by_perm|apply perm_skip; exact IH].
Qed.

Lemma insert_by_sorted (x : A) (l : list A) :
  StronglySorted (fun a b => le a b = true) l ->
  StronglySorted (fun a b => le a b = true) (insert_by le x l).
Proof.
  induction 1 as [|y l Hs IH Hall]; simpl.
  - constructor; constructor.
  - destruct (le x y) eqn:E.
    + constructor; [constructor; assumption|].
      constructor; [exact E|].
      rewrite Forall_forall in *. intros z Hz. exact (le_trans _ _ _ E (Hall z Hz)).
    + constructor; [exact IH|].
      rewrite Forall_forall in *. intros z Hz.
      apply (Permutation_in _ (insert_by_perm x l)) in Hz.
      destruct Hz as [<-|Hz]; [exact (le_total _ _ E)|exact (Hall z Hz)].
Qed.

Lemma order_by_sorted (l : list A) :
  StronglySorted (fun a b => le a b = true) (order_by le l).
Proof.
  induction l as [|x l IH]; simpl; [constructor|].
  apply insert_by_sorted. exact IH.
Qed.
End order_by_facts.

Lemma by_date_and_departure_total (a b : FlightDetails) :
  by_date_and_departure a b = false -> by_date_and_departure b a = true.
Proof. exact (two_keys_total FlightDetails v_flight_date v_sched_dep_utc
                       by_date_and_departure (fun _ _ => eq_refl) a b). Qed.

Lemma by_date_and_departure_trans (a b c : FlightDetails) :
  by_date_and_departure a b = true -> by_date_and_departure b c = true ->
  by_date_and_departure a c = true.
Proof. exact (two_keys_trans FlightDetails v_flight_date v_sched_dep_utc
                       by_date_and_departure (fun _ _ => eq_refl) a b c). Qed.

(** ** [get_flights] *)

Lemma validate_filter_raises (validate : string -> res string) (x : option string) :
  (forall s, raises_validation (validate s)) ->
  raises_validation (validate_filter validate x).
Proof.
  intros Hv e. unfold validate_filter.
  destruct x as [[|c s]|]; try discriminate.
  destruct (validate (String c s)) eqn:E; [|discriminate].
  intros [= <-]. exact (Hv _ _ E).
Qed.

Ltac filter_failures :=
  repeat match goal with
         | H : validate_filter validate_airport_code _ = inl ?e |- _ =>
             is_var e;
             destruct (validate_filter_raises _ _ validate_airport_code_raises e H)
               as [? ->]
         | H : validate_filter validate_flight_status _ = inl ?e |- _ =>
             is_var e;
             destruct (validate_filter_raises _ _ validate_flight_status_raises e H)
               as [? ->]
         | H : validate_filter validate_date _ = inl ?e |- _ =>
             is_var e;
             destruct (validate_filter_raises _ _ validate_date_raises e H)
               as [? ->]
         end.

(** What [get_flights] does, case by case on its five validations. *)
Lemma get_flights_run (origin dest status dfrom dto : option string) (cap : option Z)
      (db : DB) :
  let op := get_flights origin dest status dfrom dto cap in
  let body := get_flights_body origin dest status dfrom dto cap in
  match validate_filter validate_airport_code origin,
        validate_filter validate_airport_code dest,
        validate_filter validate_flight_status status,
        validate_filter validate_date dfrom,
        validate_filter validate_date dto with
  | inr o, inr d, inr s, inr f, inr t =>
      let rows := order_by by_date_and_departure
                    (filter (flight_matches o d s f t cap) (v_flight_details db)) in
      result op db = inr rows /\ result body db = inr rows
      /\ events op db = [Connect; Close]
  | _, _, _, _, _ =>
      exists msg, result body db = inl (ValidationError msg)
                  /\ result op db = inr [] /\ events op db = [Print msg]
  end
  /\ persisted op db = db.
Proof.
  cbv zeta. unfold get_flights, get_flights_body.
  destruct (validate_filter validate_airport_code origin) eqn:E1;
    [|destruct (validate_filter validate_airport_code dest) eqn:E2;
      [|destruct (validate_filter validate_flight_status status) eqn:E3;
        [|destruct (validate_filter validate_date dfrom) eqn:E4;
          [|destruct (validate_filter validate_date dto) eqn:E5]]]];
    filter_failures; run_monad;
    rewrite ?E1, ?E2, ?E3, ?E4, ?E5; cbn; eauto.
Qed.

(** X16.  When its filters pass validation and the captain's identifier, if
    one is given, fits the 64 bits of an INTEGER, [get_flights] returns
    exactly the rows of the view that satisfy every filter given, each as
    often as the view has it, in ascending order of flight date and then of
    scheduled departure; it opens a connection, closes it, prints nothing
    and leaves the file as it was. *)
Theorem get_flights_returns_the_matching_flights
        (origin dest status dfrom dto o d s f t : option string) (cap : option Z)
        (db : DB) :
  validate_filter validate_airport_code origin = inr o ->
  validate_filter validate_airport_code dest = inr d ->
  validate_filter validate_flight_status status = inr s ->
  validate_filter validate_date dfrom = inr f ->
  validate_filter validate_date dto = inr t ->
  (forall captain_id, cap = Some captain_id -> int64 captain_id = true) ->
  let op := get_flights origin dest status dfrom dto cap in
  exists rows,
    result op db = inr rows
    /\ Permutation rows (filter (flight_matches o d s f t cap) (v_flight_details db))
    /\ (forall v, In v rows
                  <-> In v (v_flight_details db)
                      /\ flight_matches o d s f t cap v = true)
    /\ StronglySorted (fun a b => by_date_and_departure a b = true) rows
    /\ events op db = [Connect; Close]
    /\ persisted op db = db.
Proof.
  intros E1 E2 E3 E4 E5 _ op.
  pose proof (get_flights_run origin dest status dfrom dto cap db) as H.
  cbv zeta in H. rewrite E1, E2, E3, E4, E5 in H.
  destruct H as [(Hres & _ & Hev) Hdisk].
  eexists. split; [exact Hres|].
  pose proof (order_by_perm _ by_date_and_departure
                (filter (flight_matches o d s f t cap) (v_flight_details db))) as P.
  split; [exact P|]. split; [|split; [|split; assumption]].
  - intros v. rewrite <- filter_In. split; intros Hv.
    + exact (Permutation_in _ P Hv).
    + exact (Permutation_in _ (Permutation_sym P) Hv).
  - apply order_by_sorted.
    + exact by_date_and_departure_total.
    + exact by_date_and_departure_trans.
Qed.

Lemma get_flights_returns_the_matching_flights_witness :
  int64 2 = true
  /\ exists rows,
      result (get_flights (Some "lhr") None (Some "scheduled") (Some "2025-06-06") None
                          (Some 2)) seed = inr rows
      /\ map v_flight_number rows = ["BA102"].
Proof.
  split; [reflexivity|].
  destruct (get_flights_returns_the_matching_flights
              (Some "lhr") None (Some "scheduled") (Some "2025-06-06") None
              (Some "LHR") None (Some "Scheduled") (Some "2025-06-06") None (Some 2)
              seed eq_refl eq_refl eq_refl eq_refl eq_refl
              (fun id H => match H in _ = x
                                 return match x with
                                        | Some n => int64 n = true
                                        | None => True
                                        end
                           with eq_refl => eq_refl end))
    as (rows & Hres & _).
  exists rows. split; [exact Hres|].
  vm_compute in Hres. injection Hres as <-. reflexivity.
Defined.

(** X17.  When a filter that is given (neither [None] nor the empty text)
    fails its validation, [get_flights] prints the message of the validation
    error and returns no row, without opening a connection.  Whatever its
    arguments, [get_flights] executes no INSERT, UPDATE or DELETE, commits
    nothing and leaves the file as it was. *)
Theorem get_flights_refuses_invalid_filters
        (origin dest status dfrom dto : option string) (cap : option Z) (db : DB) :
  let op := get_flights origin dest status dfrom dto cap in
  ((exists e, validate_filter validate_airport_code origin = inl e
              \/ validate_filter validate_airport_code dest = inl e
              \/ validate_filter validate_flight_status status = inl e
              \/ validate_filter validate_date dfrom = inl e
              \/ validate_filter validate_date dto = inl e) ->
   exists msg, result op db = inr [] /\ events op db = [Print msg])
  /\ persisted op db = db
  /\ ~ In Commit (events op db)
  /\ forall table, ~ In (Write table) (events op db).
Proof.
  intros op.
  pose proof (get_flights_run origin dest status dfrom dto cap db) as H.
  cbv zeta in H. fold op in H. destruct H as [H Hdisk].
  assert (events op db = [Connect; Close] \/ exists msg, events op db = [Print msg])
    as Hev.
  { destruct (validate_filter validate_airport_code origin);
      destruct (validate_filter validate_airport_code dest);
      destruct (validate_filter validate_flight_status status);
      destruct (validate_filter validate_date dfrom);
      destruct (validate_filter validate_date dto);
      first [ left; tauto | right; destruct H as (msg & _ & _ & H); eauto ]. }
  split; [|split; [exact Hdisk|split]].
  - intros [e He].
    destruct (validate_filter validate_airport_code origin);
      destruct (validate_filter validate_airport_code dest);
      destruct (validate_filter validate_flight_status status);
      destruct (validate_filter validate_date dfrom);
      destruct (validate_filter validate_date dto);
      try (destruct H as (msg & _ & Hres & Hprint); exists msg; tauto).
    exfalso. repeat (destruct He as [He|He]; [discriminate He|]). discriminate He.
  - intros Hin. destruct Hev as [Hev|[msg Hev]]; rewrite Hev in Hin;
      simpl in Hin; intuition discriminate.
  - intros table Hin. destruct Hev as [Hev|[msg Hev]]; rewrite Hev in Hin;
      simpl in Hin; intuition discriminate.
Qed.

Lemma get_flights_refuses_invalid_filters_witness :
  exists msg,
    result (get_flights (Some "London") None None None None None) seed = inr []
    /\ events (get_flights (Some "London") None None None None None) seed
       = [Print msg].
Proof.
  apply (proj1 (get_flights_refuses_invalid_filters (Some "London") None None None
                  None None seed)).
  eexists. left. reflexivity.
Defined.

(** X18.  With no filter, on a file the program can leave, [get_flights]
    returns one row for each stored flight and no other: the rows are the
    rows [details] builds for the flights, in some order, and there are as
    many as there are flights. *)
Theorem get_flights_lists_every_flight (db : DB) :
  reachable db ->
  exists rows,
    result (get_flights None None None None None None) db = inr rows
    /\ Permutation (map Some rows) (map (details db) (Flight db))
    /\ List.length rows = List.length (Flight db).
Proof.
  intros Hr. apply reachable_consistent in Hr.
  pose proof (get_flights_run None None None None None None db) as H.
  cbv zeta in H. cbn [validate_filter] in H. destruct H as [(Hres & _) _].
  rewrite filter_all in Hres by reflexivity.
  eexists. split; [exact Hres|].
  pose proof (order_by_perm _ by_date_and_departure (v_flight_details db)) as P.
  split.
  - rewrite <- (view_is_details db Hr). apply Permutation_map. exact P.
  - rewrite (Permutation_length P).
    pose proof (view_is_details db Hr) as E.
    apply (f_equal (@List.length _)) in E. rewrite !length_map in E. exact E.
Qed.

Lemma get_flights_lists_every_flight_witness :
  exists rows,
    result (get_flights None None None None None None) seed = inr rows
    /\ List.length rows = 15%nat.
Proof.
  destruct (get_flights_lists_every_flight seed reachable_seed)
    as (rows & Hres & _ & Hlen).
  exists rows. split; [exact Hres|exact Hlen].
Defined.

(** ** [format_flight_table] *)

Lemma length_spaces (n : nat) : String.length (spaces n) = n.
Proof. induction n as [|n IH]; simpl; [|rewrite IH]; reflexivity. Qed.

Lemma length_repeat_char (c : ascii) (n : nat) : String.length (repeat_char c n) = n.
Proof. induction n as [|n IH]; simpl; [|rewrite IH]; reflexivity. Qed.

Lemma length_append (a b : string) :
  String.length (a ++ b) = (String.length a + String.length b)%nat.
Proof. induction a as [|c a IH]; simpl; [|rewrite IH]; reflexivity. Qed.

Lemma length_center (s : string) (width : nat) :
  String.length (center s width) = Nat.max width (String.length s).
Proof.
  unfold center. cbv zeta. rewrite !length_append, !length_spaces.
  assert ((width - String.length s) / 2 <= width - String.length s)%nat
    by (apply Nat.Div0.div_le_upper_bound; lia).
  lia.
Qed.

Lemma length_concat (l : list string) :
  String.length (String.concat "" l)
  = fold_right (fun s n => (String.length s + n)%nat) O l.
Proof.
  induction l as [|x l IH]; [reflexivity|].
  change (String.concat "" (x :: l))
    with (match l with [] => x | _ :: _ => (x ++ "" ++ String.concat "" l)%string end).
  destruct l as [|y l]; simpl fold_right; [lia|].
  rewrite !length_append, IH. simpl. lia.
Qed.

Lemma length_table_row (widths : list nat) (cells : list string) :
  Forall2 (fun c w => (String.length c <= w)%nat) cells widths ->
  String.length (table_row widths cells)
  = (fold_right Nat.add O widths + List.length widths * 3 + 2)%nat.
Proof.
  unfold table_row. intros H. rewrite length_append, length_concat.
  change (String.length "| ") with 2%nat.
  induction H as [|c w cells widths Hc Hrest IH]; simpl; [reflexivity|].
  rewrite length_append, length_center. simpl. simpl in IH. lia.
Qed.

Lemma cell_fits (data : list (list (string * pyval))) (row : list (string * pyval))
      (header : string) :
  In row data -> (String.length (cell row header) <= col_width data header)%nat.
Proof.
  intros H. unfold col_width.
  apply Nat.le_trans with
    (fold_right Nat.max O (map (fun row => String.length (cell row header)) data));
    [|apply Nat.le_max_r].
  induction data as [|r data IH]; simpl; [destruct H|].
  destruct H as [->|H]; [apply Nat.le_max_l|].
  apply Nat.le_trans with (1 := IH H). apply Nat.le_max_r.
Qed.

Lemma header_fits (data : list (list (string * pyval))) (header : string) :
  (String.length header <= col_width data header)%nat.
Proof. unfold col_width. apply Nat.le_max_l. Qed.

Lemma Forall2_map_both {A B C : Type} (R : B -> C -> Prop) (f : A -> B) (g : A -> C)
      (l : list A) :
  (forall a, In a l -> R (f a) (g a)) -> Forall2 R (map f l) (map g l).
Proof.
  induction l as [|a l IH]; simpl; intros H; constructor; auto.
Qed.

(** X19.  The table of [format_flight_table].  For no flight it is one
    line, the message.  For a list of flights it is a blank line, a border,
    the header row, a border, one row for each flight in the order given, a
    border and the total; the header row and the flight rows all have the
    same length, one more than the borders (for the blank after the last
    bar), so the columns line up; and the total is the number of flights
    given.  The function prints these lines and touches nothing else. *)
Theorem flight_table_is_aligned :
  table_lines [] = ["No flights found matching the criteria. Sorry!"]
  /\ (forall flights,
         flights <> [] ->
         exists width head rows,
           table_lines flights
           = ([nl; repeat_char "-" width; head; repeat_char "-" width]
                ++ rows
                ++ [repeat_char "-" width;
                    (nl ++ "Total flights: "
                     ++ Py.str_of_int (Z.of_nat (List.length flights)))%string])%list
           /\ List.length rows = List.length flights
           /\ Forall (fun line => String.length line = S width) (head :: rows))
  /\ (forall flights db,
         events (format_flight_table flights) db = map Print (table_lines flights)
         /\ persisted (format_flight_table flights) db = db
         /\ result (format_flight_table flights) db = inr tt).
Proof.
  split; [reflexivity|]. split.
  - intros [|v vs] Hne; [congruence|]. clear Hne.
    unfold table_lines. cbv zeta.
    set (flight_data := map flight_dict (v :: vs)).
    set (headers := map fst (flight_dict v)).
    set (widths := map (col_width flight_data) headers).
    change (map flight_dict (v :: vs)) with flight_data.
    change flight_data with (flight_dict v :: map flight_dict vs) at 1.
    cbv iota beta.
    change (map fst (flight_dict v)) with headers.
    change (map (col_width flight_data) headers) with widths.
    exists (fold_right Nat.add O widths + List.length headers * 3 + 1)%nat,
           (table_row widths headers),
           (map (fun row => table_row widths (map (cell row) headers)) flight_data).
    split; [reflexivity|].
    split; [unfold flight_data; rewrite !length_map; reflexivity|].
    assert (List.length widths = List.length headers) as Hlen
      by (unfold widths; apply length_map).
    constructor.
    + rewrite length_table_row.
      * rewrite Hlen. lia.
      * unfold widths. rewrite <- (map_id headers) at 1.
        apply Forall2_map_both. intros h _. apply header_fits.
    + apply Forall_forall. intros line Hline. apply in_map_iff in Hline.
      destruct Hline as [row [<- Hrow]]. rewrite length_table_row.
      * rewrite Hlen. lia.
      * unfold widths. apply Forall2_map_both. intros h _.
        apply cell_fits. exact Hrow.
  - intros flights db. unfold format_flight_table, events, persisted, result.
    rewrite print_all_run. simpl. auto.
Qed.

Example flight_table_of_two_flights :
  exists a b,
    result (get_flights (Some "LHR") None None None None None) seed = inr [a; b]
    /\ table_lines [a; b]
       = [nl;
          repeat_char "-" 136%nat;
          "| flight_number | flight_date | origin_code | dest_code | status_name |  sched_dep_utc   |  sched_arr_utc   | captain_name |  fo_name  | ";
          repeat_char "-" 136%nat;
          "|     BA101     | 2025-06-05  |     LHR     |    JFK    |  Scheduled  | 2025-06-05 08:00 | 2025-06-05 15:00 | Alice Adams  | Cara Chen | ";
          "|     BA102     | 2025-06-06  |     LHR     |    DXB    |  Scheduled  | 2025-06-06 07:30 | 2025-06-06 14:25 |  Bob Barker  | Dan Diaz  | ";
          repeat_char "-" 136%nat;
          (nl ++ "Total flights: 2")%string].
Proof.
  eexists. eexists. split; vm_compute; reflexivity.
Qed.

(** ** [show_pilots_by_rank] *)

(** X20.  [show_pilots_by_rank] prints one line for each stored pilot whose
    rank is exactly the text given, and for no other, in ascending order of
    last name and then of first name, between opening and closing a
    connection; it raises nothing, writes nothing and leaves the file as it
    was. *)
Theorem show_pilots_by_rank_lists_the_rank (rank : string) (db : DB) :
  exists pilots,
    events (show_pilots_by_rank rank) db
    = (Connect :: map (fun p => Print (pilot_line p)) pilots ++ [Close])%list
    /\ Permutation pilots (filter (fun p => String.eqb (p_rank p) rank) (Pilot db))
    /\ (forall p, In p pilots <-> In p (Pilot db) /\ p_rank p = rank)
    /\ StronglySorted (fun a b => by_name a b = true) pilots
    /\ result (show_pilots_by_rank rank) db = inr tt
    /\ persisted (show_pilots_by_rank rank) db = db.
Proof.
  exists (order_by by_name (filter (fun p => String.eqb (p_rank p) rank) (Pilot db))).
  pose proof (order_by_perm _ by_name
                (filter (fun p => String.eqb (p_rank p) rank) (Pilot db))) as P.
  split; [|split; [exact P|split; [|split; [|split]]]].
  - unfold show_pilots_by_rank. run_monad. rewrite print_all_run. cbn.
    rewrite map_map. reflexivity.
  - intros p. split; intros Hp.
    + apply (Permutation_in _ P) in Hp. apply filter_In in Hp.
      destruct Hp as [Hin E]. apply String.eqb_eq in E. tauto.
    + apply (Permutation_in _ (Permutation_sym P)). apply filter_In.
      destruct Hp as [Hin E]. apply String.eqb_eq in E. tauto.
  - apply order_by_sorted.
    + exact (two_keys_total PilotRow p_last_name p_first_name by_name
                            (fun _ _ => eq_refl)).
    + exact (two_keys_trans PilotRow p_last_name p_first_name by_name
                            (fun _ _ => eq_refl)).
  - unfold show_pilots_by_rank. run_monad. rewrite print_all_run. reflexivity.
  - unfold show_pilots_by_rank. run_monad. rewrite print_all_run. reflexivity.
Qed.

Example captains_of_the_seed :
  events (show_pilots_by_rank "Captain") seed
  = [Connect;
     Print "  ID:   1 - Alice Adams"; Print "  ID:   2 - Bob Barker";
     Print "  ID:   5 - Eva Edwards"; Print "  ID:   7 - Grace Gibson";
     Print "  ID:   9 - Ivy Ibrahim"; Print "  ID:  11 - Kara Klein";
     Print "  ID:  13 - Mia Moore"; Print "  ID:  15 - Ola Olsen";
     Close]
  /\ events (show_pilots_by_rank "captain") seed = [Connect; Close].
Proof. split; vm_compute; reflexivity. Qed.

(** A reassignment goes through when the pilot is stored with the rank of
    the role, the flight is found and the reply is yes. *)
Lemma crew_change_succeeds (db : DB) (flight : Z) (pilot : PilotRow) (role : string) :
  consistent db ->
  In pilot (Pilot db) -> p_rank pilot = role ->
  In role ["Captain"; "First Officer"] ->
  has_flight db flight = true ->
  exists db1 db',
    delete_CrewAssignment flight role db = inr db1
    /\ insert_CrewAssignment flight (p_pilot_id pilot) role db1 = inr db'.
Proof.
  intros H Hp Hrank Hrole Hfl. open_consistent H.
  unfold delete_CrewAssignment. eexists. eexists. split; [reflexivity|].
  unfold insert_CrewAssignment.
  apply in_list_In in Hrole. rewrite Hrole. cbn [negb].
  change (CrewAssignment (set_CrewAssignment db ?l)) with l.
  rewrite existsb_filter_negb.
  assert (existsb (fun c => (ca_flight_id c =? flight)
                            && (ca_pilot_id c =? p_pilot_id pilot))
                  (filter (fun c => negb ((ca_flight_id c =? flight)
                                          && String.eqb (ca_role c) role))
                          (CrewAssignment db)) = false) as Hpk.
  { destruct (existsb _ _) eqn:E; [|reflexivity]. exfalso.
    apply existsb_exists in E. destruct E as [c [Hin Ec]].
    apply filter_In in Hin. destruct Hin as [Hin Hkept].
    apply andb_true_iff in Ec. destruct Ec as [Ef Ep].
    apply Z.eqb_eq in Ep.
    assert (ca_role c = role) as Er.
    { rewrite <- Hrank. apply (Hc c pilot Hin Hp). symmetry. exact Ep. }
    rewrite Ef, Er, String.eqb_refl in Hkept. discriminate. }
  rewrite Hpk.
  change (has_flight (set_CrewAssignment db ?l) flight) with (has_flight db flight).
  change (has_pilot (set_CrewAssignment db ?l) ?p) with (has_pilot db p).
  rewrite Hfl.
  assert (has_pilot db (p_pilot_id pilot) = true) as ->.
  { apply existsb_exists. exists pilot. split; [exact Hp|apply Z.eqb_refl]. }
  reflexivity.
Qed.

(** X21.  On a file the program can leave, a pilot that
    [show_pilots_by_rank] lists under Captain can be made captain of any
    flight that can be loaded: [change_captain] with that pilot's identifier
    goes through when the reply is yes, whoever was captain and whatever the
    pilot's other assignments; and the same for First Officer and
    [change_first_officer]. *)
Theorem listed_pilots_can_be_assigned (db : DB) (pilot : PilotRow)
        (flight_number flight_date reply : string) (flight : FlightDetails) :
  reachable db ->
  In pilot (Pilot db) ->
  validate_date flight_date = inr flight_date ->
  find_flight flight_number flight_date db = inr flight ->
  says_yes reply = true ->
  (p_rank pilot = "Captain" ->
   completed (change_captain_body flight_number flight_date (p_pilot_id pilot) reply)
             (change_captain flight_number flight_date (p_pilot_id pilot) reply) db)
  /\ (p_rank pilot = "First Officer" ->
      completed (change_first_officer_body flight_number flight_date
                                           (p_pilot_id pilot) reply)
                (change_first_officer flight_number flight_date (p_pilot_id pilot)
                                      reply) db).
Proof.
  intros Hr Hp Vdate Found Yes. apply reachable_consistent in Hr.
  assert (select_pilot (p_pilot_id pilot) db = Some pilot) as Hsel.
  { unfold select_pilot.
    rewrite (filter_one_key p_pilot_id (Pilot db) pilot); [reflexivity| |exact Hp].
    exact (proj1 (proj2 (proj2 (proj1 Hr)))). }
  pose proof (found_flight_has _ _ _ _ Found) as Hfl.
  split; intros Hrank.
  - destruct (crew_change_succeeds db (v_flight_id flight) pilot "Captain" Hr Hp Hrank)
      as (db1 & db' & Stmt1 & Stmt); [simpl; tauto|exact Hfl|].
    refine (proj1 (commits_run (ChangeCaptain _ _ _ _) db db' _)).
    eapply commits_change_captain; eassumption.
  - destruct (crew_change_succeeds db (v_flight_id flight) pilot "First Officer"
                                   Hr Hp Hrank)
      as (db1 & db' & Stmt1 & Stmt); [simpl; tauto|exact Hfl|].
    refine (proj1 (commits_run (ChangeFirstOfficer _ _ _ _) db db' _)).
    eapply commits_change_first_officer; eassumption.
Qed.

Lemma listed_pilots_can_be_assigned_witness :
  let grace := {| p_pilot_id := 7; p_licence_no := "LIC1007"; p_first_name := "Grace";
                  p_last_name := "Gibson"; p_rank := "Captain";
                  p_hire_date := "2010-01-07" |} in
  In grace (Pilot seed)
  /\ (exists flight, find_flight "ba105" "2025-06-09" seed = inr flight)
  /\ completed (change_captain_body "ba105" "2025-06-09" 7 " Y ")
               (change_captain "ba105" "2025-06-09" 7 " Y ") seed.
Proof.
  cbv zeta. split; [simpl; tauto|]. split; [eexists; reflexivity|].
  refine (proj1 (listed_pilots_can_be_assigned seed
                   {| p_pilot_id := 7; p_licence_no := "LIC1007";
                      p_first_name := "Grace"; p_last_name := "Gibson";
                      p_rank := "Captain"; p_hire_date := "2010-01-07" |}
                   "ba105" "2025-06-09" " Y " _ reachable_seed _ eq_refl eq_refl eq_refl)
                eq_refl).
  simpl. tauto.
Defined.

(** ** [initialise_tables] *)

(** X22.  Whatever the file held, [initialise_tables] leaves the seed: the
    old file is removed, the six INSERT statements of the seed script run
    without breaking any CHECK, UNIQUE or FOREIGN KEY constraint, the routes,
    pilots and flights get the keys 1 to 15 from AUTOINCREMENT in the order
    of the script, nothing is printed and nothing is raised. *)
Theorem initialise_tables_leaves_the_seed (db : DB) :
  persisted initialise_tables db = seed
  /\ result initialise_tables db = inr tt
  /\ events initialise_tables db
     = [Connect; Write "Airport"; Write "Route"; Write "FlightStatus";
        Write "Pilot"; Write "Flight"; Write "CrewAssignment"; Commit; Close]
  /\ map r_route_id (Route (persisted initialise_tables db))
     = [1; 2; 3; 4; 5; 6; 7; 8; 9; 10; 11; 12; 13; 14; 15]
  /\ map p_pilot_id (Pilot (persisted initialise_tables db))
     = map r_route_id (Route (persisted initialise_tables db))
  /\ map f_flight_id (Flight (persisted initialise_tables db))
     = map r_route_id (Route (persisted initialise_tables db)).
Proof. repeat split; vm_compute; reflexivity. Qed.

(** ** The validators of [models.py] *)

Lemma capitalize_upper (s : string) : Py.capitalize (Py.upper s) = Py.capitalize s.
Proof.
  destruct s as [|c s]; simpl; [reflexivity|].
  rewrite upper_char_idem, lower_upper. reflexivity.
Qed.

Lemma capitalize_lower (s : string) : Py.capitalize (Py.lower s) = Py.capitalize s.
Proof.
  destruct s as [|c s]; simpl; [reflexivity|].
  rewrite upper_lower_char, lower_idem. reflexivity.
Qed.

Lemma title_from_upper (flag : bool) (s : string) :
  Py.title_from flag (Py.upper s) = Py.title_from flag s.
Proof.
  revert flag. induction s as [|c s IH]; intros flag; simpl; [reflexivity|].
  rewrite IH, isalpha_upper_char, lower_upper_char, upper_char_idem. reflexivity.
Qed.

Lemma title_from_lower (flag : bool) (s : string) :
  Py.title_from flag (Py.lower s) = Py.title_from flag s.
Proof.
  revert flag. induction s as [|c s IH]; intros flag; simpl; [reflexivity|].
  rewrite IH, isalpha_lower_char, lower_char_idem, upper_lower_char. reflexivity.
Qed.

(** X23.  [validate_flight_status] returns the capitalised text exactly when
    that is one of the five status names, and raises the validation error
    otherwise; on ASCII text the case of the letters does not matter; a name
    it returned is returned unchanged; and blanks are not trimmed: a text
    that starts with a blank is refused. *)
Theorem validate_flight_status_accepts_the_status_names :
  (forall status r,
      validate_flight_status status = inr r
      <-> r = Py.capitalize status /\ In r config.VALID_STATUSES)
  /\ (forall status,
         (forall r, validate_flight_status status <> inr r) ->
         exists msg, validate_flight_status status = inl (ValidationError msg))
  /\ (forall status,
         Py.isascii status = true ->
         validate_flight_status (Py.upper status) = validate_flight_status status
         /\ validate_flight_status (Py.lower status) = validate_flight_status status)
  /\ (forall status r,
         validate_flight_status status = inr r -> validate_flight_status r = inr r)
  /\ (forall status r, validate_flight_status (String " " status) <> inr r).
Proof.
  split; [|split; [|split; [|split]]].
  - intros status r. split; [apply validate_flight_status_returns|].
    intros [-> Hin]. unfold validate_flight_status.
    apply in_list_In in Hin. rewrite Hin. reflexivity.
  - intros status Hno. unfold validate_flight_status in *.
    destruct (Py.in_list (Py.capitalize status) config.VALID_STATUSES);
      [|eexists; reflexivity].
    exfalso. exact (Hno _ eq_refl).
  - intros status _. unfold validate_flight_status.
    rewrite capitalize_upper, capitalize_lower. split; reflexivity.
  - exact validate_flight_status_idem.
  - intros status r H. apply validate_flight_status_returns in H.
    destruct H as [-> Hin]. simpl in Hin.
    repeat (destruct Hin as [Hin|Hin]; [discriminate Hin|]). exact Hin.
Qed.

(** X24.  [validate_rank] returns the text in title case exactly when that
    is Captain or First Officer, and raises the validation error otherwise;
    on ASCII text the case of the letters does not matter; a rank it
    returned is returned unchanged and passes the CHECK of the table
    [Pilot]. *)
Theorem validate_rank_accepts_the_two_ranks :
  (forall rank r,
      validate_rank rank = inr r <-> r = Py.title rank /\ In r config.VALID_RANKS)
  /\ (forall rank,
         (forall r, validate_rank rank <> inr r) ->
         exists msg, validate_rank rank = inl (ValidationError msg))
  /\ (forall rank,
         Py.isascii rank = true ->
         validate_rank (Py.upper rank) = validate_rank rank
         /\ validate_rank (Py.lower rank) = validate_rank rank)
  /\ (forall rank r, validate_rank rank = inr r -> validate_rank r = inr r)
  /\ (forall rank r licence first last hire db e,
         validate_rank rank = inr r ->
         insert_Pilot licence first last r hire db = inl e ->
         e <> IntegrityError
                "CHECK constraint failed: rank IN ('Captain', 'First Officer')").
Proof.
  split; [|split; [|split; [|split]]].
  - intros rank r. split; [apply validate_rank_returns|].
    intros [-> Hin]. unfold validate_rank.
    apply in_list_In in Hin. rewrite Hin. reflexivity.
  - intros rank Hno. unfold validate_rank in *.
    destruct (Py.in_list (Py.title rank) config.VALID_RANKS);
      [|eexists; reflexivity].
    exfalso. exact (Hno _ eq_refl).
  - intros rank _. unfold validate_rank, Py.title.
    rewrite title_from_upper, title_from_lower. split; reflexivity.
  - exact validate_rank_idem.
  - intros rank r licence first last hire db e Hv.
    apply validate_rank_returns in Hv. destruct Hv as [_ Hin].
    apply in_list_In in Hin. unfold insert_Pilot.
    change config.VALID_RANKS with ["Captain"; "First Officer"] in Hin.
    rewrite Hin. cbn [negb].
    repeat match goal with
           | |- context [if ?b then _ else _] => destruct b
           end; intros [= <-]; discriminate.
Qed.

Lemma validate_flight_number_run (s : string) :
  validate_flight_number s
  = match Py.strip (Py.upper s) with
    | EmptyString => inl (ValidationError "Flight number cannot be empty")
    | r => inr r
    end.
Proof.
  unfold validate_flight_number. destruct (Py.strip (Py.upper s)); reflexivity.
Qed.

Lemma validate_licence_number_run (s : string) :
  validate_licence_number s
  = match Py.strip (Py.upper s) with
    | EmptyString => inl (ValidationError "Licence number cannot be empty")
    | r => inr r
    end.
Proof.
  unfold validate_licence_number. rewrite strip_upper.
  destruct (Py.upper (Py.strip s)); reflexivity.
Qed.

(** X25.  [validate_flight_number] and [validate_licence_number] return the
    same text: the argument trimmed and in upper case (the two orders of the
    two steps agree), unless that is empty, when each raises its error.  The
    text returned has no blank at either end and no lower-case letter and is
    returned unchanged when validated again; the blanks around the argument
    do not matter, and on ASCII text neither does the case of the letters. *)
Theorem number_validators_normalise :
  (forall s r,
      validate_flight_number s = inr r
      <-> r = Py.strip (Py.upper s) /\ r <> EmptyString)
  /\ (forall s r, validate_licence_number s = inr r <-> validate_flight_number s = inr r)
  /\ (forall s,
         Py.strip (Py.upper s) = EmptyString ->
         validate_flight_number s
         = inl (ValidationError "Flight number cannot be empty")
         /\ validate_licence_number s
            = inl (ValidationError "Licence number cannot be empty"))
  /\ (forall s r,
         validate_flight_number s = inr r ->
         Py.strip r = r /\ Py.upper r = r /\ validate_flight_number r = inr r)
  /\ (forall s,
         (Py.isascii s = true ->
          validate_flight_number (Py.lower s) = validate_flight_number s)
         /\ validate_flight_number (Py.strip s) = validate_flight_number s
         /\ forall before after,
             Py.all_chars Py.isspace_char before = true ->
             Py.all_chars Py.isspace_char after = true ->
             validate_flight_number (before ++ s ++ after)
             = validate_flight_number s).
Proof.
  split; [|split; [|split; [|split]]].
  - intros s r. rewrite validate_flight_number_run.
    destruct (Py.strip (Py.upper s)) as [|c t]; split.
    + discriminate.
    + intros [-> H]. congruence.
    + intros [= <-]. split; [reflexivity|discriminate].
    + intros [-> _]. reflexivity.
  - intros s r. rewrite validate_flight_number_run, validate_licence_number_run.
    destruct (Py.strip (Py.upper s)); split; congruence.
  - intros s H. rewrite validate_flight_number_run, validate_licence_number_run, H.
    split; reflexivity.
  - intros s r H. pose proof (validate_flight_number_idem s r H) as Hidem.
    rewrite validate_flight_number_run in H.
    assert (r = Py.strip (Py.upper s)) as ->
      by (destruct (Py.strip (Py.upper s)); [discriminate|congruence]).
    split; [apply strip_idem|]. split; [|exact Hidem].
    rewrite strip_upper. apply upper_idem.
  - intros s. split; [|split].
    + intros _. rewrite !validate_flight_number_run, upper_lower. reflexivity.
    + rewrite !validate_flight_number_run.
      rewrite <- strip_upper, strip_idem. reflexivity.
    + intros a b Ha Hb. rewrite !validate_flight_number_run, !upper_append.
      rewrite (strip_between_blanks (Py.upper a) (Py.upper s) (Py.upper b));
        [reflexivity|rewrite upper_blanks; exact Ha|rewrite upper_blanks; exact Hb].
Qed.

Lemma number_validators_normalise_witness :
  validate_flight_number " ba101 " = inr "BA101"
  /\ validate_licence_number " ba101 " = inr "BA101".
Proof.
  split; [reflexivity|].
  apply (proj1 (proj2 number_validators_normalise) " ba101 " "BA101"). reflexivity.
Defined.

(** ** Commands return *)

Lemma status_is_stored (db : DB) (r : string) :
  FlightStatus db = statuses -> In r config.VALID_STATUSES ->
  exists row, select_status r db = Some row /\ s_status_name row = r.
Proof.
  intros Hs Hin. unfold select_status. rewrite Hs. simpl in Hin.
  repeat (destruct Hin as [<-|Hin]; [eexists; split; reflexivity|]). destruct Hin.
Qed.

Lemma run_returns (c : command) (db : DB) :
  (forall status r, validate_flight_status status = inr r ->
                    select_status r db <> None) ->
  result (run c) db = inr tt.
Proof.
  intros Hs. destruct c; unfold_command; run_op; try reflexivity.
  all: try (exfalso;
            match goal with
            | H : _ = inl (TypeError _) |- _ =>
                unfold insert_Airport, insert_Route, insert_Pilot, insert_Flight,
                  insert_CrewAssignment, delete_CrewAssignment, update_Flight_route,
                  update_Flight_times, update_Flight_status, fk_failed,
                  times_check_failed in H;
                repeat match type of H with
                       | context [if ?b then _ else _] => destruct b
                       end;
                discriminate H
            end).
  exfalso.
  match goal with
  | V : validate_flight_status _ = inr ?r, E : select_status ?r db = None |- _ =>
      exact (Hs _ _ V E)
  end.
Qed.

Lemma run_returns_other (c : command) (db : DB) :
  match c with AddFlight _ _ _ _ _ _ => False | _ => True end ->
  result (run c) db = inr tt.
Proof.
  intros Hc. destruct c; try destruct Hc; unfold_command; run_op; try reflexivity.
  all: exfalso;
    match goal with
    | H : _ = inl (TypeError _) |- _ =>
        unfold insert_Airport, insert_Route, insert_Pilot, insert_Flight,
          insert_CrewAssignment, delete_CrewAssignment, update_Flight_route,
          update_Flight_times, update_Flight_status, fk_failed,
          times_check_failed in H;
        repeat match type of H with
               | context [if ?b then _ else _] => destruct b
               end;
        discriminate H
    end.
Qed.

(** X26.  On a file the program can leave, every status name that
    [validate_flight_status] returns has a row in [FlightStatus], so the
    lookup of [change_status] and the [fetchone()[0]] of [add_flight] never
    fail.  And a command whose integers fit the 64 bits of an INTEGER, once
    the operator has answered its prompt, raises nothing to its caller:
    whatever fails in validation or in SQLite is printed and the command
    returns.  For every command other than [add_flight] this holds on any
    file.  (The reply is part of the command: a run in which [input] meets
    the end of its input is not among these.) *)
Theorem commands_report_and_return (db : DB) :
  reachable db ->
  (forall status r,
      validate_flight_status status = inr r ->
      exists row, select_status r db = Some row /\ s_status_name row = r)
  /\ (forall c, binds c = true -> result (run c) db = inr tt)
  /\ (forall c any,
         binds c = true ->
         (forall n d r a b s, c <> AddFlight n d r a b s) ->
         result (run c) any = inr tt).
Proof.
  intros Hr. apply reachable_consistent in Hr.
  assert (forall status r,
             validate_flight_status status = inr r ->
             exists row, select_status r db = Some row /\ s_status_name row = r)
    as Hfound.
  { intros status r Hv. apply validate_flight_status_returns in Hv.
    apply status_is_stored; [|tauto].
    exact (proj2 (proj2 (proj2 (proj2 (proj2 (proj2 (proj2 Hr))))))). }
  split; [exact Hfound|]. split.
  - intros c _. apply run_returns. intros status r Hv E.
    destruct (Hfound status r Hv) as [row [Hrow _]]. congruence.
  - intros c any _ Hc. destruct c;
      try (exfalso; eapply Hc; reflexivity);
      apply run_returns_other; exact I.
Qed.

Lemma commands_report_and_return_witness :
  binds (AddFlight "BA101" "2025-06-05" 99 "2025-06-05 08:00"
                   "2025-06-05 07:00" "late") = true
  /\ result (run (AddFlight "BA101" "2025-06-05" 99 "2025-06-05 08:00"
                            "2025-06-05 07:00" "late")) seed = inr tt.
Proof.
  split; [reflexivity|].
  apply (proj1 (proj2 (commands_report_and_return seed reachable_seed))).
  reflexivity.
Defined.

(** ** Nothing is added twice *)

Lemma not_completed_unchanged (c : command) (db : DB) :
  ~ completed (body_of c) (run c) db -> persisted (run c) db = db.
Proof.
  intros H. destruct (run_cases c db) as [[Hdone _]|[_ Hsame]];
    [contradiction|exact Hsame].
Qed.

(** X27.  UNIQUE, seen from the operations.  After [add_airport] has gone
    through, no [add_airport] for a code that validates to the same code goes
    through, whatever the other columns; likewise [add_route] for the same
    pair of codes, [add_pilot] for a licence that is the same once trimmed
    and in upper case, and [add_flight] for the same number and date.  The
    second attempt commits nothing and leaves the file as the first left
    it. *)
Theorem nothing_is_added_twice :
  (forall code name city country utc_offset tz_name code2 name2 city2 country2
          utc_offset2 tz_name2 db,
      completed (add_airport_body code name city country utc_offset tz_name)
                (add_airport code name city country utc_offset tz_name) db ->
      validate_airport_code code2 = validate_airport_code code ->
      let db' := persisted (add_airport code name city country utc_offset tz_name) db in
      let again := AddAirport code2 name2 city2 country2 utc_offset2 tz_name2 in
      ~ completed (body_of again) (run again) db' /\ persisted (run again) db' = db')
  /\ (forall origin dest distance_km mins origin2 dest2 distance_km2 mins2 db,
         completed (add_route_body origin dest distance_km mins)
                   (add_route origin dest distance_km mins) db ->
         validate_airport_code origin2 = validate_airport_code origin ->
         validate_airport_code dest2 = validate_airport_code dest ->
         let db' := persisted (add_route origin dest distance_km mins) db in
         let again := AddRoute origin2 dest2 distance_km2 mins2 in
         ~ completed (body_of again) (run again) db' /\ persisted (run again) db' = db')
  /\ (forall licence first_name last_name rank hire_date licence2 first_name2
             last_name2 rank2 hire_date2 db,
         completed (add_pilot_body licence first_name last_name rank hire_date)
                   (add_pilot licence first_name last_name rank hire_date) db ->
         validate_licence_number licence2 = validate_licence_number licence ->
         let db' := persisted (add_pilot licence first_name last_name rank hire_date)
                              db in
         let again := AddPilot licence2 first_name2 last_name2 rank2 hire_date2 in
         ~ completed (body_of again) (run again) db' /\ persisted (run again) db' = db')
  /\ (forall flight_number flight_date route_id dep arr status flight_number2
             route_id2 dep2 arr2 status2 db,
         completed (add_flight_body flight_number flight_date route_id dep arr status)
                   (add_flight flight_number flight_date route_id dep arr status) db ->
         validate_flight_number flight_number2 = validate_flight_number flight_number ->
         let db' := persisted (add_flight flight_number flight_date route_id dep arr
                                          status) db in
         let again := AddFlight flight_number2 flight_date route_id2 dep2 arr2 status2 in
         ~ completed (body_of again) (run again) db' /\ persisted (run again) db' = db').
Proof.
  split; [|split; [|split]]; intros; subst db' again.
  - match goal with |- ~ ?P /\ _ => assert (~ P) as Hnot end;
      [|split; [exact Hnot|exact (not_completed_unchanged _ _ Hnot)]].
    intros Hagain.
    pose proof (completed_commits (AddAirport _ _ _ _ _ _) db H) as T.
    pose proof (completed_commits (AddAirport _ _ _ _ _ _) _ Hagain) as T2.
    simpl run in *. inversion T; subst. inversion T2; subst.
    assert (valid0 = valid) as -> by congruence.
    match goal with
    | S1 : insert_Airport _ db = inr ?d, S2 : insert_Airport _ ?d = inr _ |- _ =>
        apply insert_Airport_inv in S1; destruct S1 as [Hdb' _];
        apply insert_Airport_inv in S2; destruct S2 as [_ Hnew];
        rewrite Hdb' in Hnew
    end.
    unfold has_airport in Hnew. cbn in Hnew. rewrite existsb_app in Hnew. simpl in Hnew.
    rewrite String.eqb_refl, orb_true_r in Hnew. discriminate.
  - match goal with |- ~ ?P /\ _ => assert (~ P) as Hnot end;
      [|split; [exact Hnot|exact (not_completed_unchanged _ _ Hnot)]].
    intros Hagain.
    pose proof (completed_commits (AddRoute _ _ _ _) db H) as T.
    pose proof (completed_commits (AddRoute _ _ _ _) _ Hagain) as T2.
    simpl run in *. inversion T; subst. inversion T2; subst.
    assert (o0 = o) as -> by congruence. assert (dst0 = dst) as -> by congruence.
    match goal with
    | S1 : insert_Route _ _ _ _ db = inr (_, ?x), S2 : insert_Route _ _ _ _ ?x = inr _
      |- _ =>
        apply insert_Route_inv in S1; destruct S1 as (_ & Hdb' & _);
        apply insert_Route_inv in S2; destruct S2 as (_ & _ & Hnew & _);
        rewrite Hdb' in Hnew
    end.
    unfold select_route in Hnew. cbn in Hnew. apply hd_filter_none in Hnew.
    rewrite existsb_app in Hnew. simpl in Hnew.
    rewrite !String.eqb_refl, orb_true_r in Hnew. discriminate.
  - match goal with |- ~ ?P /\ _ => assert (~ P) as Hnot end;
      [|split; [exact Hnot|exact (not_completed_unchanged _ _ Hnot)]].
    intros Hagain.
    pose proof (completed_commits (AddPilot _ _ _ _ _) db H) as T.
    pose proof (completed_commits (AddPilot _ _ _ _ _) _ Hagain) as T2.
    simpl run in *. inversion T; subst. inversion T2; subst.
    assert (valid_licence0 = valid_licence) as -> by congruence.
    match goal with
    | S1 : insert_Pilot _ _ _ _ _ db = inr ?x, S2 : insert_Pilot _ _ _ _ _ ?x = inr _
      |- _ =>
        apply insert_Pilot_inv in S1; cbv zeta in S1; destruct S1 as [Hdb' _];
        apply insert_Pilot_inv in S2; cbv zeta in S2; destruct S2 as [_ Hnew];
        rewrite Hdb' in Hnew
    end.
    apply Hnew. cbn. rewrite map_app. apply in_or_app. right. left. reflexivity.
  - match goal with |- ~ ?P /\ _ => assert (~ P) as Hnot end;
      [|split; [exact Hnot|exact (not_completed_unchanged _ _ Hnot)]].
    intros Hagain.
    pose proof (completed_commits (AddFlight _ _ _ _ _ _) db H) as T.
    pose proof (completed_commits (AddFlight _ _ _ _ _ _) _ Hagain) as T2.
    simpl run in *. inversion T; subst. inversion T2; subst.
    assert (number0 = number) as -> by congruence.
    assert (date0 = date) as -> by congruence.
    match goal with
    | S1 : insert_Flight _ _ _ _ _ _ db = inr ?x,
      S2 : insert_Flight _ _ _ _ _ _ ?x = inr _ |- _ =>
        apply insert_Flight_inv in S1; cbv zeta in S1; destruct S1 as [Hdb' _];
        apply insert_Flight_inv in S2; cbv zeta in S2;
        destruct S2 as (_ & _ & Hnew & _);
        rewrite Hdb' in Hnew
    end.
    eapply Hnew; [cbn; apply in_or_app; right; left; reflexivity|].
    split; reflexivity.
Qed.

Lemma nothing_is_added_twice_witness :
  let first := add_airport "bcn" "El Prat" "Barcelona" "Spain" (1 # 1) "Europe/Madrid" in
  let again := AddAirport " BCN " "Barcelona Airport" "Barcelona" "Spain" (1 # 1)
                          "Europe/Madrid" in
  has_airport (persisted first seed) "BCN" = true
  /\ persisted (run again) (persisted first seed) = persisted first seed.
Proof.
  cbv zeta. split; [reflexivity|].
  apply (proj1 nothing_is_added_twice "bcn" "El Prat" "Barcelona" "Spain" (1 # 1)
               "Europe/Madrid" " BCN " "Barcelona Airport" "Barcelona" "Spain" (1 # 1)
               "Europe/Madrid" seed).
  - split; [reflexivity|]. vm_compute. tauto.
  - reflexivity.
Defined.

(** ** [safe_input] *)

Lemma convert_typed (float_of_text : string -> option Q) (t : input_type)
      (value : string) (a : answer) :
  convert float_of_text t value = Some a ->
  match a with
  | AStr s => t = as_str /\ s = value
  | AInt n => t = as_int /\ int_of_text value = Some n
  | AFloat x => t = as_float /\ float_of_text value = Some x
  | ANone | AEndOfInput => False
  end.
Proof.
  destruct t; simpl.
  - intros [= <-]. auto.
  - destruct (int_of_text value); [|discriminate]. intros [= <-]. auto.
  - destruct (float_of_text value); [|discriminate]. intros [= <-]. auto.
Qed.

(** X28.  [safe_input] reads lines until one is acceptable and leaves the
    rest unread.  A line is rejected when it is blank (unless blanks are
    allowed) or when the trimmed text does not convert to the type asked
    for; one complaint is printed for each rejected line, after its prompt.
    The answer comes from the first acceptable line: [None] only if blanks
    are allowed and the line is blank, otherwise the trimmed text converted,
    which for [str] is a non-empty text with no blank at either end.  When
    the lines run out the [EOFError] of [input] ends it. *)
Theorem safe_input_reads_the_first_acceptable_line
        (float_of_text : string -> option Q) (prompt : string) (t : input_type)
        (allow_blank : bool) (lines : list string)
        (said : list event) (a : answer) (unread : list string) :
  safe_input float_of_text prompt t allow_blank lines = (said, a, unread) ->
  exists rejected,
    Forall (fun line =>
              match Py.strip line with
              | EmptyString => allow_blank = false
              | value => convert float_of_text t value = None
              end) rejected
    /\ List.length (filter (fun e => match e with Print _ => true | _ => false end)
                           said) = List.length rejected
    /\ List.length (filter (fun e => match e with Prompt _ => true | _ => false end)
                           said) = S (List.length rejected)
    /\ match a with
       | AEndOfInput => lines = rejected /\ unread = []
       | ANone =>
           exists line, lines = (rejected ++ line :: unread)%list
                        /\ Py.strip line = EmptyString /\ allow_blank = true
       | AStr s =>
           exists line, lines = (rejected ++ line :: unread)%list
                        /\ t = as_str /\ s = Py.strip line
                        /\ s <> EmptyString /\ Py.strip s = s
       | AInt n =>
           exists line, lines = (rejected ++ line :: unread)%list
                        /\ t = as_int /\ int_of_text (Py.strip line) = Some n
       | AFloat x =>
           exists line, lines = (rejected ++ line :: unread)%list
                        /\ t = as_float /\ float_of_text (Py.strip line) = Some x
       end.
Proof.
  revert said a unread. induction lines as [|line rest IH]; intros said a unread.
  - simpl. intros [= <- <- <-]. exists []. repeat split; constructor.
  - simpl. destruct (Py.strip line) as [|c value] eqn:Es.
    + destruct allow_blank eqn:Eb.
      * intros [= <- <- <-]. exists []. repeat split; try constructor.
        exists line. repeat split; assumption.
      * destruct (safe_input float_of_text prompt t false rest)
          as [[said' a'] unread'] eqn:Er.
        intros [= <- <- <-].
        destruct (IH _ _ _ eq_refl) as (rejected & Hrej & Hprints & Hprompts & Ha).
        exists (line :: rejected). split; [|split; [|split]].
        -- constructor; [rewrite Es; reflexivity|exact Hrej].
        -- simpl. rewrite Hprints. reflexivity.
        -- simpl. rewrite Hprompts. reflexivity.
        -- destruct a'; try (destruct Ha as [l Ha]; exists l; simpl;
                             intuition congruence).
           destruct Ha as [-> ->]. split; reflexivity.
    + destruct (convert float_of_text t (String c value)) as [a0|] eqn:Ec.
      * intros [= <- <- <-]. exists []. split; [constructor|].
        split; [reflexivity|]. split; [reflexivity|].
        pose proof (convert_typed _ _ _ _ Ec) as Ht.
        destruct a0; try contradiction; exists line; simpl; rewrite Es.
        -- destruct Ht as [-> ->]. repeat split; try discriminate.
           rewrite <- Es. apply strip_idem.
        -- tauto.
        -- tauto.
      * destruct (safe_input float_of_text prompt t allow_blank rest)
          as [[said' a'] unread'] eqn:Er.
        intros [= <- <- <-].
        destruct (IH _ _ _ eq_refl) as (rejected & Hrej & Hprints & Hprompts & Ha).
        exists (line :: rejected). split; [|split; [|split]].
        -- constructor; [rewrite Es; exact Ec|exact Hrej].
        -- simpl. rewrite Hprints. reflexivity.
        -- simpl. rewrite Hprompts. reflexivity.
        -- destruct a'; try (destruct Ha as [l Ha]; exists l; simpl;
                             intuition congruence).
           destruct Ha as [-> ->]. split; reflexivity.
Qed.

Lemma safe_input_reads_the_first_acceptable_line_witness :
  let no_float := fun _ : string => @None Q in
  safe_input no_float "Captain ID: " as_int false ["   "; "seven"; "  7 "; "8"]
  = ([Prompt "Captain ID: "; Print "This field cannot be empty.";
      Prompt "Captain ID: "; Print "Invalid input. Please enter a valid int.";
      Prompt "Captain ID: "], AInt 7, ["8"])
  /\ exists rejected line,
      ["   "; "seven"; "  7 "; "8"] = (rejected ++ line :: ["8"])%list
      /\ int_of_text (Py.strip line) = Some 7.
Proof.
  cbv zeta. split; [reflexivity|].
  destruct (safe_input_reads_the_first_acceptable_line
              (fun _ => None) "Captain ID: " as_int false
              ["   "; "seven"; "  7 "; "8"] _ (AInt 7) ["8"] eq_refl)
    as (rejected & _ & _ & _ & line & Hlines & _ & Hint).
  exists rejected, line. split; assumption.
Defined.

(** ** [format_preview] *)

Lemma pyval_eqb_refl (v : pyval) : pyval_eqb v v = true.
Proof. destruct v; simpl; [apply Z.eqb_refl|apply String.eqb_refl|reflexivity]. Qed.

Lemma changes_cons_same (old rest : list (string * pyval)) (k : string) (v : pyval) :
  dict_get k old = Some v -> changes old ((k, v) :: rest) = changes old rest.
Proof.
  intros H. unfold changes, changed. simpl. rewrite H, pyval_eqb_refl. reflexivity.
Qed.

Lemma changes_cons_other (old rest : list (string * pyval)) (k : string)
      (v v' : pyval) :
  dict_get k old = Some v ->
  changes old ((k, v') :: rest)
  = ((if pyval_eqb v v' then [] else [k]) ++ changes old rest)%list.
Proof.
  intros H. unfold changes, changed. simpl. rewrite H.
  destruct (pyval_eqb v v'); reflexivity.
Qed.

Ltac preview_compute :=
  unfold with_times, with_status, with_route, with_captain, with_fo;
  unfold items at 2;
  cbn [v_flight_id v_flight_number v_flight_date v_sched_dep_utc v_sched_arr_utc
       v_status_name v_origin_code v_dest_code v_captain_name v_captain_id
       v_fo_name v_fo_id of_opt_str of_opt_int];
  repeat first
    [ rewrite changes_cons_same by reflexivity
    | erewrite changes_cons_other by reflexivity ];
  change (changes (items _) []) with (@nil string);
  rewrite ?app_nil_r;
  cbn [pyval_eqb].

(** X29.  The preview of each [change_*] marks as changed exactly the
    columns the operation is about whose proposed value differs from the
    current one, and no other column; when none differs it says that no
    change was detected.  The Current section has eleven lines, without
    [flight_id]; the Proposed section has twelve, the first of them for
    [flight_id].  [format_preview] prints these lines and touches nothing
    else. *)
Theorem preview_marks_what_changes (f : FlightDetails) :
  (forall dep arr,
      changes (items f) (items (with_times f dep arr))
      = ((if String.eqb (v_sched_dep_utc f) dep then [] else ["sched_dep_utc"])
           ++ (if String.eqb (v_sched_arr_utc f) arr then [] else ["sched_arr_utc"]))
        %list)
  /\ (forall status,
         changes (items f) (items (with_status f status))
         = if String.eqb (v_status_name f) status then [] else ["status_name"])
  /\ (forall origin dest,
         changes (items f) (items (with_route f origin dest))
         = ((if String.eqb (v_origin_code f) origin then [] else ["origin_code"])
              ++ (if String.eqb (v_dest_code f) dest then [] else ["dest_code"]))
           %list)
  /\ (forall name id,
         changes (items f) (items (with_captain f name id))
         = ((if pyval_eqb (of_opt_str (v_captain_name f)) (PStr name)
             then [] else ["captain_name"])
              ++ (if pyval_eqb (of_opt_int (v_captain_id f)) (PInt id)
                  then [] else ["captain_id"]))%list)
  /\ (forall name id,
         changes (items f) (items (with_fo f name id))
         = ((if pyval_eqb (of_opt_str (v_fo_name f)) (PStr name)
             then [] else ["fo_name"])
              ++ (if pyval_eqb (of_opt_int (v_fo_id f)) (PInt id)
                  then [] else ["fo_id"]))%list)
  /\ (forall new,
         List.length (current_lines (items f)) = 11%nat
         /\ List.length (proposed_lines (items f) (items new)) = 12%nat
         /\ (exists mark,
                hd_error (proposed_lines (items f) (items new))
                = Some ("flight_id           : " ++ Py.str_of_int (v_flight_id new)
                        ++ mark))
         /\ (changes (items f) (items new) = [] ->
             changes_line (items f) (items new) = "No changes detected.")
         /\ forall db,
             events (format_preview (items f) (items new)) db
             = map Print (preview_lines (items f) (items new))
             /\ persisted (format_preview (items f) (items new)) db = db).
Proof.
  repeat apply conj.
  - intros dep arr. preview_compute. reflexivity.
  - intros status. preview_compute. reflexivity.
  - intros origin dest. preview_compute. reflexivity.
  - intros name id. preview_compute. reflexivity.
  - intros name id. preview_compute. reflexivity.
  - intros new. repeat apply conj.
    + reflexivity.
    + unfold proposed_lines. rewrite length_map. reflexivity.
    + unfold proposed_lines. unfold items at 2. cbn [map hd_error fst snd pyval_str].
      destruct (changed _ _); [exists " [CHANGED]"|exists ""];
        rewrite ?append_nil_r; reflexivity.
    + unfold changes_line. intros ->. reflexivity.
    + intros db. unfold format_preview, events, persisted.
      rewrite print_all_run. split; reflexivity.
Qed.

(** ** What the timestamp pattern reads *)

Lemma re_star_sound (p : ascii -> bool) (s t r : string) :
  In (t, r) (re_star p s) -> s = t ++ r /\ Py.all_chars p t = true.
Proof.
  revert t r. induction s as [|c s IH]; intros t r; cbn [re_star].
  - intros [[= <- <-]|[]]. split; reflexivity.
  - destruct (p c) eqn:Hc.
    + intros H. apply in_app_or in H. destruct H as [H|[[= <- <-]|[]]].
      * apply in_map_iff in H. destruct H as [[t' r'] [[= <- <-] H]].
        apply IH in H. destruct H as [-> H]. simpl. rewrite Hc. auto.
      * split; reflexivity.
    + intros [[= <- <-]|[]]. split; reflexivity.
Qed.

Lemma re_token_TBlank_sound (s t r : string) :
  In (t, r) (re_token TBlank s) -> s = t ++ r /\ blanks t.
Proof.
  cbn [re_token]. unfold re_plus. intros H. regex_inv.
  apply re_star_sound in H1. destruct H1 as [-> H1].
  split; [reflexivity|]. split; [discriminate|].
  simpl. rewrite Hc. exact H1.
Qed.

Lemma re_star_first (p : ascii -> bool) (B : string) (a : ascii) (r : string) :
  Py.all_chars p B = true -> p a = false ->
  exists tail, re_star p (B ++ String a r) = (B, String a r) :: tail.
Proof.
  intros HB Ha. induction B as [|c B IH]; cbn [append re_star].
  - rewrite Ha. eauto.
  - simpl in HB. apply andb_true_iff in HB. destruct HB as [Hc HB].
    rewrite Hc. destruct (IH HB) as [tail ->]. cbn [map app fst snd]. eauto.
Qed.

Lemma re_token_TBlank_first (B : string) (a : ascii) (r : string) :
  blanks B -> Py.isdigit_char a = true ->
  exists tail, re_token TBlank (B ++ String a r) = (B, String a r) :: tail.
Proof.
  intros [Hne HB] Ha. destruct B as [|c B]; [congruence|].
  simpl in HB. apply andb_true_iff in HB. destruct HB as [Hc HB].
  destruct (re_star_first Py.isspace_char B a r HB (digit_not_space a Ha)) as [tail E].
  cbn [re_token append]. unfold re_plus, re_seq. cbn [re_class].
  rewrite Hc. cbn [flat_map fst snd]. rewrite E. cbn [map app fst snd append]. eauto.
Qed.

Lemma re_token_TH_one (a : ascii) (r : string) :
  Py.isdigit_char a = true -> starts_with_digit r = false ->
  exists tail, re_token TH (String a r) = (String a "", r) :: tail.
Proof.
  intros Ha Hr. destruct r as [|x r]; simpl in Hr; regex_cases; eauto.
Qed.

Lemma re_token_TM_one (a : ascii) :
  Py.isdigit_char a = true ->
  exists tail, re_token TM (String a "") = (String a "", "") :: tail.
Proof. intros Ha. regex_cases; eauto. Qed.

Lemma digit_value_max (c : ascii) :
  Py.isdigit_char c = true -> 0 <= Py.digit_value c <= 9.
Proof. intros H. char_tests. bool_props. lia. Qed.

Ltac digits_true :=
  cbn [append Py.all_chars];
  repeat match goal with H : Py.isdigit_char _ = true |- _ => rewrite H; clear H end;
  reflexivity.

Lemma re_token_TH_sound (s t r : string) :
  In (t, r) (re_token TH s) -> s = t ++ r /\ numeral 1 2 t /\ Py.int t <= 23.
Proof.
  cbn [re_token]. intros H. regex_inv; (split; [reflexivity|]).
  - apply Ascii.eqb_eq in Hc. subst c.
    assert (Hd : Py.isdigit_char c0 = true)
      by (apply (in_range_digit _ _ c0) in Hc0;
          [exact Hc0|vm_compute; discriminate|vm_compute; discriminate]).
    assert (Hv : Py.digit_value c0 <= 3) by (char_tests; bool_props; lia).
    split; [split; [simpl; rewrite Hd; reflexivity|simpl; lia]|].
    rewrite int_digits by (simpl; rewrite Hd; reflexivity).
    cbn [append Py.int_of_digits]. change (Py.digit_value "2") with 2. lia.
  - assert (Hd : Py.isdigit_char c = true)
      by (apply (in_range_digit _ _ c) in Hc;
          [exact Hc|vm_compute; discriminate|vm_compute; discriminate]).
    assert (Hv : Py.digit_value c <= 1) by (char_tests; bool_props; lia).
    pose proof (digit_value_max c0 Hc0).
    split; [split; [simpl; rewrite Hd, Hc0; reflexivity|simpl; lia]|].
    rewrite int_digits by (simpl; rewrite Hd, Hc0; reflexivity).
    cbn [append Py.int_of_digits]. lia.
  - pose proof (digit_value_max c Hc).
    split; [split; [simpl; rewrite Hc; reflexivity|simpl; lia]|].
    rewrite int_digits by (simpl; rewrite Hc; reflexivity).
    cbn [append Py.int_of_digits]. lia.
Qed.

Lemma re_token_TM_sound (s t r : string) :
  In (t, r) (re_token TM s) -> s = t ++ r /\ numeral 1 2 t /\ Py.int t <= 59.
Proof.
  cbn [re_token]. intros H. regex_inv; (split; [reflexivity|]).
  - assert (Hd : Py.isdigit_char c = true)
      by (apply (in_range_digit _ _ c) in Hc;
          [exact Hc|vm_compute; discriminate|vm_compute; discriminate]).
    assert (Hv : Py.digit_value c <= 5) by (char_tests; bool_props; lia).
    pose proof (digit_value_max c0 Hc0).
    split; [split; [simpl; rewrite Hd, Hc0; reflexivity|simpl; lia]|].
    rewrite int_digits by (simpl; rewrite Hd, Hc0; reflexivity).
    cbn [append Py.int_of_digits]. lia.
  - pose proof (digit_value_max c Hc).
    split; [split; [simpl; rewrite Hc; reflexivity|simpl; lia]|].
    rewrite int_digits by (simpl; rewrite Hc; reflexivity).
    cbn [append Py.int_of_digits]. lia.
Qed.

Lemma datetime_pattern_sound (s rest : string) (gs : list (token * string)) :
  In (gs, rest)
     (re_format [TY; TLit "-"; Tm; TLit "-"; Td; TBlank; TH; TLit ":"; TM] s) ->
  exists Y M D B H N,
    gs = [(TY, Y); (TLit "-", "-"); (Tm, M); (TLit "-", "-"); (Td, D);
          (TBlank, B); (TH, H); (TLit ":", ":"); (TM, N)]
    /\ s = Y ++ "-" ++ M ++ "-" ++ D ++ B ++ H ++ ":" ++ N ++ rest
    /\ numeral 4 4 Y /\ numeral 1 2 M /\ day_text D /\ blanks B
    /\ numeral 1 2 H /\ numeral 1 2 N /\ Py.int H <= 23 /\ Py.int N <= 59.
Proof.
  intros H0.
  apply re_format_cons_sound in H0. destruct H0 as (Y & r1 & g1 & HY & H0 & ->).
  apply re_format_cons_sound in H0. destruct H0 as (l1 & r2 & g2 & Hl1 & H0 & ->).
  apply re_format_cons_sound in H0. destruct H0 as (M & r3 & g3 & HM & H0 & ->).
  apply re_format_cons_sound in H0. destruct H0 as (l2 & r4 & g4 & Hl2 & H0 & ->).
  apply re_format_cons_sound in H0. destruct H0 as (D & r5 & g5 & HD & H0 & ->).
  apply re_format_cons_sound in H0. destruct H0 as (B & r6 & g6 & HB & H0 & ->).
  apply re_format_cons_sound in H0. destruct H0 as (H & r7 & g7 & HH & H0 & ->).
  apply re_format_cons_sound in H0. destruct H0 as (l3 & r8 & g8 & Hl3 & H0 & ->).
  apply re_format_cons_sound in H0. destruct H0 as (N & r9 & g9 & HN & H0 & ->).
  destruct H0 as [[= <- <-]|[]].
  apply re_token_TY_sound in HY. destruct HY as [-> HY].
  apply re_token_TLit_sound in Hl1. destruct Hl1 as [-> ->].
  apply re_token_Tm_sound in HM. destruct HM as [-> HM].
  apply re_token_TLit_sound in Hl2. destruct Hl2 as [-> ->].
  apply re_token_Td_sound in HD. destruct HD as [-> HD].
  apply re_token_TBlank_sound in HB. destruct HB as [-> HB].
  apply re_token_TH_sound in HH. destruct HH as [-> [HH HHv]].
  apply re_token_TLit_sound in Hl3. destruct Hl3 as [-> ->].
  apply re_token_TM_sound in HN. destruct HN as [-> [HN HNv]].
  exists Y, M, D, B, H, N. repeat match goal with |- _ /\ _ => split end; try assumption; reflexivity.
Qed.

Lemma day_before (D r : string) :
  day_text D -> 1 <= Py.int D <= 31 -> starts_with_digit r = false ->
  exists tail, re_token Td (D ++ r) = (D, r) :: tail.
Proof.
  intros [[Hd Hl]|[c [-> Hc]]] Hv Hr.
  - rewrite (int_digits D Hd) in Hv.
    destruct D as [|a [|b [|c D]]]; simpl in Hl; try lia;
      cbn [Py.all_chars] in Hd; bool_props; cbn [Py.int_of_digits] in Hv;
      cbn [append].
    + apply re_token_Td_one; [assumption|lia|assumption].
    + apply re_token_Td_two; [assumption|assumption|lia].
  - rewrite (int_blank_digit c Hc) in Hv. cbn [append].
    apply re_token_Td_blank; [assumption|lia].
Qed.

Lemma hour_first (H r : string) :
  numeral 1 2 H -> Py.int H <= 23 -> starts_with_digit r = false ->
  exists tail, re_token TH (H ++ r) = (H, r) :: tail.
Proof.
  intros [Hd Hl] Hv Hr. rewrite (int_digits H Hd) in Hv.
  destruct H as [|a [|b [|c H]]]; simpl in Hl; try lia;
    cbn [Py.all_chars] in Hd; bool_props; cbn [Py.int_of_digits] in Hv; cbn [append].
  - apply re_token_TH_one; assumption.
  - apply re_token_TH_two; [assumption|assumption|lia].
Qed.

Lemma minute_first (N : string) :
  numeral 1 2 N -> Py.int N <= 59 ->
  exists tail, re_token TM N = (N, "") :: tail.
Proof.
  intros [Hd Hl] Hv. rewrite (int_digits N Hd) in Hv.
  destruct N as [|a [|b [|c N]]]; simpl in Hl; try lia;
    cbn [Py.all_chars] in Hd; bool_props; cbn [Py.int_of_digits] in Hv.
  - apply re_token_TM_one; assumption.
  - apply re_token_TM_two; [assumption|assumption|lia].
Qed.

Lemma blanks_no_digit (B r : string) :
  blanks B -> starts_with_digit (B ++ r) = false.
Proof.
  intros [Hne HB]. destruct B as [|c B]; [congruence|].
  simpl in *. apply andb_true_iff in HB. destruct HB as [Hc _].
  destruct (Py.isdigit_char c) eqn:E; [|reflexivity].
  rewrite (digit_not_space c E) in Hc. discriminate.
Qed.

Lemma lenient_datetime_parsed (s : string) :
  lenient_datetime s -> exists t, strptime s config.DATETIME_FORMAT = Some t.
Proof.
  intros (Y & M & D & B & H & N & -> & HY & HM & HD & HB & HH & HN & Hok & HHv & HNv).
  assert (Hok' := Hok). unfold date_ok in Hok'.
  do 5 (apply andb_true_iff in Hok'; destruct Hok' as [Hok' ?]). bool_props.
  pose proof (days_in_month_max (Py.int Y) (Py.int M)) as Hdim.
  destruct (minute_first N HN HNv) as [tl9 R9].
  destruct (hour_first H (":" ++ N) HH HHv eq_refl) as [tl7 R7].
  assert (exists a H', H = String a H' /\ Py.isdigit_char a = true) as (a & H' & -> & Ha).
  { destruct HH as [Hd Hl]. destruct H as [|a H']; [simpl in Hl; lia|].
    simpl in Hd. apply andb_true_iff in Hd. destruct Hd. eauto. }
  destruct (re_token_TBlank_first B a (H' ++ ":" ++ N) HB Ha) as [tl6 R6].
  destruct (day_before D (B ++ String a H' ++ ":" ++ N) HD) as [tl5 R5];
    [lia|apply blanks_no_digit; exact HB|].
  destruct (month_first M ("-" ++ D ++ B ++ String a H' ++ ":" ++ N) HM) as [tl3 R3];
    [lia|reflexivity|].
  destruct HY as [HYd HYl].
  destruct Y as [|y1 [|y2 [|y3 [|y4 [|y5 Y]]]]]; simpl in HYl; try lia.
  pose proof (re_token_TY y1 y2 y3 y4
                ("-" ++ M ++ "-" ++ D ++ B ++ String a H' ++ ":" ++ N) HYd) as R1.
  assert (Hfmt : exists tail,
             re_format [TY; TLit "-"; Tm; TLit "-"; Td; TBlank; TH; TLit ":"; TM]
               (String y1 (String y2 (String y3 (String y4 "")))
                ++ "-" ++ M ++ "-" ++ D ++ B ++ String a H' ++ ":" ++ N)
             = ([(TY, String y1 (String y2 (String y3 (String y4 ""))));
                 (TLit "-", "-"); (Tm, M); (TLit "-", "-"); (Td, D);
                 (TBlank, B); (TH, String a H'); (TLit ":", ":"); (TM, N)], "")
               :: tail).
  { eapply re_format_head; [exact R1|].
    eapply re_format_head; [apply re_token_TLit|].
    eapply re_format_head; [exact R3|].
    eapply re_format_head; [apply re_token_TLit|].
    eapply re_format_head; [exact R5|].
    eapply re_format_head; [exact R6|].
    eapply re_format_head; [exact R7|].
    eapply re_format_head; [apply re_token_TLit|].
    eapply re_format_head; [exact R9|].
    eexists. reflexivity. }
  destruct Hfmt as [tail Hfmt].
  unfold strptime. rewrite tokens_datetime, Hfmt. cbn [group token_eqb].
  rewrite Hok. eauto.
Qed.

Lemma validate_datetime_reads (s : string) :
  (exists t, strptime s config.DATETIME_FORMAT = Some t) <-> lenient_datetime s.
Proof.
  split; [|apply lenient_datetime_parsed].
  intros [t H]. unfold strptime in H. rewrite tokens_datetime in H.
  destruct (re_format _ s) as [|[gs rest] tail] eqn:E; [discriminate|].
  destruct rest; [|discriminate].
  assert (Hin : In (gs, "")
                   (re_format [TY; TLit "-"; Tm; TLit "-"; Td; TBlank; TH;
                               TLit ":"; TM] s)).
  { rewrite E. left. reflexivity. }
  apply datetime_pattern_sound in Hin.
  destruct Hin as (Y & M & D & B & Hh & N & -> & -> & HY & HM & HD & HB & HH & HN
                   & HHv & HNv).
  cbn [group token_eqb] in H.
  destruct (date_ok (Py.int Y) (Py.int M) (Py.int D)) eqn:Hok; [|discriminate].
  exists Y, M, D, B, Hh, N. rewrite append_nil_r.
  repeat match goal with |- _ /\ _ => split end; try assumption; reflexivity.
Qed.

(** X30.  [validate_datetime] returns every timestamp [strptime] reads with
    [%Y-%m-%d %H:%M], unchanged: a date of the calendar with one or two
    digits of month and of day, one or more blanks, an hour of one or two
    digits up to 23, a colon and a minute of one or two digits up to 59.
    What it returns is always its argument.  On ASCII text these are the
    only texts it returns: on every other it raises the validation error. *)
Theorem validate_datetime_accepts_lenient_timestamps (datetime_string : string) :
  (lenient_datetime datetime_string
   -> validate_datetime datetime_string = inr datetime_string)
  /\ (forall r, validate_datetime datetime_string = inr r -> r = datetime_string)
  /\ (Py.isascii datetime_string = true ->
      (forall r, validate_datetime datetime_string = inr r
                 -> lenient_datetime datetime_string)
      /\ (~ lenient_datetime datetime_string ->
          validate_datetime datetime_string
          = inl (ValidationError
                   ("Invalid datetime format: " ++ datetime_string
                    ++ ". Use YYYY-MM-DD HH:MM")))).
Proof.
  pose proof (validate_datetime_reads datetime_string) as Hr.
  unfold validate_datetime.
  destruct (strptime datetime_string config.DATETIME_FORMAT) as [t|] eqn:E.
  - assert (Hl : lenient_datetime datetime_string) by (apply Hr; eauto).
    split; [reflexivity|]. split; [intros r [= <-]; reflexivity|].
    intros _. split; [intros r _; exact Hl|intros Hn; contradiction].
  - split; [intros Hl; apply Hr in Hl; destruct Hl as [t Ht]; discriminate Ht|].
    split; [discriminate|].
    intros _. split; [discriminate|reflexivity].
Qed.

(** Timestamps in and out of the pattern: unpadded fields and several
    blanks are read; seconds, an hour of 24 and a missing time are not. *)
Example validate_datetime_examples :
  validate_datetime "2025-06-05 10:30" = inr "2025-06-05 10:30"
  /\ validate_datetime "2025-6-5   7:5" = inr "2025-6-5   7:5"
  /\ validate_datetime "2025-06-05 24:00"
     = inl (ValidationError
              "Invalid datetime format: 2025-06-05 24:00. Use YYYY-MM-DD HH:MM")
  /\ validate_datetime "2025-06-05 10:30:00"
     = inl (ValidationError
              "Invalid datetime format: 2025-06-05 10:30:00. Use YYYY-MM-DD HH:MM")
  /\ validate_datetime "2025-06-05"
     = inl (ValidationError
              "Invalid datetime format: 2025-06-05. Use YYYY-MM-DD HH:MM").
Proof. repeat split; reflexivity. Qed.

Lemma validate_datetime_accepts_lenient_timestamps_witness :
  Py.isascii "2025-6-5   7:5" = true
  /\ validate_datetime "2025-6-5   7:5" = inr "2025-6-5   7:5"
  /\ lenient_datetime "2025-6-5   7:5".
Proof.
  split; [reflexivity|]. split; [reflexivity|].
  exact (proj1 (proj2 (proj2 (validate_datetime_accepts_lenient_timestamps
                                "2025-6-5   7:5")) eq_refl)
               "2025-6-5   7:5" eq_refl).
Defined.
